(* ===== verification/_CoqProject ===== *)
-Q . S2P
Prelude.v
PyVal.v
JsonText.v
JsonPrefix.v
Base64.v
Serial.v
Entities.v
TextIO.v
Render.v
Adjacency.v
Enum.v
Cache.v
Client.v
