(* ===== verification/Prelude.v ===== *)
(** * A verification development for roguewarapi

    roguewarapi (src/roguewarapi) is a Python client for the RogueWar
    game service.  It fetches a star map and the static constants of the
    star systems over HTTP, decodes the JSON into typed objects through a
    generic reflection-based serialisation (data/basejsonobject.py),
    computes which systems are within support range of each other
    (data/starsystemconst.py), and caches the map for 60 seconds
    (data/objectcache.py).  The client (roguewarapi.py) wires these
    together: [getStarMap] reads the cache, else sends [GET getmap],
    decodes, caches; [getSystemConstants] sends [GET getsystemstatic],
    decodes and maps the adjacency with radius 50; every request retries
    once after fetching a token when the server answers 401.

    This development models those parts as executable Rocq definitions
    (shallow embedding, Python exceptions as values) and proves their
    properties.  Files, in dependency order:

    - Prelude.v (this file): Python exceptions ([exc]) and the result
      type [res] with its bind notation [x <- c ;; k]; Python dicts as
      association lists kept in insertion order ([aget], [aset], [adel]);
      the order of [inspect.getmembers] ([sort_by_key], sorted by
      [String.compare], with its transitivity lemmas); the hint
      databases [rw] and [rws] and the shared list lemmas.
    - PyVal.v: Python values ([pyval]: None, bool, int, str, bytes,
      list, tuple, dict, and instances as class name plus attribute
      dict), the operators the code applies to them ([in], [d[k]],
      iteration, with their TypeErrors), and [json_norm], the value a
      tree comes back as after JSON text.
    - JsonText.v: the library [json] as the code calls it: [dumps]
      (CPython's encoder: separators, [indent], [ensure_ascii] escapes,
      the 4300-digit limit of [int] to [str], the recursion limit) over
      [list ascii], and [json_loads], the C scanner as a parser with
      fuel ([pv], [parr], [pobj]) returning [jr A = option (res A)],
      [None] standing for input outside the model (floats, NaN and
      Infinity, [\u] escapes above 0xFF).
    - JsonPrefix.v: truncated JSON text: [cut] and [cut_strict], the
      counterpart of [reads] for the proper prefixes of a text, proved
      for strings, literals, numbers and, through the loops [parr] and
      [pobj], for lists and dicts ([dumps_cut], [loads_cut]).
    - Base64.v: the interface [B64Codec] of base64 with its round-trip
      law, and an executable instance after CPython's binascii.
    - Serial.v: [SubObjectMap], classes as [DataClass] records (with
      the getters of their [@property] members), [_get_members] as
      [inspect.getmembers] runs it (every property is evaluated first,
      [eval_props], and one that raises makes it raise; then the filter,
      [member_attrs]), [_toJson], [_fromJson], [fromJson], [toRawJson],
      [__eq__] (the properties of [self] evaluated, then Python [==]
      with bounded recursion), [__ne__], [isOfType], [_getUtfEncoding].
      Sections take the class table and the codec.
    - Entities.v: the six classes of data/ with their [__init__]
      attributes, mappings and properties, the class table [class_of],
      [prettyName] (TypeError on a Name that is not a str),
      [findSystemsByOwner], [findSystem], the properties [systems],
      [availableFactions], [systemConstants], [adjacentSystems]; sample
      data and the witnesses of the serialisation theorems.
    - TextIO.v: [toJson], [fromJson] on a [str] ([fromJson_text]),
      [toFile] and [fromFile] (basejsonobject.py 243-313) over a file
      system given as an association list of names and bytes; module
      [Codec] holds the codecs [bytes.decode]/[str.encode] run (UTF-8
      after CPython's stringlib, UTF-16 and UTF-32 with their marks) and
      [json.loads] on a [str] of code points ([loads_text]).
    - Render.v: [__str__] and [__unicode__] (basejsonobject.py 94-114)
      with [str()] and [repr()] of the values after CPython ([py_str],
      [py_repr]); [__unicode__] renders every instance as [__str__].
    - Adjacency.v: [mapAdjacents] (two loops over the list updated in
      place, the pair test in Python's evaluation order, [math.sqrt] in
      binary64: [round53], [float_of_int], [sqrt_le]) and its reference
      [mapAdjacents_ref].
    - Enum.v: data/baseenum.py; a class as the list of its visible
      attributes (a value or a callable), [BaseEnum] and its subclasses
      ([enum_subclass]: own attributes shadow the inherited ones),
      [_getMembers], [findByName], [isAnItem], [getItemName],
      [listItemNames], [_getMembersSorted], [_sortKey], [_docMember].
    - Cache.v: [CacheManager] as a stdpp gmap, [getCacheItem],
      [placeCacheItem]; the abstract specification of spec section 4.3
      ([spec_answers]) and the class [ExpiringCache] the cache meets.
    - Client.v: the [client] state record, [_getHeaders], [send_body]
      (the body of [_sendGetRequest]/[_sendPostRequest]: the body
      encoded to UTF-8 bytes, then [send_rq]), [_authCallback],
      [_getAuthToken] (the [json.dumps] of JsonText.v),
      [getStarMap], [getSystemConstants]; the network is the list of
      responses [net] and the requests sent are recorded in [sent].  The
      client is defined and proved over any instance of [ExpiringCache]
      (a Section with the instance in its Context), so its theorems rest
      on the cache's contract only; the sample sessions instantiate it
      with the [CacheManager].

    Theorems, by group:
    - Serialisation (Serial.v): the round trip [toRawJson] then
      [fromJson] rebuilds every well-formed instance
      ([toRawJson_fromJson_roundtrip]) and gives an [__eq__]-equal one
      ([fromJson_toRawJson_eq]), while a base64 member makes
      [json.dumps] fail; the results of [_toJson] and [_fromJson] do
      not depend on the recursion budget above the depth (lemmas);
      error behaviour of [fromJson] (a member that fails to decode
      stops the whole population); singleton mappings
      do not round-trip.
    - JSON text (JsonText.v, lemmas): every text [dumps] writes is read
      back by [json_loads] as the value written, tuples as lists
      ([json_roundtrip], stated on a suffix of the input in the style of
      serialiser specifications, [reads]); [dumps] succeeds exactly on
      [json_ok] values; the parser's result does not depend on the fuel
      above twice the length; [ensure_ascii] output is ASCII.  No
      proper prefix of a list or dict [dumps] writes is read
      ([JsonPrefix.loads_cut]); a prefix of a number may read as a
      shorter number.
    - Text and files (TextIO.v): [fromJson] on the text [toJson] returns
      rebuilds the instance ([text_roundtrip]); [fromFile] on the file
      [toFile] writes does too ([file_roundtrip]); [toFile] writes
      exactly when [json.dumps] accepts the dict and leaves the file
      system untouched otherwise; [toJson] output is ASCII by default;
      a file with the UTF-8 mark is never loaded ([fromFile_utf8_bom]);
      [fromFile] raises OSError and ValueError; the UTF-16 and UTF-32
      marks choose their codec ([fromFile_encodings]); [fromJson] on
      any truncation of the text [toJson] returns False and leaves the
      instance as it was ([truncated_text_fails]); so does [fromFile]
      on the saved file cut at a character ([truncated_file_unchanged]),
      while a cut after the lead byte of any non-ASCII character makes
      it raise ([truncated_file_mid_char]).  The UTF-8
      encoder and decoder are inverse on scalar values
      ([utf8_encode_decode]), and a byte C0, C1 or F5-FF makes the
      decoder raise wherever it is.
    - Entities (Entities.v): the six classes meet the conditions of the
      round trip and their fresh instances are well-formed
      ([entities_wf]), and their properties read only the members
      ([entities_props_local]), so the serialisation theorems apply to
      every entity type; a FactionControl record whose Name is not a
      str is accepted by [fromJson], after which [prettyName], evaluated
      by [_get_members], makes [toRawJson] and [__eq__] raise TypeError
      ([factioncontrol_name_not_str]); reading the wire format of a map
      fills [systems] with the systems of the ["starsystems"] records,
      in order ([starmap_systems_fromJson]); the queries return the
      filtered or first match in order; [prettyName] only inserts
      spaces and is idempotent; a malformed nested element raises
      TypeError; a tuple member of a StarSystem (as [Players = 0,]
      makes it) comes back from JSON text as a list and the instance is
      not [__eq__] to the original ([starsystem_tuple_text_neq]);
      [__eq__] ignores sub-objects; the examples of the specification.
    - Adjacency (Adjacency.v): refinement of the reference below
      [maxDistance = 2^511]; the OverflowError of [math.sqrt] above it
      ([adjacent_test_overflow]); for [maxDistance < 2^26] the pair test
      decides Euclidean distance in the reals (the bounding box and the
      rounding are redundant), and the bound is tight
      ([adjacent_test_euclid]); symmetry and irreflexivity,
      non-idempotence, the example of the specification.
    - Enumerations (Enum.v): the members are the public non-callable
      attributes in strict name order; name and value lookups are
      inverse for unshared values, [getItemName] picks the
      alphabetically first alias; the -1 of [findByName] collides with
      an item of value -1; [_getMembersSorted] always raises
      AttributeError; a subclass's members are its own.
    - Cache (Cache.v): refinement of the abstract specification on every
      sequence of operations, lookup after insertion, permanence of
      expiry, non-positive TTL, no eviction.
    - Client (Client.v): headers, one reauthentication and at most three
      requests per call, transport failures surfaced as None or the
      held value without an exception and without touching the cache
      ([transport_failure_absent]), the token request on the wire (a POST whose
      UTF-8 body [json.loads] reads as the credentials,
      [getAuthToken_request]), the query string of the keyword
      arguments equal to its [?k=v&...] reference ([add_kwargs_ref]), cache hits, the cached map served
      for 60 seconds without a request and its refresh once expired (a
      liveness property: from 60 seconds after the fetch on, every call
      goes to the server), exceptions that escape [getStarMap], the
      stored constants kept without a request.  [result.ok] is False
      exactly for the statuses 400 to 599 ([ok_status]).

    Bounds and fuel.  The recursive methods take a recursion budget;
    the theorems assume one above the nesting depth of the object or
    tree, and [Serial._toJson_fuel] and [Serial._fromJson_fuel] show
    that any such budget gives the same result.  The budget counts
    nesting levels, not Python frames: how deep a tree CPython's
    recursion limit admits is not modelled.  [py_eq] takes the sum of
    the depths of its operands plus one.  Integers are unbounded
    ([Z]), as Python's are; coordinates are integers (the server's
    data).  [math.sqrt(s) <= d] is modelled in binary64: [float(s)]
    rounds to 53 bits, ties to even, and overflows from [2^1024] on;
    the square root is correctly rounded, so [r <= d] holds iff the
    exact root lies below the midpoint between the largest double not
    above [d] and the next one, which [sqrt_le] decides in integer
    arithmetic (a tie is impossible: the square of that midpoint is
    not a double).  Below [d = 2^26] this is the exact test
    ([Adjacency.sqrt_le_exact]).  The client's radius is 50.
    Time is an explicit argument in a fixed unit.  The JSON parser
    runs on fuel [S (2 * length s)]: each character is consumed before
    at most two nested calls, and [JsonText.pv_fuel] shows more fuel
    changes nothing.  The witnesses use the recursion limit 100 for
    [json.dumps] and 10 for the serialisation, above the depth of the
    samples.

    Not modelled: the identity of objects (values are compared, so
    that [getStarMap] hands out the cached object itself and not a
    copy is not expressed), [repr()] of an instance (its address in memory),
    logging, query-string arguments that are not [str]s (their
    [format()]; no caller passes any argument), the HTTP transport (the list of responses stands
    for it), floats and code points above 0xFF in JSON text (the parser
    returns [None], outside the model), failures of [io.open] for
    writing (the file system accepts every write). *)

From Stdlib Require Import String Ascii List ZArith Lia Bool Permutation Sorted.
Import ListNotations.

Declare Scope rw_scope.
Delimit Scope rw_scope with rw.
Open Scope rw_scope.

Create HintDb rw discriminated.
Create Rewrite HintDb rws.

(** ** Python exceptions and results *)

(** The exceptions the modelled code raises (or catches). *)
Inductive exc : Type :=
| TypeError
| KeyError
| AttributeError
| ValueError
| RecursionError
| OSError
| OverflowError.

(** A computation of the modelled code either returns a value or raises. *)
Inductive res (A : Type) : Type :=
| Ok (a : A)
| Raise (e : exc).
Arguments Ok {A} a.
Arguments Raise {A} e.

Definition res_bind {A B : Type} (r : res A) (f : A -> res B) : res B :=
  match r with
  | Ok a => f a
  | Raise e => Raise e
  end.

Notation "x <- c ;; k" := (res_bind c (fun x => k))
  (at level 61, c at next level, right associativity) : rw_scope.

(** [for x in l: f(x)] collecting the results; the first exception aborts. *)
Fixpoint res_map {A B : Type} (f : A -> res B) (l : list A) : res (list B) :=
  match l with
  | [] => Ok []
  | x :: r => y <- f x ;; ys <- res_map f r ;; Ok (y :: ys)
  end.

(** ** Python dicts with string keys

    A Python dict keeps its keys in insertion order; [d[k] = v] replaces
    the value in place when [k] is present and appends otherwise. *)

Section AlistDefs.
Context {A : Type}.

Fixpoint aget (k : string) (d : list (string * A)) : option A :=
  match d with
  | [] => None
  | (k', v) :: r => if String.eqb k k' then Some v else aget k r
  end.

Fixpoint aset (k : string) (v : A) (d : list (string * A)) : list (string * A) :=
  match d with
  | [] => [(k, v)]
  | (k', v') :: r =>
      if String.eqb k k' then (k', v) :: r else (k', v') :: aset k v r
  end.

Definition akeys (d : list (string * A)) : list string := map fst d.

(** [del d[k]] for a key that is present. *)
Definition adel (k : string) (d : list (string * A)) : list (string * A) :=
  filter (fun kv => negb (String.eqb k (fst kv))) d.
End AlistDefs.

(** Decision procedures on lists of names. *)

Fixpoint nodupb (l : list string) : bool :=
  match l with
  | [] => true
  | x :: r => negb (existsb (String.eqb x) r) && nodupb r
  end.

Fixpoint names_eqb (l1 l2 : list string) : bool :=
  match l1, l2 with
  | [], [] => true
  | x :: r1, y :: r2 => String.eqb x y && names_eqb r1 r2
  | _, _ => false
  end.

(** ** The order of [inspect.getmembers]

    [inspect.getmembers] returns the attributes sorted by name; Python
    compares strings by code point, which on ASCII strings is the order
    [String.ltb] decides. *)

Section SortByKeyDefs.
Context {A : Type}.

Fixpoint insert_by_key (x : string * A) (l : list (string * A)) : list (string * A) :=
  match l with
  | [] => [x]
  | y :: r => if String.ltb (fst y) (fst x) then y :: insert_by_key x r else x :: y :: r
  end.

Fixpoint sort_by_key (l : list (string * A)) : list (string * A) :=
  match l with
  | [] => []
  | x :: r => insert_by_key x (sort_by_key r)
  end.

(** The order of the names: Python compares strings by code points,
    which on ASCII is [String.compare]. *)
Definition key_le (x y : string * A) : Prop := String.leb (fst x) (fst y) = true.
Definition key_lt (x y : string * A) : Prop := String.ltb (fst x) (fst y) = true.
End SortByKeyDefs.

(** ** Lemmas on results *)

Lemma res_bind_ok {A B : Type} (r : res A) (f : A -> res B) b :
  res_bind r f = Ok b <-> exists a, r = Ok a /\ f a = Ok b.
Proof.
  destruct r as [a|e]; simpl; split.
  - eauto.
  - intros (a' & H & Hf). injection H as ->. exact Hf.
  - discriminate.
  - intros (a' & H & _). discriminate.
Qed.

Lemma res_map_ok {A B : Type} (f : A -> res B) l ys :
  res_map f l = Ok ys <-> Forall2 (fun x y => f x = Ok y) l ys.
Proof.
  revert ys; induction l as [|x l IH]; intros ys; simpl.
  - split; [intros H; injection H as <-; constructor|inversion 1; reflexivity].
  - rewrite res_bind_ok. split.
    + intros (y & Hy & H). apply res_bind_ok in H as (ys' & Hys & H).
      injection H as <-. constructor; [exact Hy|apply IH, Hys].
    + inversion 1; subst. exists y. split; [assumption|].
      apply res_bind_ok. exists l'. split; [apply IH; assumption|reflexivity].
Qed.

Lemma res_map_length {A B : Type} (f : A -> res B) l ys :
  res_map f l = Ok ys -> length ys = length l.
Proof.
  intros H. apply res_map_ok in H. symmetry. eapply Forall2_length, H.
Qed.

Lemma res_map_app {A B : Type} (f : A -> res B) l1 l2 :
  res_map f (l1 ++ l2) = (ys1 <- res_map f l1 ;; ys2 <- res_map f l2 ;; Ok (ys1 ++ ys2)).
Proof.
  induction l1 as [|x l1 IH]; cbn; [destruct (res_map f l2); reflexivity|].
  destruct (f x); cbn; [|reflexivity]. rewrite IH.
  destruct (res_map f l1); cbn; [|reflexivity]. destruct (res_map f l2); reflexivity.
Qed.

Lemma res_map_ext_in {A B : Type} (f g : A -> res B) l :
  (forall x, In x l -> f x = g x) -> res_map f l = res_map g l.
Proof.
  induction l as [|x l IH]; intros H; simpl; [reflexivity|].
  rewrite H by (left; reflexivity). rewrite IH; [reflexivity|].
  intros y Hy; apply H; right; exact Hy.
Qed.

Lemma res_map_raise {A B : Type} (f : A -> res B) l e :
  res_map f l = Raise e -> exists x, In x l /\ f x = Raise e.
Proof.
  induction l as [|x l IH]; simpl; [discriminate|].
  destruct (f x) eqn:E; simpl; [|intros H; injection H as ->; eauto].
  destruct (res_map f l) eqn:E'; simpl; [discriminate|].
  intros H; injection H as ->. destruct (IH eq_refl) as (y & Hy & Hf). eauto.
Qed.

Lemma res_map_total {A B : Type} (f : A -> res B) l :
  (forall x, In x l -> exists y, f x = Ok y) -> exists ys, res_map f l = Ok ys.
Proof.
  induction l as [|x l IH]; intros H; simpl; [eauto|].
  destruct (H x (or_introl eq_refl)) as [y ->]. simpl.
  destruct IH as [ys ->]; [intros; apply H; right; assumption|]. simpl. eauto.
Qed.

Lemma Forall2_In_r {A B : Type} (R : A -> B -> Prop) l ys y :
  Forall2 R l ys -> In y ys -> exists x, In x l /\ R x y.
Proof.
  induction 1 as [|x y' l ys Hxy _ IH]; cbn [In]; [tauto|]. intros [<-|Hin].
  - exists x. split; [left; reflexivity|exact Hxy].
  - destruct (IH Hin) as (x' & Hx' & H). exists x'. split; [right; exact Hx'|exact H].
Qed.

Lemma res_map_In_raise {A B : Type} (f : A -> res B) l x e :
  In x l -> f x = Raise e -> exists e', res_map f l = Raise e'.
Proof.
  induction l as [|y l IH]; cbn [In res_map]; [tauto|]. intros [->|Hin] Hx.
  - rewrite Hx. eexists; reflexivity.
  - destruct (f y) as [b|e']; cbn [res_bind]; [|eexists; reflexivity].
    destruct (IH Hin Hx) as [e' ->]. eexists; reflexivity.
Qed.

Lemma res_map_ok_iff {A B : Type} (f : A -> res B) l :
  (exists ys, res_map f l = Ok ys) <-> (forall x, In x l -> exists y, f x = Ok y).
Proof.
  split; [|apply res_map_total]. intros [ys H] x Hx. apply res_map_ok in H.
  induction H as [|a b l ys Hab _ IH]; [contradiction|]. destruct Hx as [<-|Hx]; eauto.
Qed.

Lemma res_bind_ret_ok {A B : Type} (r : res A) (f : A -> B) :
  (exists b, res_bind r (fun x => Ok (f x)) = Ok b) <-> exists a, r = Ok a.
Proof. destruct r as [a|e]; cbn; split; intros [x H]; try discriminate; eauto. Qed.

#[export] Hint Rewrite @res_map_length : rws.

Section Alist.
Context {A : Type}.
Implicit Types (d : list (string * A)) (v w : A).

Lemma aget_aset_eq k v d : aget k (aset k v d) = Some v.
Proof.
  induction d as [|[k' v'] d IH]; simpl.
  - rewrite String.eqb_refl. reflexivity.
  - destruct (String.eqb_spec k k') as [->|Hne]; simpl.
    + rewrite String.eqb_refl. reflexivity.
    + apply String.eqb_neq in Hne. rewrite Hne. exact IH.
Qed.

Lemma aget_aset_ne k k2 v d : k <> k2 -> aget k2 (aset k v d) = aget k2 d.
Proof.
  intros Hne. induction d as [|[k' v'] d IH]; simpl.
  - destruct (String.eqb_spec k2 k); [congruence|reflexivity].
  - destruct (String.eqb_spec k k') as [->|Hne']; simpl.
    + destruct (String.eqb_spec k2 k'); [congruence|reflexivity].
    + rewrite IH. reflexivity.
Qed.

Lemma akeys_aset_in k v d : In k (akeys d) -> akeys (aset k v d) = akeys d.
Proof.
  induction d as [|[k' v'] d IH]; simpl; [tauto|].
  intros H. destruct (String.eqb_spec k k') as [->|Hne]; simpl; [reflexivity|].
  rewrite IH; [reflexivity|]. destruct H; [congruence|assumption].
Qed.

Lemma akeys_aset_notin k v d : ~ In k (akeys d) -> akeys (aset k v d) = akeys d ++ [k].
Proof.
  induction d as [|[k' v'] d IH]; simpl; [reflexivity|].
  intros H. destruct (String.eqb_spec k k') as [->|Hne]; [tauto|].
  simpl. rewrite IH; [reflexivity|tauto].
Qed.

Lemma aget_In k d v : aget k d = Some v -> In (k, v) d.
Proof.
  induction d as [|[k' v'] d IH]; simpl; [discriminate|].
  destruct (String.eqb_spec k k') as [->|_].
  - intros H; injection H as ->. left; reflexivity.
  - intros H; right; apply IH, H.
Qed.

Lemma In_aget k d v : NoDup (akeys d) -> In (k, v) d -> aget k d = Some v.
Proof.
  induction d as [|[k' v'] d IH]; simpl; [tauto|].
  intros Hnd H. inversion Hnd as [|? ? Hnin Hnd']; subst.
  destruct H as [H|H].
  - injection H as -> ->. rewrite String.eqb_refl. reflexivity.
  - destruct (String.eqb_spec k k') as [->|_]; [|apply IH; assumption].
    exfalso. apply Hnin. apply (in_map fst) in H. exact H.
Qed.

Lemma aget_None k d : aget k d = None <-> ~ In k (akeys d).
Proof.
  induction d as [|[k' v'] d IH]; simpl; [tauto|].
  destruct (String.eqb_spec k k') as [->|Hne]; [split; [discriminate|tauto]|].
  rewrite IH. split; [intros H [H'|H']; [congruence|tauto]|tauto].
Qed.

Lemma aget_Some_in k d v : aget k d = Some v -> In k (akeys d).
Proof. intros H. apply aget_In in H. apply (in_map fst) in H. exact H. Qed.

Lemma aget_In_akeys k d : In k (akeys d) -> exists v, aget k d = Some v.
Proof.
  intros H. destruct (aget k d) as [v|] eqn:E; [eauto|]. apply aget_None in E. contradiction.
Qed.

Lemma aget_app k d1 d2 :
  aget k (d1 ++ d2) = match aget k d1 with Some v => Some v | None => aget k d2 end.
Proof.
  induction d1 as [|[k' v] d1 IH]; [reflexivity|]. cbn [app aget].
  destruct (String.eqb k k'); [reflexivity|exact IH].
Qed.

Lemma akeys_app d1 d2 : akeys (d1 ++ d2) = akeys d1 ++ akeys d2.
Proof. apply map_app. Qed.

Lemma aset_NoDup k v d : NoDup (akeys d) -> NoDup (akeys (aset k v d)).
Proof.
  intros H. destruct (in_dec string_dec k (akeys d)) as [Hin|Hin].
  - rewrite akeys_aset_in; assumption.
  - rewrite akeys_aset_notin by assumption.
    apply NoDup_app; [assumption|constructor; [tauto|constructor]|].
    intros x Hx [<-|[]]. tauto.
Qed.
(** Two dictionaries with the same keys in the same order and the
    same lookups are the same dictionary. *)
Lemma alist_ext (d1 d2 : list (string * A)) :
  akeys d1 = akeys d2 -> NoDup (akeys d1) -> (forall k, aget k d1 = aget k d2) -> d1 = d2.
Proof.
  revert d2; induction d1 as [|[k v] d1 IH]; intros [|[k2 v2] d2] Hk Hnd H;
    simpl in *; try discriminate; [reflexivity|].
  injection Hk as <- Hk. inversion Hnd as [|? ? Hnin Hnd']; subst.
  pose proof (H k) as Hkk. rewrite !String.eqb_refl in Hkk. injection Hkk as <-.
  f_equal. apply IH; [exact Hk|exact Hnd'|]. intros k'.
  specialize (H k'). destruct (String.eqb_spec k' k) as [E|_]; [subst k'|exact H].
  rewrite (proj2 (aget_None k d1) Hnin). symmetry. apply aget_None. rewrite <- Hk. exact Hnin.
Qed.

Lemma aget_aset k k2 v d : aget k2 (aset k v d) = if String.eqb k2 k then Some v else aget k2 d.
Proof.
  destruct (String.eqb_spec k2 k) as [->|Hne]; [apply aget_aset_eq|].
  apply aget_aset_ne. congruence.
Qed.

Lemma aget_adel k k2 d : aget k2 (adel k d) = if String.eqb k2 k then None else aget k2 d.
Proof.
  induction d as [|[k' x] d IH]; simpl; [destruct (String.eqb k2 k); reflexivity|].
  destruct (String.eqb_spec k k') as [<-|Hne]; simpl.
  - rewrite IH. destruct (String.eqb k2 k); reflexivity.
  - destruct (String.eqb_spec k2 k') as [->|]; [|exact IH].
    destruct (String.eqb_spec k' k); [congruence|reflexivity].
Qed.

Lemma aset_notin k v d : ~ In k (akeys d) -> aset k v d = d ++ [(k, v)].
Proof.
  induction d as [|[k' v'] d IH]; cbn; [reflexivity|]. intros H.
  destruct (String.eqb_spec k k') as [->|_]; [exfalso; apply H; left; reflexivity|].
  rewrite IH; [reflexivity|]. intros Hin; apply H; right; exact Hin.
Qed.

Lemma aset_aget k v d : aget k d = Some v -> aset k v d = d.
Proof.
  induction d as [|[k' x] d IH]; simpl; [discriminate|].
  destruct (String.eqb k k') eqn:E; [intros H; injection H as ->; reflexivity|].
  intros H. rewrite IH by exact H. reflexivity.
Qed.

Lemma aset_aset k v w d : aset k v (aset k w d) = aset k v d.
Proof.
  induction d as [|[k' x] d IH]; simpl; [rewrite String.eqb_refl; reflexivity|].
  destruct (String.eqb k k') eqn:E; simpl; rewrite E; [reflexivity|]. rewrite IH. reflexivity.
Qed.
Lemma forallb_aset (p : A -> bool) k v d :
  forallb (fun kv => p (snd kv)) d = true -> p v = true -> forallb (fun kv => p (snd kv)) (aset k v d) = true.
Proof.
  induction d as [|[k' x] d IH]; cbn [aset forallb snd]; intros Hd Hv; [rewrite Hv; reflexivity|].
  apply andb_prop in Hd as [Hx Hd]. destruct (String.eqb k k'); cbn [forallb snd].
  - rewrite Hv, Hd. reflexivity.
  - rewrite Hx, IH by assumption. reflexivity.
Qed.
End Alist.

#[export] Hint Rewrite @aget_aset_eq @aset_aset : rws.
#[export] Hint Resolve aset_NoDup : rw.

(** ** Lemmas on lists of names *)

Lemma existsb_eqb_In x l : existsb (String.eqb x) l = true <-> In x l.
Proof.
  rewrite existsb_exists. split.
  - intros (y & Hy & E). apply String.eqb_eq in E. subst. exact Hy.
  - intros H. exists x. split; [exact H|apply String.eqb_refl].
Qed.

Lemma nodupb_NoDup l : nodupb l = true <-> NoDup l.
Proof.
  induction l as [|x l IH]; simpl; [split; [constructor|reflexivity]|].
  rewrite andb_true_iff, negb_true_iff, IH. split.
  - intros [H1 H2]. constructor; [|exact H2].
    intros Hin. apply existsb_eqb_In in Hin. congruence.
  - intros H. inversion H as [|? ? Hnin Hnd]; subst. split; [|exact Hnd].
    destruct (existsb _ _) eqn:E; [|reflexivity]. apply existsb_eqb_In in E. tauto.
Qed.

Lemma names_eqb_eq l1 l2 : names_eqb l1 l2 = true <-> l1 = l2.
Proof.
  revert l2; induction l1 as [|x l1 IH]; intros [|y l2]; simpl;
    try (split; [discriminate|congruence]); [split; reflexivity|].
  rewrite andb_true_iff, String.eqb_eq, IH. split; [intros [-> ->]; reflexivity|].
  intros H; injection H as -> ->. split; reflexivity.
Qed.

(** ** Lemmas on appending strings *)

Lemma str_app_nil_r s : (s ++ "")%string = s.
Proof. induction s as [|c s IH]; cbn; [reflexivity|rewrite IH; reflexivity]. Qed.

Lemma str_app_assoc s1 s2 s3 : (s1 ++ (s2 ++ s3))%string = ((s1 ++ s2) ++ s3)%string.
Proof. induction s1 as [|c s1 IH]; cbn; [reflexivity|rewrite IH; reflexivity]. Qed.

(** [String.concat] without separator takes its items one at a time. *)
Lemma str_concat_empty_cons x r : String.concat "" (x :: r) = (x ++ String.concat "" r)%string.
Proof. destruct r; cbn; [symmetry; apply str_app_nil_r|reflexivity]. Qed.

(** [String.concat sep] is the first item followed by [sep ++ y] for
    every later item [y]. *)
Lemma str_concat_sep sep x r :
  String.concat sep (x :: r) = (x ++ String.concat "" (map (fun y => sep ++ y) r))%string.
Proof.
  revert x; induction r as [|y r IH]; intros x; [cbn; symmetry; apply str_app_nil_r|].
  change (String.concat sep (x :: y :: r)) with (x ++ sep ++ String.concat sep (y :: r))%string.
  rewrite IH, map_cons, str_concat_empty_cons, !str_app_assoc. reflexivity.
Qed.

(** ** Lemmas on the order of strings *)

Lemma str_compare_lt_trans s1 : forall s2 s3,
  String.compare s1 s2 = Lt -> String.compare s2 s3 = Lt -> String.compare s1 s3 = Lt.
Proof.
  induction s1 as [|a s1 IH]; intros [|b s2] [|c s3]; cbn; try discriminate; try reflexivity.
  unfold Ascii.compare.
  destruct (N.compare_spec (N_of_ascii a) (N_of_ascii b));
    destruct (N.compare_spec (N_of_ascii b) (N_of_ascii c));
    destruct (N.compare_spec (N_of_ascii a) (N_of_ascii c));
    try discriminate; try lia; eauto.
Qed.

Lemma str_leb_compare s1 s2 : String.leb s1 s2 = true <-> s1 = s2 \/ String.compare s1 s2 = Lt.
Proof.
  unfold String.leb. split.
  - destruct (String.compare s1 s2) eqn:E; [left; apply String.compare_eq_iff, E|right; reflexivity|discriminate].
  - intros [->|E]; [|rewrite E; reflexivity].
    assert (H := String.compare_antisym s2 s2). destruct (String.compare s2 s2); [reflexivity..|discriminate].
Qed.

Lemma str_leb_trans s1 s2 s3 : String.leb s1 s2 = true -> String.leb s2 s3 = true -> String.leb s1 s3 = true.
Proof.
  rewrite !str_leb_compare. intros [->|H1] [->|H2]; auto. right; eapply str_compare_lt_trans; eauto.
Qed.

Lemma str_ltb_false_leb s1 s2 : String.ltb s1 s2 = false -> String.leb s2 s1 = true.
Proof.
  unfold String.ltb, String.leb. rewrite (String.compare_antisym s2 s1).
  destruct (String.compare s1 s2); cbn; congruence.
Qed.

Lemma str_ltb_leb s1 s2 : String.ltb s1 s2 = true -> String.leb s1 s2 = true.
Proof. unfold String.ltb, String.leb. destruct (String.compare s1 s2); congruence. Qed.

Lemma str_leb_ltb s1 s2 : String.leb s1 s2 = true -> s1 <> s2 -> String.ltb s1 s2 = true.
Proof. rewrite str_leb_compare. unfold String.ltb. intros [E|E] H; [contradiction|rewrite E; reflexivity]. Qed.

Lemma str_leb_refl s : String.leb s s = true.
Proof. apply str_leb_compare. left; reflexivity. Qed.

Lemma str_ltb_irrefl s : String.ltb s s = false.
Proof.
  unfold String.ltb. assert (H := String.compare_antisym s s).
  destruct (String.compare s s); [reflexivity|discriminate|reflexivity].
Qed.

Lemma str_ltb_trans s1 s2 s3 : String.ltb s1 s2 = true -> String.ltb s2 s3 = true -> String.ltb s1 s3 = true.
Proof.
  unfold String.ltb. destruct (String.compare s1 s2) eqn:E1; try discriminate.
  destruct (String.compare s2 s3) eqn:E2; try discriminate.
  rewrite (str_compare_lt_trans s1 s2 s3 E1 E2). reflexivity.
Qed.

(** Two lists strictly sorted by a transitive irreflexive relation
    that have the same elements are equal. *)
Lemma StronglySorted_unique {B} (R : B -> B -> Prop) :
  (forall e, ~ R e e) -> (forall e1 e2 e3, R e1 e2 -> R e2 e3 -> R e1 e3) ->
  forall l1 l2, StronglySorted R l1 -> StronglySorted R l2 ->
  (forall e, In e l1 <-> In e l2) -> l1 = l2.
Proof.
  intros Hirr Htr l1. induction l1 as [|a r1 IH]; intros [|b r2] H1 H2 Hs.
  - reflexivity.
  - exfalso. apply (Hs b). left; reflexivity.
  - exfalso. apply (Hs a). left; reflexivity.
  - apply StronglySorted_inv in H1 as [H1 F1]. apply StronglySorted_inv in H2 as [H2 F2].
    rewrite Forall_forall in F1, F2.
    assert (Hab : a = b).
    { destruct (proj1 (Hs a) (or_introl eq_refl)) as [|Ha]; [congruence|].
      destruct (proj2 (Hs b) (or_introl eq_refl)) as [|Hb]; [congruence|].
      exfalso. apply (Hirr a). apply (Htr a b a); auto. }
    subst b. f_equal. apply IH; [assumption..|]. intros e. split; intros He.
    + destruct (proj1 (Hs e) (or_intror He)) as [<-|]; [|assumption]. exfalso; apply (Hirr a); auto.
    + destruct (proj2 (Hs e) (or_intror He)) as [<-|]; [|assumption]. exfalso; apply (Hirr a); auto.
Qed.

Section SortByKey.
Context {A : Type}.
Implicit Types (l : list (string * A)) (x : string * A).

Lemma insert_by_key_perm x l : Permutation (insert_by_key x l) (x :: l).
Proof.
  induction l as [|y l IH]; simpl; [reflexivity|].
  destruct (String.ltb (fst y) (fst x)); [|reflexivity].
  rewrite IH. apply perm_swap.
Qed.

Lemma sort_by_key_perm l : Permutation (sort_by_key l) l.
Proof.
  induction l as [|x l IH]; simpl; [reflexivity|].
  rewrite insert_by_key_perm. constructor. exact IH.
Qed.

Lemma sort_by_key_In x l : In x (sort_by_key l) <-> In x l.
Proof. split; apply Permutation_in; [|symmetry]; apply sort_by_key_perm. Qed.

Lemma sort_by_key_akeys_In k l : In k (akeys (sort_by_key l)) <-> In k (akeys l).
Proof.
  unfold akeys. split; apply Permutation_in; [|symmetry];
    apply Permutation_map, sort_by_key_perm.
Qed.

Lemma sort_by_key_NoDup l : NoDup (akeys l) -> NoDup (akeys (sort_by_key l)).
Proof.
  apply Permutation_NoDup. unfold akeys. apply Permutation_map.
  symmetry. apply sort_by_key_perm.
Qed.

Lemma sort_by_key_aget k l : NoDup (akeys l) -> aget k (sort_by_key l) = aget k l.
Proof.
  intros Hnd. destruct (aget k l) as [v|] eqn:E.
  - apply In_aget; [apply sort_by_key_NoDup; assumption|].
    apply sort_by_key_In, aget_In, E.
  - apply aget_None. apply aget_None in E. intros H; apply E.
    unfold akeys in *. apply in_map_iff in H as ([k' v'] & <- & H).
    rewrite sort_by_key_In in H. apply (in_map fst) in H. exact H.
Qed.

Lemma insert_by_key_sorted x l : Sorted key_le l -> Sorted key_le (insert_by_key x l).
Proof.
  unfold key_le. induction 1 as [|y l Hs IH Hhd]; cbn; [repeat constructor|].
  destruct (String.ltb (fst y) (fst x)) eqn:E.
  - constructor; [exact IH|]. destruct l as [|z l]; cbn; [constructor; apply str_ltb_leb, E|].
    destruct (String.ltb (fst z) (fst x)); constructor; [inversion Hhd; assumption|apply str_ltb_leb, E].
  - constructor; [constructor; assumption|constructor; apply str_ltb_false_leb, E].
Qed.

(** With unique names, the name order is strict. *)
Lemma sorted_key_strict l : StronglySorted key_le l -> NoDup (akeys l) -> StronglySorted key_lt l.
Proof.
  unfold key_le, key_lt. induction 1 as [|x l Hs IH Hf]; intros Hnd; constructor.
  - apply IH. inversion Hnd; assumption.
  - inversion Hnd as [|? ? Hx Hnd']; subst. rewrite Forall_forall in *. intros y Hy.
    apply str_leb_ltb; [apply Hf, Hy|]. intros E. apply Hx. rewrite E. apply in_map, Hy.
Qed.

Lemma key_lt_trans x y z : key_lt x y -> key_lt y z -> key_lt x z.
Proof. apply str_ltb_trans. Qed.

Lemma key_lt_irrefl x : ~ key_lt x x.
Proof. unfold key_lt. rewrite str_ltb_irrefl. discriminate. Qed.

(** [inspect.getmembers] lists the members in ascending name order. *)
Lemma sort_by_key_sorted l : StronglySorted key_le (sort_by_key l).
Proof.
  apply Sorted_StronglySorted; [intros x y z; apply str_leb_trans|].
  induction l as [|x l IH]; cbn; [constructor|]. apply insert_by_key_sorted, IH.
Qed.
End SortByKey.

(** Build a list related to [vs] element-wise from a relation on [l]. *)
Lemma Forall2_build {A B C D : Type} (R : A -> B -> Prop) (S : B -> C -> Prop)
    (h : A -> D) (j : C -> D) l vs :
  Forall2 R l vs ->
  (forall x v, In x l -> R x v -> exists c, S v c /\ h x = j c) ->
  exists cs, Forall2 S vs cs /\ map j cs = map h l.
Proof.
  induction 1 as [|x v l vs Hxv _ IH]; intros H; [exists []; split; constructor|].
  destruct (H x v (or_introl eq_refl) Hxv) as (c & Hc & Hj).
  destruct IH as (cs & Hcs & Hm); [intros; apply H; [right|]; assumption|].
  exists (c :: cs). split; [constructor; assumption|]. simpl. rewrite Hm, Hj. reflexivity.
Qed.

Lemma aget_filter (p : string -> bool) {A : Type} (d : list (string * A)) k :
  aget k (filter (fun kv => p (fst kv)) d) = if p k then aget k d else None.
Proof.
  induction d as [|[k' v] d IH]; simpl; [destruct (p k); reflexivity|].
  destruct (p k') eqn:E; simpl; destruct (String.eqb_spec k k') as [->|Hne]; try exact IH.
  - rewrite E. reflexivity.
  - rewrite IH, E. reflexivity.
Qed.

Lemma akeys_In_filter (p : string -> bool) {A : Type} (d : list (string * A)) k :
  In k (akeys (filter (fun kv => p (fst kv)) d)) <-> In k (akeys d) /\ p k = true.
Proof.
  unfold akeys. rewrite !in_map_iff. split.
  - intros ([k' v] & <- & H). apply filter_In in H as [H Hp]. split; [|exact Hp].
    exists (k', v). split; [reflexivity|exact H].
  - intros (([k' v] & <- & H) & Hp). exists (k', v). split; [reflexivity|].
    apply filter_In. split; assumption.
Qed.

Lemma NoDup_akeys_filter (p : string -> bool) {A : Type} (d : list (string * A)) :
  NoDup (akeys d) -> NoDup (akeys (filter (fun kv => p (fst kv)) d)).
Proof.
  induction d as [|[k v] d IH]; simpl; [auto|]. intros H. inversion H as [|? ? Hnin Hnd]; subst.
  destruct (p k); simpl; [|auto]. constructor; [|auto].
  intros Hin. apply akeys_In_filter in Hin as [Hin _]. contradiction.
Qed.

(** ** Shared tactics *)

(** Compute the lengths of appended lists everywhere. *)
Ltac lens := repeat (progress (rewrite ?length_app in *; cbn [length] in *)).

(** Invert a hypothesis and clean up. *)
Ltac inv H := inversion H; subst; clear H.

(** Splits on every [if] and [match] of hypothesis [H]. *)
Ltac split_ifs H :=
  repeat match type of H with
         | context [if ?b then _ else _] => destruct b
         | context [match ?x with _ => _ end] => destruct x eqn:?
         end.


(** Split the [res_bind]s of a hypothesis [H : ... = Ok _]. *)
Ltac res_inv H :=
  repeat match type of H with
  | res_bind ?r ?f = Ok _ =>
      let a := fresh "a" in let Ha := fresh "Hr" in
      apply res_bind_ok in H; destruct H as (a & Ha & H)
  end.
