(* ===== verification/PyVal.v ===== *)
(** * Python values

    The values the serialisation code of basejsonobject.py handles: the
    JSON-like values [json.loads] produces (None, bool, int, str, list,
    dict), the tuples and bytes that attributes can hold, and instances
    of the BaseDataObject classes, represented by their class name and
    their attribute dictionary ([__dict__], in insertion order).

    The Python operators the code applies to such values are modelled
    here with their exceptions: [s in v], [v[s]], [for x in v].
    Floats are not modelled (the JSON data the code reads is modelled
    with integer numbers). *)

From Stdlib Require Import String Ascii List ZArith Lia Bool.
From S2P Require Import Prelude.
Import ListNotations.
Open Scope rw_scope.

Unset Elimination Schemes.
Inductive pyval : Type :=
| PNone
| PBool (b : bool)
| PInt (z : Z)
| PStr (s : string)
| PBytes (bs : list Byte.byte)
| PList (l : list pyval)
| PTuple (l : list pyval)
| PDict (d : list (string * pyval))
| PObj (cname : string) (attrs : list (string * pyval)).
Set Elimination Schemes.

(** The induction principle for the nested type: a property of every
    element of a list, and of every value of a dictionary or of an
    attribute dictionary. *)
Definition pyval_ind (P : pyval -> Prop)
  (fnone : P PNone)
  (fbool : forall b, P (PBool b))
  (fint : forall z, P (PInt z))
  (fstr : forall s, P (PStr s))
  (fbytes : forall bs, P (PBytes bs))
  (flist : forall l, Forall P l -> P (PList l))
  (ftuple : forall l, Forall P l -> P (PTuple l))
  (fdict : forall d, Forall (fun kv => P (snd kv)) d -> P (PDict d))
  (fobj : forall c a, Forall (fun kv => P (snd kv)) a -> P (PObj c a)) :
  forall v, P v :=
  fix F (v : pyval) : P v :=
    let fix Fl (l : list pyval) : Forall P l :=
      match l with
      | [] => Forall_nil _
      | x :: r => Forall_cons x (F x) (Fl r)
      end in
    let fix Fd (d : list (string * pyval)) : Forall (fun kv => P (snd kv)) d :=
      match d with
      | [] => Forall_nil _
      | kv :: r => Forall_cons kv (F (snd kv)) (Fd r)
      end in
    match v with
    | PNone => fnone
    | PBool b => fbool b
    | PInt z => fint z
    | PStr s => fstr s
    | PBytes bs => fbytes bs
    | PList l => flist l (Fl l)
    | PTuple l => ftuple l (Fl l)
    | PDict d => fdict d (Fd d)
    | PObj c a => fobj c a (Fd a)
    end.

(** Nesting depth: the number of containers and objects on the longest
    path from the value to a leaf. *)
Fixpoint depth (v : pyval) : nat :=
  match v with
  | PList l | PTuple l => S (list_max (map depth l))
  | PDict d | PObj _ d => S (list_max (map (fun kv => depth (snd kv)) d))
  | _ => 0
  end.

(** ** Python operators on values *)

(** [s == v] for a string [s]: only an equal string is equal to it (an
    instance's [__eq__] returns False for a string). *)
Definition str_eqv (s : string) (v : pyval) : bool :=
  match v with
  | PStr t => String.eqb s t
  | _ => false
  end.

(** Substring test [s in t] on strings. *)
Fixpoint substr (s t : string) : bool :=
  String.prefix s t || match t with
                       | EmptyString => false
                       | String _ t' => substr s t'
                       end.

(** [s in v] for a string [s]: key test on dicts, element test on lists
    and tuples, substring test on strings; other types raise TypeError
    (bytes: "a bytes-like object is required, not 'str'"; None, bool,
    int, instances: "argument of type ... is not iterable"). *)
Definition py_in_str (s : string) (v : pyval) : res bool :=
  match v with
  | PDict d => Ok (match aget s d with Some _ => true | None => false end)
  | PList l | PTuple l => Ok (existsb (str_eqv s) l)
  | PStr t => Ok (substr s t)
  | _ => Raise TypeError
  end.

(** [v[s]] for a string [s]: dict lookup (KeyError when absent); lists,
    tuples, strings and bytes need integer indices and None, bool, int
    and instances are not subscriptable: TypeError. *)
Definition py_getitem_str (v : pyval) (s : string) : res pyval :=
  match v with
  | PDict d => match aget s d with Some x => Ok x | None => Raise KeyError end
  | _ => Raise TypeError
  end.

Fixpoint str_chars (s : string) : list pyval :=
  match s with
  | EmptyString => []
  | String c r => PStr (String c EmptyString) :: str_chars r
  end.

(** [for x in v]: the elements of a list or tuple, the keys of a dict,
    the one-character strings of a string, the integers of a bytes
    object; None, bool, int and instances are not iterable. *)
Definition py_iter (v : pyval) : res (list pyval) :=
  match v with
  | PList l | PTuple l => Ok l
  | PDict d => Ok (map (fun kv => PStr (fst kv)) d)
  | PStr s => Ok (str_chars s)
  | PBytes bs => Ok (map (fun b => PInt (Z.of_N (Byte.to_N b))) bs)
  | _ => Raise TypeError
  end.

(** ** JSON text

    [json.loads(json.dumps(v))], the value a tree comes back as after a
    trip through JSON text (the library functions are not part of the
    repository; this is their documented behaviour on the values of
    this model): tuples come back as lists, bytes and instances are not
    JSON serialisable. *)
Fixpoint json_norm (v : pyval) : res pyval :=
  match v with
  | PNone | PBool _ | PInt _ | PStr _ => Ok v
  | PList l | PTuple l => l' <- res_map json_norm l ;; Ok (PList l')
  | PDict d =>
      d' <- res_map (fun kv => x <- json_norm (snd kv) ;; Ok (fst kv, x)) d ;;
      Ok (PDict d')
  | PBytes _ | PObj _ _ => Raise TypeError
  end.

(** Values that JSON text carries unchanged: None, booleans, integers,
    strings, and lists and dicts of them (no tuple, bytes or instance). *)
Fixpoint jsonb (v : pyval) : bool :=
  match v with
  | PNone | PBool _ | PInt _ | PStr _ => true
  | PList l => forallb jsonb l
  | PDict d => forallb (fun kv => jsonb (snd kv)) d
  | PTuple _ | PBytes _ | PObj _ _ => false
  end.

(** ** Depth facts *)

Lemma in_list_max n l : In n l -> n <= list_max l.
Proof.
  intros H. pose proof (proj1 (list_max_le l _) (Nat.le_refl _)) as F.
  rewrite Forall_forall in F. apply F, H.
Qed.

Lemma depth_In_list x l : In x l -> depth x < S (list_max (map depth l)).
Proof. intros H. apply Nat.lt_succ_r, in_list_max, in_map, H. Qed.

Lemma depth_aget k d x : aget k d = Some x ->
  depth x < S (list_max (map (fun kv : string * pyval => depth (snd kv)) d)).
Proof.
  intros H. apply aget_In in H. apply Nat.lt_succ_r, in_list_max.
  apply (in_map (fun kv : string * pyval => depth (snd kv))) in H. exact H.
Qed.

Lemma py_getitem_depth v k x : py_getitem_str v k = Ok x -> depth x < depth v.
Proof.
  destruct v; simpl; try discriminate.
  destruct (aget k d) eqn:E; [|discriminate]. intros H; injection H as <-.
  apply (depth_aget k), E.
Qed.

Lemma str_chars_depth s x : In x (str_chars s) -> depth x = 0.
Proof.
  induction s as [|a s IH]; simpl; [tauto|]. intros [<-|H]; [reflexivity|auto].
Qed.

Lemma py_iter_depth v l x : py_iter v = Ok l -> In x l -> depth x <= depth v.
Proof.
  destruct v; simpl; try discriminate; intros H; injection H as <-; intros Hx.
  - apply str_chars_depth in Hx. lia.
  - apply in_map_iff in Hx as (b & <- & _). simpl. lia.
  - apply depth_In_list in Hx. simpl. lia.
  - apply depth_In_list in Hx. simpl. lia.
  - apply in_map_iff in Hx as (kv & <- & _). simpl. lia.
Qed.

(** ** JSON text facts *)

Lemma json_norm_jsonb v : jsonb v = true -> json_norm v = Ok v.
Proof.
  induction v as [| | | | |l IH|l IH|d IH|c a IH] using pyval_ind; cbn [jsonb json_norm];
    intros H; try reflexivity; try discriminate.
  - assert (E : res_map json_norm l = Ok l).
    { induction l as [|x l IHl]; [reflexivity|]. inversion IH as [|? ? Hx Hl]; subst.
      apply andb_prop in H as [H1 H2]. cbn [res_map]. rewrite Hx by exact H1. cbn [res_bind].
      rewrite IHl by assumption. reflexivity. }
    rewrite E. reflexivity.
  - assert (E : res_map (fun kv => x <- json_norm (snd kv) ;; Ok (fst kv, x)) d = Ok d).
    { induction d as [|[k x] d IHd]; [reflexivity|]. inversion IH as [|? ? Hx Hl]; subst.
      apply andb_prop in H as [H1 H2]. cbn [res_map fst snd] in *. rewrite Hx by exact H1. cbn [res_bind].
      rewrite IHd by assumption. reflexivity. }
    rewrite E. reflexivity.
Qed.

(** What JSON text gives back for a key of a dict is the text form of
    the value stored there. *)
Lemma json_norm_dict_aget d T k v : json_norm (PDict d) = Ok T -> aget k d = Some v ->
  exists t v', T = PDict t /\ json_norm v = Ok v' /\ aget k t = Some v'.
Proof.
  intros H Hk. cbn [json_norm] in H. destruct (res_map _ d) as [t|e] eqn:E; cbn [res_bind] in H; [|discriminate].
  injection H as <-. exists t. revert t E Hk.
  induction d as [|[k' x] d IH]; intros t E Hk; [discriminate|].
  cbn [res_map fst snd] in E. destruct (json_norm x) as [x'|e] eqn:Ex; cbn [res_bind] in E; [|discriminate].
  destruct (res_map _ d) as [t'|e] eqn:Et; cbn [res_bind] in E; [|discriminate]. injection E as <-.
  cbn [aget] in Hk |- *. destruct (String.eqb k k').
  - injection Hk as <-. exists x'. auto.
  - destruct (IH t' eq_refl Hk) as (v' & _ & Hv & Ht). exists v'. auto.
Qed.

Lemma json_norm_raise v e : json_norm v = Raise e -> e = TypeError.
Proof.
  induction v as [| | | | |l IH|l IH|d IH|c a IH] using pyval_ind; cbn [json_norm];
    try discriminate; try (intros H; injection H as <-; reflexivity).
  - destruct (res_map json_norm l) eqn:E; cbn [res_bind]; [discriminate|]. intros H; injection H as <-.
    apply res_map_raise in E as (x & Hx & Ex). rewrite Forall_forall in IH. exact (IH x Hx Ex).
  - destruct (res_map json_norm l) eqn:E; cbn [res_bind]; [discriminate|]. intros H; injection H as <-.
    apply res_map_raise in E as (x & Hx & Ex). rewrite Forall_forall in IH. exact (IH x Hx Ex).
  - destruct (res_map _ d) eqn:E; cbn [res_bind]; [discriminate|]. intros H; injection H as <-.
    apply res_map_raise in E as ([k x] & Hx & Ex). cbn [fst snd] in Ex.
    destruct (json_norm x) eqn:Ej; cbn [res_bind] in Ex; [discriminate|]. injection Ex as <-.
    rewrite Forall_forall in IH. exact (IH _ Hx Ej).
Qed.
