(* ===== verification/JsonText.v ===== *)
(** * JSON text: [json.dumps] and [json.loads]

    The serialisation code hands its value trees to the standard
    library: [toJson] calls [json.dumps(data)] or
    [json.dumps(data, indent=4, ensure_ascii=bAscii)], [fromJson] calls
    [json.loads(str_json)].  These library functions are not part of
    the repository; they are modelled here after CPython's [json]
    package (the C scanner [_json.c] and the encoder of
    [json/encoder.py]), on the values of PyVal.v, as executable
    definitions over lists of characters.

    [dumps_at ind ea lim lvl v]: [ind] is the indent ([None] compact,
    with the separators [", "] and [": "]; [Some w] a newline and
    [w * level] spaces before every item, with the separators [","] and
    [": "]), [ea] is [ensure_ascii], [lim] the recursion depth still
    available (each list or dict entered takes one level, as
    [Py_EnterRecursiveCall] does), [lvl] the indent level.  Bytes and
    instances are not serialisable (TypeError); an integer of more than
    [int_max_str_digits] = 4300 digits cannot be converted to text
    (ValueError, the default limit of CPython 3.11 and later).

    [loads_chars lim s]: the value read from the text, as
    [Some (Ok v)], [Some (Raise e)] for the exceptions [json.loads]
    raises (JSONDecodeError and the integer limit are ValueErrors,
    nesting deeper than [lim] is a RecursionError), or [None] for a text
    whose value lies outside the model: a float ([1.5], [1e3], [NaN],
    [Infinity]) or a [\uXXXX] escape of a character above U+00FF
    (the strings of the model are strings of 8-bit characters).  The
    parser is defined by recursion on a fuel, [2 * length s + 1], which
    the theorems show to be enough. *)

From Stdlib Require Import String Ascii List ZArith NArith Lia Bool.
From S2P Require Import Prelude PyVal.
Import ListNotations.
Open Scope rw_scope.
Open Scope list_scope.

(** ** Characters *)

Definition quote : ascii := "034"%char.
Definition bslash : ascii := "\"%char.

Definition code (c : ascii) : N := N_of_ascii c.

Definition chr (n : N) : ascii := ascii_of_N n.

Definition lit (s : string) : list ascii := list_ascii_of_string s.

Definition is_digit (c : ascii) : bool := (48 <=? code c)%N && (code c <=? 57)%N.

(** [' '], ['\t'], ['\n'], ['\r']: the whitespace of JSON. *)
Definition is_ws (c : ascii) : bool :=
  (code c =? 32)%N || (code c =? 9)%N || (code c =? 10)%N || (code c =? 13)%N.

(** The value of a hexadecimal digit, either case. *)
Definition hex_val (c : ascii) : option N :=
  let n := code c in
  if (48 <=? n)%N && (n <=? 57)%N then Some (n - 48)%N
  else if (97 <=? n)%N && (n <=? 102)%N then Some (n - 87)%N
  else if (65 <=? n)%N && (n <=? 70)%N then Some (n - 55)%N
  else None.

(** A lowercase hexadecimal digit, as ['\\u{0:04x}'] writes it. *)
Definition hex_digit (n : N) : ascii := chr (if (n <? 10)%N then 48 + n else 87 + n)%N.

(** ** The encoder *)

Definition u_escape (c : ascii) : list ascii :=
  [bslash; "u"%char; "0"%char; "0"%char; hex_digit (code c / 16); hex_digit (code c mod 16)].

(** One character of a string: [encode_basestring_ascii] when [ea],
    [encode_basestring] otherwise. *)
Definition esc (ea : bool) (c : ascii) : list ascii :=
  let n := code c in
  if (n =? 34)%N then [bslash; quote]
  else if (n =? 92)%N then [bslash; bslash]
  else if (n =? 10)%N then [bslash; "n"%char]
  else if (n =? 13)%N then [bslash; "r"%char]
  else if (n =? 9)%N then [bslash; "t"%char]
  else if (n =? 8)%N then [bslash; "b"%char]
  else if (n =? 12)%N then [bslash; "f"%char]
  else if (n <? 32)%N then u_escape c
  else if ea && (126 <? n)%N then u_escape c
  else [c].

Definition enc_str (ea : bool) (s : string) : list ascii :=
  quote :: flat_map (esc ea) (list_ascii_of_string s) ++ [quote].

(** Decimal digits of a natural number, least significant first; the
    fuel is the number of bits, more than the number of digits. *)
Fixpoint dec_rev (fuel : nat) (n : N) : list ascii :=
  match fuel with
  | O => []
  | S f => if (n =? 0)%N then [] else chr (48 + n mod 10)%N :: dec_rev f (n / 10)%N
  end.

Definition dec (n : N) : list ascii :=
  if (n =? 0)%N then ["0"%char] else rev (dec_rev (N.to_nat (N.size n)) n).

(** [sys.get_int_max_str_digits()] by default. *)
Definition int_max_str_digits : nat := 4300.

(** [int.__repr__]. *)
Definition int_repr (z : Z) : res (list ascii) :=
  let ds := dec (Z.abs_N z) in
  if Nat.ltb int_max_str_digits (length ds) then Raise ValueError
  else Ok (if (z <? 0)%Z then "-"%char :: ds else ds).

Definition indent_at (w lvl : nat) : list ascii := "010"%char :: repeat " "%char (w * lvl).

(** The text before the first item (and before the closing bracket). *)
Definition open_at (ind : option nat) (lvl : nat) : list ascii :=
  match ind with None => [] | Some w => indent_at w lvl end.

Definition item_sep (ind : option nat) (lvl : nat) : list ascii :=
  match ind with None => [","%char; " "%char] | Some w => ","%char :: indent_at w lvl end.

Definition key_sep : list ascii := [":"%char; " "%char].

Fixpoint join (sep : list ascii) (l : list (list ascii)) : list ascii :=
  match l with
  | [] => []
  | [x] => x
  | x :: r => x ++ sep ++ join sep r
  end.

(** [_iterencode_list] / [_iterencode_dict]: an empty container is
    written [[]] or [{}]; otherwise the items at the next level. *)
Definition wrap (o c : ascii) (ind : option nat) (lvl : nat) (items : list (list ascii)) : list ascii :=
  match items with
  | [] => [o; c]
  | _ => o :: open_at ind (S lvl) ++ join (item_sep ind (S lvl)) items ++ open_at ind lvl ++ [c]
  end.

Fixpoint dumps_at (ind : option nat) (ea : bool) (lim lvl : nat) (v : pyval) {struct v} : res (list ascii) :=
  match v with
  | PNone => Ok (lit "null")
  | PBool b => Ok (lit (if b then "true" else "false"))
  | PInt z => int_repr z
  | PStr s => Ok (enc_str ea s)
  | PList l | PTuple l =>
      match lim with
      | O => Raise RecursionError
      | S lim' => items <- res_map (dumps_at ind ea lim' (S lvl)) l ;; Ok (wrap "["%char "]"%char ind lvl items)
      end
  | PDict d =>
      match lim with
      | O => Raise RecursionError
      | S lim' =>
          items <- res_map (fun kv => x <- dumps_at ind ea lim' (S lvl) (snd kv) ;;
                                      Ok (enc_str ea (fst kv) ++ key_sep ++ x)) d ;;
          Ok (wrap "{"%char "}"%char ind lvl items)
      end
  | PBytes _ | PObj _ _ => Raise TypeError
  end.

(** [json.dumps(v, indent=ind, ensure_ascii=ea)]. *)
Definition dumps (ind : option nat) (ea : bool) (lim : nat) (v : pyval) : res string :=
  s <- dumps_at ind ea lim 0 v ;; Ok (string_of_list_ascii s).

(** ** The decoder *)

(** Results of the decoder: [None] outside the model. *)
Definition jr (A : Type) : Type := option (res A).

Definition jbind {A B : Type} (m : jr A) (f : A -> jr B) : jr B :=
  match m with
  | None => None
  | Some (Raise e) => Some (Raise e)
  | Some (Ok a) => f a
  end.

Declare Scope json_scope.
Notation "'let?' x ':=' c 'in' k" := (jbind c (fun x => k))
  (at level 10, x name, c at level 100, k at level 200) : json_scope.
Open Scope json_scope.

Definition jret {A : Type} (a : A) : jr A := Some (Ok a).
Definition jfail {A : Type} : jr A := Some (Raise ValueError).

Fixpoint skip_ws (s : list ascii) : list ascii :=
  match s with
  | c :: r => if is_ws c then skip_ws r else s
  | [] => []
  end.

Fixpoint strip_prefix (p s : list ascii) : option (list ascii) :=
  match p, s with
  | [], _ => Some s
  | a :: p', b :: s' => if Ascii.eqb a b then strip_prefix p' s' else None
  | _, [] => None
  end.

(** [scanstring] (strict), after the opening quote; [acc] holds the
    characters read, last first. *)
Fixpoint pstr (s : list ascii) (acc : list ascii) : jr (list ascii * list ascii) :=
  match s with
  | [] => jfail
  | c :: r =>
      let n := code c in
      if (n =? 34)%N then jret (rev acc, r)
      else if (n =? 92)%N then
        match r with
        | [] => jfail
        | e :: r' =>
            let m := code e in
            if (m =? 34)%N || (m =? 92)%N || (m =? 47)%N then pstr r' (e :: acc)
            else if (m =? 98)%N then pstr r' (chr 8 :: acc)
            else if (m =? 102)%N then pstr r' (chr 12 :: acc)
            else if (m =? 110)%N then pstr r' (chr 10 :: acc)
            else if (m =? 114)%N then pstr r' (chr 13 :: acc)
            else if (m =? 116)%N then pstr r' (chr 9 :: acc)
            else if (m =? 117)%N then
              match r' with
              | h1 :: h2 :: h3 :: h4 :: r'' =>
                  match hex_val h1, hex_val h2, hex_val h3, hex_val h4 with
                  | Some a, Some b, Some c', Some d =>
                      let u := (((a * 16 + b) * 16 + c') * 16 + d)%N in
                      if (u <? 256)%N then pstr r'' (chr u :: acc) else None
                  | _, _, _, _ => jfail
                  end
              | _ => jfail
              end
            else jfail
        end
      else if (n <? 32)%N then jfail
      else pstr r (c :: acc)
  end.

Fixpoint take_digits (s : list ascii) : list ascii * list ascii :=
  match s with
  | c :: r => if is_digit c then let '(ds, r') := take_digits r in (c :: ds, r') else ([], s)
  | [] => ([], [])
  end.

Definition digits_val (ds : list ascii) : N :=
  fold_left (fun acc c => acc * 10 + (code c - 48))%N ds 0%N.

(** A fraction or an exponent follows: the number is a float. *)
Definition float_follows (s : list ascii) : bool :=
  match s with
  | c :: r =>
      ((code c =? 46)%N && match r with d :: _ => is_digit d | [] => false end)
      || (((code c =? 101)%N || (code c =? 69)%N) &&
          match r with
          | d :: r' => is_digit d || (((code d =? 43)%N || (code d =? 45)%N) &&
                                      match r' with d' :: _ => is_digit d' | [] => false end)
          | [] => false
          end)
  | [] => false
  end.

(** [_match_number_unicode], after the optional minus sign. *)
Definition pnum_digits (neg : bool) (s1 : list ascii) : jr (pyval * list ascii) :=
  match s1 with
  | c :: r =>
      if is_digit c then
        let '(ds, rest) := if (code c =? 48)%N then ([c], r) else let '(t, rest) := take_digits r in (c :: t, rest) in
        if float_follows rest then None
        else if Nat.ltb int_max_str_digits (length ds) then jfail
        else let n := Z.of_N (digits_val ds) in jret (PInt (if neg then (- n)%Z else n), rest)
      else jfail
  | [] => jfail
  end.

Definition pnum (s : list ascii) : jr (pyval * list ascii) :=
  match s with
  | c :: r => if (code c =? 45)%N then pnum_digits true r else pnum_digits false s
  | [] => pnum_digits false s
  end.

(** [scan_once] (a switch on the first character: a literal that does
    not match falls through to the number), and the loops of [_parse_array] and [_parse_object]
    (at the position of an item, resp. of a key's opening quote). *)
Fixpoint pv (lim fuel : nat) (s : list ascii) {struct fuel} : jr (pyval * list ascii) :=
  match fuel with
  | O => None
  | S fuel' =>
      match s with
      | [] => jfail
      | c :: r =>
          let n := code c in
          if (n =? 34)%N then let? p := pstr r [] in jret (PStr (string_of_list_ascii (fst p)), snd p)
          else if (n =? 123)%N then
            match lim with
            | O => Some (Raise RecursionError)
            | S lim' =>
                match skip_ws r with
                | c' :: r' => if (code c' =? 125)%N then jret (PDict [], r') else pobj lim' fuel' (c' :: r') []
                | [] => jfail
                end
            end
          else if (n =? 91)%N then
            match lim with
            | O => Some (Raise RecursionError)
            | S lim' =>
                match skip_ws r with
                | c' :: r' => if (code c' =? 93)%N then jret (PList [], r') else parr lim' fuel' (c' :: r') []
                | [] => jfail
                end
            end
          else if (n =? 110)%N then
            match strip_prefix (lit "ull") r with Some r' => jret (PNone, r') | None => pnum s end
          else if (n =? 116)%N then
            match strip_prefix (lit "rue") r with Some r' => jret (PBool true, r') | None => pnum s end
          else if (n =? 102)%N then
            match strip_prefix (lit "alse") r with Some r' => jret (PBool false, r') | None => pnum s end
          else if (n =? 78)%N then
            match strip_prefix (lit "aN") r with Some _ => None | None => pnum s end
          else if (n =? 73)%N then
            match strip_prefix (lit "nfinity") r with Some _ => None | None => pnum s end
          else if (n =? 45)%N then
            match strip_prefix (lit "Infinity") r with Some _ => None | None => pnum s end
          else pnum s
      end
  end
with parr (lim fuel : nat) (s : list ascii) (acc : list pyval) {struct fuel} : jr (pyval * list ascii) :=
  match fuel with
  | O => None
  | S fuel' =>
      let? p := pv lim fuel' s in
      match skip_ws (snd p) with
      | c :: r =>
          if (code c =? 93)%N then jret (PList (rev (fst p :: acc)), r)
          else if (code c =? 44)%N then parr lim fuel' (skip_ws r) (fst p :: acc)
          else jfail
      | [] => jfail
      end
  end
with pobj (lim fuel : nat) (s : list ascii) (acc : list (string * pyval)) {struct fuel} : jr (pyval * list ascii) :=
  match fuel with
  | O => None
  | S fuel' =>
      match s with
      | c :: r =>
          if (code c =? 34)%N then
            let? k := pstr r [] in
            match skip_ws (snd k) with
            | c1 :: r1 =>
                if (code c1 =? 58)%N then
                  let? p := pv lim fuel' (skip_ws r1) in
                  let acc := aset (string_of_list_ascii (fst k)) (fst p) acc in
                  match skip_ws (snd p) with
                  | c2 :: r2 =>
                      if (code c2 =? 125)%N then jret (PDict acc, r2)
                      else if (code c2 =? 44)%N then pobj lim fuel' (skip_ws r2) acc
                      else jfail
                  | [] => jfail
                  end
                else jfail
            | [] => jfail
            end
          else jfail
      | [] => jfail
      end
  end.

(** [JSONDecoder.decode]: whitespace around one value, nothing else. *)
Definition loads_chars (lim : nat) (s : list ascii) : jr pyval :=
  let? p := pv lim (S (2 * length s)) (skip_ws s) in
  match skip_ws (snd p) with
  | [] => jret (fst p)
  | _ => jfail
  end.

(** [json.loads(s)] on a str. *)
Definition json_loads (lim : nat) (s : string) : jr pyval := loads_chars lim (list_ascii_of_string s).

(** ** Conditions of the theorems *)

(** Dicts with distinct keys at every level, as Python's dicts are. *)
Fixpoint uniq_keys (v : pyval) : bool :=
  match v with
  | PList l | PTuple l => forallb uniq_keys l
  | PDict d => nodupb (akeys d) && forallb (fun kv => uniq_keys (snd kv)) d
  | PObj _ a => forallb (fun kv => uniq_keys (snd kv)) a
  | _ => true
  end.

(** The values [json.dumps] accepts with [lim] levels of recursion: no
    bytes or instances, integers of at most 4300 digits, lists and
    dicts nested at most [lim] deep. *)
Fixpoint json_ok (lim : nat) (v : pyval) {struct v} : bool :=
  match v with
  | PNone | PBool _ | PStr _ => true
  | PInt z => Nat.leb (length (dec (Z.abs_N z))) int_max_str_digits
  | PList l | PTuple l =>
      match lim with O => false | S lim' => forallb (json_ok lim') l end
  | PDict d =>
      match lim with O => false | S lim' => forallb (fun kv => json_ok lim' (snd kv)) d end
  | PBytes _ | PObj _ _ => false
  end.

(** A 7-bit character. *)
Definition is_ascii (c : ascii) : bool := (code c <? 128)%N.

(** A character that ends a number: no digit, and no ['.'], ['e'] or
    ['E'] that would make it a float. *)
Definition stop_char (c : ascii) : bool :=
  negb (is_digit c) && negb (code c =? 46)%N && negb (code c =? 101)%N && negb (code c =? 69)%N.

Definition stop_ok (s : list ascii) : bool :=
  match s with [] => true | c :: _ => stop_char c end.

(** The first character of a printed value: not whitespace, not a
    closing bracket. *)
Definition first_ok (s : list ascii) : bool :=
  match s with
  | c :: _ => negb (is_ws c) && negb (code c =? 93)%N && negb (code c =? 125)%N
  | [] => false
  end.

(** [o] is the text of [w]: read from the text followed by anything
    that ends a number, with enough fuel, it gives [w] and the rest. *)
Definition reads (lim : nat) (o : list ascii) (w : pyval) : Prop :=
  first_ok o = true /\
  forall rest fuel, stop_ok rest = true -> 2 * length (o ++ rest) < fuel ->
    pv lim fuel (o ++ rest) = jret (w, rest).

(** [item] is the text of the dict entry [kw]. *)
Definition entry_reads (lim : nat) (ea : bool) (item : list ascii) (kw : string * pyval) : Prop :=
  exists x, item = enc_str ea (fst kw) ++ key_sep ++ x /\ reads lim x (snd kw).

(** The round trip for one value: every text [dumps_at] writes for it
    is read back as the value with its tuples made lists. *)
Definition reads_back (ind : option nat) (ea : bool) (v : pyval) : Prop :=
  uniq_keys v = true -> forall lim lvl out, dumps_at ind ea lim lvl v = Ok out ->
  exists w, json_norm v = Ok w /\ reads lim out w.

(** ** Lemmas on characters *)

Lemma code_inj c d : code c = code d -> c = d.
Proof. intros H. rewrite <- (ascii_N_embedding c), <- (ascii_N_embedding d). unfold code in H. rewrite H. reflexivity. Qed.

Lemma code_lt c : (code c < 256)%N.
Proof. apply N_ascii_bounded. Qed.

Lemma code_chr n : (n < 256)%N -> code (chr n) = n.
Proof. apply N_ascii_embedding. Qed.

Lemma chr_code c : chr (code c) = c.
Proof. apply ascii_N_embedding. Qed.

(** Decide the comparisons of a code with constants from the bounds
    in the context. *)
Ltac codes :=
  repeat match goal with
         | |- context [(?x =? ?k)%N] =>
             first [replace (x =? k)%N with false by (symmetry; apply N.eqb_neq; lia)
                   |replace (x =? k)%N with true by (symmetry; apply N.eqb_eq; lia)]
         | |- context [(?x <? ?k)%N] =>
             first [replace (x <? k)%N with false by (symmetry; apply N.ltb_ge; lia)
                   |replace (x <? k)%N with true by (symmetry; apply N.ltb_lt; lia)]
         | |- context [(?x <=? ?k)%N] =>
             first [replace (x <=? k)%N with false by (symmetry; apply N.leb_gt; lia)
                   |replace (x <=? k)%N with true by (symmetry; apply N.leb_le; lia)]
         end; cbn [andb orb negb].

Lemma is_digit_code c : is_digit c = true <-> (48 <= code c <= 57)%N.
Proof. unfold is_digit. rewrite andb_true_iff, !N.leb_le. reflexivity. Qed.

Lemma is_ws_code c : is_ws c = true -> code c = 32%N \/ code c = 9%N \/ code c = 10%N \/ code c = 13%N.
Proof. unfold is_ws. rewrite !orb_true_iff, !N.eqb_eq. tauto. Qed.

Lemma hex_val_digit k : (k < 16)%N -> hex_val (hex_digit k) = Some k.
Proof.
  intros Hk. unfold hex_val, hex_digit.
  destruct (N.ltb_spec k 10); rewrite code_chr by lia; codes; f_equal; lia.
Qed.

(** ** Whitespace *)

Lemma skip_ws_app w s : forallb is_ws w = true -> skip_ws (w ++ s) = skip_ws s.
Proof. induction w as [|c w IH]; cbn; [reflexivity|]. intros H. apply andb_true_iff in H as [-> H]. auto. Qed.

Lemma skip_ws_first s : first_ok s = true -> skip_ws s = s.
Proof. destruct s as [|c s]; cbn; [discriminate|]. destruct (is_ws c); [discriminate|reflexivity]. Qed.

Lemma ws_indent w lvl : forallb is_ws (indent_at w lvl) = true.
Proof. unfold indent_at. cbn. induction (w * lvl) as [|k IH]; [reflexivity|exact IH]. Qed.

Lemma ws_open ind lvl : forallb is_ws (open_at ind lvl) = true.
Proof. destruct ind; [apply ws_indent|reflexivity]. Qed.

Lemma item_sep_ws ind lvl : exists wsp, item_sep ind lvl = ","%char :: wsp /\ forallb is_ws wsp = true.
Proof. destruct ind; [exists (indent_at n lvl)|exists [" "%char]]; split; try reflexivity. apply ws_indent. Qed.

Lemma stop_char_ws c : is_ws c = true -> stop_char c = true.
Proof.
  intros H. apply is_ws_code in H. unfold stop_char, is_digit.
  destruct H as [H|[H|[H|H]]]; rewrite H; reflexivity.
Qed.

Lemma stop_ok_ws_app w s : forallb is_ws w = true -> stop_ok s = true -> stop_ok (w ++ s) = true.
Proof.
  destruct w as [|c w]; cbn; [auto|]. intros H _. apply andb_true_iff in H as [H _]. apply stop_char_ws, H.
Qed.

(** ** Strings *)

Lemma pstr_u_step h1 h2 h3 h4 t acc :
  pstr (bslash :: "u"%char :: h1 :: h2 :: h3 :: h4 :: t) acc =
  match hex_val h1, hex_val h2, hex_val h3, hex_val h4 with
  | Some a, Some b, Some c', Some d =>
      let u := (((a * 16 + b) * 16 + c') * 16 + d)%N in
      if (u <? 256)%N then pstr t (chr u :: acc) else None
  | _, _, _, _ => jfail
  end.
Proof. reflexivity. Qed.

Lemma pstr_u c t acc : pstr (u_escape c ++ t) acc = pstr t (c :: acc).
Proof.
  assert (Hc := code_lt c).
  unfold u_escape. cbn [app]. rewrite pstr_u_step.
  rewrite !hex_val_digit by (try apply N.mod_lt; try apply N.Div0.div_lt_upper_bound; lia).
  change (hex_val "0"%char) with (Some 0%N). cbv beta iota zeta.
  replace ((((0 * 16 + 0) * 16 + code c / 16) * 16 + code c mod 16))%N with (code c).
  2:{ rewrite (N.div_mod (code c) 16) at 1 by lia. lia. }
  destruct (N.ltb_spec (code c) 256); [|lia]. rewrite chr_code. reflexivity.
Qed.

Lemma pstr_esc ea c t acc : pstr (esc ea c ++ t) acc = pstr t (c :: acc).
Proof.
  assert (Hc := code_lt c). unfold esc.
  destruct (N.eqb_spec (code c) 34) as [E|E]; [rewrite <- (chr_code c), E; reflexivity|].
  destruct (N.eqb_spec (code c) 92) as [E'|E']; [rewrite <- (chr_code c), E'; reflexivity|].
  destruct (N.eqb_spec (code c) 10) as [E2|E2]; [rewrite <- (chr_code c), E2; reflexivity|].
  destruct (N.eqb_spec (code c) 13) as [E3|E3]; [rewrite <- (chr_code c), E3; reflexivity|].
  destruct (N.eqb_spec (code c) 9) as [E4|E4]; [rewrite <- (chr_code c), E4; reflexivity|].
  destruct (N.eqb_spec (code c) 8) as [E5|E5]; [rewrite <- (chr_code c), E5; reflexivity|].
  destruct (N.eqb_spec (code c) 12) as [E6|E6]; [rewrite <- (chr_code c), E6; reflexivity|].
  destruct (N.ltb_spec (code c) 32); [apply pstr_u|].
  destruct (ea && (126 <? code c)%N); [apply pstr_u|].
  cbn [app pstr]. codes. reflexivity.
Qed.

Lemma pstr_escs ea l t acc : pstr (flat_map (esc ea) l ++ t) acc = pstr t (rev l ++ acc).
Proof.
  revert acc; induction l as [|c l IH]; intros acc; [reflexivity|].
  cbn [flat_map]. rewrite <- app_assoc, pstr_esc, IH. cbn. rewrite <- app_assoc. reflexivity.
Qed.

(** The text of a string is read back as the string, up to its
    closing quote. *)
Lemma pstr_enc ea s t : pstr (tl (enc_str ea s) ++ t) [] = jret (list_ascii_of_string s, t).
Proof.
  unfold enc_str. cbn [tl]. rewrite <- app_assoc, pstr_escs. cbn. rewrite app_nil_r, rev_involutive. reflexivity.
Qed.

(** ** Numbers *)

Lemma digits_val_snoc l c : digits_val (l ++ [c]) = (digits_val l * 10 + (code c - 48))%N.
Proof. unfold digits_val. rewrite fold_left_app. reflexivity. Qed.

Lemma dec_rev_zero f : dec_rev f 0 = [].
Proof. destruct f; reflexivity. Qed.

Lemma code_digit m : (m < 10)%N -> code (chr (48 + m)) = (48 + m)%N.
Proof. intros H. apply code_chr. lia. Qed.

Lemma dec_rev_spec f : forall n, (n < 10 ^ N.of_nat f)%N ->
  digits_val (rev (dec_rev f n)) = n /\ Forall (fun c => is_digit c = true) (dec_rev f n) /\
  (n <> 0%N -> exists d r, rev (dec_rev f n) = d :: r /\ code d <> 48%N).
Proof.
  induction f as [|f IH]; intros n H.
  - cbn in H. replace n with 0%N by lia. split; [reflexivity|]. split; [constructor|]. contradiction.
  - cbn [dec_rev]. destruct (N.eqb_spec n 0) as [->|Hn].
    { split; [reflexivity|]. split; [constructor|]. contradiction. }
    assert (Hq : (n / 10 < 10 ^ N.of_nat f)%N).
    { apply N.Div0.div_lt_upper_bound. rewrite Nat2N.inj_succ, N.pow_succ_r' in H. lia. }
    assert (Hm : (n mod 10 < 10)%N) by (apply N.mod_lt; lia).
    destruct (IH _ Hq) as (H1 & H2 & H3). cbn [rev]. split; [|split].
    + rewrite digits_val_snoc, H1, code_digit by exact Hm. pose proof (N.div_mod n 10 ltac:(lia)).
      set (q := (n / 10)%N) in *. set (m := (n mod 10)%N) in *. lia.
    + constructor; [apply is_digit_code; rewrite code_digit by exact Hm; set (m := (n mod 10)%N) in *; lia|exact H2].
    + intros _. destruct (N.eqb_spec (n / 10) 0) as [E|E].
      * rewrite E, dec_rev_zero. exists (chr (48 + n mod 10)), []. split; [reflexivity|].
        rewrite code_digit by exact Hm. pose proof (N.div_mod n 10 ltac:(lia)).
        set (m := (n mod 10)%N) in *. rewrite E in *. lia.
      * destruct (H3 E) as (d & r & -> & Hd). exists d, (r ++ [chr (48 + n mod 10)]). split; [reflexivity|exact Hd].
Qed.

Lemma dec_spec n :
  digits_val (dec n) = n /\ Forall (fun c => is_digit c = true) (dec n) /\
  exists d r, dec n = d :: r /\ (code d = 48%N -> r = [] /\ n = 0%N).
Proof.
  unfold dec. destruct (N.eqb_spec n 0) as [->|Hn].
  { split; [reflexivity|]. split; [repeat constructor|]. exists "0"%char, []. split; [reflexivity|auto]. }
  assert (Hb : (n < 10 ^ N.of_nat (N.to_nat (N.size n)))%N).
  { rewrite N2Nat.id. eapply N.lt_le_trans; [apply N.size_gt|]. apply N.pow_le_mono_l. lia. }
  destruct (dec_rev_spec _ _ Hb) as (H1 & H2 & H3). split; [exact H1|]. split; [apply Forall_rev, H2|].
  destruct (H3 Hn) as (d & r & E & Hd). exists d, r. split; [exact E|]. intros C; contradiction.
Qed.

Lemma take_digits_app ds rest :
  Forall (fun c => is_digit c = true) ds -> stop_ok rest = true -> take_digits (ds ++ rest) = (ds, rest).
Proof.
  induction 1 as [|c ds Hc _ IH]; intros Hr; cbn [app take_digits].
  - destruct rest as [|c r]; [reflexivity|]. cbn [stop_ok] in Hr. unfold stop_char in Hr. cbn [take_digits].
    destruct (is_digit c); [discriminate|reflexivity].
  - rewrite Hc, (IH Hr). reflexivity.
Qed.

Lemma float_follows_stop rest : stop_ok rest = true -> float_follows rest = false.
Proof.
  destruct rest as [|c r]; [reflexivity|]. cbn. unfold stop_char.
  destruct (code c =? 46)%N, (code c =? 101)%N, (code c =? 69)%N; cbn; rewrite ?andb_false_r; try discriminate; auto.
Qed.

Lemma pnum_dec neg n rest :
  (length (dec n) <= int_max_str_digits)%nat -> stop_ok rest = true ->
  pnum_digits neg (dec n ++ rest) = jret (PInt (if neg then (- Z.of_N n)%Z else Z.of_N n), rest).
Proof.
  intros Hl Hs. destruct (dec_spec n) as (Hv & Hd & d & r & E & H0).
  rewrite E in Hd |- *. inversion Hd as [|? ? Hdig Hr0]; subst. rewrite E in Hl, Hv.
  unfold pnum_digits. cbn [app]. rewrite Hdig.
  destruct (N.eqb_spec (code d) 48) as [E0|E0].
  - destruct (H0 E0) as [-> ->]. rewrite float_follows_stop by exact Hs. rewrite Hv. reflexivity.
  - rewrite (take_digits_app r rest Hr0 Hs), float_follows_stop by exact Hs.
    destruct (Nat.ltb_spec int_max_str_digits (length (d :: r))); [lia|]. rewrite Hv. reflexivity.
Qed.

(** A number as [int.__repr__] writes it is read back. *)
Lemma pnum_repr z ds rest : int_repr z = Ok ds -> stop_ok rest = true -> pnum (ds ++ rest) = jret (PInt z, rest).
Proof.
  unfold int_repr. destruct (Nat.ltb_spec int_max_str_digits (length (dec (Z.abs_N z)))) as [_|Hl]; [discriminate|].
  intros H Hr. injection H as <-.
  destruct (dec_spec (Z.abs_N z)) as (_ & Hd & d & r & E & _).
  assert (Hdig : is_digit d = true) by (rewrite E in Hd; inversion Hd; assumption).
  destruct (Z.ltb_spec z 0) as [Hz|Hz].
  - cbn [app pnum]. change (code "-"%char =? 45)%N with true. cbv iota.
    rewrite (pnum_dec true _ rest Hl Hr). do 3 f_equal. lia.
  - unfold pnum. rewrite E. cbn [app].
    assert (Hd45 : (code d =? 45)%N = false) by (apply is_digit_code in Hdig; apply N.eqb_neq; lia).
    rewrite Hd45. change (d :: r ++ rest) with ((d :: r) ++ rest). rewrite <- E, (pnum_dec false _ rest Hl Hr).
    do 3 f_equal. lia.
Qed.

(** ** Containers *)

Lemma first_ok_inv s : first_ok s = true ->
  exists c r, s = c :: r /\ is_ws c = false /\ (code c =? 93)%N = false /\ (code c =? 125)%N = false.
Proof.
  destruct s as [|c r]; cbn; [discriminate|]. intros H. exists c, r.
  destruct (is_ws c), (code c =? 93)%N, (code c =? 125)%N; cbn in H; try discriminate. auto.
Qed.

Lemma first_ok_app s t : first_ok s = true -> first_ok (s ++ t) = true.
Proof. destruct s; [discriminate|auto]. Qed.

Lemma join_first sep o os : exists t, join sep (o :: os) = o ++ t.
Proof. destruct os; [exists []; symmetry; apply app_nil_r|eexists; reflexivity]. Qed.

Lemma first_ok_join sep o os t : first_ok o = true -> first_ok (join sep (o :: os) ++ t) = true.
Proof. intros H. destruct (join_first sep o os) as [t' ->]. rewrite <- app_assoc. apply first_ok_app, H. Qed.

(** The loop of [_parse_array] reads the items of a list. *)
Lemma parr_read lim wsp cl : forallb is_ws wsp = true -> forallb is_ws cl = true ->
  forall outs ws acc rest fuel, Forall2 (reads lim) outs ws -> outs <> [] ->
  2 * length (join (","%char :: wsp) outs ++ cl ++ "]"%char :: rest) + 1 < fuel ->
  parr lim fuel (join (","%char :: wsp) outs ++ cl ++ "]"%char :: rest) acc = jret (PList (rev acc ++ ws), rest).
Proof.
  intros Hw Hc outs ws acc rest fuel H. revert acc fuel.
  induction H as [|o w outs ws [Hfo Hr] Hrs IH]; intros acc fuel Hne Hf; [contradiction|].
  destruct fuel as [|fuel]; [lia|]. cbn [parr].
  destruct outs as [|o' outs'].
  - inversion Hrs; subst. cbn [join] in *.
    rewrite (Hr (cl ++ "]"%char :: rest) fuel); [|apply stop_ok_ws_app; [exact Hc|reflexivity]|lia].
    cbn [jbind jret fst snd]. rewrite skip_ws_app by exact Hc. cbn. reflexivity.
  - change (join (","%char :: wsp) (o :: o' :: outs')) with (o ++ (","%char :: wsp) ++ join (","%char :: wsp) (o' :: outs')) in *.
    rewrite <- !app_assoc in *. cbn [app] in *.
    rewrite (Hr _ fuel); [|reflexivity|lia]. cbn [jbind jret fst snd skip_ws].
    change (is_ws ","%char) with false. change (code ","%char =? 93)%N with false. change (code ","%char =? 44)%N with true.
    cbv iota. rewrite skip_ws_app by exact Hw.
    inversion Hrs as [|? ? ? ? [Hfo' _] _]; subst.
    rewrite skip_ws_first by (apply first_ok_join, Hfo').
    rewrite IH; [|discriminate|rewrite !length_app in *; cbn in *; rewrite !length_app in *; destruct o; [discriminate|]; cbn in *; lia].
    cbn. rewrite <- app_assoc. reflexivity.
Qed.

Lemma enc_str_cons ea s : enc_str ea s = quote :: tl (enc_str ea s).
Proof. reflexivity. Qed.

(** One entry of [_parse_object]: the key, the colon, the value. *)
Lemma pobj_entry lim fuel ea k x w acc rest :
  reads lim x w -> stop_ok rest = true -> 2 * length (enc_str ea k ++ key_sep ++ x ++ rest) < S fuel ->
  pobj lim (S fuel) (enc_str ea k ++ key_sep ++ x ++ rest) acc =
  match skip_ws rest with
  | c2 :: r2 => if (code c2 =? 125)%N then jret (PDict (aset k w acc), r2)
                else if (code c2 =? 44)%N then pobj lim fuel (skip_ws r2) (aset k w acc) else jfail
  | [] => jfail
  end.
Proof.
  intros [Hfx Hx] Hr Hf. rewrite enc_str_cons. cbn [app pobj].
  change (code quote =? 34)%N with true. cbv iota. rewrite pstr_enc. cbn [jbind jret fst snd].
  change (skip_ws (key_sep ++ x ++ rest)) with (":"%char :: " "%char :: x ++ rest).
  change (code ":"%char =? 58)%N with true. cbv iota.
  change (skip_ws (" "%char :: x ++ rest)) with (skip_ws (x ++ rest)). rewrite skip_ws_first by (apply first_ok_app, Hfx).
  rewrite (Hx rest fuel Hr) by (rewrite enc_str_cons in Hf; cbn [app length] in Hf; rewrite !length_app in *; lia).
  cbn [jbind jret fst snd]. rewrite string_of_list_ascii_of_string. reflexivity.
Qed.

(** With a fresh key, the entry is appended. *)
Lemma pobj_step lim fuel ea k x w acc rest :
  reads lim x w -> stop_ok rest = true -> 2 * length (enc_str ea k ++ key_sep ++ x ++ rest) < S fuel ->
  ~ In k (akeys acc) ->
  pobj lim (S fuel) (enc_str ea k ++ key_sep ++ x ++ rest) acc =
  match skip_ws rest with
  | c2 :: r2 => if (code c2 =? 125)%N then jret (PDict (acc ++ [(k, w)]), r2)
                else if (code c2 =? 44)%N then pobj lim fuel (skip_ws r2) (acc ++ [(k, w)]) else jfail
  | [] => jfail
  end.
Proof. intros Hx Hr Hf Hk. rewrite (pobj_entry lim fuel ea k x w acc rest Hx Hr Hf), aset_notin by exact Hk. reflexivity. Qed.

Lemma first_ok_enc ea k t : first_ok (enc_str ea k ++ t) = true.
Proof. rewrite enc_str_cons. reflexivity. Qed.

(** The loop of [_parse_object] reads the entries of a dict with
    distinct keys, in order. *)
Lemma pobj_read lim ea wsp cl : forallb is_ws wsp = true -> forallb is_ws cl = true ->
  forall items d' acc rest fuel, Forall2 (entry_reads lim ea) items d' -> items <> [] ->
  NoDup (akeys (acc ++ d')) ->
  2 * length (join (","%char :: wsp) items ++ cl ++ "}"%char :: rest) < fuel ->
  pobj lim fuel (join (","%char :: wsp) items ++ cl ++ "}"%char :: rest) acc = jret (PDict (acc ++ d'), rest).
Proof.
  intros Hw Hc items d' acc rest fuel H. revert acc fuel.
  induction H as [|o [k w] items d' (x & -> & Hx) Hrs IH]; intros acc fuel Hne Hnd Hf; [contradiction|].
  destruct fuel as [|fuel]; [lia|]. cbn [fst snd] in *.
  assert (Hk : ~ In k (akeys acc)).
  { rewrite akeys_app in Hnd. cbn in Hnd. apply NoDup_remove_2 in Hnd. intros Hin. apply Hnd, in_or_app. left; exact Hin. }
  destruct items as [|o' items'].
  - inversion Hrs; subst. cbn [join] in *. rewrite <- !app_assoc in *.
    rewrite (pobj_step lim fuel ea k x w acc); [|exact Hx|apply stop_ok_ws_app; [exact Hc|reflexivity]|exact Hf|exact Hk].
    rewrite skip_ws_app by exact Hc. reflexivity.
  - change (join (","%char :: wsp) ((enc_str ea k ++ key_sep ++ x) :: o' :: items'))
      with ((enc_str ea k ++ key_sep ++ x) ++ (","%char :: wsp) ++ join (","%char :: wsp) (o' :: items')) in *.
    rewrite <- !app_assoc in *. cbn [app] in *.
    rewrite (pobj_step lim fuel ea k x w acc); [|exact Hx|reflexivity|exact Hf|exact Hk].
    change (skip_ws (","%char :: wsp ++ join (","%char :: wsp) (o' :: items') ++ cl ++ "}"%char :: rest))
      with (","%char :: wsp ++ join (","%char :: wsp) (o' :: items') ++ cl ++ "}"%char :: rest).
    cbv beta iota. change (code ","%char =? 125)%N with false. change (code ","%char =? 44)%N with true. cbv iota.
    rewrite skip_ws_app by exact Hw.
    inversion Hrs as [|? ? ? ? (x' & -> & _) _]; subst.
    rewrite skip_ws_first by (apply first_ok_join, first_ok_enc).
    rewrite IH; [|discriminate|rewrite <- app_assoc; exact Hnd|unfold key_sep in *; lens; lia].
    rewrite <- app_assoc. reflexivity.
Qed.

(** ** Values *)

Lemma pv_quote lim fuel r :
  pv lim (S fuel) (quote :: r) = let? p := pstr r [] in jret (PStr (string_of_list_ascii (fst p)), snd p).
Proof. reflexivity. Qed.

Lemma pv_lbracket lim fuel r :
  pv (S lim) (S fuel) ("["%char :: r) =
  match skip_ws r with
  | c' :: r' => if (code c' =? 93)%N then jret (PList [], r') else parr lim fuel (c' :: r') []
  | [] => jfail
  end.
Proof. reflexivity. Qed.

Lemma pv_lbrace lim fuel r :
  pv (S lim) (S fuel) ("{"%char :: r) =
  match skip_ws r with
  | c' :: r' => if (code c' =? 125)%N then jret (PDict [], r') else pobj lim fuel (c' :: r') []
  | [] => jfail
  end.
Proof. reflexivity. Qed.

Lemma pv_digit lim fuel d r : is_digit d = true -> pv lim (S fuel) (d :: r) = pnum (d :: r).
Proof. intros H. apply is_digit_code in H. cbn [pv]. codes. reflexivity. Qed.

Lemma pv_minus lim fuel d r : is_digit d = true -> pv lim (S fuel) ("-"%char :: d :: r) = pnum ("-"%char :: d :: r).
Proof.
  intros H. assert (E : Ascii.eqb "I"%char d = false)
    by (destruct (Ascii.eqb_spec "I"%char d) as [<-|_]; [discriminate H|reflexivity]).
  cbn -[pnum Ascii.eqb]. rewrite E. reflexivity.
Qed.

(** Reading from a text needs at least one unit of fuel. *)
Ltac fuel_pos := intros rest fuel Hr Hf; destruct fuel as [|fuel]; [cbn [length app] in *; lia|].

Lemma reads_null lim : reads lim (lit "null") PNone.
Proof. split; [reflexivity|]. fuel_pos. reflexivity. Qed.

Lemma reads_bool lim (b : bool) : reads lim (lit (if b then "true"%string else "false"%string)) (PBool b).
Proof. split; [destruct b; reflexivity|]. fuel_pos. destruct b; reflexivity. Qed.

Lemma reads_str lim ea s : reads lim (enc_str ea s) (PStr s).
Proof.
  split; [rewrite <- (app_nil_r (enc_str ea s)); apply first_ok_enc|]. fuel_pos.
  rewrite enc_str_cons. cbn [app]. rewrite pv_quote, pstr_enc. cbn. rewrite string_of_list_ascii_of_string. reflexivity.
Qed.

Lemma reads_int lim z ds : int_repr z = Ok ds -> reads lim ds (PInt z).
Proof.
  intros H. assert (Hds := H). unfold int_repr in Hds.
  destruct (Nat.ltb int_max_str_digits (length (dec (Z.abs_N z)))); [discriminate|]. injection Hds as <-.
  destruct (dec_spec (Z.abs_N z)) as (_ & Hd & d & r & E & _).
  assert (Hdig : is_digit d = true) by (rewrite E in Hd; inversion Hd; assumption).
  assert (Hc := Hdig). apply is_digit_code in Hc.
  split.
  - rewrite E. destruct (z <? 0)%Z; cbn; [reflexivity|]. unfold is_ws. codes. reflexivity.
  - fuel_pos. rewrite <- (pnum_repr z _ rest H Hr). rewrite E.
    destruct (z <? 0)%Z; cbn [app]; [apply pv_minus|apply pv_digit]; exact Hdig.
Qed.

Lemma reads_list lim ind lvl outs ws : Forall2 (reads lim) outs ws -> reads (S lim) (wrap "["%char "]"%char ind lvl outs) (PList ws).
Proof.
  intros H. destruct outs as [|o outs'].
  { inversion H; subst. split; [reflexivity|]. fuel_pos. reflexivity. }
  destruct (item_sep_ws ind (S lvl)) as (wsp & Hsep & Hwsp).
  inversion H as [|? w ? ws' [Hfo _] _]; subst.
  split; [reflexivity|]. fuel_pos. unfold wrap in *. rewrite Hsep in *. cbn [app] in *. rewrite <- !app_assoc in *. cbn [app] in *.
  rewrite pv_lbracket, skip_ws_app by apply ws_open.
  rewrite skip_ws_first by (apply first_ok_join, Hfo).
  destruct (first_ok_inv _ (first_ok_join (","%char :: wsp) o outs' (open_at ind lvl ++ "]"%char :: rest) Hfo))
    as (c & r & E & _ & E93 & _).
  rewrite E. cbv beta iota. rewrite E93, <- E. rewrite (parr_read lim wsp (open_at ind lvl) Hwsp (ws_open _ _) _ (w :: ws')); [reflexivity|exact H|discriminate|].
  lens. lia.
Qed.

Lemma reads_dict lim ea ind lvl items d' :
  Forall2 (entry_reads lim ea) items d' -> NoDup (akeys d') -> reads (S lim) (wrap "{"%char "}"%char ind lvl items) (PDict d').
Proof.
  intros H Hnd. destruct items as [|o items'].
  { inversion H; subst. split; [reflexivity|]. fuel_pos. reflexivity. }
  destruct (item_sep_ws ind (S lvl)) as (wsp & Hsep & Hwsp).
  inversion H as [|? kw ? d'' (x & -> & _) _]; subst.
  split; [reflexivity|]. fuel_pos. unfold wrap in *. rewrite Hsep in *. cbn [app] in *. rewrite <- !app_assoc in *. cbn [app] in *.
  rewrite pv_lbrace, skip_ws_app by apply ws_open.
  match goal with |- context [skip_ws ?s] =>
    assert (Hs : first_ok s = true) by (apply first_ok_join; reflexivity);
    rewrite (skip_ws_first s Hs); destruct (first_ok_inv s Hs) as (c & r & E & _ & _ & E125)
  end.
  rewrite E. cbv beta iota. rewrite E125, <- E.
  rewrite (pobj_read lim ea wsp (open_at ind lvl) Hwsp (ws_open _ _) _ (kw :: d'') []);
    [reflexivity|exact H|discriminate|exact Hnd|].
  lens. lia.
Qed.


Lemma list_reads ind ea lim lvl l outs :
  Forall (reads_back ind ea) l -> forallb uniq_keys l = true ->
  res_map (dumps_at ind ea lim lvl) l = Ok outs ->
  exists ws, res_map json_norm l = Ok ws /\ Forall2 (reads lim) outs ws.
Proof.
  intros HF Hu H. apply res_map_ok in H. revert HF Hu. induction H as [|x o l outs Hx Hl IHl]; intros HF Hu.
  - exists []. split; [reflexivity|constructor].
  - inversion HF as [|? ? Hix HFl]; subst. cbn in Hu. apply andb_true_iff in Hu as [Hux Hul].
    destruct (Hix Hux _ _ _ Hx) as (w & Hw & Hr). destruct (IHl HFl Hul) as (ws & Hws & Hr').
    exists (w :: ws). split; [cbn [res_map]; rewrite Hw, Hws; reflexivity|constructor; assumption].
Qed.

Lemma dict_reads ind ea lim lvl d items :
  Forall (fun kv => reads_back ind ea (snd kv)) d -> forallb (fun kv => uniq_keys (snd kv)) d = true ->
  res_map (fun kv => x <- dumps_at ind ea lim lvl (snd kv) ;; Ok (enc_str ea (fst kv) ++ key_sep ++ x)) d = Ok items ->
  exists d', res_map (fun kv => x <- json_norm (snd kv) ;; Ok (fst kv, x)) d = Ok d' /\
    akeys d' = akeys d /\ Forall2 (entry_reads lim ea) items d'.
Proof.
  intros HF Hu H. apply res_map_ok in H. revert HF Hu. induction H as [|[k x] o d items Hx Hl IHl]; intros HF Hu.
  - exists []. split; [reflexivity|split; constructor].
  - inversion HF as [|? ? Hix HFl]; subst. cbn in Hu. apply andb_true_iff in Hu as [Hux Hul].
    apply res_bind_ok in Hx as (out & Hout & Ho). injection Ho as <-.
    cbn [fst snd] in *. destruct (Hix Hux _ _ _ Hout) as (w & Hw & Hr). destruct (IHl HFl Hul) as (d' & Hd' & Hk & Hr').
    exists ((k, w) :: d'). split; [cbn [res_map fst snd]; rewrite Hw; cbn; rewrite Hd'; reflexivity|].
    split; [unfold akeys in *; cbn; rewrite Hk; reflexivity|]. constructor; [exists out; split; [reflexivity|exact Hr]|exact Hr'].
Qed.

(** Every text [dumps_at] writes is read back as the value, with its
    tuples as lists. *)
Lemma dumps_reads ind ea v : reads_back ind ea v.
Proof.
  unfold reads_back. induction v as [| b | z | s | bs | l IH | l IH | d IH | c a _] using pyval_ind;
    intros Hu lim lvl out H; simpl dumps_at in H; try discriminate.
  - injection H as <-. exists PNone. split; [reflexivity|apply reads_null].
  - injection H as <-. exists (PBool b). split; [reflexivity|apply reads_bool].
  - exists (PInt z). split; [reflexivity|apply reads_int, H].
  - injection H as <-. exists (PStr s). split; [reflexivity|apply reads_str].
  - destruct lim as [|lim]; [discriminate|]. apply res_bind_ok in H as (outs & Houts & H). injection H as <-.
    destruct (list_reads _ _ _ _ _ _ IH Hu Houts) as (ws & Hws & Hr).
    exists (PList ws). split; [cbn; rewrite Hws; reflexivity|apply reads_list, Hr].
  - destruct lim as [|lim]; [discriminate|]. apply res_bind_ok in H as (outs & Houts & H). injection H as <-.
    destruct (list_reads _ _ _ _ _ _ IH Hu Houts) as (ws & Hws & Hr).
    exists (PList ws). split; [cbn; rewrite Hws; reflexivity|apply reads_list, Hr].
  - destruct lim as [|lim]; [discriminate|]. apply res_bind_ok in H as (items & Hitems & H). injection H as <-.
    cbn in Hu. apply andb_true_iff in Hu as [Hnd Hu].
    destruct (dict_reads _ _ _ _ _ _ IH Hu Hitems) as (d' & Hd' & Hk & Hr).
    exists (PDict d'). split; [cbn; rewrite Hd'; reflexivity|].
    apply (reads_dict lim ea); [exact Hr|]. rewrite Hk. apply nodupb_NoDup, Hnd.
Qed.

(** [dumps_at] succeeds exactly on the values [json_ok] accepts. *)
Lemma dumps_at_ok ind ea v : forall lim lvl, (exists out, dumps_at ind ea lim lvl v = Ok out) <-> json_ok lim v = true.
Proof.
  induction v as [| b | z | s | bs | l IH | l IH | d IH | c a _] using pyval_ind; intros lim lvl;
    cbn [dumps_at json_ok]; try (split; [reflexivity|eauto]; fail);
    try (split; [intros [? H]; discriminate|discriminate]; fail).
  - unfold int_repr. destruct (Nat.ltb_spec int_max_str_digits (length (dec (Z.abs_N z)))).
    + split; [intros [? E]; discriminate|]. intros E. apply Nat.leb_le in E. lia.
    + split; [intros _; apply Nat.leb_le; lia|eauto].
  - destruct lim as [|lim]; [split; [intros [? H]; discriminate|discriminate]|].
    rewrite res_bind_ret_ok, res_map_ok_iff, forallb_forall. rewrite Forall_forall in IH.
    split; intros H x Hx; apply (IH x Hx lim (S lvl)), H, Hx.
  - destruct lim as [|lim]; [split; [intros [? H]; discriminate|discriminate]|].
    rewrite res_bind_ret_ok, res_map_ok_iff, forallb_forall. rewrite Forall_forall in IH.
    split; intros H x Hx; apply (IH x Hx lim (S lvl)), H, Hx.
  - destruct lim as [|lim]; [split; [intros [? H]; discriminate|discriminate]|].
    rewrite res_bind_ret_ok, res_map_ok_iff, forallb_forall. rewrite Forall_forall in IH.
    split; intros H kv Hkv.
    + apply (IH kv Hkv lim (S lvl)). destruct (H kv Hkv) as [y Hy].
      apply (res_bind_ret_ok _ (fun x => enc_str ea (fst kv) ++ key_sep ++ x)). eauto.
    + apply (res_bind_ret_ok _ (fun x => enc_str ea (fst kv) ++ key_sep ++ x)).
      apply (IH kv Hkv lim (S lvl)), H, Hkv.
Qed.

(** ** The fuel of the decoder *)

Lemma jbind_ok {A B : Type} (m : jr A) (f : A -> jr B) b :
  jbind m f = Some (Ok b) -> exists a, m = Some (Ok a) /\ f a = Some (Ok b).
Proof. destruct m as [[a|e]|]; cbn; try discriminate; eauto. Qed.

Lemma jbind_ext {A B : Type} (m : jr A) (f g : A -> jr B) :
  (forall a, m = Some (Ok a) -> f a = g a) -> jbind m f = jbind m g.
Proof. destruct m as [[a|e]|]; cbn; auto. Qed.

Lemma skip_ws_len s : length (skip_ws s) <= length s.
Proof. induction s as [|c s IH]; cbn; [lia|]. destruct (is_ws c); cbn; lia. Qed.

Lemma strip_prefix_len p s r : strip_prefix p s = Some r -> length r < S (length s).
Proof.
  revert s; induction p as [|a p IH]; intros [|b s] H; cbn [strip_prefix length] in *; try discriminate.
  - injection H as <-; cbn; lia.
  - injection H as <-; cbn; lia.
  - destruct (Ascii.eqb a b); [apply IH in H; lia|discriminate].
Qed.

(** Split every conditional of a hypothesis. *)
Lemma pstr_len n : forall s acc x r, length s <= n -> pstr s acc = Some (Ok (x, r)) -> length r < length s.
Proof.
  induction n as [|n IH]; intros [|c s] acc x r Hl H; cbn [length] in *; try (cbn in H; discriminate); [lia|].
  cbn [pstr] in H. split_ifs H; try discriminate;
    first [injection H as _ <-; lia | apply IH in H; cbn [length] in *; lia].
Qed.

Lemma take_digits_app_inv s : fst (take_digits s) ++ snd (take_digits s) = s.
Proof.
  induction s as [|c s IH]; cbn; [reflexivity|]. destruct (is_digit c); [|reflexivity].
  destruct (take_digits s) as [ds r]. cbn in *. rewrite IH. reflexivity.
Qed.

Lemma take_digits_len s : length (snd (take_digits s)) <= length s.
Proof. rewrite <- (take_digits_app_inv s) at 2. rewrite length_app. lia. Qed.

Lemma pnum_len s v r : pnum s = Some (Ok (v, r)) -> length r < length s.
Proof.
  assert (Hd : forall neg s1, pnum_digits neg s1 = Some (Ok (v, r)) -> length r < length s1).
  { intros neg [|c s1] H; cbn [pnum_digits] in H; [discriminate|].
    destruct (is_digit c); [|discriminate]. destruct (code c =? 48)%N.
    - split_ifs H; try discriminate; unfold jret in H; injection H as _ <-; cbn; lia.
    - pose proof (take_digits_len s1) as Ht. destruct (take_digits s1) as [t rest]. cbn in Ht.
      split_ifs H; try discriminate; unfold jret in H; injection H as _ <-; cbn; lia. }
  unfold pnum. destruct s as [|c s]; [apply Hd|]. destruct (code c =? 45)%N; [|apply Hd].
  intros H. apply Hd in H. cbn; lia.
Qed.

(** What the readers leave is shorter than what they read. *)
Lemma pv_len fuel :
  (forall lim s v r, pv lim fuel s = Some (Ok (v, r)) -> length r < length s) /\
  (forall lim s acc v r, parr lim fuel s acc = Some (Ok (v, r)) -> length r < length s) /\
  (forall lim s acc v r, pobj lim fuel s acc = Some (Ok (v, r)) -> length r < length s).
Proof.
  induction fuel as [|fuel (IHv & IHa & IHo)]; [repeat split; intros; discriminate|].
  assert (Hs := skip_ws_len). repeat split.
  - intros lim [|c s] v r H; cbn [pv] in H; [discriminate|].
    destruct (code c =? 34)%N.
    { apply jbind_ok in H as ([x r0] & Hp & H). injection H as _ <-. apply (pstr_len (length s)) in Hp; [cbn; lia|lia]. }
    destruct (code c =? 123)%N.
    { destruct lim; [discriminate|]. specialize (Hs s). destruct (skip_ws s) as [|c' r']; [discriminate|].
      destruct (code c' =? 125)%N; [injection H as _ <-; cbn in *; lia|apply IHo in H; cbn in *; lia]. }
    destruct (code c =? 91)%N.
    { destruct lim; [discriminate|]. specialize (Hs s). destruct (skip_ws s) as [|c' r']; [discriminate|].
      destruct (code c' =? 93)%N; [injection H as _ <-; cbn in *; lia|apply IHa in H; cbn in *; lia]. }
    split_ifs H; try discriminate;
      first [injection H as _ <-; match goal with E : strip_prefix _ _ = Some _ |- _ => apply strip_prefix_len in E end; cbn in *; lia
            |apply pnum_len in H; exact H].
  - intros lim s acc v r H. cbn [parr] in H. apply jbind_ok in H as ([x r0] & Hp & H). apply IHv in Hp. cbn [fst snd] in H.
    specialize (Hs r0). destruct (skip_ws r0) as [|c r1]; [discriminate|]. cbn in Hs.
    destruct (code c =? 93)%N; [injection H as _ <-; lia|]. destruct (code c =? 44)%N; [|discriminate].
    apply IHa in H. specialize (skip_ws_len r1). lia.
  - intros lim [|c s] acc v r H; cbn [pobj] in H; [discriminate|]. destruct (code c =? 34)%N; [|discriminate].
    apply jbind_ok in H as ([k r0] & Hk & H). apply pstr_len with (n := length s) in Hk; [|lia]. cbn [fst snd] in H.
    pose proof (Hs r0) as H0. destruct (skip_ws r0) as [|c1 r1]; [discriminate|]. cbn in H0.
    destruct (code c1 =? 58)%N; [|discriminate].
    apply jbind_ok in H as ([x r2] & Hp & H). apply IHv in Hp. cbn [fst snd] in H. specialize (skip_ws_len r1) as H1.
    pose proof (Hs r2) as H2. destruct (skip_ws r2) as [|c2 r3]; [discriminate|]. cbn in H2.
    destruct (code c2 =? 125)%N; [injection H as _ <-; cbn; lia|]. destruct (code c2 =? 44)%N; [|discriminate].
    apply IHo in H. specialize (skip_ws_len r3). cbn; lia.
Qed.

(** More fuel than twice the length of the text changes nothing. *)
Lemma pv_fuel fuel :
  (forall lim s f, 2 * length s < fuel -> fuel <= f -> pv lim f s = pv lim fuel s) /\
  (forall lim s acc f, 2 * length s + 1 < fuel -> fuel <= f -> parr lim f s acc = parr lim fuel s acc) /\
  (forall lim s acc f, 2 * length s < fuel -> fuel <= f -> pobj lim f s acc = pobj lim fuel s acc).
Proof.
  induction fuel as [|n (IHv & IHa & IHo)]; [repeat split; intros; lia|].
  assert (Hs := skip_ws_len). repeat split.
  - intros lim [|c s] [|m] Hl Hm; [lia|reflexivity|lia|]. cbn [pv].
    destruct (code c =? 34)%N; [reflexivity|].
    destruct (code c =? 123)%N.
    { destruct lim; [reflexivity|]. specialize (Hs s). destruct (skip_ws s) as [|c' r']; [reflexivity|].
      destruct (code c' =? 125)%N; [reflexivity|]. apply IHo; cbn in *; lia. }
    destruct (code c =? 91)%N; [|reflexivity].
    destruct lim; [reflexivity|]. specialize (Hs s). destruct (skip_ws s) as [|c' r']; [reflexivity|].
    destruct (code c' =? 93)%N; [reflexivity|]. apply IHa; cbn in *; lia.
  - intros lim s acc [|m] Hl Hm; [lia|]. cbn [parr]. rewrite (IHv lim s m) by lia.
    apply jbind_ext. intros [x r0] Hp. apply (proj1 (pv_len n)) in Hp. cbn [fst snd].
    specialize (Hs r0). destruct (skip_ws r0) as [|c r1]; [reflexivity|]. cbn in Hs.
    destruct (code c =? 93)%N; [reflexivity|]. destruct (code c =? 44)%N; [|reflexivity].
    apply IHa; [|lia]. specialize (skip_ws_len r1). lia.
  - intros lim [|c s] acc [|m] Hl Hm; [lia|reflexivity|lia|]. cbn [pobj].
    destruct (code c =? 34)%N; [|reflexivity]. apply jbind_ext. intros [k r0] Hk.
    apply (pstr_len (length s)) in Hk; [|lia]. cbn [fst snd].
    pose proof (Hs r0) as H0. destruct (skip_ws r0) as [|c1 r1]; [reflexivity|]. cbn in H0.
    destruct (code c1 =? 58)%N; [|reflexivity].
    rewrite (IHv lim (skip_ws r1) m) by (specialize (skip_ws_len r1); cbn in *; lia).
    apply jbind_ext. intros [x r2] Hp. apply (proj1 (pv_len n)) in Hp. cbn [fst snd].
    specialize (skip_ws_len r1) as H1. pose proof (Hs r2) as H2.
    destruct (skip_ws r2) as [|c2 r3]; [reflexivity|]. cbn in H2.
    destruct (code c2 =? 125)%N; [reflexivity|]. destruct (code c2 =? 44)%N; [|reflexivity].
    apply IHo; [|lia]. specialize (skip_ws_len r3). cbn in *; lia.
Qed.

(** ** The characters of the text *)

Lemma forallb_join (p : ascii -> bool) sep items :
  forallb p sep = true -> Forall (fun x => forallb p x = true) items -> forallb p (join sep items) = true.
Proof.
  intros Hs H. induction H as [|x items Hx _ IH]; [reflexivity|].
  destruct items as [|y items]; [exact Hx|].
  change (join sep (x :: y :: items)) with (x ++ sep ++ join sep (y :: items)).
  rewrite !forallb_app, Hx, Hs, IH. reflexivity.
Qed.

Lemma ascii_ws c : is_ws c = true -> is_ascii c = true.
Proof. intros H. apply is_ws_code in H. unfold is_ascii. apply N.ltb_lt. lia. Qed.

Lemma ascii_ws_list w : forallb is_ws w = true -> forallb is_ascii w = true.
Proof. induction w as [|c w IH]; cbn; [auto|]. rewrite !andb_true_iff. intros [H1 H2]. auto using ascii_ws. Qed.

Lemma hex_digit_ascii k : (k < 16)%N -> is_ascii (hex_digit k) = true.
Proof. intros H. unfold is_ascii, hex_digit. destruct (N.ltb_spec k 10); rewrite code_chr by lia; apply N.ltb_lt; lia. Qed.

Lemma esc_ascii c : forallb is_ascii (esc true c) = true.
Proof.
  assert (Hc := code_lt c).
  assert (Hu : forallb is_ascii (u_escape c) = true).
  { unfold u_escape. cbn [forallb]. rewrite !hex_digit_ascii;
      [reflexivity|apply N.mod_lt; lia|apply N.Div0.div_lt_upper_bound; lia]. }
  unfold esc. repeat match goal with |- context [if ?b then _ else _] => destruct b eqn:? end;
    try reflexivity; try exact Hu.
  cbn [andb] in *. cbn. rewrite andb_true_r. unfold is_ascii. apply N.ltb_lt.
  match goal with H : (126 <? code c)%N = false |- _ => apply N.ltb_ge in H end. lia.
Qed.

Lemma enc_str_ascii s : forallb is_ascii (enc_str true s) = true.
Proof.
  unfold enc_str. cbn [forallb]. rewrite forallb_app. cbn.
  induction (list_ascii_of_string s) as [|c l IH]; [reflexivity|]. cbn [flat_map]. rewrite forallb_app, esc_ascii. exact IH.
Qed.

Lemma int_repr_ascii z ds : int_repr z = Ok ds -> forallb is_ascii ds = true.
Proof.
  unfold int_repr. destruct (Nat.ltb _ _); [discriminate|]. intros H. injection H as <-.
  destruct (dec_spec (Z.abs_N z)) as (_ & Hd & _).
  assert (Hdec : forallb is_ascii (dec (Z.abs_N z)) = true).
  { apply forallb_forall. rewrite Forall_forall in Hd. intros c Hin. apply Hd, is_digit_code in Hin.
    unfold is_ascii. apply N.ltb_lt. lia. }
  destruct (z <? 0)%Z; [cbn [forallb]; rewrite Hdec; reflexivity|exact Hdec].
Qed.

Lemma wrap_ascii o c ind lvl items : is_ascii o = true -> is_ascii c = true ->
  Forall (fun x => forallb is_ascii x = true) items -> forallb is_ascii (wrap o c ind lvl items) = true.
Proof.
  intros Ho Hc H. unfold wrap. destruct items as [|x items]; [cbn [forallb]; rewrite Ho, Hc; reflexivity|].
  cbn [forallb]. rewrite Ho, !forallb_app.
  destruct (item_sep_ws ind (S lvl)) as (wsp & E & Hw).
  rewrite (ascii_ws_list (open_at ind (S lvl))), (ascii_ws_list (open_at ind lvl)) by apply ws_open.
  rewrite forallb_join; [cbn [forallb]; rewrite Hc; reflexivity| |exact H].
  rewrite E. cbn [forallb]. rewrite ascii_ws_list by exact Hw. reflexivity.
Qed.

Lemma dumps_at_ascii ind v : forall lim lvl out, dumps_at ind true lim lvl v = Ok out -> forallb is_ascii out = true.
Proof.
  induction v as [| b | z | s | bs | l IH | l IH | d IH | c a _] using pyval_ind;
    intros lim lvl out H; simpl dumps_at in H; try discriminate.
  - injection H as <-. reflexivity.
  - injection H as <-. destruct b; reflexivity.
  - exact (int_repr_ascii z out H).
  - injection H as <-. apply enc_str_ascii.
  - destruct lim as [|lim]; [discriminate|]. apply res_bind_ok in H as (items & Hi & H). injection H as <-.
    apply wrap_ascii; [reflexivity|reflexivity|]. apply res_map_ok in Hi. rewrite Forall_forall in IH.
    clear -IH Hi. induction Hi as [|x o l items Hx _ IHi]; [apply Forall_nil|apply Forall_cons;
      [apply (IH x (or_introl eq_refl) _ _ _ Hx)|apply IHi; intros y Hy; exact (IH y (or_intror Hy))]].
  - destruct lim as [|lim]; [discriminate|]. apply res_bind_ok in H as (items & Hi & H). injection H as <-.
    apply wrap_ascii; [reflexivity|reflexivity|]. apply res_map_ok in Hi. rewrite Forall_forall in IH.
    clear -IH Hi. induction Hi as [|x o l items Hx _ IHi]; [apply Forall_nil|apply Forall_cons;
      [apply (IH x (or_introl eq_refl) _ _ _ Hx)|apply IHi; intros y Hy; exact (IH y (or_intror Hy))]].
  - destruct lim as [|lim]; [discriminate|]. apply res_bind_ok in H as (items & Hi & H). injection H as <-.
    apply wrap_ascii; [reflexivity|reflexivity|]. apply res_map_ok in Hi. rewrite Forall_forall in IH.
    clear -IH Hi. induction Hi as [|kv o d items Hx _ IHi]; [apply Forall_nil|apply Forall_cons].
    + apply res_bind_ok in Hx as (x & Hx & E). assert (Eo : o = enc_str true (fst kv) ++ key_sep ++ x) by (injection E; intros <-; reflexivity). rewrite Eo.
      cbv beta. rewrite !forallb_app, enc_str_ascii, (IH kv (or_introl eq_refl) _ _ _ Hx). reflexivity.
    + apply IHi; intros y Hy; exact (IH y (or_intror Hy)).
Qed.

(** ** Properties of the JSON text *)

(** Round trip of the JSON text: every text [json.dumps] writes
    (compact or indented, with or without [ensure_ascii]) is read back
    by [json.loads] as the value it was written from, with its tuples
    as lists, provided its dicts have distinct keys. *)
Theorem json_roundtrip ind ea lim v text :
  uniq_keys v = true -> dumps ind ea lim v = Ok text ->
  exists w, json_norm v = Ok w /\ json_loads lim text = Some (Ok w).
Proof.
  intros Hu H. unfold dumps in H. apply res_bind_ok in H as (out & Hout & H). injection H as <-.
  destruct (dumps_reads ind ea v Hu lim 0 out Hout) as (w & Hw & Hf & Hr).
  exists w. split; [exact Hw|]. unfold json_loads, loads_chars. rewrite list_ascii_of_string_of_list_ascii.
  rewrite skip_ws_first by exact Hf. rewrite <- (app_nil_r out) at 2.
  rewrite (Hr [] _ eq_refl) by (rewrite app_nil_r; lia). reflexivity.
Qed.

(** [json.dumps] succeeds exactly on the values without bytes or
    instances, whose integers have at most 4300 digits and whose lists
    and dicts nest at most [lim] deep; it raises on every other value. *)
Theorem dumps_ok_iff ind ea lim v :
  (exists text, dumps ind ea lim v = Ok text) <-> json_ok lim v = true.
Proof. unfold dumps. rewrite res_bind_ret_ok. apply dumps_at_ok. Qed.

(** The decoder terminates within its fuel: [json.loads] gives
    [pv] twice the length of the text plus one, and any larger fuel
    gives the same result. *)
Theorem loads_fuel lim s fuel : 2 * length s < fuel -> pv lim fuel s = pv lim (S (2 * length s)) s.
Proof. intros H. apply (proj1 (pv_fuel (S (2 * length s)))); lia. Qed.

(** With [ensure_ascii] (the default of [toJson]), every character
    of the text [json.dumps] writes is a 7-bit ASCII character. *)
Theorem dumps_ascii ind lim v text :
  dumps ind true lim v = Ok text -> forallb is_ascii (list_ascii_of_string text) = true.
Proof.
  unfold dumps. intros H. apply res_bind_ok in H as (out & Hout & H). injection H as <-.
  rewrite list_ascii_of_string_of_list_ascii. exact (dumps_at_ascii ind v lim 0 out Hout).
Qed.
