(* ===== verification/JsonPrefix.v ===== *)
(** * Truncated JSON text

    No proper prefix of a list or dict [json.dumps] writes is accepted
    by [json.loads]: the reader ([pv]) fails on it.  A proper prefix of
    a number may read as a shorter number; a proper prefix of a string
    or a literal fails.  These are the facts behind [fromJson] returning
    False on a truncated document (TextIO.v).  The proofs follow the
    structure of the round-trip lemmas of JsonText.v: [cut] plays the
    role of [reads] for the prefixes of a text. *)

From Stdlib Require Import String Ascii List ZArith NArith Lia Bool.
From S2P Require Import Prelude PyVal JsonText.
Import ListNotations.
Open Scope rw_scope.
Open Scope list_scope.

(** The reader raises. *)
Definition fails {A : Type} (r : jr A) : Prop := exists e, r = Some (Raise e).

(** Every proper prefix of [o] makes the reader raise, or reads as a
    value that takes the whole prefix (a shorter number). *)
Definition cut (lim : nat) (o : list ascii) : Prop :=
  forall p q fuel, o = p ++ q -> q <> [] -> 2 * length p < fuel ->
    fails (pv lim fuel p) \/ exists v, pv lim fuel p = jret (v, []).

(** Every proper prefix of [o] makes the reader raise. *)
Definition cut_strict (lim : nat) (o : list ascii) : Prop :=
  forall p q fuel, o = p ++ q -> q <> [] -> 2 * length p < fuel -> fails (pv lim fuel p).

(** ** Prefixes *)

Lemma fails_jfail {A : Type} : fails (@jfail A).
Proof. eexists; reflexivity. Qed.

Lemma fails_bind {A B : Type} (m : jr A) (f : A -> jr B) : fails m -> fails (jbind m f).
Proof. intros [e ->]. exists e. reflexivity. Qed.

#[local] Hint Resolve fails_jfail fails_bind : core.

Lemma prefix_firstn {A : Type} (l p q : list A) :
  l = p ++ q -> q <> [] -> p = firstn (length p) l /\ length p < length l.
Proof.
  intros -> Hq. rewrite firstn_app, firstn_all, Nat.sub_diag, firstn_O, app_nil_r.
  split; [reflexivity|]. rewrite length_app. destruct q; [contradiction|cbn; lia].
Qed.

(** A prefix of whitespace followed by [s] is whitespace, or the
    whitespace followed by a prefix of [s]. *)
Lemma ws_split w s t q : forallb is_ws w = true -> t ++ q = w ++ s ->
  forallb is_ws t = true \/ exists t', t = w ++ t' /\ s = t' ++ q.
Proof.
  intros Hw E. apply app_eq_app in E as (l & [[-> E]|[-> E]]).
  - right. exists l. split; [reflexivity|exact E].
  - left. rewrite forallb_app in Hw. apply andb_true_iff in Hw as [Hw _]. exact Hw.
Qed.

Lemma skip_ws_all t : forallb is_ws t = true -> skip_ws t = [].
Proof. intros H. rewrite <- (app_nil_r t), skip_ws_app by exact H. reflexivity. Qed.

(** Two texts that start a common text and are not empty start alike. *)
Lemma first_ok_cut x y t u : x ++ y = t ++ u -> x <> [] -> t <> [] -> first_ok t = first_ok x.
Proof. destruct x as [|a x], t as [|b t]; try contradiction. intros E _ _. injection E as -> _. reflexivity. Qed.

(** A prefix of what follows a value in a container ends a number. *)
Lemma stop_ok_cut t q s : t ++ q = s -> stop_ok s = true -> stop_ok t = true.
Proof. destruct t as [|a t]; [reflexivity|]. intros <- H. exact H. Qed.

(** ** Strings, literals, numbers *)

Lemma esc_cut ea c k acc : k < length (esc ea c) -> fails (pstr (firstn k (esc ea c)) acc).
Proof.
  unfold esc, u_escape.
  repeat match goal with |- context [if ?b then _ else _] => destruct b end;
    intros Hk; destruct k as [|[|[|[|[|[|k]]]]]]; cbn in Hk |- *; try lia; auto.
Qed.

(** A proper prefix of the body of a string fails: the closing quote is
    missing, or an escape is cut. *)
Lemma pstr_cut ea l t q acc : flat_map (esc ea) l ++ [quote] = t ++ q -> q <> [] -> fails (pstr t acc).
Proof.
  revert t acc; induction l as [|c l IH]; intros t acc E Hq.
  - destruct t as [|a t]; [auto|]. cbn in E. injection E as _ E.
    destruct t; cbn in E; [subst q; contradiction|discriminate].
  - cbn [flat_map] in E. rewrite <- app_assoc in E. apply app_eq_app in E as (m & [[E1 E2]|[E1 E2]]).
    + destruct m as [|a m].
      * rewrite app_nil_r in E1. subst t. rewrite <- (app_nil_r (esc ea c)), pstr_esc.
        apply (IH [] _ (eq_sym E2)). exact Hq.
      * destruct (prefix_firstn _ _ _ E1 ltac:(discriminate)) as [Ht Hl]. rewrite Ht. apply esc_cut, Hl.
    + subst t. rewrite pstr_esc. exact (IH _ _ E2 Hq).
Qed.

Lemma str_cut lim ea s : cut_strict lim (enc_str ea s).
Proof.
  intros p q fuel E Hq Hf. destruct fuel as [|fuel]; [lia|].
  destruct p as [|a p]; [auto|]. unfold enc_str in E. cbn [app] in E. injection E as <- E.
  rewrite pv_quote. apply fails_bind. exact (pstr_cut ea _ p q [] E Hq).
Qed.

Lemma lit_cut lim s : (s = "null" \/ s = "true" \/ s = "false")%string -> cut_strict lim (lit s).
Proof.
  intros Hs p q fuel E Hq Hf. destruct fuel as [|fuel]; [lia|].
  destruct (prefix_firstn _ _ _ E Hq) as [-> Hl].
  destruct Hs as [Es|[Es|Es]]; subst s; cbn in Hl;
    destruct (length p) as [|[|[|[|[|k]]]]]; unfold lit in *; cbn in Hl |- *; try lia; eexists; reflexivity.
Qed.

Lemma pnum_digits_cut neg d p :
  is_digit d = true -> (code d =? 48)%N = false -> Forall (fun c => is_digit c = true) p ->
  (length (d :: p) <= int_max_str_digits)%nat -> exists v, pnum_digits neg (d :: p) = jret (v, []).
Proof.
  intros Hd H0 Hp Hl. unfold pnum_digits. rewrite Hd, H0.
  assert (Ht : take_digits p = (p, [])).
  { rewrite <- (app_nil_r p) at 1. exact (take_digits_app p [] Hp eq_refl). }
  rewrite Ht.
  destruct (Nat.ltb_spec int_max_str_digits (length (d :: p))); [lia|]. eexists. reflexivity.
Qed.

(** A proper prefix of a number is a shorter number, or fails. *)
Lemma int_cut lim z ds : int_repr z = Ok ds -> cut lim ds.
Proof.
  intros H p q fuel E Hq Hf. destruct fuel as [|fuel]; [lia|].
  unfold int_repr in H. destruct (Nat.ltb_spec int_max_str_digits (length (dec (Z.abs_N z)))) as [_|Hl];
    [discriminate|]. injection H as <-.
  destruct (dec_spec (Z.abs_N z)) as (_ & Hds & d & r & Ed & H48). rewrite Ed in Hds, Hl.
  inversion Hds as [|? ? Hd Hr]; subst.
  assert (Hcut : forall p', d :: r = d :: p' ++ q -> exists v, pnum_digits (z <? 0)%Z (d :: p') = jret (v, [])).
  { intros p' E'. injection E' as E'. apply pnum_digits_cut; [exact Hd| | |].
    - destruct (N.eqb_spec (code d) 48) as [E48|]; [|reflexivity].
      destruct (H48 E48) as [-> _]. destruct p', q; discriminate || contradiction.
    - rewrite E' in Hr. apply Forall_app in Hr as [Hr _]. exact Hr.
    - rewrite E' in Hl. cbn in Hl |- *. rewrite length_app in Hl. lia. }
  rewrite Ed in E. destruct (Z.ltb_spec z 0) as [Hz|Hz].
  - destruct p as [|a [|b p]]; [left; auto| |].
    + left. injection E as <- _. cbn. auto.
    + injection E as <- <- E. right. destruct (Hcut p ltac:(rewrite E; reflexivity)) as [v Hv].
      rewrite pv_minus by exact Hd. exists v. unfold pnum. cbn [code]. rewrite <- Hv.
      destruct (Z.ltb_spec z 0); [reflexivity|lia].
  - destruct p as [|a p]; [left; auto|]. injection E as <- E. right.
    destruct (Hcut p ltac:(rewrite E; reflexivity)) as [v Hv]. rewrite pv_digit by exact Hd.
    exists v. unfold pnum. apply is_digit_code in Hd.
    replace (code d =? 45)%N with false by (symmetry; apply N.eqb_neq; lia).
    rewrite <- Hv. destruct (Z.ltb_spec z 0); [lia|reflexivity].
Qed.

(** ** Containers *)

(** The text of an item: a value reads from it, and its proper prefixes
    are cut. *)
Definition item_ok (lim : nat) (o : list ascii) : Prop := (exists w, reads lim o w) /\ cut lim o.

Lemma pv_nil lim fuel : 0 < fuel -> fails (pv lim fuel []).
Proof. destruct fuel; [lia|]. auto. Qed.

Lemma parr_nil lim fuel acc : 1 < fuel -> fails (parr lim fuel [] acc).
Proof. destruct fuel as [|fuel]; [lia|]. intros H. cbn [parr]. apply fails_bind, pv_nil. lia. Qed.

(** The text after an item of a list: the closing whitespace and
    bracket, or a comma. *)
Lemma stop_ok_close cl c r : forallb is_ws cl = true -> stop_char c = true -> stop_ok (cl ++ c :: r) = true.
Proof. intros Hc Hs. apply stop_ok_ws_app; [exact Hc|exact Hs]. Qed.

(** The item a prefix starts is read whole, or the prefix ends in it. *)
Lemma item_split (o X p q : list ascii) : o ++ X = p ++ q ->
  (exists m, o = p ++ m /\ m <> [] /\ q = m ++ X) \/ (exists m, p = o ++ m /\ X = m ++ q).
Proof.
  intros E. apply app_eq_app in E as (m & [[E1 E2]|[E1 E2]]).
  - destruct m as [|a m].
    + right. exists []. rewrite app_nil_r in E1. rewrite E1, app_nil_r. split; [reflexivity|rewrite E2; reflexivity].
    + left. exists (a :: m). split; [exact E1|split; [discriminate|exact E2]].
  - right. exists m. split; [exact E1|exact E2].
Qed.

(** A prefix of the text after the last item is whitespace. *)
Lemma close_ws cl c m q : forallb is_ws cl = true -> m ++ q = cl ++ [c] -> q <> [] -> forallb is_ws m = true.
Proof.
  intros Hc E Hq. destruct (ws_split cl [c] m q Hc E) as [H|(t' & -> & Et)]; [exact H|].
  destruct t' as [|a t']; [rewrite app_nil_r; exact Hc|]. injection Et as _ Et.
  destruct t'; cbn in Et; [subst q; contradiction|discriminate].
Qed.

(** A prefix of a comma, whitespace and [Y]: empty, or the comma and
    whitespace followed by a prefix [t2] of [Y] (empty when the
    whitespace is cut). *)
Lemma comma_split wsp Y m q : forallb is_ws wsp = true -> m ++ q = ","%char :: wsp ++ Y ->
  m = [] \/ exists m' t2, m = ","%char :: m' /\ skip_ws m' = skip_ws t2 /\ length t2 <= length m' /\
                          (t2 = [] \/ Y = t2 ++ q).
Proof.
  intros Hw E. destruct m as [|a m']; [left; reflexivity|right]. injection E as <- E.
  destruct (ws_split wsp Y m' q Hw E) as [H|(t2 & -> & Et)].
  - exists m', []. rewrite skip_ws_all by exact H. split; [reflexivity|split; [reflexivity|cbn; split; [lia|left; reflexivity]]].
  - exists (wsp ++ t2), t2. rewrite skip_ws_app by exact Hw. rewrite length_app. split; [reflexivity|split; [reflexivity|split; [lia|right; exact Et]]].
Qed.

(** A non-empty prefix of the items of a container starts as its first
    item. *)
Lemma first_ok_pre sep o os Z t q : first_ok o = true -> join sep (o :: os) ++ Z = t ++ q -> t <> [] -> first_ok t = true.
Proof.
  intros Ho E Ht. destruct (join_first sep o os) as [u Hu]. rewrite Hu, <- app_assoc in E.
  rewrite (first_ok_cut o (u ++ Z) t q E); [exact Ho|destruct o; [discriminate|discriminate]|exact Ht].
Qed.

Lemma item_ok_first lim o : item_ok lim o -> first_ok o = true.
Proof. intros [[w [H _]] _]. exact H. Qed.

Lemma first_ok_nonempty o : first_ok o = true -> o <> [].
Proof. destruct o; discriminate. Qed.

(** The loop of [_parse_array] fails on a proper prefix of the items
    and the closing bracket. *)
Lemma parr_cut lim wsp cl : forallb is_ws wsp = true -> forallb is_ws cl = true ->
  forall outs p q fuel acc, Forall (item_ok lim) outs -> outs <> [] ->
  join (","%char :: wsp) outs ++ cl ++ ["]"%char] = p ++ q -> q <> [] -> 2 * length p + 1 < fuel ->
  fails (parr lim fuel p acc).
Proof.
  intros Hw Hc outs. induction outs as [|o outs IH]; intros p q fuel acc HF Hne E Hq Hf; [contradiction|].
  inversion HF as [|? ? [[w [Hfo Hr]] Hcut] HF']; subst.
  assert (Ho := first_ok_nonempty o Hfo).
  destruct fuel as [|fuel]; [lia|]. cbn [parr].
  set (X := match outs with
            | [] => cl ++ ["]"%char]
            | _ => ","%char :: wsp ++ join (","%char :: wsp) outs ++ cl ++ ["]"%char]
            end).
  assert (EX : join (","%char :: wsp) (o :: outs) ++ cl ++ ["]"%char] = o ++ X)
    by (destruct outs; cbn [join]; [reflexivity|rewrite <- !app_assoc; reflexivity]).
  rewrite EX in E. destruct (item_split _ _ _ _ E) as [(m & E1 & Hm & E2)|(m & E1 & E2)].
  - destruct (Hcut p m fuel E1 Hm ltac:(lia)) as [Hp|[v Hv]]; [apply fails_bind, Hp|].
    rewrite Hv. cbn. auto.
  - subst p. assert (Hs : stop_ok m = true).
    { apply (stop_ok_cut m q X (eq_sym E2)). subst X. destruct outs; [apply stop_ok_close; [exact Hc|reflexivity]|reflexivity]. }
    rewrite (Hr m fuel Hs) by (rewrite length_app in *; lia). cbn [jbind jret fst snd].
    destruct outs as [|o' outs'].
    + rewrite skip_ws_all by exact (close_ws _ _ _ _ Hc (eq_sym E2) Hq). auto.
    + destruct (comma_split wsp _ m q Hw (eq_sym E2)) as [->|(m' & t2 & -> & Es & Hl & Et)]; [auto|].
      change (skip_ws (","%char :: m')) with (","%char :: m'). cbv beta iota.
      change (code ","%char =? 93)%N with false. change (code ","%char =? 44)%N with true. cbv iota.
      rewrite length_app in Hf. cbn [length] in Hf. rewrite Es.
      destruct Et as [->|Et]; [apply parr_nil; destruct o; [contradiction|cbn in Hf; lia]|].
      destruct t2 as [|b t2]; [apply parr_nil; destruct o; [contradiction|cbn in Hf; lia]|].
      inversion HF' as [|? ? Ho' _]; subst.
      rewrite skip_ws_first by exact (first_ok_pre _ _ _ _ _ _ (item_ok_first _ _ Ho') Et ltac:(discriminate)).
      apply (IH _ q); [exact HF'|discriminate|exact Et|exact Hq|].
      destruct o; [contradiction|]. cbn [length] in *. lia.
Qed.

(** The text of an entry of a dict: its key, the colon, the value. *)
Definition entry_ok (lim : nat) (ea : bool) (e : list ascii) : Prop :=
  exists k x, e = enc_str ea k ++ key_sep ++ x /\ item_ok lim x.

Lemma entry_ok_first lim ea e : entry_ok lim ea e -> first_ok e = true.
Proof. intros (k & x & -> & _). apply first_ok_enc. Qed.

Lemma pobj_nil lim fuel acc : 0 < fuel -> fails (pobj lim fuel [] acc).
Proof. destruct fuel; [lia|]. auto. Qed.

(** [_parse_object] fails on a proper prefix of an entry. *)
Lemma entry_cut lim ea k x p m fuel acc : item_ok lim x ->
  enc_str ea k ++ key_sep ++ x = p ++ m -> m <> [] -> 2 * length p + 1 < fuel -> fails (pobj lim fuel p acc).
Proof.
  intros [[w [Hfx _]] Hcut] E Hm Hf. destruct fuel as [|fuel]; [lia|].
  destruct (item_split _ _ _ _ E) as [(m1 & E1 & Hm1 & _)|(m1 & -> & E2)].
  - destruct p as [|c p']; [auto|]. unfold enc_str in E1. cbn [app] in E1. injection E1 as <- E1.
    cbn [pobj]. change (code quote =? 34)%N with true. cbv iota.
    apply fails_bind, (pstr_cut ea _ p' m1 [] E1 Hm1).
  - rewrite enc_str_cons. cbn [app pobj]. change (code quote =? 34)%N with true. cbv iota.
    rewrite pstr_enc. cbn [jbind jret fst snd].
    destruct m1 as [|a m1]; [auto|]. unfold key_sep in E2. cbn [app] in E2. injection E2 as <- E2.
    change (skip_ws (":"%char :: m1)) with (":"%char :: m1). cbv beta iota.
    change (code ":"%char =? 58)%N with true. cbv iota.
    rewrite length_app in Hf. cbn [length] in Hf.
    destruct m1 as [|b m2]; [apply fails_bind, pv_nil; lia|]. injection E2 as <- E2.
    change (skip_ws (" "%char :: m2)) with (skip_ws m2).
    destruct m2 as [|c m2']; [apply fails_bind, pv_nil; lia|].
    rewrite skip_ws_first
      by (rewrite (first_ok_cut x [] (c :: m2') m); [exact Hfx|rewrite app_nil_r; exact E2|exact (first_ok_nonempty _ Hfx)|discriminate]).
    destruct (Hcut (c :: m2') m fuel E2 Hm ltac:(cbn [length] in *; lia)) as [Hp|[v Hv]]; [apply fails_bind, Hp|].
    rewrite Hv. cbn. auto.
Qed.

(** The loop of [_parse_object] fails on a proper prefix of the
    entries and the closing brace. *)
Lemma pobj_cut lim ea wsp cl : forallb is_ws wsp = true -> forallb is_ws cl = true ->
  forall items p q fuel acc, Forall (entry_ok lim ea) items -> items <> [] ->
  join (","%char :: wsp) items ++ cl ++ ["}"%char] = p ++ q -> q <> [] -> 2 * length p + 1 < fuel ->
  fails (pobj lim fuel p acc).
Proof.
  intros Hw Hc items. induction items as [|e items IH]; intros p q fuel acc HF Hne E Hq Hf; [contradiction|].
  apply Forall_cons_iff in HF as [(k & x & -> & Hx) HF'].
  assert (He : 0 < length (enc_str ea k ++ key_sep ++ x)) by (rewrite enc_str_cons; cbn; lia).
  set (X := match items with
            | [] => cl ++ ["}"%char]
            | _ => ","%char :: wsp ++ join (","%char :: wsp) items ++ cl ++ ["}"%char]
            end).
  assert (EX : join (","%char :: wsp) ((enc_str ea k ++ key_sep ++ x) :: items) ++ cl ++ ["}"%char]
               = (enc_str ea k ++ key_sep ++ x) ++ X)
    by (destruct items; cbn [join]; [reflexivity|rewrite <- !app_assoc; reflexivity]).
  rewrite EX in E. destruct (item_split _ _ _ _ E) as [(m & E1 & Hm & _)|(m & E1 & E2)].
  - exact (entry_cut lim ea k x p m fuel acc Hx E1 Hm Hf).
  - subst p. destruct Hx as [[w Hr] _]. destruct fuel as [|fuel]; [lia|].
    assert (Hs : stop_ok m = true).
    { apply (stop_ok_cut m q X (eq_sym E2)). subst X. destruct items; [apply stop_ok_close; [exact Hc|reflexivity]|reflexivity]. }
    rewrite <- !app_assoc. rewrite (pobj_entry lim fuel ea k x w acc m Hr Hs) by (rewrite !length_app in *; lia).
    destruct items as [|e' items'].
    + rewrite skip_ws_all by exact (close_ws _ _ _ _ Hc (eq_sym E2) Hq). auto.
    + destruct (comma_split wsp _ m q Hw (eq_sym E2)) as [->|(m' & t2 & -> & Es & Hl & Et)]; [auto|].
      change (skip_ws (","%char :: m')) with (","%char :: m'). cbv beta iota.
      change (code ","%char =? 125)%N with false. change (code ","%char =? 44)%N with true. cbv iota.
      rewrite length_app in Hf. cbn [length] in Hf. rewrite Es.
      destruct Et as [->|Et]; [apply pobj_nil; lia|].
      destruct t2 as [|b t2]; [apply pobj_nil; lia|].
      inversion HF' as [|? ? He' _]; subst.
      rewrite skip_ws_first by exact (first_ok_pre _ _ _ _ _ _ (entry_ok_first _ _ _ He') Et ltac:(discriminate)).
      apply (IH _ q); [exact HF'|discriminate|exact Et|exact Hq|]. cbn [length] in *. lia.
Qed.

(** A prefix of the text after an opening bracket: its whitespace
    skipped, nothing, or a prefix of the items. *)
Lemma open_split ind lvl sep x xs Z p1 q : first_ok x = true ->
  p1 ++ q = open_at ind lvl ++ join sep (x :: xs) ++ Z ->
  skip_ws p1 = [] \/
  exists t, skip_ws p1 = t /\ first_ok t = true /\ join sep (x :: xs) ++ Z = t ++ q /\ length t <= length p1.
Proof.
  intros Hx E. destruct (ws_split _ _ p1 q (ws_open ind lvl) E) as [H|(t & -> & Et)]; [left; apply skip_ws_all, H|].
  rewrite skip_ws_app by apply ws_open. destruct t as [|c t]; [left; reflexivity|right].
  assert (Ht : first_ok (c :: t) = true) by exact (first_ok_pre _ _ _ _ _ _ Hx Et ltac:(discriminate)).
  exists (c :: t). rewrite length_app. split; [apply skip_ws_first, Ht|split; [exact Ht|split; [exact Et|lia]]].
Qed.

(** The text of an empty container is two characters; its prefixes
    fail. *)
Lemma empty_cut lim o c : (o = "["%char \/ o = "{"%char) -> cut_strict (S lim) [o; c].
Proof.
  intros Ho p q fuel E Hq Hf. destruct fuel as [|fuel]; [lia|].
  destruct p as [|a p1]; [auto|]. injection E as <- E.
  destruct p1 as [|b p1]; [destruct Ho as [->| ->]; cbn; auto|]. injection E as <- E.
  destruct p1; cbn in E; [subst q; contradiction|discriminate].
Qed.

(** No proper prefix of the text of a list is read. *)
Lemma list_cut lim ind lvl outs : Forall (item_ok lim) outs -> cut_strict (S lim) (wrap "["%char "]"%char ind lvl outs).
Proof.
  intros HF. destruct outs as [|o outs']; [apply empty_cut; left; reflexivity|].
  intros p q fuel E Hq Hf. destruct fuel as [|fuel]; [lia|].
  destruct p as [|a p1]; [apply pv_nil; lia|].
  destruct (item_sep_ws ind (S lvl)) as (wsp & Hsep & Hwsp).
  unfold wrap in E. rewrite Hsep in E. cbn [app] in E. injection E as <- E.
  rewrite pv_lbracket. apply Forall_cons_iff in HF as [Ho HF'].
  destruct (open_split ind (S lvl) (","%char :: wsp) o outs' (open_at ind lvl ++ ["]"%char]) p1 q (item_ok_first _ _ Ho) (eq_sym E))
    as [->|(t & -> & Ht & Et & Hl)]; [auto|].
  destruct (first_ok_inv t Ht) as (c & r & -> & _ & E93 & _). rewrite E93.
  apply (parr_cut lim wsp (open_at ind lvl) Hwsp (ws_open _ _) (o :: outs') _ q);
    [constructor; assumption|discriminate|exact Et|exact Hq|cbn [length] in *; lia].
Qed.

(** No proper prefix of the text of a dict is read. *)
Lemma dict_cut lim ea ind lvl items : Forall (entry_ok lim ea) items -> cut_strict (S lim) (wrap "{"%char "}"%char ind lvl items).
Proof.
  intros HF. destruct items as [|e items']; [apply empty_cut; right; reflexivity|].
  intros p q fuel E Hq Hf. destruct fuel as [|fuel]; [lia|].
  destruct p as [|a p1]; [apply pv_nil; lia|].
  destruct (item_sep_ws ind (S lvl)) as (wsp & Hsep & Hwsp).
  unfold wrap in E. rewrite Hsep in E. cbn [app] in E. injection E as <- E.
  rewrite pv_lbrace. apply Forall_cons_iff in HF as [He HF'].
  destruct (open_split ind (S lvl) (","%char :: wsp) e items' (open_at ind lvl ++ ["}"%char]) p1 q (entry_ok_first _ _ _ He) (eq_sym E))
    as [->|(t & -> & Ht & Et & Hl)]; [auto|].
  destruct (first_ok_inv t Ht) as (c & r & -> & _ & _ & E125). rewrite E125.
  apply (pobj_cut lim ea wsp (open_at ind lvl) Hwsp (ws_open _ _) (e :: items') _ q);
    [constructor; assumption|discriminate|exact Et|exact Hq|cbn [length] in *; lia].
Qed.

(** ** Printed values *)

Lemma cut_of_strict lim o : cut_strict lim o -> cut lim o.
Proof. intros H p q fuel E Hq Hf. left. exact (H p q fuel E Hq Hf). Qed.

(** No proper prefix of a text [dumps_at] writes for a value other than
    an [int] is read. *)
Definition cut_back (ind : option nat) (ea : bool) (v : pyval) : Prop :=
  uniq_keys v = true -> (forall z, v <> PInt z) ->
  forall lim lvl out, dumps_at ind ea lim lvl v = Ok out -> cut_strict lim out.

Lemma item_back ind ea v lim lvl o :
  cut_back ind ea v -> uniq_keys v = true -> dumps_at ind ea lim lvl v = Ok o -> item_ok lim o.
Proof.
  intros Hc Hu H. split; [destruct (dumps_reads ind ea v Hu lim lvl o H) as (w & _ & Hr); exists w; exact Hr|].
  destruct v; try (apply cut_of_strict, (Hc Hu ltac:(discriminate) lim lvl o H)). apply (int_cut lim z), H.
Qed.

Lemma list_items_ok ind ea lim lvl l outs :
  Forall (cut_back ind ea) l -> forallb uniq_keys l = true ->
  res_map (dumps_at ind ea lim lvl) l = Ok outs -> Forall (item_ok lim) outs.
Proof.
  intros HF Hu H. apply res_map_ok in H. revert HF Hu.
  induction H as [|x o l outs Hx Hl IHl]; intros HF Hu; [constructor|].
  apply Forall_cons_iff in HF as [Hcx HF]. cbn in Hu. apply andb_true_iff in Hu as [Hux Hu].
  constructor; [exact (item_back _ _ _ _ _ _ Hcx Hux Hx)|exact (IHl HF Hu)].
Qed.

Lemma dict_items_ok ind ea lim lvl d items :
  Forall (fun kv => cut_back ind ea (snd kv)) d -> forallb (fun kv => uniq_keys (snd kv)) d = true ->
  res_map (fun kv => x <- dumps_at ind ea lim lvl (snd kv) ;; Ok (enc_str ea (fst kv) ++ key_sep ++ x)) d = Ok items ->
  Forall (entry_ok lim ea) items.
Proof.
  intros HF Hu H. apply res_map_ok in H. revert HF Hu.
  induction H as [|[k v] e d items Hx Hl IHl]; intros HF Hu; [constructor|].
  apply Forall_cons_iff in HF as [Hcx HF]. cbn in Hu. apply andb_true_iff in Hu as [Hux Hu].
  apply res_bind_ok in Hx as (x & Hx & He). injection He as <-.
  constructor; [exists k, x; split; [reflexivity|exact (item_back _ _ _ _ _ _ Hcx Hux Hx)]|exact (IHl HF Hu)].
Qed.

(** Every text [dumps_at] writes for a value other than an [int] (with
    distinct keys in its dicts) has no proper prefix the reader
    accepts. *)
Lemma dumps_cut ind ea v : cut_back ind ea v.
Proof.
  unfold cut_back. induction v as [| b | z | s | bs | l IH | l IH | d IH | c a _] using pyval_ind;
    intros Hu Hz lim lvl out H; simpl dumps_at in H; try discriminate.
  - injection H as <-. exact (lit_cut lim "null" (or_introl eq_refl)).
  - injection H as <-. destruct b; [exact (lit_cut lim "true" (or_intror (or_introl eq_refl)))|exact (lit_cut lim "false" (or_intror (or_intror eq_refl)))].
  - destruct (Hz z eq_refl).
  - injection H as <-. apply str_cut.
  - destruct lim as [|lim]; [discriminate|]. apply res_bind_ok in H as (outs & Houts & H). injection H as <-.
    apply list_cut, (list_items_ok _ _ _ _ _ _ IH Hu Houts).
  - destruct lim as [|lim]; [discriminate|]. apply res_bind_ok in H as (outs & Houts & H). injection H as <-.
    apply list_cut, (list_items_ok _ _ _ _ _ _ IH Hu Houts).
  - destruct lim as [|lim]; [discriminate|]. apply res_bind_ok in H as (items & Hitems & H). injection H as <-.
    cbn in Hu. apply andb_true_iff in Hu as [_ Hu].
    apply (dict_cut lim ea), (dict_items_ok _ _ _ _ _ _ IH Hu Hitems).
Qed.

(** [json.loads] raises on every proper prefix of a text [json.dumps]
    writes for a value other than an [int]. *)
Lemma loads_cut ind ea lim v text p q :
  uniq_keys v = true -> (forall z, v <> PInt z) -> dumps ind ea lim v = Ok text ->
  list_ascii_of_string text = p ++ q -> q <> [] -> fails (json_loads lim (string_of_list_ascii p)).
Proof.
  intros Hu Hz H E Hq. unfold dumps in H. apply res_bind_ok in H as (out & Hout & H). injection H as <-.
  rewrite list_ascii_of_string_of_list_ascii in E.
  destruct (dumps_reads ind ea v Hu lim 0 out Hout) as (w & _ & Hf & _).
  unfold json_loads, loads_chars. rewrite list_ascii_of_string_of_list_ascii. apply fails_bind.
  destruct p as [|c p']; [apply pv_nil; lia|].
  rewrite skip_ws_first
    by (rewrite (first_ok_cut out [] (c :: p') q); [exact Hf|rewrite app_nil_r; exact E|exact (first_ok_nonempty _ Hf)|discriminate]).
  apply (dumps_cut ind ea v Hu Hz lim 0 out Hout _ q); [exact E|exact Hq|cbn [length]; lia].
Qed.
