(* ===== verification/Base64.v ===== *)
(** * The base64 codec that BaseDataObject calls

    basejsonobject.py encodes the members listed in [_B64Memebers] with
    [base64.standard_b64encode] and decodes them with
    [base64.standard_b64decode].  The serialisation component is proved
    against the interface [B64Codec] below, whose law is the only thing
    it needs of the codec: decoding an encoding gives the bytes back.

    [StdBase64] is an implementation of that interface after CPython's
    binascii module (the library is not part of the repository):
    [b2a] emits four alphabet characters per three bytes and pads the
    last group with '='; [a2b] is the non-strict decoder of
    [binascii.a2b_base64]: it skips characters outside the alphabet,
    stops at a complete padding, and fails with [binascii.Error] (a
    ValueError) when data characters are left over. *)

From Stdlib Require Import String Ascii List NArith ZArith Lia Bool.
From Stdlib Require Strings.Byte.
From S2P Require Import Prelude PyVal.
Import ListNotations.
Open Scope rw_scope.

(** The interface: the two calls of basejsonobject.py and their law. *)
Class B64Codec := {
  b64encode : list Byte.byte -> list Byte.byte;
  b64decode : pyval -> res (list Byte.byte);
  b64decode_encode : forall bs, b64decode (PBytes (b64encode bs)) = Ok bs
}.

Module StdBase64.
Local Open Scope N_scope.

(** [table_b2a_base64]: the alphabet A-Z a-z 0-9 + / as ASCII codes. *)
Definition b2a_char (i : N) : N :=
  if i <? 26 then 65 + i
  else if i <? 52 then 71 + i
  else if i <? 62 then i - 4
  else if i =? 62 then 43 else 47.

(** [table_a2b_base64]: the value of an alphabet character, 64 and
    above for the characters outside the alphabet. *)
Definition a2b_char (c : N) : N :=
  if (65 <=? c) && (c <=? 90) then c - 65
  else if (97 <=? c) && (c <=? 122) then c - 71
  else if (48 <=? c) && (c <=? 57) then c + 4
  else if c =? 43 then 62
  else if c =? 47 then 63 else 255.

Definition PAD : N := 61.

(** [binascii.b2a_base64(s, newline=False)] on byte values. *)
Fixpoint b2a (l : list N) : list N :=
  match l with
  | b0 :: b1 :: b2 :: r =>
      b2a_char (N.shiftr b0 2)
      :: b2a_char (N.lor (N.shiftl (N.land b0 3) 4) (N.shiftr b1 4))
      :: b2a_char (N.lor (N.shiftl (N.land b1 15) 2) (N.shiftr b2 6))
      :: b2a_char (N.land b2 63) :: b2a r
  | [b0; b1] =>
      [b2a_char (N.shiftr b0 2);
       b2a_char (N.lor (N.shiftl (N.land b0 3) 4) (N.shiftr b1 4));
       b2a_char (N.shiftl (N.land b1 15) 2); PAD]
  | [b0] => [b2a_char (N.shiftr b0 2); b2a_char (N.shiftl (N.land b0 3) 4); PAD; PAD]
  | [] => []
  end.

(** The decoding loop of [binascii.a2b_base64] (non-strict mode):
    [quad] is [quad_pos], [left] is [leftchar], [pads] counts the
    pad characters of the current quad. *)
Fixpoint a2b (l : list N) (quad : nat) (left : N) (pads : nat) (out : list N)
  : res (list N) :=
  match l with
  | [] => match quad with O => Ok out | _ => Raise ValueError end
  | c :: r =>
      if c =? PAD then
        if (2 <=? quad)%nat && (4 <=? quad + S pads)%nat then Ok out
        else a2b r quad left (if (2 <=? quad)%nat then S pads else pads) out
      else
        let v := a2b_char c in
        if 64 <=? v then a2b r quad left pads out
        else match quad with
             | O => a2b r 1 v 0 out
             | 1%nat => a2b r 2 (N.land v 15) 0 (out ++ [N.lor (N.shiftl left 2) (N.shiftr v 4)])
             | 2%nat => a2b r 3 (N.land v 3) 0 (out ++ [N.lor (N.shiftl left 4) (N.shiftr v 2)])
             | _ => a2b r 0 0 0 (out ++ [N.lor (N.shiftl left 6) v])
             end
  end.

Definition byte_of_N (n : N) : Byte.byte :=
  match Byte.of_N n with Some b => b | None => Byte.x00 end.

Definition encode (bs : list Byte.byte) : list Byte.byte :=
  map byte_of_N (b2a (map Byte.to_N bs)).

(** [base64.standard_b64decode(s)]: a str must be ASCII (ValueError
    otherwise), bytes are taken as they are, other types raise
    TypeError. *)
Definition decode (v : pyval) : res (list Byte.byte) :=
  let run l := out <- a2b l 0 0 0 [] ;; Ok (map byte_of_N out) in
  match v with
  | PStr s =>
      let l := map (fun c => N_of_ascii c) (list_ascii_of_string s) in
      if forallb (fun n => n <? 128) l then run l else Raise ValueError
  | PBytes bs => run (map Byte.to_N bs)
  | _ => Raise TypeError
  end.

(** *** Bit identities, checked over all byte values *)

Definition all_below (k : nat) (P : N -> bool) : bool :=
  forallb P (map N.of_nat (seq 0 k)).

Lemma all_below_spec k P : all_below k P = true -> forall n, n < N.of_nat k -> P n = true.
Proof.
  unfold all_below. rewrite forallb_forall. intros H n Hn. apply H.
  apply in_map_iff. exists (N.to_nat n). split; [apply N2Nat.id|].
  apply in_seq. lia.
Qed.

Lemma b2a_char_ok i : i < 64 -> a2b_char (b2a_char i) = i /\ b2a_char i <> PAD /\ b2a_char i < 256.
Proof.
  intros H. pose proof (all_below_spec 64
    (fun i => (a2b_char (b2a_char i) =? i) && negb (b2a_char i =? PAD) && (b2a_char i <? 256))
    ltac:(vm_compute; reflexivity) i ltac:(lia)) as E.
  apply andb_prop in E as [E E3]. apply andb_prop in E as [E1 E2].
  apply N.eqb_eq in E1. apply negb_true_iff, N.eqb_neq in E2. apply N.ltb_lt in E3. auto.
Qed.

Lemma pair_ok b0 : b0 < 256 -> forall b1, b1 < 256 ->
  let i1 := N.lor (N.shiftl (N.land b0 3) 4) (N.shiftr b1 4) in
  i1 < 64 /\ N.lor (N.shiftl (N.shiftr b0 2) 2) (N.shiftr i1 4) = b0 /\ N.land i1 15 = N.shiftr b1 4.
Proof.
  intros H0 b1 H1. cbv zeta.
  pose proof (all_below_spec 256 (fun b0 => all_below 256 (fun b1 =>
    let i1 := N.lor (N.shiftl (N.land b0 3) 4) (N.shiftr b1 4) in
    (i1 <? 64) && (N.lor (N.shiftl (N.shiftr b0 2) 2) (N.shiftr i1 4) =? b0)
    && (N.land i1 15 =? N.shiftr b1 4))) ltac:(vm_compute; reflexivity) b0 ltac:(lia)) as E.
  pose proof (all_below_spec 256 _ E b1 ltac:(lia)) as E'. cbv zeta in E'.
  apply andb_prop in E' as [E' C]. apply andb_prop in E' as [A B].
  apply N.ltb_lt in A. apply N.eqb_eq in B. apply N.eqb_eq in C. auto.
Qed.

Lemma pair2_ok b1 : b1 < 256 -> forall b2, b2 < 256 ->
  let i2 := N.lor (N.shiftl (N.land b1 15) 2) (N.shiftr b2 6) in
  i2 < 64 /\ N.lor (N.shiftl (N.shiftr b1 4) 4) (N.shiftr i2 2) = b1 /\ N.land i2 3 = N.shiftr b2 6.
Proof.
  intros H1 b2 H2. cbv zeta.
  pose proof (all_below_spec 256 (fun b1 => all_below 256 (fun b2 =>
    let i2 := N.lor (N.shiftl (N.land b1 15) 2) (N.shiftr b2 6) in
    (i2 <? 64) && (N.lor (N.shiftl (N.shiftr b1 4) 4) (N.shiftr i2 2) =? b1)
    && (N.land i2 3 =? N.shiftr b2 6))) ltac:(vm_compute; reflexivity) b1 ltac:(lia)) as E.
  pose proof (all_below_spec 256 _ E b2 ltac:(lia)) as E'. cbv zeta in E'.
  apply andb_prop in E' as [E' C]. apply andb_prop in E' as [A B].
  apply N.ltb_lt in A. apply N.eqb_eq in B. apply N.eqb_eq in C. auto.
Qed.

Lemma single_ok b : b < 256 ->
  N.shiftr b 2 < 64 /\ N.land b 63 < 64 /\ N.shiftl (N.land b 3) 4 < 64 /\
  N.shiftl (N.land b 15) 2 < 64 /\ N.land (N.shiftl (N.land b 3) 4) 15 = 0 /\
  N.lor (N.shiftl (N.shiftr b 6) 6) (N.land b 63) = b /\
  N.lor (N.shiftl (N.shiftr b 2) 2) (N.shiftr (N.shiftl (N.land b 3) 4) 4) = b /\
  N.lor (N.shiftl (N.shiftr b 4) 4) (N.shiftr (N.shiftl (N.land b 15) 2) 2) = b.
Proof.
  intros H.
  pose proof (all_below_spec 256 (fun b =>
    (N.shiftr b 2 <? 64) && (N.land b 63 <? 64) && (N.shiftl (N.land b 3) 4 <? 64) &&
    (N.shiftl (N.land b 15) 2 <? 64) && (N.land (N.shiftl (N.land b 3) 4) 15 =? 0) &&
    (N.lor (N.shiftl (N.shiftr b 6) 6) (N.land b 63) =? b) &&
    (N.lor (N.shiftl (N.shiftr b 2) 2) (N.shiftr (N.shiftl (N.land b 3) 4) 4) =? b) &&
    (N.lor (N.shiftl (N.shiftr b 4) 4) (N.shiftr (N.shiftl (N.land b 15) 2) 2) =? b))
    ltac:(vm_compute; reflexivity) b ltac:(lia)) as E. cbv beta in E.
  repeat match type of E with (_ && _) = true => apply andb_prop in E as [E ?] end.
  repeat match goal with Hb : (_ <? _) = true |- _ => apply N.ltb_lt in Hb
                       | Hb : (_ =? _) = true |- _ => apply N.eqb_eq in Hb end.
  repeat split; assumption.
Qed.

Lemma b2a_char_lt i : b2a_char i < 256.
Proof.
  unfold b2a_char.
  destruct (N.ltb_spec i 26); [lia|]. destruct (N.ltb_spec i 52); [lia|].
  destruct (N.ltb_spec i 62); [lia|]. destruct (i =? 62); lia.
Qed.

(** One data character of the alphabet, in each position of a quad. *)
Lemma a2b_data i r quad left pads out : i < 64 ->
  a2b (b2a_char i :: r) quad left pads out =
  match quad with
  | O => a2b r 1 i 0 out
  | 1%nat => a2b r 2 (N.land i 15) 0 (out ++ [N.lor (N.shiftl left 2) (N.shiftr i 4)])
  | 2%nat => a2b r 3 (N.land i 3) 0 (out ++ [N.lor (N.shiftl left 4) (N.shiftr i 2)])
  | _ => a2b r 0 0 0 (out ++ [N.lor (N.shiftl left 6) i])
  end.
Proof.
  intros Hi. destruct (b2a_char_ok i Hi) as (Hv & Hp & _). simpl.
  rewrite (proj2 (N.eqb_neq _ _) Hp), Hv.
  destruct (N.leb_spec 64 i); [lia|reflexivity].
Qed.

Lemma a2b_b2a n : forall l out, (length l <= n)%nat -> Forall (fun b => b < 256) l ->
  a2b (b2a l) 0 0 0 out = Ok (out ++ l).
Proof.
  induction n as [|n IH]; intros l out Hn Hl.
  { destruct l; [rewrite app_nil_r; reflexivity|simpl in Hn; lia]. }
  destruct l as [|b0 [|b1 [|b2 r]]]; [rewrite app_nil_r; reflexivity| | |].
  - inv Hl. destruct (single_ok b0) as (A & _ & C & _ & E & _ & G & _); [assumption|].
    cbn [b2a]. do 2 (rewrite a2b_data by assumption; cbv iota beta).
    rewrite G, E. reflexivity.
  - inv Hl. inv H2. destruct (single_ok b1) as (_ & _ & _ & D & _ & _ & _ & H); [assumption|].
    destruct (single_ok b0) as (A & _ & _ & _ & _ & _ & _ & _); [assumption|].
    destruct (pair_ok b0 H1 b1 H3) as (P1 & P2 & P3).
    cbn [b2a]. do 3 (rewrite a2b_data by assumption; cbv iota beta).
    rewrite P2, P3, H, <- app_assoc. reflexivity.
  - inv Hl. inv H2. inv H4.
    destruct (single_ok b0) as (A & _); [assumption|].
    destruct (single_ok b2) as (_ & B & _ & _ & _ & F & _); [assumption|].
    destruct (pair_ok b0 H1 b1 H3) as (P1 & P2 & P3).
    destruct (pair2_ok b1 H3 b2 H2) as (Q1 & Q2 & Q3).
    cbn [b2a]. do 4 (rewrite a2b_data by assumption; cbv iota beta).
    rewrite P2, P3, Q2, Q3, F, IH by (simpl in Hn; lia || assumption).
    rewrite <- !app_assoc. reflexivity.
Qed.

Lemma b2a_below l : Forall (fun c => c < 256) (b2a l).
Proof.
  induction l as [l IH] using (induction_ltof1 _ (@length N)).
  destruct l as [|b0 [|b1 [|b2 r]]]; simpl;
    repeat constructor; try apply b2a_char_lt; try (unfold PAD; lia).
  apply IH. unfold ltof. simpl. lia.
Qed.

Lemma to_N_byte_of_N l : Forall (fun c => c < 256) l -> map Byte.to_N (map byte_of_N l) = l.
Proof.
  induction 1 as [|c l Hc _ IH]; simpl; [reflexivity|]. rewrite IH. f_equal.
  unfold byte_of_N. destruct (Byte.of_N c) eqn:E.
  - apply Byte.to_of_N, E.
  - apply Byte.of_N_None_iff in E. lia.
Qed.

Lemma byte_of_to_N bs : map byte_of_N (map Byte.to_N bs) = bs.
Proof.
  induction bs as [|b bs IH]; simpl; [reflexivity|].
  unfold byte_of_N at 1. rewrite Byte.of_to_N, IH. reflexivity.
Qed.

Lemma to_N_below bs : Forall (fun c => c < 256) (map Byte.to_N bs).
Proof.
  apply Forall_map, Forall_forall. intros b _. pose proof (Byte.to_N_bounded b). lia.
Qed.

Lemma decode_encode bs : decode (PBytes (encode bs)) = Ok bs.
Proof.
  unfold decode, encode. rewrite to_N_byte_of_N by apply b2a_below.
  rewrite (a2b_b2a (length (map Byte.to_N bs))) by (lia || apply to_N_below).
  simpl. rewrite byte_of_to_N. reflexivity.
Qed.
End StdBase64.

#[export] Instance std_b64 : B64Codec := {|
  b64encode := StdBase64.encode;
  b64decode := StdBase64.decode;
  b64decode_encode := StdBase64.decode_encode
|}.
