(* ===== verification/Serial.v ===== *)
(** * BaseDataObject and SubObjectMap (basejsonobject.py)

    A class deriving from BaseDataObject is described by a [DataClass]:
    its class attributes ([JSON_Type], [_ExcludeFromMemebers],
    [_SubObjectMapping], [_B64Memebers]), the attributes its
    [__init__] creates, and the getters of its properties, which
    [inspect.getmembers] evaluates inside [_get_members].  An instance is a [PObj] value: its class name
    and its attribute dictionary.  The functions of this file take the
    class table [class_of] (the classes the program defines, by name)
    and a base64 codec as section variables.

    The two recursive methods, [_toJson] and [_fromJson], take a fuel
    argument: the Python recursion limit the interpreter imposes, here
    an explicit bound on the nesting of the objects and trees; running
    out of it raises RecursionError.  The lemmas show that the result
    does not depend on the fuel above the nesting depth. *)

From Stdlib Require Import String Ascii List ListDec ZArith Lia Bool.
From Stdlib Require Strings.Byte.
From S2P Require Import Prelude PyVal Base64.
Import ListNotations.
Open Scope rw_scope.

(** [SubObjectMap]: the class of the sub-objects (by name), the member
    of the owner that holds them, the JSON key they are stored under,
    and whether the member holds a list of them or a single one. *)
Record SubObjectMap : Type := {
  SubClass : string;
  Container : string;
  JsonContainer : string;
  isList : bool
}.

Definition attrs := list (string * pyval).

(** The class attributes of a BaseDataObject subclass, with the
    attributes its [__init__] assigns, in order, and the getters of its
    [@property] members, in name order (the order [dir] lists them). *)
Record DataClass : Type := {
  cls_name : string;
  JSON_Type : string;
  init : list (string * pyval);
  ExcludeFromMemebers : list string;
  SubObjectMapping : list SubObjectMap;
  B64Memebers : list string;
  Properties : list (string * (attrs -> res pyval))
}.

(** [SubObjectMap.__init__]: a missing JSON container tag defaults to
    the sub-class's [JSON_Type]; the tag is therefore never None. *)
Definition SubObjectMap_new (cls_subobject : DataClass) (str_containing_memeber : string)
    (str_json_container_tag : option string) (bol_list : bool) : SubObjectMap :=
  {| SubClass := cls_name cls_subobject;
     Container := str_containing_memeber;
     JsonContainer := match str_json_container_tag with
                      | Some t => t
                      | None => JSON_Type cls_subobject
                      end;
     isList := bol_list |}.

(** BaseDataObject itself. *)
Definition BaseDataObject : DataClass := {|
  cls_name := "BaseDataObject"; JSON_Type := "BaseDataObject"; init := [];
  ExcludeFromMemebers := []; SubObjectMapping := []; B64Memebers := [];
  Properties := [] |}.

(** [_get_members] (lines 61-92).  [inspect.getmembers(self)] calls
    [getattr] on every name of [dir(self)] in name order: an
    AttributeError drops the name, any other exception propagates.
    Plain attributes and methods never raise, so the exception comes
    from the first property getter, in name order, that raises
    something else ([eval_props]).  The filter loop then keeps the
    attributes that are not private, are not [JSON_Type] and are not
    excluded ([member_attrs]); methods are callable and properties are
    dropped ([bol_include_props] is False at every call: [_StrShowProps]
    is False in every class), and they are not in the instance's
    attribute list [attrs]. *)
Fixpoint eval_props (ps : list (string * (attrs -> res pyval))) (self : attrs) : res unit :=
  match ps with
  | [] => Ok tt
  | (_, getter) :: r =>
      match getter self with
      | Ok _ | Raise AttributeError => eval_props r self
      | Raise e => Raise e
      end
  end.

Definition is_member (c : DataClass) (name : string) : bool :=
  negb (String.prefix "_" name) && negb (String.eqb name "JSON_Type")
  && negb (existsb (String.eqb name) (ExcludeFromMemebers c)).

Definition member_attrs (c : DataClass) (self : attrs) : attrs :=
  sort_by_key (filter (fun kv => is_member c (fst kv)) self).

Definition _get_members (c : DataClass) (self : attrs) : res attrs :=
  _ <- eval_props (Properties c) self ;;
  Ok (member_attrs c self).

(** The properties of an instance evaluate ([inspect.getmembers] does
    not raise on it). *)
Definition props_ok (c : DataClass) (self : attrs) : bool :=
  match eval_props (Properties c) self with Ok _ => true | Raise _ => false end.

Definition in_b64 (c : DataClass) (name : string) : bool :=
  existsb (String.eqb name) (B64Memebers c).

(** [_getUtfEncoding(btData)] (lines 50-59): the byte-order mark at the
    start of a file chooses its encoding; the UTF-32 marks are tested
    first (the UTF-32-LE mark starts with the UTF-16-LE one). *)
Definition BOM_UTF32_BE : list Byte.byte := [Byte.x00; Byte.x00; Byte.xfe; Byte.xff].
Definition BOM_UTF32_LE : list Byte.byte := [Byte.xff; Byte.xfe; Byte.x00; Byte.x00].
Definition BOM_UTF16_LE : list Byte.byte := [Byte.xff; Byte.xfe].
Definition BOM_UTF16_BE : list Byte.byte := [Byte.xfe; Byte.xff].

(** [bytes.startswith(prefix)]. *)
Fixpoint startswith (bt prefix : list Byte.byte) {struct prefix} : bool :=
  match prefix, bt with
  | [], _ => true
  | p :: ps, b :: bs => Byte.eqb p b && startswith bs ps
  | _ :: _, [] => false
  end.

Definition _getUtfEncoding (btData : list Byte.byte) : string :=
  if startswith btData BOM_UTF32_BE || startswith btData BOM_UTF32_LE then "utf-32"
  else if startswith btData BOM_UTF16_LE || startswith btData BOM_UTF16_BE then "utf-16"
  else "utf-8".

(** [getattr(self, name)] on the instance dictionary. *)
Definition getattr (self : attrs) (name : string) : res pyval :=
  match aget name self with
  | Some v => Ok v
  | None => Raise AttributeError
  end.

Section Serial.
Context {codec : B64Codec}.
Variable class_of : string -> DataClass.

(** [base64.standard_b64encode(member_data)]: bytes only. *)
Definition b64_encode_val (v : pyval) : res pyval :=
  match v with
  | PBytes bs => Ok (PBytes (b64encode bs))
  | _ => Raise TypeError
  end.

(** The value [_toJson] stores for member [k]. *)
Definition encode_member (c : DataClass) (k : string) (v : pyval) : res pyval :=
  if in_b64 c k then b64_encode_val v else Ok v.

(** The value [_fromJson] assigns to member [k] from the JSON value [x]. *)
Definition decode_member (c : DataClass) (k : string) (x : pyval) : res pyval :=
  if in_b64 c k then (bs <- b64decode x ;; Ok (PBytes bs)) else Ok x.

(** The member loop of [_toJson] (lines 200-208): None members are
    left out, base64 members are encoded. *)
Fixpoint members_to_json (c : DataClass) (ms : attrs) (d : attrs) : res attrs :=
  match ms with
  | [] => Ok d
  | (k, v) :: r =>
      match v with
      | PNone => members_to_json c r d
      | _ => x <- encode_member c k v ;; members_to_json c r (aset k x d)
      end
  end.

(** One sub-object mapping of [_toJson] (lines 210-220).  The JSON
    key is always the mapping's [JsonContainer] (never None); a list
    member is iterated and each element serialised with [rec], which
    is [_toJson] one level deeper; the appends of the loop build the
    list [vs]. *)
Definition submap_to_json (rec : pyval -> res pyval) (self : attrs) (item : SubObjectMap)
    (d : attrs) : res attrs :=
  let d := aset (JsonContainer item) (PList []) d in
  member <- getattr self (Container item) ;;
  if isList item then
    objs <- py_iter member ;;
    vs <- res_map rec objs ;;
    Ok (aset (JsonContainer item) (PList vs) d)
  else
    match member with
    | PNone => Ok d
    | _ => v <- rec member ;; Ok (aset (JsonContainer item) v d)
    end.

Fixpoint submaps_to_json (rec : pyval -> res pyval) (self : attrs) (items : list SubObjectMap)
    (d : attrs) : res attrs :=
  match items with
  | [] => Ok d
  | item :: r => d' <- submap_to_json rec self item d ;; submaps_to_json rec self r d'
  end.

(** [_toJson]; a value that is not an instance has no [_toJson]
    method (AttributeError). *)
Fixpoint _toJson (n : nat) (self : pyval) : res pyval :=
  match n with
  | O => Raise RecursionError
  | S n' =>
      match self with
      | PObj cn a =>
          let c := class_of cn in
          ms <- _get_members c a ;;
          d <- members_to_json c ms [] ;;
          d <- submaps_to_json (_toJson n') a (SubObjectMapping c) d ;;
          Ok (PDict d)
      | _ => Raise AttributeError
      end
  end.

(** The member loop of [_fromJson] (lines 152-160).  The [in] test is
    outside the [try] and its TypeError propagates; a failure of the
    lookup or of the base64 decoding inside the [try] makes the method
    return False, with the members set so far kept.  [Ok true] means
    the loop ran to its end. *)
Fixpoint members_from_json (c : DataClass) (ms : attrs) (d : pyval) (self : attrs)
    : attrs * res bool :=
  match ms with
  | [] => (self, Ok true)
  | (k, _) :: r =>
      match py_in_str k d with
      | Raise e => (self, Raise e)
      | Ok false => members_from_json c r d self
      | Ok true =>
          match (x <- py_getitem_str d k ;; decode_member c k x) with
          | Raise _ => (self, Ok false)
          | Ok x => members_from_json c r d (aset k x self)
          end
      end
  end.

(** The loop that fills a list container (lines 176-179): each tag
    gives a fresh sub-object, populated by [rec] ([_fromJson] one
    level deeper; its boolean result is ignored) and appended.  An
    exception leaves the sub-objects appended so far. *)
Fixpoint fill_list (rec : DataClass -> attrs -> pyval -> attrs * res bool)
    (sub : string) (tags : list pyval) (acc : list pyval) : list pyval * res unit :=
  match tags with
  | [] => (acc, Ok tt)
  | tag :: r =>
      let '(new, rr) := rec (class_of sub) (init (class_of sub)) tag in
      match rr with
      | Raise e => (acc, Raise e)
      | Ok _ => fill_list rec sub r (acc ++ [PObj sub new])
      end
  end.

(** One sub-object mapping of [_fromJson] (lines 164-184). *)
Definition submap_from_json (rec : DataClass -> attrs -> pyval -> attrs * res bool)
    (item : SubObjectMap) (d : pyval) (self : attrs) : attrs * res unit :=
  let sub := class_of (SubClass item) in
  match (b <- py_in_str (JsonContainer item) d ;;
         if b then py_getitem_str d (JsonContainer item)
         else Ok (if isList item then PNone else d)) with
  | Raise e => (self, Raise e)
  | Ok obj_tmp =>
      if isList item then
        let self := aset (Container item) (PList []) self in
        match obj_tmp with
        | PNone => (self, Ok tt)
        | _ =>
            match py_iter obj_tmp with
            | Raise e => (self, Raise e)
            | Ok tags =>
                let '(objs, r) := fill_list rec (SubClass item) tags [] in
                (aset (Container item) (PList objs) self, r)
            end
        end
      else
        match (b <- py_in_str (JSON_Type sub) obj_tmp ;;
               if b then (v <- py_getitem_str obj_tmp (JSON_Type sub) ;; Ok (Some v))
               else Ok None) with
        | Raise e => (self, Raise e)
        | Ok None => (aset (Container item) (PObj (SubClass item) (init sub)) self, Ok tt)
        | Ok (Some v) =>
            let '(new, r) := rec sub (init sub) v in
            match r with
            | Raise e => (self, Raise e)
            | Ok _ => (aset (Container item) (PObj (SubClass item) new) self, Ok tt)
            end
        end
  end.

Fixpoint submaps_from_json (rec : DataClass -> attrs -> pyval -> attrs * res bool)
    (items : list SubObjectMap) (d : pyval) (self : attrs) : attrs * res bool :=
  match items with
  | [] => (self, Ok true)
  | item :: r =>
      let '(self', rr) := submap_from_json rec item d self in
      match rr with
      | Raise e => (self', Raise e)
      | Ok _ => submaps_from_json rec r d self'
      end
  end.

(** [_fromJson] on an instance of class [c] with attributes [self]. *)
Fixpoint _fromJson (n : nat) (c : DataClass) (self : attrs) (d : pyval) : attrs * res bool :=
  match n with
  | O => (self, Raise RecursionError)
  | S n' =>
      match _get_members c self with
      | Raise e => (self, Raise e)
      | Ok ms =>
          let '(self', r) := members_from_json c ms d self in
          match r with
          | Ok true => submaps_from_json (_fromJson n') (SubObjectMapping c) d self'
          | _ => (self', r)
          end
      end
  end.

(** [fromJson]: a dict is used as it is; anything else goes through
    [json.loads], whose exceptions are caught ([loads] returns None
    for them); a None result makes the method return False. *)
Definition fromJson (loads : pyval -> option pyval) (n : nat) (c : DataClass)
    (self : attrs) (str_json : pyval) : attrs * res bool :=
  match str_json with
  | PDict _ => _fromJson n c self str_json
  | _ =>
      match loads str_json with
      | None | Some PNone => (self, Ok false)
      | Some d => _fromJson n c self d
      end
  end.

(** Python's [==] on the values of this model, with the recursion
    bounded by [n]: [True == 1], lists and tuples element-wise, dicts
    by length and key lookup (CPython's [dict_equal]), and instances
    by [BaseDataObject.__eq__]; when the left operand is not an
    instance and the right one is, Python calls the reflected
    [__eq__] of the right operand.  [==] between instances nested in
    other values reads the members as [member_attrs]: it is Python's
    [==] on instances whose properties evaluate.  The members of the
    program's classes hold no instances; the top-level [__eq__] below
    evaluates the properties of [self] first. *)
Fixpoint py_eq (n : nat) (a b : pyval) : bool :=
  match n with
  | O => false
  | S n' =>
      let base_eq (ca : string) (aa : attrs) (other : pyval) : bool :=
        match other with
        | PObj cb ab =>
            String.eqb (JSON_Type (class_of ca)) (JSON_Type (class_of cb))
            && forallb (fun kv => match aget (fst kv) ab with
                                  | Some w => py_eq n' w (snd kv)
                                  | None => false
                                  end) (member_attrs (class_of ca) aa)
        | _ => false
        end in
      match a, b with
      | PObj ca aa, _ => base_eq ca aa b
      | _, PObj cb ab => base_eq cb ab a
      | PNone, PNone => true
      | PBool x, PBool y => Bool.eqb x y
      | PBool x, PInt z | PInt z, PBool x => Z.eqb (if x then 1 else 0) z
      | PInt x, PInt y => Z.eqb x y
      | PStr s, PStr t => String.eqb s t
      | PBytes x, PBytes y =>
          (length x =? length y)%nat && forallb (fun p => Byte.eqb (fst p) (snd p)) (combine x y)
      | PList l, PList m | PTuple l, PTuple m =>
          (length l =? length m)%nat
          && forallb (fun p => py_eq n' (fst p) (snd p)) (combine l m)
      | PDict x, PDict y =>
          (length x =? length y)%nat
          && forallb (fun kv => match aget (fst kv) y with
                                | Some w => py_eq n' (snd kv) w
                                | None => false
                                end) x
      | _, _ => false
      end
  end.

(** [toRawJson]: [self._toJson()]. *)
Definition toRawJson (n : nat) (self : pyval) : res pyval := _toJson n self.

(** [a == b] with a recursion budget that covers both operands. *)
Definition py_eqv (a b : pyval) : bool := py_eq (S (depth a + depth b)) a b.

(** [BaseDataObject.__eq__(self, other)] (lines 116-136): the members
    of [self] are read first (its properties may raise); then the type
    tags must agree and every member of [self] must be an attribute of
    [other] with an equal value ([getattr(other, m) != v] breaks the
    loop).  A value that is not an instance has no such method. *)
Definition __eq__ (self other : pyval) : res bool :=
  match self with
  | PObj cn a => _ <- _get_members (class_of cn) a ;; Ok (py_eqv self other)
  | _ => Raise AttributeError
  end.

(** [BaseDataObject.__ne__]: [not self.__eq__(other)]. *)
Definition __ne__ (self other : pyval) : res bool := b <- __eq__ self other ;; Ok (negb b).

(** [BaseDataObject.isOfType] (a classmethod). *)
Definition isOfType (c : DataClass) (other : pyval) : bool :=
  match other with
  | PObj cn _ => String.eqb (JSON_Type c) (JSON_Type (class_of cn))
  | _ => false
  end.
End Serial.

(** ** The conditions of the theorems

    The predicates and functions the statements below use: when a class
    and an instance can round-trip ([class_okb], [wf_obj] and its
    checker [wf_objb]), the instance the round trip rebuilds ([reset]),
    and the plain data [__eq__] compares as Python does ([plainb]). *)

Section Spec.
Context {codec : B64Codec}.
Variable class_of : string -> DataClass.

(** The JSON value a mapping reads its sub-objects from. *)
Definition obj_tmp_of (item : SubObjectMap) (d : pyval) : res pyval :=
  b <- py_in_str (JsonContainer item) d ;;
  if b then py_getitem_str d (JsonContainer item)
  else Ok (if isList item then PNone else d).

(** The conditions on a class under which its instances survive a
    trip through [_toJson] and [_fromJson]: its attributes have
    distinct names, its mappings are list mappings with distinct
    containers and JSON keys, each container is a private attribute
    of [__init__], no member is named like a JSON key, and the
    properties of a fresh instance evaluate. *)
Definition class_okb (c : DataClass) : bool :=
  let ks := akeys (init c) in
  nodupb ks && forallb isList (SubObjectMapping c)
  && nodupb (map JsonContainer (SubObjectMapping c))
  && nodupb (map Container (SubObjectMapping c))
  && forallb (fun it =>
       existsb (String.eqb (Container it)) ks && negb (is_member c (Container it))
       && negb (existsb (fun k => is_member c k && String.eqb k (JsonContainer it)) ks))
     (SubObjectMapping c)
  && props_ok c (init c).

Definition is_none (v : pyval) : bool := match v with PNone => true | _ => false end.
Definition is_bytes (v : pyval) : bool := match v with PBytes _ => true | _ => false end.

(** An instance the round trip applies to: its class is [class_okb],
    it has the attributes [__init__] creates, in the same order; its
    properties evaluate (no getter raises anything but AttributeError); a
    member it holds as None is None after [__init__]; a base64 member
    holds bytes or None; and each container holds a list of
    well-formed instances of the mapping's sub-class. *)
Inductive wf_obj : pyval -> Prop :=
| wf_obj_intro cn a :
    class_okb (class_of cn) = true ->
    akeys a = akeys (init (class_of cn)) ->
    props_ok (class_of cn) a = true ->
    (forall k, is_member (class_of cn) k = true -> aget k a = Some PNone ->
               aget k (init (class_of cn)) = Some PNone) ->
    (forall k v, is_member (class_of cn) k = true -> in_b64 (class_of cn) k = true ->
                 aget k a = Some v -> is_none v || is_bytes v = true) ->
    (forall it, In it (SubObjectMapping (class_of cn)) ->
       exists l, aget (Container it) a = Some (PList l) /\
         forall e, In e l -> exists a', e = PObj (SubClass it) a' /\ wf_obj e) ->
    wf_obj (PObj cn a).

(** The properties of class [c] depend only on which attributes an
    instance has and on the values of its members: [prettyName] reads
    [Name], the other properties of the program return a private
    container whatever it holds. *)
Definition props_local (c : DataClass) : Prop :=
  forall a b, akeys a = akeys b -> (forall k, is_member c k = true -> aget k a = aget k b) ->
  props_ok c a = props_ok c b.

Definition container_of (c : DataClass) (k : string) : option SubObjectMap :=
  find (fun it => String.eqb (Container it) k) (SubObjectMapping c).

(** The checker of [wf_obj]: it walks the attributes and checks the
    value of every container. *)
Fixpoint wf_objb (v : pyval) : bool :=
  match v with
  | PObj cn a =>
      let c := class_of cn in
      class_okb c
      && names_eqb (akeys a) (akeys (init c))
      && props_ok c a
      && (fix go (a : attrs) : bool :=
            match a with
            | [] => true
            | (k, x) :: r =>
                (negb (is_member c k && is_none x)
                 || match aget k (init c) with Some PNone => true | _ => false end)
                && (negb (is_member c k && in_b64 c k) || is_none x || is_bytes x)
                && match container_of c k with
                   | Some it =>
                       match x with
                       | PList l =>
                           forallb (fun e => match e with
                                             | PObj s _ => String.eqb s (SubClass it) && wf_objb e
                                             | _ => false
                                             end) l
                       | _ => false
                       end
                   | None => true
                   end
                && go r
            end) a
  | _ => false
  end.

(** The state an instance comes back in: its members and the lists of
    its containers (each sub-object again reset), and for every other
    attribute the value [__init__] gives it. *)
Fixpoint reset (v : pyval) : pyval :=
  match v with
  | PObj cn a =>
      let c := class_of cn in
      PObj cn ((fix go (a : attrs) : attrs :=
                 match a with
                 | [] => []
                 | (k, x) :: r =>
                     (k, if is_member c k then x
                         else match container_of c k with
                              | Some _ => match x with
                                          | PList l => PList (map reset l)
                                          | _ => x
                                          end
                              | None => match aget k (init c) with
                                        | Some x0 => x0
                                        | None => x
                                        end
                              end) :: go r
                 end) a)
  | _ => v
  end.

Definition has (k : string) (dd : attrs) : bool :=
  match aget k dd with Some _ => true | None => false end.

Definition reset_attr (c : DataClass) (k : string) (x : pyval) : pyval :=
  if is_member c k then x
  else match container_of c k with
       | Some _ => match x with PList l => PList (map reset l) | _ => x end
       | None => match aget k (init c) with Some x0 => x0 | None => x end
       end.

(** The value [_toJson] reads for member [k] of [a] (None when absent). *)
Definition oval (a : attrs) (k : string) : pyval := match aget k a with Some v => v | None => PNone end.

(** The statement of the round trip at recursion budget [n]. *)
Definition roundtrip_at (n : nat) : Prop :=
  forall cn a D, wf_obj (PObj cn a) -> _toJson class_of n (PObj cn a) = Ok D ->
  exists f, _fromJson class_of n (class_of cn) (init (class_of cn)) D = (f, Ok true) /\
            reset (PObj cn a) = PObj cn f.

Definition entry_ok (c : DataClass) (k : string) (x : pyval) : bool :=
  (negb (is_member c k && is_none x)
   || match aget k (init c) with Some PNone => true | _ => false end)
  && (negb (is_member c k && in_b64 c k) || is_none x || is_bytes x)
  && match container_of c k with
     | Some it =>
         match x with
         | PList l =>
             forallb (fun e => match e with
                               | PObj s _ => String.eqb s (SubClass it) && wf_objb e
                               | _ => false
                               end) l
         | _ => false
         end
     | None => true
     end.

(** Plain data: the JSON-like values without instances, whose dicts
    have distinct keys (as every dict [json.loads] builds). *)
Fixpoint plainb (v : pyval) : bool :=
  match v with
  | PObj _ _ => false
  | PList l | PTuple l => forallb plainb l
  | PDict d => nodupb (akeys d) && forallb (fun kv => plainb (snd kv)) d
  | _ => true
  end.


(** The condition of the JSON text round trip: every member of every
    instance of the tree holds a value that JSON text carries unchanged
    ([jsonb]: no tuple, no bytes) and no base64 member holds bytes. *)
Fixpoint textb (v : pyval) : bool :=
  match v with
  | PObj cn a =>
      let c := class_of cn in
      (fix go (a : attrs) : bool :=
         match a with
         | [] => true
         | (k, x) :: r =>
             (negb (is_member c k) || (jsonb x && (is_none x || negb (in_b64 c k))))
             && match container_of c k, x with
                | Some _, PList l => forallb textb l
                | _, _ => true
                end
             && go r
         end) a
  | _ => true
  end.

End Spec.

(** ** The recursion limit: results do not depend on the budget beyond the depth *)

Section Fuel.
Context {codec : B64Codec}.
Variable class_of : string -> DataClass.

Lemma get_members_ok c s : props_ok c s = true -> _get_members c s = Ok (member_attrs c s).
Proof. unfold props_ok, _get_members. destruct (eval_props _ s); [reflexivity|discriminate]. Qed.

(** One level of [_toJson] on an instance whose properties evaluate. *)
Lemma toJson_obj n cn a : props_ok (class_of cn) a = true ->
  _toJson class_of (S n) (PObj cn a) =
  (d <- members_to_json (class_of cn) (member_attrs (class_of cn) a) [] ;;
   d <- submaps_to_json (_toJson class_of n) a (SubObjectMapping (class_of cn)) d ;;
   Ok (PDict d)).
Proof. intros H. cbn [_toJson]. rewrite (get_members_ok _ _ H). reflexivity. Qed.

Lemma getattr_depth cn a k v : getattr a k = Ok v -> depth v < depth (PObj cn a).
Proof.
  unfold getattr. destruct (aget k a) eqn:E; [|discriminate].
  intros H; injection H as <-. apply (depth_aget k), E.
Qed.

Lemma submaps_to_json_ext rec1 rec2 cn a items d :
  (forall v, depth v < depth (PObj cn a) -> rec1 v = rec2 v) ->
  submaps_to_json rec1 a items d = submaps_to_json rec2 a items d.
Proof.
  intros Hrec. revert d; induction items as [|item items IH]; intros d; simpl; [reflexivity|].
  unfold submap_to_json. destruct (getattr a (Container item)) as [m|e] eqn:Em; simpl; [|reflexivity].
  pose proof (getattr_depth cn a _ _ Em) as Hm.
  destruct (isList item).
  - destruct (py_iter m) as [objs|e] eqn:Ei; simpl; [|reflexivity].
    rewrite (res_map_ext_in rec1 rec2); [destruct (res_map rec2 objs); simpl; auto|].
    intros x Hx. apply Hrec. pose proof (py_iter_depth _ _ _ Ei Hx). lia.
  - destruct m; try (rewrite Hrec by exact Hm; destruct (rec2 _); simpl; auto). apply IH.
Qed.

Lemma _toJson_fuel n : forall m o, depth o < n -> n <= m ->
  _toJson class_of n o = _toJson class_of m o.
Proof.
  induction n as [|n IH]; intros m o Hd Hm; [lia|]. destruct m as [|m]; [lia|].
  destruct o as [| | | | | | | |cn a]; try reflexivity. simpl.
  destruct (_get_members _ _); simpl; [|reflexivity].
  destruct (members_to_json _ _ _); simpl; [|reflexivity].
  rewrite (submaps_to_json_ext (_toJson class_of n) (_toJson class_of m) cn); [reflexivity|].
  intros v Hv. apply IH; lia.
Qed.

Lemma obj_tmp_depth item d o : obj_tmp_of item d = Ok o ->
  depth o <= depth d /\ (isList item = true -> o = PNone \/ depth o < depth d).
Proof.
  unfold obj_tmp_of. destruct (py_in_str _ d) as [[|]|e]; simpl; try discriminate.
  - intros H. apply py_getitem_depth in H. lia.
  - destruct (isList item); intros H; injection H as <-; simpl; split; auto; lia.
Qed.

Lemma fill_list_ext rec1 rec2 sub tags acc :
  (forall c s v, In v tags -> rec1 c s v = rec2 c s v) ->
  fill_list class_of rec1 sub tags acc = fill_list class_of rec2 sub tags acc.
Proof.
  revert acc; induction tags as [|t tags IH]; intros acc H; simpl; [reflexivity|].
  rewrite H by (left; reflexivity). destruct (rec2 _ _ t) as [new [b|e]]; [|reflexivity].
  apply IH. intros c s0 v Hv. apply H. right; exact Hv.
Qed.

Lemma submap_from_json_ext rec1 rec2 item d self :
  (forall c s v, depth v < depth d -> rec1 c s v = rec2 c s v) ->
  submap_from_json class_of rec1 item d self = submap_from_json class_of rec2 item d self.
Proof.
  intros H. unfold submap_from_json. fold (obj_tmp_of item d).
  destruct (obj_tmp_of item d) as [o|e] eqn:Eo; [|reflexivity].
  destruct (obj_tmp_depth _ _ _ Eo) as [Hle Hlist].
  destruct (isList item) eqn:El.
  - destruct (Hlist eq_refl) as [->|Hlt]; [reflexivity|].
    destruct o; try reflexivity;
      (destruct (py_iter _) as [tags|e] eqn:Ei; [|reflexivity];
       rewrite (fill_list_ext rec1 rec2); [reflexivity|];
       intros c0 s0 v0 Hv; apply H; pose proof (py_iter_depth _ _ _ Ei Hv); lia).
  - destruct (b <- py_in_str _ o ;; _) as [[v|]|e] eqn:Ev; try reflexivity.
    apply res_bind_ok in Ev as (b & _ & Ev). destruct b; [|discriminate].
    apply res_bind_ok in Ev as (v' & Ev & Hv). injection Hv as <-.
    apply py_getitem_depth in Ev. rewrite H by lia. reflexivity.
Qed.

Lemma submaps_from_json_ext rec1 rec2 items d self :
  (forall c s v, depth v < depth d -> rec1 c s v = rec2 c s v) ->
  submaps_from_json class_of rec1 items d self = submaps_from_json class_of rec2 items d self.
Proof.
  intros H. revert self; induction items as [|item items IH]; intros self; simpl; [reflexivity|].
  rewrite (submap_from_json_ext rec1 rec2) by exact H.
  destruct (submap_from_json _ _ _ _ _) as [s' [u|e]]; [apply IH|reflexivity].
Qed.

Lemma _fromJson_fuel n : forall m c self d, depth d < n -> n <= m ->
  _fromJson class_of n c self d = _fromJson class_of m c self d.
Proof.
  induction n as [|n IH]; intros m c self d Hd Hm; [lia|]. destruct m as [|m]; [lia|].
  simpl. destruct (_get_members c self) as [ms|e]; [|reflexivity].
  destruct (members_from_json _ _ _ _) as [s' [[|]|e]]; try reflexivity.
  apply submaps_from_json_ext. intros c' s v Hv. apply IH; lia.
Qed.

End Fuel.

(** ** Round trip *)

Section Roundtrip.
Context {codec : B64Codec}.
Variable class_of : string -> DataClass.

(** *** What [_toJson] writes *)

Lemma decode_encode_member c k v x :
  encode_member c k v = Ok x -> decode_member c k x = Ok v.
Proof.
  unfold encode_member, decode_member. destruct (in_b64 c k).
  - destruct v; simpl; try discriminate. intros H; injection H as <-.
    rewrite b64decode_encode. reflexivity.
  - intros H; injection H as ->. reflexivity.
Qed.

Lemma members_to_json_cons c k v ms d :
  members_to_json c ((k, v) :: ms) d =
  if is_none v then members_to_json c ms d
  else x <- encode_member c k v ;; members_to_json c ms (aset k x d).
Proof. destruct v; reflexivity. Qed.

(** Member [k] is in the output dict exactly when it is not None, and
    then with its encoded value. *)
Lemma members_to_json_get c ms d d' k :
  NoDup (akeys ms) -> members_to_json c ms d = Ok d' ->
  match aget k ms with
  | Some v => if is_none v then aget k d' = aget k d
              else exists x, encode_member c k v = Ok x /\ aget k d' = Some x
  | None => aget k d' = aget k d
  end.
Proof.
  revert d; induction ms as [|[k0 v0] ms IH]; intros d Hnd H.
  - simpl in H. injection H as <-. reflexivity.
  - cbn [akeys map fst] in Hnd. cbn [aget].
    inversion Hnd as [|? ? Hnin Hnd']; subst. rewrite members_to_json_cons in H.
    assert (Hk0 : aget k0 ms = None) by (apply aget_None; exact Hnin).
    destruct (is_none v0) eqn:En.
    + specialize (IH d Hnd' H). destruct (String.eqb_spec k k0) as [->|Hne].
      * rewrite En. rewrite Hk0 in IH. exact IH.
      * exact IH.
    + apply res_bind_ok in H as (x0 & Hx0 & H). specialize (IH _ Hnd' H).
      destruct (String.eqb_spec k k0) as [->|Hne].
      * rewrite En. rewrite Hk0, aget_aset_eq in IH. eauto.
      * destruct (aget k ms) as [v|]; [destruct (is_none v)|];
          rewrite ?aget_aset_ne in IH by congruence; exact IH.
Qed.

Lemma submap_to_json_other rec a item d d1 k :
  submap_to_json rec a item d = Ok d1 -> k <> JsonContainer item -> aget k d1 = aget k d.
Proof.
  unfold submap_to_json. intros H Hk. res_inv H.
  assert (Hset : forall v, aget k (aset (JsonContainer item) v d) = aget k d)
    by (intros v; apply aget_aset_ne; congruence).
  destruct (isList item).
  - res_inv H. injection H as <-. rewrite !aget_aset_ne by congruence. reflexivity.
  - destruct a0; try (injection H as <-; apply Hset);
      res_inv H; injection H as <-; rewrite !aget_aset_ne by congruence; reflexivity.
Qed.

(** Each list mapping puts the serialised elements of its container
    under its JSON key; other keys are left alone. *)
Lemma submaps_to_json_get rec a items d d' :
  NoDup (map JsonContainer items) -> submaps_to_json rec a items d = Ok d' ->
  (forall k, ~ In k (map JsonContainer items) -> aget k d' = aget k d) /\
  (forall it, In it items -> isList it = true ->
     exists m objs vs, getattr a (Container it) = Ok m /\ py_iter m = Ok objs /\
       res_map rec objs = Ok vs /\ aget (JsonContainer it) d' = Some (PList vs)).
Proof.
  revert d; induction items as [|item items IH]; intros d Hnd H; simpl in *.
  - injection H as <-. split; [reflexivity|tauto].
  - inversion Hnd as [|? ? Hnin Hnd']; subst. res_inv H. rename a0 into d1.
    destruct (IH _ Hnd' H) as [IH1 IH2]. split.
    + intros k Hk. rewrite IH1 by tauto. apply (submap_to_json_other rec a item); [exact Hr|].
      intros ->. apply Hk. left. reflexivity.
    + intros it [<-|Hit] Hl; [|apply IH2; assumption].
      rewrite IH1 by exact Hnin. unfold submap_to_json in Hr. rewrite Hl in Hr.
      res_inv Hr. res_inv Hr. injection Hr as <-. rewrite aget_aset_eq. eauto 7.
Qed.

(** *** What [_fromJson] reads *)

(** The member loop sets every member present in the dict to its
    decoded value, provided each decoding succeeds. *)
Lemma members_from_json_set c ms dd self (f : string -> pyval) :
  NoDup (akeys ms) ->
  (forall k x, In k (akeys ms) -> aget k dd = Some x -> decode_member c k x = Ok (f k)) ->
  exists self', members_from_json c ms (PDict dd) self = (self', Ok true) /\
    (forall k, aget k self' =
       if existsb (String.eqb k) (akeys ms) && has k dd then Some (f k) else aget k self) /\
    (incl (akeys ms) (akeys self) -> akeys self' = akeys self).
Proof.
  revert self; induction ms as [|[k0 v0] ms IH]; intros self Hnd Hdec.
  - exists self. simpl. split; [reflexivity|]. split; reflexivity.
  - cbn [akeys map fst] in Hnd, Hdec. inversion Hnd as [|? ? Hnin Hnd']; subst.
    cbn [members_from_json py_in_str].
    destruct (aget k0 dd) as [x0|] eqn:Ex0.
    + pose proof (Hdec k0 x0 (or_introl eq_refl) Ex0) as Hd.
      cbn [py_getitem_str res_bind]. rewrite Ex0. cbn [res_bind]. rewrite Hd.
      destruct (IH (aset k0 (f k0) self) Hnd' (fun k x Hk => Hdec k x (or_intror Hk)))
        as (s' & Hs & Hget & Hkeys).
      exists s'. split; [exact Hs|]. split.
      * intros k. rewrite Hget, aget_aset. cbn [akeys map fst existsb].
        destruct (String.eqb_spec k k0) as [->|Hne]; simpl.
        -- destruct (existsb _ _) eqn:E; [apply existsb_eqb_In in E; tauto|].
           unfold has. rewrite Ex0. reflexivity.
        -- reflexivity.
      * intros Hincl. rewrite Hkeys; [apply akeys_aset_in, Hincl; left; reflexivity|].
        intros k Hk. rewrite akeys_aset_in by (apply Hincl; left; reflexivity).
        apply Hincl. right. exact Hk.
    + destruct (IH self Hnd' (fun k x Hk => Hdec k x (or_intror Hk)))
        as (s' & Hs & Hget & Hkeys).
      exists s'. split; [exact Hs|]. split.
      * intros k. rewrite Hget. cbn [akeys map fst existsb].
        destruct (String.eqb_spec k k0) as [->|Hne]; simpl; [|reflexivity].
        unfold has. rewrite Ex0, andb_false_r. reflexivity.
      * intros Hincl. apply Hkeys. intros k Hk. apply Hincl. right. exact Hk.
Qed.

Lemma fill_list_ok rec sub vs fs acc :
  Forall2 (fun v f => exists b, rec (class_of sub) (init (class_of sub)) v = (f, Ok b)) vs fs ->
  fill_list class_of rec sub vs acc = (acc ++ map (PObj sub) fs, Ok tt).
Proof.
  intros H. revert acc; induction H as [|v f vs fs [b Hb] _ IH]; intros acc; simpl.
  - rewrite app_nil_r. reflexivity.
  - rewrite Hb, IH, <- app_assoc. reflexivity.
Qed.

Lemma submap_from_json_list rec item dd self vs objs :
  isList item = true -> aget (JsonContainer item) dd = Some (PList vs) ->
  fill_list class_of rec (SubClass item) vs [] = (objs, Ok tt) ->
  submap_from_json class_of rec item (PDict dd) self =
    (aset (Container item) (PList objs) (aset (Container item) (PList []) self), Ok tt).
Proof.
  intros Hl Hv Hf. unfold submap_from_json. simpl. rewrite Hv. simpl. rewrite Hl, Hf.
  reflexivity.
Qed.

(** The mapping loop fills each list container with the sub-objects
    built from the list under its JSON key. *)
Lemma submaps_from_json_set rec items dd self (objs : SubObjectMap -> list pyval) :
  NoDup (map Container items) -> forallb isList items = true ->
  (forall it, In it items -> exists vs, aget (JsonContainer it) dd = Some (PList vs) /\
     fill_list class_of rec (SubClass it) vs [] = (objs it, Ok tt)) ->
  exists self', submaps_from_json class_of rec items (PDict dd) self = (self', Ok true) /\
    (forall k, aget k self' =
       match find (fun it => String.eqb (Container it) k) items with
       | Some it => Some (PList (objs it))
       | None => aget k self
       end) /\
    (incl (map Container items) (akeys self) -> akeys self' = akeys self).
Proof.
  revert self; induction items as [|it items IH]; intros self Hnd Hl Hit.
  - exists self. split; [reflexivity|]. split; reflexivity.
  - simpl in Hnd, Hl. inversion Hnd as [|? ? Hnin Hnd']; subst.
    apply andb_prop in Hl as [Hl Hls].
    destruct (Hit it (or_introl eq_refl)) as (vs & Hv & Hf).
    cbn [submaps_from_json]. rewrite (submap_from_json_list rec it dd self vs (objs it)) by assumption.
    destruct (IH (aset (Container it) (PList (objs it)) (aset (Container it) (PList []) self))
                 Hnd' Hls (fun it' H => Hit it' (or_intror H))) as (s' & Hs & Hget & Hkeys).
    exists s'. split; [exact Hs|]. split.
    + intros k. rewrite Hget. simpl. destruct (String.eqb_spec (Container it) k) as [<-|Hne].
      * destruct (find _ items) as [it'|] eqn:E; [|rewrite aget_aset_eq; reflexivity].
        apply find_some in E as [Hin E]. apply String.eqb_eq in E.
        exfalso. apply Hnin. rewrite <- E. apply in_map, Hin.
      * destruct (find _ items); [reflexivity|]. rewrite !aget_aset_ne by exact Hne. reflexivity.
    + intros Hincl. assert (Hc : In (Container it) (akeys self)) by (apply Hincl; left; reflexivity).
      rewrite Hkeys; [rewrite !akeys_aset_in; [reflexivity|exact Hc|]|].
      * rewrite akeys_aset_in by exact Hc. exact Hc.
      * intros k Hk. rewrite !akeys_aset_in; [apply Hincl; right; exact Hk|exact Hc|].
        rewrite akeys_aset_in by exact Hc. exact Hc.
Qed.

(** *** Assembling the round trip *)

Lemma reset_obj cn a :
  reset class_of (PObj cn a) = PObj cn (map (fun kv => (fst kv, reset_attr class_of (class_of cn) (fst kv) (snd kv))) a).
Proof.
  cbn [reset]. f_equal. induction a as [|[k x] a IH]; [reflexivity|].
  cbn [map fst snd]. rewrite <- IH. reflexivity.
Qed.

Lemma aget_map_attrs (g : string -> pyval -> pyval) k a :
  aget k (map (fun kv => (fst kv, g (fst kv) (snd kv))) a) = option_map (g k) (aget k a).
Proof.
  induction a as [|[k' x] a IH]; simpl; [reflexivity|].
  destruct (String.eqb_spec k k') as [->|_]; [reflexivity|exact IH].
Qed.

Lemma get_members_aget c s k : NoDup (akeys s) ->
  aget k (member_attrs c s) = if is_member c k then aget k s else None.
Proof.
  intros H. unfold member_attrs. rewrite sort_by_key_aget by (apply NoDup_akeys_filter, H).
  apply (aget_filter (is_member c)).
Qed.

Lemma get_members_In c s k :
  In k (akeys (member_attrs c s)) <-> In k (akeys s) /\ is_member c k = true.
Proof.
  unfold member_attrs. rewrite sort_by_key_akeys_In. apply (akeys_In_filter (is_member c)).
Qed.

Lemma get_members_NoDup c s : NoDup (akeys s) -> NoDup (akeys (member_attrs c s)).
Proof. intros H. apply sort_by_key_NoDup, NoDup_akeys_filter, H. Qed.

Lemma class_okb_spec c : class_okb c = true ->
  NoDup (akeys (init c)) /\ forallb isList (SubObjectMapping c) = true /\
  NoDup (map JsonContainer (SubObjectMapping c)) /\ NoDup (map Container (SubObjectMapping c)) /\
  forall it, In it (SubObjectMapping c) ->
    In (Container it) (akeys (init c)) /\ is_member c (Container it) = false /\
    forall k, In k (akeys (init c)) -> is_member c k = true -> k <> JsonContainer it.
Proof.
  unfold class_okb. rewrite !andb_true_iff, !nodupb_NoDup.
  intros (((((H1 & H2) & H3) & H4) & H5) & _).
  split; [exact H1|]. split; [exact H2|]. split; [exact H3|]. split; [exact H4|].
  intros it Hit. rewrite forallb_forall in H5. specialize (H5 it Hit). rewrite !andb_true_iff in H5.
  destruct H5 as ((H5 & H6) & H7). split; [apply existsb_eqb_In, H5|].
  split; [apply negb_true_iff, H6|].
  - intros k Hk Hm ->. rewrite negb_true_iff in H7.
    assert (existsb (fun k0 => is_member c k0 && String.eqb k0 (JsonContainer it)) (akeys (init c)) = true)
      as E by (apply existsb_exists; exists (JsonContainer it); rewrite Hm, String.eqb_refl; auto).
    congruence.
Qed.

Lemma class_okb_props c : class_okb c = true -> props_ok c (init c) = true.
Proof. unfold class_okb. rewrite !andb_true_iff. tauto. Qed.

Lemma is_none_eq v : is_none v = true -> v = PNone.
Proof. destruct v; simpl; congruence. Qed.

Lemma existsb_members c s k :
  existsb (String.eqb k) (akeys (member_attrs c s)) = existsb (String.eqb k) (akeys s) && is_member c k.
Proof.
  apply eq_true_iff_eq. rewrite andb_true_iff, !existsb_eqb_In. apply get_members_In.
Qed.

(** One level of the round trip: the facts about an object [a] of class
    [class_of cn] and the dicts [_toJson] built for it. *)
Section OneLevel.
Variables (cn : string) (a D0 D1 : attrs).
Hypothesis Hok : class_okb (class_of cn) = true.
Hypothesis Hkeys : akeys a = akeys (init (class_of cn)).
Hypothesis Hnone : forall k, is_member (class_of cn) k = true -> aget k a = Some PNone ->
                             aget k (init (class_of cn)) = Some PNone.
Hypothesis Hm : members_to_json (class_of cn) (member_attrs (class_of cn) a) [] = Ok D0.
Hypothesis Hs : forall k, ~ In k (map JsonContainer (SubObjectMapping (class_of cn))) ->
                          aget k D1 = aget k D0.

Lemma member_not_json k : In k (akeys (init (class_of cn))) -> is_member (class_of cn) k = true ->
  ~ In k (map JsonContainer (SubObjectMapping (class_of cn))).
Proof.
  intros Hin Hmem H. apply in_map_iff in H as (it & Hjc & Hit).
  destruct (class_okb_spec _ Hok) as (_ & _ & _ & _ & Hits).
  destruct (Hits it Hit) as (_ & _ & Hk). exact (Hk k Hin Hmem (eq_sym Hjc)).
Qed.

(** A member of the class is in the output of [_toJson] exactly when
    the object holds it with a value other than None. *)
Lemma member_in_output k v : In k (akeys (init (class_of cn))) ->
  is_member (class_of cn) k = true -> aget k a = Some v ->
  if is_none v then aget k D1 = None
  else exists x, encode_member (class_of cn) k v = Ok x /\ aget k D1 = Some x.
Proof.
  intros Hin Hmem Hv. rewrite Hs by (apply member_not_json; assumption).
  destruct (class_okb_spec _ Hok) as (Hnd & _).
  assert (HndA : NoDup (akeys a)) by (rewrite Hkeys; exact Hnd).
  pose proof (members_to_json_get _ _ [] D0 k (get_members_NoDup _ _ HndA) Hm) as G.
  rewrite get_members_aget, Hmem, Hv in G by exact HndA. exact G.
Qed.

Lemma roundtrip_decode k x : In k (akeys (member_attrs (class_of cn) (init (class_of cn)))) ->
  aget k D1 = Some x -> decode_member (class_of cn) k x = Ok (oval a k).
Proof.
  intros Hin Hx. apply get_members_In in Hin as [Hin Hmem].
  destruct (aget_In_akeys k a) as [v Hv]; [rewrite Hkeys; exact Hin|].
  pose proof (member_in_output k v Hin Hmem Hv) as G. unfold oval. rewrite Hv.
  destruct (is_none v); [congruence|]. destruct G as (x' & He & Hg).
  rewrite Hg in Hx. injection Hx as <-. apply decode_encode_member, He.
Qed.

(** After both loops of [_fromJson], every attribute has the value
    [reset] gives it. *)
Lemma roundtrip_attr (f1 f2 : attrs) (objs : SubObjectMap -> list pyval) k :
  (forall it, In it (SubObjectMapping (class_of cn)) ->
     exists l, aget (Container it) a = Some (PList l) /\ objs it = map (reset class_of) l) ->
  (forall k, aget k f1 =
     if existsb (String.eqb k) (akeys (member_attrs (class_of cn) (init (class_of cn))))
        && has k D1 then Some (oval a k) else aget k (init (class_of cn))) ->
  (forall k, aget k f2 =
     match find (fun it => String.eqb (Container it) k) (SubObjectMapping (class_of cn)) with
     | Some it => Some (PList (objs it))
     | None => aget k f1
     end) ->
  aget k f2 = option_map (reset_attr class_of (class_of cn) k) (aget k a).
Proof.
  intros Hobjs Hf1 Hf2. destruct (class_okb_spec _ Hok) as (Hnd & _ & _ & _ & Hits).
  rewrite Hf2. fold (container_of (class_of cn) k).
  destruct (container_of (class_of cn) k) as [it|] eqn:Ec.
  - pose proof Ec as Ec'. apply find_some in Ec as [Hit Heq]. apply String.eqb_eq in Heq. subst k.
    destruct (Hobjs it Hit) as (l & Hl & ->). rewrite Hl. simpl. unfold reset_attr.
    rewrite (proj1 (proj2 (Hits it Hit))), Ec'. reflexivity.
  - rewrite Hf1, existsb_members. unfold reset_attr. rewrite Ec.
    destruct (is_member (class_of cn) k) eqn:Hmem; rewrite ?andb_true_r, ?andb_false_r.
    + destruct (existsb (String.eqb k) (akeys (init (class_of cn)))) eqn:Ein; simpl.
      * apply existsb_eqb_In in Ein.
        destruct (aget_In_akeys k a) as [v Hv]; [rewrite Hkeys; exact Ein|].
        pose proof (member_in_output k v Ein Hmem Hv) as G. unfold has, oval. rewrite Hv.
        destruct (is_none v) eqn:En.
        -- apply is_none_eq in En. subst v. rewrite G. simpl. apply Hnone; assumption.
        -- destruct G as (x & _ & ->). reflexivity.
      * assert (Hn : ~ In k (akeys (init (class_of cn))))
          by (intros H; apply existsb_eqb_In in H; congruence).
        rewrite (proj2 (aget_None _ _) Hn), (proj2 (aget_None k a)) by (rewrite Hkeys; exact Hn).
        reflexivity.
    + destruct (aget k a) as [x|] eqn:Hx; simpl.
      * destruct (aget_In_akeys k (init (class_of cn))) as [x0 Hx0];
          [rewrite <- Hkeys; eapply aget_Some_in, Hx|]. rewrite Hx0. reflexivity.
      * apply aget_None. rewrite <- Hkeys. apply aget_None, Hx.
Qed.
End OneLevel.

(** The sub-objects of a container come back, each one reset. *)
Lemma roundtrip_children n sub l vs : roundtrip_at class_of n ->
  (forall e, In e l -> exists a', e = PObj sub a' /\ wf_obj class_of e) ->
  res_map (_toJson class_of n) l = Ok vs ->
  fill_list class_of (_fromJson class_of n) sub vs [] = (map (reset class_of) l, Ok tt).
Proof.
  intros IH Hl Hr. apply res_map_ok in Hr.
  destruct (Forall2_build (fun e v => _toJson class_of n e = Ok v)
              (fun v f => exists b, _fromJson class_of n (class_of sub) (init (class_of sub)) v = (f, Ok b))
              (reset class_of) (PObj sub) l vs Hr) as (fs & Hfs & Hmap).
  - intros e v He Hv. destruct (Hl e He) as (a' & -> & Hwf).
    destruct (IH sub a' v Hwf Hv) as (f & Hf & Hreset). exists f. split; [eauto|exact Hreset].
  - rewrite (fill_list_ok _ _ _ fs [] Hfs). simpl. f_equal. exact Hmap.
Qed.

(** Round trip at the level of [_toJson] and [_fromJson].  For a well-formed instance
    (a list-mapped class, no None member where [__init__] has a value,
    base64 members holding bytes), populating a fresh instance of its
    class with [_fromJson] from the dict [_toJson] produced succeeds,
    returns True, and rebuilds the instance: every member and every
    sub-object, recursively, is as before; only the private attributes
    that are not serialised go back to their [__init__] values. *)
Theorem toJson_fromJson_roundtrip n cn a D :
  wf_obj class_of (PObj cn a) -> _toJson class_of n (PObj cn a) = Ok D ->
  exists f, _fromJson class_of n (class_of cn) (init (class_of cn)) D = (f, Ok true) /\
            reset class_of (PObj cn a) = PObj cn f.
Proof.
  revert cn a D. induction n as [|n IH]; intros cn a D Hwf Ht; [discriminate|].
  inversion Hwf as [? ? Hok Hkeys Hprops Hnone _ Hcont]; subst.
  destruct (class_okb_spec _ Hok) as (Hnd & Hlist & HndJ & HndC & Hits).
  cbn [_toJson] in Ht. rewrite (get_members_ok _ _ Hprops) in Ht. cbn [res_bind] in Ht.
  res_inv Ht. res_inv Ht. injection Ht as <-. rename a0 into D0, a1 into D1.
  destruct (submaps_to_json_get _ _ _ _ _ HndJ Hr0) as [HS1 HS2].
  destruct (members_from_json_set (class_of cn) (member_attrs (class_of cn) (init (class_of cn)))
              D1 (init (class_of cn)) (oval a) (get_members_NoDup _ _ Hnd)
              (roundtrip_decode cn a D0 D1 Hok Hkeys Hr HS1)) as (f1 & Hf1 & Hf1get & Hf1keys).
  set (objs := fun it => match aget (Container it) a with Some (PList l) => map (reset class_of) l | _ => [] end).
  destruct (submaps_from_json_set (_fromJson class_of n) _ D1 f1 objs HndC Hlist) as (f2 & Hf2 & Hf2get & Hf2keys).
  { intros it Hit. destruct (Hcont it Hit) as (l & Hl & Hel).
    destruct (HS2 it Hit (proj1 (forallb_forall _ _) Hlist it Hit)) as (m & objs0 & vs & Hm & Hi & Hrm & Hv).
    unfold getattr in Hm. rewrite Hl in Hm. injection Hm as <-. injection Hi as <-.
    exists vs. split; [exact Hv|]. unfold objs. rewrite Hl.
    apply roundtrip_children; [exact IH|exact Hel|exact Hrm]. }
  exists f2. split; [cbn [_fromJson]; rewrite (get_members_ok _ _ (class_okb_props _ Hok)), Hf1; exact Hf2|].
  assert (Hk1 : akeys f1 = akeys (init (class_of cn))).
  { apply Hf1keys. intros k Hk. apply get_members_In in Hk. apply Hk. }
  rewrite reset_obj. f_equal. symmetry. apply alist_ext.
  - rewrite Hf2keys, Hk1; [unfold akeys; rewrite map_map; symmetry; exact Hkeys|].
    rewrite Hk1. intros k Hk. apply in_map_iff in Hk as (it & <- & Hit). apply (Hits it Hit).
  - rewrite Hf2keys, Hk1; [exact Hnd|]. rewrite Hk1. intros k Hk.
    apply in_map_iff in Hk as (it & <- & Hit). apply (Hits it Hit).
  - intros k. rewrite aget_map_attrs.
    apply (roundtrip_attr cn a D0 D1 Hok Hkeys Hnone Hr HS1 f1 f2 objs k); [|exact Hf1get|exact Hf2get].
    intros it Hit. destruct (Hcont it Hit) as (l & Hl & _). exists l. split; [exact Hl|].
    unfold objs. rewrite Hl. reflexivity.
Qed.

(** *** [_toJson] succeeds on well-formed instances *)

Lemma members_to_json_total c ms d :
  (forall k v, In (k, v) ms -> is_none v = false -> in_b64 c k = true -> is_bytes v = true) ->
  exists d', members_to_json c ms d = Ok d'.
Proof.
  revert d; induction ms as [|[k v] ms IH]; intros d H; [eexists; reflexivity|].
  rewrite members_to_json_cons. destruct (is_none v) eqn:En.
  - apply IH. intros; apply (H k0 v0); [right|..]; assumption.
  - assert (Hx : exists x, encode_member c k v = Ok x).
    { unfold encode_member. destruct (in_b64 c k) eqn:Eb; [|eauto].
      pose proof (H k v (or_introl eq_refl) En Eb). destruct v; try discriminate; simpl; eauto. }
    destruct Hx as [x ->]. simpl. apply IH. intros; apply (H k0 v0); [right|..]; assumption.
Qed.

Lemma submaps_to_json_total rec a items d :
  (forall it, In it items -> isList it = true /\
     exists l, getattr a (Container it) = Ok (PList l) /\ forall e, In e l -> exists v, rec e = Ok v) ->
  exists d', submaps_to_json rec a items d = Ok d'.
Proof.
  revert d; induction items as [|it items IH]; intros d H; [eexists; reflexivity|].
  destruct (H it (or_introl eq_refl)) as (Hl & l & Hg & He). simpl. unfold submap_to_json.
  rewrite Hg, Hl. simpl. destruct (res_map_total rec l He) as [vs ->]. simpl.
  apply IH. intros it' Hit'. apply H. right. exact Hit'.
Qed.

Lemma toJson_total n : forall cn a, wf_obj class_of (PObj cn a) -> depth (PObj cn a) < n ->
  exists D, _toJson class_of n (PObj cn a) = Ok D.
Proof.
  induction n as [|n IH]; intros cn a Hwf Hd; [lia|].
  inversion Hwf as [? ? Hok Hkeys Hprops _ Hb64 Hcont]; subst.
  destruct (class_okb_spec _ Hok) as (Hnd & Hlist & _).
  assert (HndA : NoDup (akeys a)) by (rewrite Hkeys; exact Hnd).
  cbn [_toJson]. rewrite (get_members_ok _ _ Hprops). cbn [res_bind].
  destruct (members_to_json_total (class_of cn) (member_attrs (class_of cn) a) [])
    as [D0 ->].
  { intros k v Hin En Eb. apply sort_by_key_In, filter_In in Hin as [Hin Hmem].
    pose proof (Hb64 k v Hmem Eb (In_aget _ _ _ HndA Hin)) as Hv.
    rewrite En in Hv. exact Hv. }
  simpl. destruct (submaps_to_json_total (_toJson class_of n) a (SubObjectMapping (class_of cn)) D0)
    as [D1 ->]; [|simpl; eauto].
  intros it Hit. split; [exact (proj1 (forallb_forall _ _) Hlist it Hit)|].
  destruct (Hcont it Hit) as (l & Hl & Hel). exists l. split; [unfold getattr; rewrite Hl; reflexivity|].
  intros e He. destruct (Hel e He) as (a' & -> & Hwfe). apply IH; [exact Hwfe|].
  pose proof (depth_aget _ _ _ Hl) as H1. pose proof (depth_In_list _ _ He) as H2.
  simpl in Hd, H1. lia.
Qed.

(** *** The checker decides well-formedness *)

Lemma wf_objb_obj cn a :
  wf_objb class_of (PObj cn a) =
  class_okb (class_of cn) && names_eqb (akeys a) (akeys (init (class_of cn)))
  && props_ok (class_of cn) a
  && forallb (fun kv => entry_ok class_of (class_of cn) (fst kv) (snd kv)) a.
Proof.
  cbn [wf_objb]. f_equal. induction a as [|[k x] a IH]; [reflexivity|].
  cbn [forallb fst snd]. rewrite <- IH. reflexivity.
Qed.

Lemma find_container c it :
  NoDup (map Container (SubObjectMapping c)) -> In it (SubObjectMapping c) ->
  container_of c (Container it) = Some it.
Proof.
  unfold container_of. induction (SubObjectMapping c) as [|it' its IH]; simpl; [tauto|].
  intros Hnd [<-|Hin]; [rewrite String.eqb_refl; reflexivity|].
  inversion Hnd as [|? ? Hnin Hnd']; subst.
  destruct (String.eqb_spec (Container it') (Container it)) as [E|_]; [|apply IH; assumption].
  exfalso. apply Hnin. rewrite E. apply in_map, Hin.
Qed.

Lemma wf_objb_sound n : forall v, depth v < n -> wf_objb class_of v = true -> wf_obj class_of v.
Proof.
  induction n as [|n IH]; intros v Hd Hb; [lia|].
  destruct v as [| | | | | | | |cn a]; try discriminate.
  rewrite wf_objb_obj in Hb. apply andb_prop in Hb as [Hb Hall]. apply andb_prop in Hb as [Hb Hp].
  apply andb_prop in Hb as [Hok Hk].
  apply names_eqb_eq in Hk. rewrite forallb_forall in Hall.
  destruct (class_okb_spec _ Hok) as (_ & _ & _ & HndC & Hits).
  constructor; [exact Hok|exact Hk|exact Hp|..].
  - intros k Hm Ha. pose proof (Hall _ (aget_In _ _ _ Ha)) as E. unfold entry_ok in E. cbn [fst snd] in E.
    rewrite Hm in E. simpl in E. destruct (aget k (init (class_of cn))) as [[]|]; simpl in E;
      congruence || reflexivity.
  - intros k v Hm Hb64 Ha. pose proof (Hall _ (aget_In _ _ _ Ha)) as E. unfold entry_ok in E.
    cbn [fst snd] in E. rewrite Hm, Hb64 in E. simpl in E.
    apply andb_prop in E as [E _]. apply andb_prop in E as [_ E]. exact E.
  - intros it Hit. destruct (Hits it Hit) as (Hc & _).
    destruct (aget_In_akeys (Container it) a) as [x Hx]; [rewrite Hk; exact Hc|].
    pose proof (Hall _ (aget_In _ _ _ Hx)) as E. unfold entry_ok in E. cbn [fst snd] in E.
    rewrite (find_container _ _ HndC Hit) in E. apply andb_prop in E as [_ E].
    destruct x as [| | | | |l| | |]; try discriminate. exists l. split; [exact Hx|].
    intros e He. rewrite forallb_forall in E. pose proof (E e He) as Ee.
    destruct e as [| | | | | | | |s a']; try discriminate. apply andb_prop in Ee as [Es Ee].
    apply String.eqb_eq in Es. subst s. exists a'. split; [reflexivity|].
    apply IH; [|exact Ee]. pose proof (depth_aget _ _ _ Hx). pose proof (depth_In_list _ _ He).
    simpl in Hd, H. lia.
Qed.

(** *** Equality after the round trip *)

Lemma forallb_combine_diag {A : Type} (f : A -> A -> bool) l :
  (forall x, In x l -> f x x = true) -> forallb (fun p => f (fst p) (snd p)) (combine l l) = true.
Proof.
  induction l as [|x l IH]; intros H; simpl; [reflexivity|].
  rewrite H by (left; reflexivity). apply IH. intros y Hy. apply H. right. exact Hy.
Qed.

Lemma py_eq_refl v : forall n, plainb v = true -> depth v + depth v < n -> py_eq class_of n v v = true.
Proof.
  induction v using pyval_ind; intros [|n] Hp Hd; try (simpl in Hd; lia); simpl;
    try reflexivity; simpl in Hp.
  - apply Bool.eqb_reflx.
  - apply Z.eqb_refl.
  - apply String.eqb_refl.
  - rewrite Nat.eqb_refl. simpl. apply forallb_combine_diag. intros x _. apply Byte.byte_dec_lb. reflexivity.
  - rewrite Nat.eqb_refl. simpl. apply forallb_combine_diag. intros x Hx.
    rewrite Forall_forall in H. rewrite forallb_forall in Hp.
    pose proof (depth_In_list _ _ Hx). apply H; [exact Hx|apply Hp, Hx|simpl in Hd; lia].
  - rewrite Nat.eqb_refl. simpl. apply forallb_combine_diag. intros x Hx.
    rewrite Forall_forall in H. rewrite forallb_forall in Hp.
    pose proof (depth_In_list _ _ Hx). apply H; [exact Hx|apply Hp, Hx|simpl in Hd; lia].
  - apply andb_prop in Hp as [Hnd Hp]. apply nodupb_NoDup in Hnd.
    rewrite Nat.eqb_refl. simpl. apply forallb_forall. intros [k x] Hx.
    cbn [fst snd]. rewrite (In_aget _ _ _ Hnd Hx). rewrite Forall_forall in H. rewrite forallb_forall in Hp.
    pose proof (depth_aget _ _ _ (In_aget _ _ _ Hnd Hx)).
    apply (H (k, x)); [exact Hx|apply (Hp (k, x) Hx)|cbn [snd]; simpl in Hd; lia].
  - discriminate.
Qed.

Lemma reset_props_ok cn a :
  props_local (class_of cn) ->
  props_ok (class_of cn) (map (fun kv => (fst kv, reset_attr class_of (class_of cn) (fst kv) (snd kv))) a)
  = props_ok (class_of cn) a.
Proof.
  intros Hloc. apply Hloc; [unfold akeys; rewrite map_map; reflexivity|].
  intros k Hm. rewrite aget_map_attrs. destruct (aget k a); [|reflexivity].
  unfold reset_attr. rewrite Hm. reflexivity.
Qed.

(** [__eq__] of two instances of the same class that hold the same
    plain members. *)
Lemma eq_same_members cn a b :
  props_ok (class_of cn) a = true -> NoDup (akeys b) ->
  (forall k v, In (k, v) (member_attrs (class_of cn) a) -> aget k b = Some v /\ plainb v = true) ->
  __eq__ class_of (PObj cn a) (PObj cn b) = Ok true.
Proof.
  intros Hpo Hnd H. unfold __eq__. rewrite (get_members_ok _ _ Hpo). cbn [res_bind]. f_equal.
  unfold py_eqv. cbn [py_eq]. rewrite String.eqb_refl, andb_true_l.
  apply forallb_forall. intros [k v] Hin. destruct (H k v Hin) as [Hb Hp]. cbn [fst snd].
  rewrite Hb.
  apply py_eq_refl; [exact Hp|].
  pose proof (depth_aget _ _ _ Hb) as H1.
  apply sort_by_key_In, filter_In in Hin as [Hin _].
  pose proof (depth_aget _ _ _ (In_aget _ _ _ Hnd (aget_In _ _ _ Hb))) as H2.
  assert (depth v < S (list_max (map (fun kv : string * pyval => depth (snd kv)) a))).
  { apply Nat.lt_succ_r, in_list_max. apply (in_map (fun kv : string * pyval => depth (snd kv))) in Hin.
    exact Hin. }
  cbn [depth]. lia.
Qed.

Lemma toJson_dict n o D : _toJson class_of n o = Ok D -> exists d, D = PDict d.
Proof.
  destruct n as [|n]; [discriminate|]. destruct o; try discriminate. cbn [_toJson].
  intros H. res_inv H. res_inv H. injection H as <-. eauto.
Qed.

Lemma In_map_attrs (g : string -> pyval -> pyval) a k v :
  In (k, v) (map (fun kv => (fst kv, g (fst kv) (snd kv))) a) -> exists x, In (k, x) a /\ v = g k x.
Proof.
  intros H. apply in_map_iff in H as ([k' x] & E & Hin). injection E as <- <-. eauto.
Qed.

Lemma toRawJson_fromJson loads n cn a :
  wf_obj class_of (PObj cn a) -> depth (PObj cn a) < n ->
  exists D f, toRawJson class_of n (PObj cn a) = Ok D /\
    fromJson class_of loads n (class_of cn) (init (class_of cn)) D = (f, Ok true) /\
    reset class_of (PObj cn a) = PObj cn f.
Proof.
  intros Hwf Hd. destruct (toJson_total n cn a Hwf Hd) as [D HD].
  destruct (toJson_fromJson_roundtrip n cn a D Hwf HD) as (f & Hf & Hr).
  destruct (toJson_dict _ _ _ HD) as [d ->].
  exists (PDict d), f. split; [exact HD|]. split; [exact Hf|exact Hr].
Qed.

(** C1: Round trip of the serialisation.  For a well-formed instance
    (a list-mapped class, no None member where [__init__] has a value,
    base64 members holding bytes) and a recursion budget above its
    nesting depth, [toRawJson] succeeds, and [fromJson] on its result
    populates a fresh instance of the class, returns True, and
    rebuilds the instance: every member and every sub-object,
    recursively, is as before; only the private attributes that are
    not serialised go back to their [__init__] values. *)
Theorem toRawJson_fromJson_roundtrip loads n cn a :
  wf_obj class_of (PObj cn a) -> depth (PObj cn a) < n ->
  exists D f, toRawJson class_of n (PObj cn a) = Ok D /\
    fromJson class_of loads n (class_of cn) (init (class_of cn)) D = (f, Ok true) /\
    reset class_of (PObj cn a) = PObj cn f.
Proof. exact (toRawJson_fromJson loads n cn a). Qed.

(** C2: [fromJson(toRawJson(x))] is [__eq__] to [x].  When the members
    of a well-formed instance hold plain data, the instance rebuilt
    from its serialisation compares equal to it under
    [BaseDataObject.__eq__]. *)
Theorem fromJson_toRawJson_eq loads n cn a :
  props_local (class_of cn) ->
  wf_obj class_of (PObj cn a) -> depth (PObj cn a) < n ->
  (forall k v, is_member (class_of cn) k = true -> aget k a = Some v -> plainb v = true) ->
  exists D f, toRawJson class_of n (PObj cn a) = Ok D /\
    fromJson class_of loads n (class_of cn) (init (class_of cn)) D = (f, Ok true) /\
    __eq__ class_of (PObj cn f) (PObj cn a) = Ok true.
Proof.
  intros Hloc Hwf Hd Hplain.
  destruct (toRawJson_fromJson loads n cn a Hwf Hd) as (D & f & HD & Hf & Hr).
  exists D, f. split; [exact HD|]. split; [exact Hf|].
  inversion Hwf as [? ? Hok Hkeys Hprops _ _ _]; subst.
  destruct (class_okb_spec _ Hok) as (Hnd & _).
  assert (HndA : NoDup (akeys a)) by (rewrite Hkeys; exact Hnd).
  rewrite reset_obj in Hr. injection Hr as Hr.
  apply eq_same_members; [rewrite <- Hr, <- Hprops; apply reset_props_ok, Hloc|exact HndA|].
  intros k v Hin.
  apply sort_by_key_In, filter_In in Hin as [Hin Hmem]. cbn [fst] in Hmem.
  rewrite <- Hr in Hin.
  apply In_map_attrs in Hin as (x & Hx & ->). unfold reset_attr. rewrite Hmem.
  pose proof (In_aget _ _ _ HndA Hx) as Ha. split; [exact Ha|]. apply (Hplain k x Hmem Ha).
Qed.
End Roundtrip.

(** ** Single sub-object mappings *)

Section Singleton.
Context {codec : B64Codec}.
Variable class_of : string -> DataClass.

(** C15: A singleton mapping does not survive the round trip.  For a
    mapping with [bol_list=False], [_toJson] stores the sub-object's
    dict directly under the JSON key, but [_fromJson] looks inside that
    dict for the sub-class's [JSON_Type]; when the sub-object's dict has
    no such key (its keys are its own members), the container is set
    to a fresh default-constructed sub-object and the data is lost. *)
Theorem singleton_mapping_loses_child rec_to rec_from a item d0 child cd self :
  isList item = false -> getattr a (Container item) = Ok child -> child <> PNone ->
  rec_to child = Ok (PDict cd) -> aget (JSON_Type (class_of (SubClass item))) cd = None ->
  exists d1, submap_to_json rec_to a item d0 = Ok d1 /\
    submap_from_json class_of rec_from item (PDict d1) self =
      (aset (Container item) (PObj (SubClass item) (init (class_of (SubClass item)))) self, Ok tt).
Proof.
  intros Hl Hg Hn Hc Hk. unfold submap_to_json. rewrite Hg, Hl. cbn [res_bind].
  assert (E : match child with
              | PNone => Ok (aset (JsonContainer item) (PList []) d0)
              | _ => v <- rec_to child ;; Ok (aset (JsonContainer item) v (aset (JsonContainer item) (PList []) d0))
              end = Ok (aset (JsonContainer item) (PDict cd) (aset (JsonContainer item) (PList []) d0)))
    by (destruct child; [contradiction|..]; rewrite Hc; reflexivity).
  rewrite E. eexists. split; [reflexivity|].
  unfold submap_from_json. cbn [py_in_str py_getitem_str res_bind].
  rewrite aget_aset_eq. cbn [res_bind]. rewrite Hl. cbn [py_in_str py_getitem_str res_bind].
  rewrite Hk. reflexivity.
Qed.
End Singleton.

(** ** Failures of fromJson *)

Section Failures.
Context {codec : B64Codec}.
Variable class_of : string -> DataClass.

Lemma members_from_json_skip c pre rest d self :
  (forall k' v', In (k', v') pre -> py_in_str k' d = Ok false) ->
  members_from_json c (pre ++ rest) d self = members_from_json c rest d self.
Proof.
  induction pre as [|[k' v'] pre IH]; intros H; [reflexivity|]. cbn [app members_from_json].
  rewrite (H k' v' (or_introl eq_refl)). apply IH. intros k1 v1 Hin. apply (H k1 v1). right. exact Hin.
Qed.

(** C14: A member that fails to decode stops [_fromJson]: when the first
    member present in the data cannot be read or decoded, [_fromJson]
    returns False at once, with the instance untouched: the members
    after it and the sub-objects are not populated (spec sections 4.1
    and 7 say that the failure concerns that field only and that the
    others are still filled). *)
Theorem fromJson_member_failure_aborts n c self d pre k v0 post e :
  _get_members c self = Ok (pre ++ (k, v0) :: post) ->
  (forall k' v', In (k', v') pre -> py_in_str k' d = Ok false) ->
  py_in_str k d = Ok true -> (x <- py_getitem_str d k ;; decode_member c k x) = Raise e ->
  _fromJson class_of (S n) c self d = (self, Ok false).
Proof.
  intros Hm Hpre Hk He. cbn [_fromJson]. rewrite Hm, members_from_json_skip by exact Hpre.
  cbn [members_from_json]. rewrite Hk, He. reflexivity.
Qed.

End Failures.

(** ** Encoding detection *)

Lemma startswith_prefix p bt : startswith (p ++ bt) p = true.
Proof.
  induction p as [|b p IH]; [reflexivity|]. cbn [app startswith].
  rewrite (Byte.byte_dec_lb (eq_refl b)). exact IH.
Qed.

(** [fromFile] decodes with the encoding of the byte-order mark:
    data starting with a UTF-32 mark (either order) is read as UTF-32,
    data starting with a UTF-16 mark as UTF-16 (for little-endian, when
    the mark is not followed by two zero bytes, which would make it the
    UTF-32-LE mark), and data without a mark as UTF-8. *)
Theorem getUtfEncoding_spec rest :
  _getUtfEncoding (BOM_UTF32_BE ++ rest) = "utf-32"%string /\
  _getUtfEncoding (BOM_UTF32_LE ++ rest) = "utf-32"%string /\
  (startswith rest [Byte.x00; Byte.x00] = false -> _getUtfEncoding (BOM_UTF16_LE ++ rest) = "utf-16"%string) /\
  _getUtfEncoding (BOM_UTF16_BE ++ rest) = "utf-16"%string /\
  (startswith rest [Byte.x00; Byte.x00] = false ->
   forall b, b <> Byte.x00 -> b <> Byte.xff -> b <> Byte.xfe -> _getUtfEncoding (b :: rest) = "utf-8"%string).
Proof.
  unfold _getUtfEncoding. split; [rewrite startswith_prefix; reflexivity|].
  split; [rewrite startswith_prefix, orb_true_r; reflexivity|]. split.
  - intros H. change (BOM_UTF16_LE ++ rest) with (Byte.xff :: Byte.xfe :: rest).
    assert (E : startswith (Byte.xff :: Byte.xfe :: rest) BOM_UTF32_LE = startswith rest [Byte.x00; Byte.x00])
      by reflexivity.
    rewrite E, H. reflexivity.
  - split; [change (BOM_UTF16_BE ++ rest) with (Byte.xfe :: Byte.xff :: rest); reflexivity|].
    intros _ b H0 H1 H2.
    destruct (Byte.eqb Byte.x00 b) eqn:E0; [apply Byte.byte_dec_bl in E0; congruence|].
    destruct (Byte.eqb Byte.xff b) eqn:E1; [apply Byte.byte_dec_bl in E1; congruence|].
    destruct (Byte.eqb Byte.xfe b) eqn:E2; [apply Byte.byte_dec_bl in E2; congruence|].
    cbn [startswith BOM_UTF32_BE BOM_UTF32_LE BOM_UTF16_LE BOM_UTF16_BE]. rewrite E0, E1, E2. reflexivity.
Qed.

(** ** The round trip through JSON text *)

Section Text.
Context {codec : B64Codec}.
Variable class_of : string -> DataClass.

Definition text_entry (c : DataClass) (k : string) (x : pyval) : bool :=
  (negb (is_member c k) || (jsonb x && (is_none x || negb (in_b64 c k))))
  && match container_of c k, x with
     | Some _, PList l => forallb (textb class_of) l
     | _, _ => true
     end.

Lemma textb_obj cn a :
  textb class_of (PObj cn a) = forallb (fun kv => text_entry (class_of cn) (fst kv) (snd kv)) a.
Proof.
  cbn [textb]. induction a as [|[k x] a IH]; [reflexivity|].
  cbn [forallb fst snd]. rewrite <- IH. reflexivity.
Qed.

(** A property [P] of the values of the dict [_toJson] builds: it holds
    of the member values stored and of the lists of children. *)
Lemma members_to_json_pred (P : pyval -> bool) c ms d d' :
  members_to_json c ms d = Ok d' -> forallb (fun kv => P (snd kv)) d = true ->
  (forall k v x, In (k, v) ms -> is_none v = false -> encode_member c k v = Ok x -> P x = true) ->
  forallb (fun kv => P (snd kv)) d' = true.
Proof.
  revert d; induction ms as [|[k v] ms IH]; intros d Hm Hd H; [injection Hm as <-; exact Hd|].
  rewrite members_to_json_cons in Hm. destruct (is_none v) eqn:En.
  - apply (IH d Hm Hd). intros; eapply H; [right| |]; eassumption.
  - destruct (encode_member c k v) as [x|e] eqn:He; [|discriminate]. cbn [res_bind] in Hm.
    apply (IH _ Hm); [apply forallb_aset; [assumption|exact (H k v x (or_introl eq_refl) En He)]|].
    intros; eapply H; [right| |]; eassumption.
Qed.

Lemma submaps_to_json_pred (P : pyval -> bool) rec a items d d' :
  (forall vs, P (PList vs) = forallb P vs) ->
  submaps_to_json rec a items d = Ok d' -> forallb (fun kv => P (snd kv)) d = true ->
  (forall it, In it items -> isList it = true /\ exists l, getattr a (Container it) = Ok (PList l) /\
     forall e v, In e l -> rec e = Ok v -> P v = true) ->
  forallb (fun kv => P (snd kv)) d' = true.
Proof.
  intros HP. revert d; induction items as [|it items IH]; intros d Hs Hd H; [injection Hs as <-; exact Hd|].
  cbn [submaps_to_json] in Hs. res_inv Hs.
  apply (IH _ Hs); [|intros; apply H; right; assumption].
  destruct (H it (or_introl eq_refl)) as (Hl & l & Hg & He). unfold submap_to_json in Hr.
  rewrite Hg, Hl in Hr. cbn [res_bind py_iter] in Hr. res_inv Hr. injection Hr as <-.
  apply forallb_aset; [apply forallb_aset; [exact Hd|rewrite HP; reflexivity]|].
  rewrite HP. apply forallb_forall. intros v Hv. apply res_map_ok in Hr0.
  destruct (Forall2_In_r _ _ _ _ Hr0 Hv) as (e & Hin & Hev). exact (He e v Hin Hev).
Qed.

Lemma get_members_in c a k v : In (k, v) (member_attrs c a) -> In (k, v) a /\ is_member c k = true.
Proof. intros H. apply sort_by_key_In, filter_In in H as [H Hm]. split; assumption. Qed.

(** The dict [_toJson] builds for an instance satisfying [textb] is
    carried unchanged by JSON text. *)
Lemma toJson_jsonb n : forall x D, wf_obj class_of x -> textb class_of x = true ->
  _toJson class_of n x = Ok D -> jsonb D = true.
Proof.
  induction n as [|n IH]; intros x D Hwf Ht HD; [discriminate|].
  inversion Hwf as [cn a Hok Hkeys Hprops _ _ Hcont]; subst.
  destruct (class_okb_spec _ Hok) as (_ & Hlist & _ & HndC & _).
  rewrite textb_obj, forallb_forall in Ht.
  rewrite toJson_obj in HD by exact Hprops. res_inv HD. res_inv HD. injection HD as <-. cbn [jsonb].
  apply (submaps_to_json_pred jsonb _ _ _ _ _ (fun vs => eq_refl) Hr0).
  - apply (members_to_json_pred jsonb _ _ _ _ Hr); [reflexivity|].
    intros k v x Hin Hn Hx. apply get_members_in in Hin as [Hin Hm].
    pose proof (Ht _ Hin) as E. unfold text_entry in E. cbn [fst snd] in E. rewrite Hm in E.
    apply andb_prop in E as [E _]. cbn [negb orb] in E. apply andb_prop in E as [Ej Eb].
    rewrite Hn in Eb. cbn [orb] in Eb. unfold encode_member in Hx. apply negb_true_iff in Eb. rewrite Eb in Hx.
    injection Hx as <-. exact Ej.
  - intros it Hit. split; [rewrite forallb_forall in Hlist; apply Hlist, Hit|].
    destruct (Hcont it Hit) as (l & Hl & Hel). exists l. split; [unfold getattr; rewrite Hl; reflexivity|].
    intros e v He Hv. destruct (Hel e He) as (a' & -> & Hwfe).
    pose proof (Ht _ (aget_In _ _ _ Hl)) as E. unfold text_entry in E. cbn [fst snd] in E.
    rewrite (find_container _ _ HndC Hit) in E. apply andb_prop in E as [_ E].
    rewrite forallb_forall in E. exact (IH _ _ Hwfe (E _ He) Hv).
Qed.

(** The round trip through JSON text.  For a well-formed instance
    whose members hold values JSON text carries unchanged (no tuple, no
    bytes), the dict [toRawJson] produces comes back from
    [json.dumps]/[json.loads] as it was, and [fromJson] on the text
    rebuilds the instance, returning True. *)
Theorem toJson_text_roundtrip loads n cn a :
  wf_obj class_of (PObj cn a) -> textb class_of (PObj cn a) = true -> depth (PObj cn a) < n ->
  exists D f, toRawJson class_of n (PObj cn a) = Ok D /\ json_norm D = Ok D /\
    (forall text, loads (PStr text) = Some D ->
       fromJson class_of loads n (class_of cn) (init (class_of cn)) (PStr text) = (f, Ok true)) /\
    reset class_of (PObj cn a) = PObj cn f.
Proof.
  intros Hwf Ht Hd. destruct (toJson_total class_of n cn a Hwf Hd) as [D HD].
  destruct (toJson_fromJson_roundtrip class_of n cn a D Hwf HD) as (f & Hf & Hr).
  exists D, f. split; [exact HD|]. split; [apply json_norm_jsonb, (toJson_jsonb n _ _ Hwf Ht HD)|].
  split; [|exact Hr]. intros text Hl. unfold fromJson. rewrite Hl.
  destruct (toJson_dict _ _ _ _ HD) as [d ->]. exact Hf.
Qed.

(** The dict [_toJson] builds holds, under the name of a member that is
    not None, the member's encoded value. *)
Lemma toJson_member n cn a D k v :
  wf_obj class_of (PObj cn a) -> is_member (class_of cn) k = true -> aget k a = Some v ->
  is_none v = false -> _toJson class_of n (PObj cn a) = Ok D ->
  exists d x, D = PDict d /\ encode_member (class_of cn) k v = Ok x /\ aget k d = Some x.
Proof.
  intros Hwf Hm Ha Hn HD.
  inversion Hwf as [? ? Hok Hkeys Hprops _ _ _]; subst.
  destruct (class_okb_spec _ Hok) as (Hnd & _ & HndJ & _ & Hits).
  assert (HndA : NoDup (akeys a)) by (rewrite Hkeys; exact Hnd).
  assert (Hin : In k (akeys (init (class_of cn)))) by (rewrite <- Hkeys; exact (aget_Some_in _ _ _ Ha)).
  destruct n as [|n]; [discriminate|]. rewrite toJson_obj in HD by exact Hprops.
  res_inv HD. res_inv HD. injection HD as <-.
  pose proof (members_to_json_get _ _ _ _ k (get_members_NoDup _ _ HndA) Hr) as G.
  rewrite get_members_aget, Hm, Ha, Hn in G by exact HndA.
  destruct G as (x & Hx & Gx). exists a1, x. split; [reflexivity|]. split; [exact Hx|].
  destruct (submaps_to_json_get class_of _ _ _ _ _ HndJ Hr0) as [HS _].
  assert (Hk : ~ In k (map JsonContainer (SubObjectMapping (class_of cn)))).
  { intros Hj. apply in_map_iff in Hj as (it & Hjc & Hit). destruct (Hits it Hit) as (_ & _ & Hne).
    exact (Hne k Hin Hm (eq_sym Hjc)). }
  rewrite <- (HS k Hk) in Gx. exact Gx.
Qed.

(** C16: A base64 member breaks JSON text: [base64.standard_b64encode]
    returns bytes, so for a well-formed instance with a base64 member
    holding bytes, the dict [toRawJson] produces holds bytes and
    [json.dumps] on it raises TypeError ([toJson] always fails for such
    an instance). *)
Theorem b64_member_breaks_text n cn a k bs :
  wf_obj class_of (PObj cn a) -> is_member (class_of cn) k = true -> in_b64 (class_of cn) k = true ->
  aget k a = Some (PBytes bs) -> depth (PObj cn a) < n ->
  exists D, toRawJson class_of n (PObj cn a) = Ok D /\ json_norm D = Raise TypeError.
Proof.
  intros Hwf Hm Hb Ha Hd. destruct (toJson_total class_of n cn a Hwf Hd) as [D HD]. exists D.
  split; [exact HD|].
  destruct (toJson_member n cn a D k _ Hwf Hm Ha eq_refl HD) as (d & x & -> & Hx & Gx).
  unfold encode_member in Hx. rewrite Hb in Hx. cbn in Hx. injection Hx as <-.
  apply aget_In in Gx.
  cbn [json_norm]. destruct (res_map_In_raise (fun kv : string * pyval => x <- json_norm (snd kv) ;; Ok (fst kv, x)) _ _ TypeError Gx eq_refl) as [e He].
  rewrite He. cbn [res_bind]. f_equal. apply (json_norm_raise (PDict d)). cbn [json_norm]. rewrite He.
  reflexivity.
Qed.

(** *** What [_fromJson] sets *)

Lemma members_from_json_other c ms d self k : ~ In k (akeys ms) ->
  aget k (fst (members_from_json c ms d self)) = aget k self.
Proof.
  revert self; induction ms as [|[k' v] ms IH]; intros self Hk; [reflexivity|].
  cbn [akeys map fst In] in Hk. cbn [members_from_json].
  destruct (py_in_str k' d) as [[|]|e]; [|apply IH; tauto|reflexivity].
  destruct (x <- py_getitem_str d k' ;; decode_member c k' x) as [x|e]; [|reflexivity].
  rewrite IH by tauto. apply aget_aset_ne. intros ->. tauto.
Qed.

(** In a class without base64 members, the member loop on a dict sets
    every member the dict holds. *)
Lemma members_from_json_nob64 c ms t self k x :
  B64Memebers c = [] -> NoDup (akeys ms) -> In k (akeys ms) -> aget k t = Some x ->
  aget k (fst (members_from_json c ms (PDict t) self)) = Some x.
Proof.
  intros Hb. revert self; induction ms as [|[k' v] ms IH]; intros self Hnd Hk Ht; [destruct Hk|].
  inversion Hnd as [|? ? Hn Hnd']; subst. cbn [members_from_json py_in_str].
  assert (Hdec : forall y, decode_member c k' y = Ok y) by (intros y; unfold decode_member, in_b64; rewrite Hb; reflexivity).
  destruct (String.eqb_spec k' k) as [<-|Hne].
  - rewrite Ht. cbn [py_getitem_str res_bind]. rewrite Ht. cbn [res_bind]. rewrite Hdec.
    rewrite members_from_json_other by exact Hn. apply aget_aset_eq.
  - destruct Hk as [E|Hk]; [cbn in E; congruence|].
    destruct (aget k' t) as [y|] eqn:Ey; [|apply IH; assumption].
    cbn [py_getitem_str res_bind]. rewrite Ey. cbn [res_bind]. rewrite Hdec. apply IH; assumption.
Qed.

Lemma submap_from_json_other rec item d self k : Container item <> k ->
  aget k (fst (submap_from_json class_of rec item d self)) = aget k self.
Proof.
  intros H. unfold submap_from_json.
  destruct (b <- py_in_str _ d ;; _) as [o|e]; cbn [fst]; [|reflexivity].
  destruct (isList item).
  - destruct o; cbn [fst]; try (rewrite aget_aset_ne by exact H; reflexivity);
      destruct (py_iter _); try (cbn [fst]; rewrite aget_aset_ne by exact H; reflexivity);
      destruct (fill_list _ _ _ _ _); cbn [fst]; rewrite !aget_aset_ne by exact H; reflexivity.
  - destruct (b <- py_in_str _ o ;; _) as [[v|]|e]; cbn [fst]; try reflexivity;
      [|rewrite aget_aset_ne by exact H; reflexivity].
    destruct (rec _ _ v) as [new [u|e]]; cbn [fst]; [rewrite aget_aset_ne by exact H|]; reflexivity.
Qed.

Lemma submaps_from_json_other rec items d self k : ~ In k (map Container items) ->
  aget k (fst (submaps_from_json class_of rec items d self)) = aget k self.
Proof.
  revert self; induction items as [|it items IH]; intros self Hk; [reflexivity|].
  cbn [map In] in Hk. cbn [submaps_from_json].
  pose proof (submap_from_json_other rec it d self k ltac:(tauto)) as E.
  destruct (submap_from_json _ _ _ _ _) as [s' [u|e]]; cbn [fst] in E |- *; [rewrite IH by tauto|]; exact E.
Qed.

(** [_fromJson] on a dict, in a class without base64 members, leaves
    every member the dict holds set to its value, whatever the call
    returns. *)
Lemma fromJson_member_set n c self t k x :
  B64Memebers c = [] -> props_ok c self = true -> NoDup (akeys self) -> In k (akeys self) ->
  is_member c k = true -> ~ In k (map Container (SubObjectMapping c)) -> aget k t = Some x ->
  aget k (fst (_fromJson class_of (S n) c self (PDict t))) = Some x.
Proof.
  intros Hb Hp Hnd Hk Hm Hc Ht. cbn [_fromJson]. rewrite (get_members_ok _ _ Hp).
  pose proof (members_from_json_nob64 c (member_attrs c self) t self k x Hb (get_members_NoDup _ _ Hnd)
                (proj2 (get_members_In c self k) (conj Hk Hm)) Ht) as E.
  destruct (members_from_json _ _ _ _) as [s' [[|]|e]]; cbn [fst] in E |- *; [|exact E|exact E].
  rewrite submaps_from_json_other by exact Hc. exact E.
Qed.
End Text.
