(* ===== verification/Entities.v ===== *)
(** * The data classes of roguewarapi.data

    The six BaseDataObject subclasses (factioncontrol.py, starsystem.py,
    starmap.py, starsystemconst.py, globaldata.py) as [DataClass]
    records, the class table that resolves their names, and their
    queries: [FactionControl.prettyName], [StarMap.findSystemsByOwner],
    [StarMapConstants.findSystem], and the properties that return their
    lists.  [mapAdjacents] is in Adjacency.v. *)

From Stdlib Require Import String Ascii List NArith ZArith Lia Bool.
From S2P Require Import Prelude PyVal Base64 Serial.
Import ListNotations.
Open Scope rw_scope.
Open Scope string_scope.

(** ** FactionControl.prettyName *)

Definition is_lower (a : ascii) : bool :=
  (97 <=? N_of_ascii a)%N && (N_of_ascii a <=? 122)%N.
Definition is_upper (a : ascii) : bool :=
  (65 <=? N_of_ascii a)%N && (N_of_ascii a <=? 90)%N.

(** [re.sub('([a-z])([A-Z])', r'\1 \2', s)]: the scan goes left to
    right; a match consumes both of its characters, so the search for
    the next match starts after the upper-case letter. *)
Fixpoint camel_sub (s : string) : string :=
  match s with
  | String a (String b r as t) =>
      if is_lower a && is_upper b then String a (String " " (String b (camel_sub r)))
      else String a (camel_sub t)
  | _ => s
  end.

(** The property reads [self.Name]; [re.sub] on a value that is not a
    string raises TypeError. *)
Definition prettyName (self : attrs) : res string :=
  v <- getattr self "Name" ;;
  match v with
  | PStr s => Ok (camel_sub s)
  | _ => Raise TypeError
  end.

(** ** Properties

    [StarMap.systems], [StarSystem.availableFactions] and
    [StarMapConstants.systemConstants] return the private list itself,
    not a copy. *)
Definition systems (self : attrs) : res pyval := getattr self "_systems".

Definition availableFactions (self : attrs) : res pyval := getattr self "_fctCtl".

Definition systemConstants (self : attrs) : res pyval := getattr self "_consts".

Definition adjacentSystems (self : attrs) : res pyval := getattr self "_adjacent".

(** The [prettyName] property as a getter: its value is the string. *)
Definition prettyName_prop (self : attrs) : res pyval :=
  s <- prettyName self ;; Ok (PStr s).

(** ** The classes *)

(** factioncontrol.py *)
Definition FactionControl : DataClass := {|
  cls_name := "FactionControl"; JSON_Type := "fctControl";
  init := [("Name", PStr ""); ("control", PStr ""); ("ActivePlayers", PInt 0)];
  ExcludeFromMemebers := []; SubObjectMapping := []; B64Memebers := [];
  Properties := [("prettyName", prettyName_prop)] |}.

(** starsystem.py; [self.Players = 0,] assigns the tuple [(0,)]. *)
Definition StarSystem : DataClass := {|
  cls_name := "StarSystem"; JSON_Type := "StarSystem";
  init := [("Players", PTuple [PInt 0]); ("_fctCtl", PList []); ("immuneFromWar", PBool false);
           ("markerType", PInt 0); ("name", PStr ""); ("owner", PStr "")];
  ExcludeFromMemebers := [];
  SubObjectMapping := [SubObjectMap_new FactionControl "_fctCtl" (Some "factions") true];
  B64Memebers := []; Properties := [("availableFactions", availableFactions)] |}.

(** starmap.py *)
Definition StarMap : DataClass := {|
  cls_name := "StarMap"; JSON_Type := "StarMap";
  init := [("_systems", PList [])];
  ExcludeFromMemebers := [];
  SubObjectMapping := [SubObjectMap_new StarSystem "_systems" (Some "starsystems") true];
  B64Memebers := []; Properties := [("systems", systems)] |}.

(** starsystemconst.py *)
Definition StarSystemConst : DataClass := {|
  cls_name := "StarSystemConst"; JSON_Type := "StarSystemConst";
  init := [("name", PStr ""); ("posx", PInt 0); ("posy", PInt 0);
           ("originalOwner", PStr ""); ("_adjacent", PList [])];
  ExcludeFromMemebers := []; SubObjectMapping := []; B64Memebers := [];
  Properties := [("adjacentSystems", adjacentSystems)] |}.

Definition StarMapConstants : DataClass := {|
  cls_name := "StarMapConstants"; JSON_Type := "StarMapConst";
  init := [("_consts", PList [])];
  ExcludeFromMemebers := [];
  SubObjectMapping := [SubObjectMap_new StarSystemConst "_consts" (Some "Coordinates") true];
  B64Memebers := []; Properties := [("systemConstants", systemConstants)] |}.

(** globaldata.py *)
Definition GlobalData : DataClass := {|
  cls_name := "GlobalData"; JSON_Type := "GlobalData";
  init := [("SupportRadius", PInt 0)];
  ExcludeFromMemebers := []; SubObjectMapping := []; B64Memebers := []; Properties := [] |}.

(** The class table: the class a name denotes (data/__init__.py). *)
Definition classes : list DataClass :=
  [FactionControl; StarSystem; StarMap; StarSystemConst; StarMapConstants; GlobalData].

Definition class_of (name : string) : DataClass :=
  match find (fun c => String.eqb (cls_name c) name) classes with
  | Some c => c
  | None => BaseDataObject
  end.

(** A fresh instance: [Cls()]. *)
Definition new (c : DataClass) : pyval := PObj (cls_name c) (init c).

(** ** StarMap.findSystemsByOwner *)

(** [system.owner] for an element of the list: instances only. *)
Definition attr_of (v : pyval) (name : string) : res pyval :=
  match v with
  | PObj _ a => getattr a name
  | _ => Raise AttributeError
  end.

Fixpoint filter_owner (owner : pyval) (systems : list pyval) : res (list pyval) :=
  match systems with
  | [] => Ok []
  | system :: r =>
      o <- attr_of system "owner" ;;
      rest <- filter_owner owner r ;;
      Ok (if py_eqv class_of o owner then system :: rest else rest)
  end.

Definition findSystemsByOwner (self : attrs) (owner : pyval) : res (list pyval) :=
  systems <- getattr self "_systems" ;;
  l <- py_iter systems ;;
  filter_owner owner l.

(** ** StarMapConstants.findSystem *)

Fixpoint find_const (system : pyval) (consts : list pyval) : res (option pyval) :=
  match consts with
  | [] => Ok None
  | const :: r =>
      nm <- attr_of const "name" ;;
      if py_eqv class_of system nm then Ok (Some const) else find_const system r
  end.

(** The method falls off its end, returning None, when no constant has
    the name. *)
Definition findSystem (self : attrs) (system : pyval) : res (option pyval) :=
  consts <- getattr self "_consts" ;;
  l <- py_iter consts ;;
  find_const system l.

(** ** The results the specification describes *)

Definition owner_matches (owner : pyval) (system : pyval) : bool :=
  match attr_of system "owner" with
  | Ok o => py_eqv class_of o owner
  | Raise _ => false
  end.

Definition name_matches (system : pyval) (const : pyval) : bool :=
  match attr_of const "name" with
  | Ok nm => py_eqv class_of system nm
  | Raise _ => false
  end.

Definition space : ascii := " ".

Fixpoint drop_spaces (s : string) : string :=
  match s with
  | EmptyString => EmptyString
  | String a r => if Ascii.eqb a space then drop_spaces r else String a (drop_spaces r)
  end.

(** Whether a lower-case letter is directly followed by an upper-case one. *)
Fixpoint has_camel (s : string) : bool :=
  match s with
  | String a (String b _ as t) => (is_lower a && is_upper b) || has_camel t
  | _ => false
  end.

(** ** Sample data

    A star map of two systems as the server sends it, and the instance
    [StarMap.fromJson] builds from it. *)

Definition sample_faction (nm : string) (players : Z) : pyval :=
  PObj "FactionControl" [("Name", PStr nm); ("control", PStr "100"); ("ActivePlayers", PInt players)].

Definition sample_system_attrs (nm owner : string) : attrs :=
  [("Players", PInt 3); ("_fctCtl", PList [sample_faction owner 3]);
   ("immuneFromWar", PBool false); ("markerType", PInt 1); ("name", PStr nm); ("owner", PStr owner)].

Definition sample_system (nm owner : string) : pyval :=
  PObj "StarSystem" (sample_system_attrs nm owner).

Definition sample_map_attrs : attrs :=
  [("_systems", PList [sample_system "Terra" "RedSunAlliance"; sample_system "Vega" "Empire";
                       sample_system "Sol" "RedSunAlliance"])].

Definition terra_json : pyval :=
  PDict [("Players", PInt 3); ("immuneFromWar", PBool false); ("markerType", PInt 1);
         ("name", PStr "Terra"); ("owner", PStr "RedSunAlliance");
         ("factions", PList [PDict [("ActivePlayers", PInt 3); ("Name", PStr "RedSunAlliance");
                                    ("control", PStr "100")]])].

Definition sample_map_dd : list (string * pyval) := [("starsystems", PList [terra_json])].

Definition sample_json : pyval := PDict sample_map_dd.

(** Every member of an instance holds plain data (the hypothesis of
    the equality after the round trip), as a check. *)
Definition plain_membersb (c : DataClass) (a : attrs) : bool :=
  forallb (fun kv => negb (is_member c (fst kv)) || plainb (snd kv)) a.

(** A class with a singleton mapping: an instance holding one GlobalData
    object under [_global] ([bol_list=False]). *)
Definition global_item : SubObjectMap := SubObjectMap_new GlobalData "_global" None false.

Definition sample_global : pyval := PObj "GlobalData" [("SupportRadius", PInt 50)].

(** Values on which the [in] operator raises TypeError: neither a
    container nor a string. *)
Definition not_container (v : pyval) : bool :=
  match v with
  | PDict _ | PList _ | PTuple _ | PStr _ => false
  | _ => true
  end.

(** A faction record whose [Name] is not a string. *)
Definition bad_faction_record : list (string * pyval) :=
  [("ActivePlayers", PInt 2); ("Name", PInt 5); ("control", PStr "100")].

Definition sample_consts : list pyval :=
  [PObj "StarSystemConst" [("name", PStr "Terra"); ("posx", PInt 0); ("posy", PInt 0);
                           ("originalOwner", PStr "Empire"); ("_adjacent", PList [])];
   PObj "StarSystemConst" [("name", PStr "Vega"); ("posx", PInt 3); ("posy", PInt 4);
                           ("originalOwner", PStr "Empire"); ("_adjacent", PList [])]].

(** A class with a base64 member, in a class table of its own (none of
    the program's classes declares [_B64Memebers]). *)
Definition Blob : DataClass := {|
  cls_name := "Blob"; JSON_Type := "Blob"; init := [("payload", PNone)];
  ExcludeFromMemebers := []; SubObjectMapping := []; B64Memebers := ["payload"]; Properties := [] |}.

Definition blob_table (name : string) : DataClass := Blob.

(** ** Properties of the queries *)

Lemma py_eqv_str s t : py_eqv class_of (PStr s) (PStr t) = String.eqb s t.
Proof. reflexivity. Qed.

Lemma filter_owner_spec owner l :
  (forall s, In s l -> exists o, attr_of s "owner" = Ok o) ->
  filter_owner owner l = Ok (filter (owner_matches owner) l).
Proof.
  induction l as [|s l IH]; intros H; [reflexivity|]. simpl.
  destruct (H s (or_introl eq_refl)) as [o Ho]. rewrite Ho. simpl.
  rewrite IH by (intros; apply H; right; assumption). simpl.
  unfold owner_matches. rewrite Ho. reflexivity.
Qed.

(** C13: [StarMap.findSystemsByOwner(owner)] returns exactly the systems
    of the map whose [owner] attribute is [==] to [owner], in their order
    in the map. *)
Theorem findSystemsByOwner_spec self l owner :
  aget "_systems" self = Some (PList l) ->
  (forall s, In s l -> exists o, attr_of s "owner" = Ok o) ->
  findSystemsByOwner self owner = Ok (filter (owner_matches owner) l).
Proof.
  intros Hs Ho. unfold findSystemsByOwner, getattr. rewrite Hs. simpl.
  apply filter_owner_spec, Ho.
Qed.

(** [StarMapConstants.findSystem(system)] returns the first constant
    whose [name] is [==] to [system], and None when there is none. *)
Theorem findSystem_spec self l system :
  aget "_consts" self = Some (PList l) ->
  (forall c, In c l -> exists nm, attr_of c "name" = Ok nm) ->
  findSystem self system = Ok (find (name_matches system) l).
Proof.
  intros Hc Hn. unfold findSystem, getattr. rewrite Hc. simpl. clear Hc.
  induction l as [|c l IH]; [reflexivity|]. simpl.
  destruct (Hn c (or_introl eq_refl)) as [nm Hnm]. rewrite Hnm. simpl.
  replace (name_matches system c) with (py_eqv class_of system nm)
    by (unfold name_matches; rewrite Hnm; reflexivity).
  destruct (py_eqv class_of system nm); [reflexivity|].
  apply IH. intros; apply Hn; right; assumption.
Qed.

(** *** The classes meet the conditions of the round trip *)

(** Every entity type of the program meets the conditions of the
    serialisation round trip ([class_okb]), the class table resolves its
    name to it, and its fresh instance [Cls()] is well-formed. *)
Lemma entities_wf c :
  In c classes -> class_okb c = true /\ class_of (cls_name c) = c /\ wf_obj class_of (new c).
Proof.
  intros Hc. cbn [classes In] in Hc.
  repeat (destruct Hc as [<-|Hc]; [split; [reflexivity|split; [reflexivity|]];
    apply (wf_objb_sound class_of 5); vm_compute; first [lia|reflexivity]|]).
  contradiction.
Qed.

(** The properties of the program's classes read only the instance's
    members and which attributes it has. *)
Lemma class_of_In cn : In (class_of cn) (BaseDataObject :: classes).
Proof.
  unfold class_of. destruct (find _ classes) eqn:E; [right; exact (proj1 (find_some _ _ E))|left; reflexivity].
Qed.

Lemma entities_props_local cn : props_local (class_of cn).
Proof.
  pose proof (class_of_In cn) as Hc. generalize dependent (class_of cn). intros c Hc a b Hk Hm.
  cbn [classes In] in Hc.
  repeat (destruct Hc as [<-|Hc]); try contradiction;
    unfold props_ok;
    cbn [Properties eval_props BaseDataObject FactionControl StarSystem StarMap StarSystemConst
         StarMapConstants GlobalData]; try reflexivity;
    unfold prettyName_prop, prettyName, systems, availableFactions, systemConstants, adjacentSystems, getattr.
  all: first [rewrite (Hm "Name" eq_refl); reflexivity | destruct (aget _ a), (aget _ b); reflexivity].
Qed.

(** *** Reading the wire format *)

(** [_fromJson] of a class with no public member and one list mapping
    ([StarMap], [StarMapConstants]) sets the container to the
    sub-objects built from the list under the JSON key, in order. *)
Lemma fromJson_single_list n c item dd vs fs :
  _get_members c (init c) = Ok [] -> SubObjectMapping c = [item] -> isList item = true ->
  aget (JsonContainer item) dd = Some (PList vs) ->
  Forall2 (fun v f => exists b, _fromJson class_of n (class_of (SubClass item)) (init (class_of (SubClass item))) v
                                = (f, Ok b)) vs fs ->
  _fromJson class_of (S n) c (init c) (PDict dd)
  = (aset (Container item) (PList (map (PObj (SubClass item)) fs)) (aset (Container item) (PList []) (init c)), Ok true).
Proof.
  intros Hm Hs Hl Hv Hf. cbn [_fromJson]. rewrite Hm. cbn [members_from_json]. rewrite Hs. cbn [submaps_from_json].
  rewrite (submap_from_json_list class_of _ item dd (init c) vs _ Hl Hv (fill_list_ok class_of _ _ vs fs [] Hf)).
  reflexivity.
Qed.

(** The property reads back what the mapping set. *)
Lemma getattr_single_list k objs a : getattr (aset k (PList objs) (aset k (PList []) a)) k = Ok (PList objs).
Proof. unfold getattr. rewrite aget_aset_eq. reflexivity. Qed.

(** C23: Reading the wire format of a map: [StarMap.fromJson] on a dict
    whose key ["starsystems"] holds a list of system records, each of
    which [StarSystem.fromJson] reads, returns True, and the map's
    [systems] property is the list of those StarSystem instances, in
    the order of the records. *)
Theorem starmap_systems_fromJson n dd vs fs :
  aget "starsystems" dd = Some (PList vs) ->
  Forall2 (fun v f => exists b, _fromJson class_of n StarSystem (init StarSystem) v = (f, Ok b)) vs fs ->
  exists f, _fromJson class_of (S n) StarMap (init StarMap) (PDict dd) = (f, Ok true) /\
            systems f = Ok (PList (map (PObj "StarSystem") fs)).
Proof.
  intros Hv Hf. eexists. split.
  - exact (fromJson_single_list n StarMap _ dd vs fs eq_refl eq_refl eq_refl Hv Hf).
  - apply getattr_single_list.
Qed.

(** The same for the constants: the key ["Coordinates"] fills
    [systemConstants]. *)
Lemma starmapconst_fromJson n dd vs fs :
  aget "Coordinates" dd = Some (PList vs) ->
  Forall2 (fun v f => exists b, _fromJson class_of n StarSystemConst (init StarSystemConst) v = (f, Ok b)) vs fs ->
  exists f, _fromJson class_of (S n) StarMapConstants (init StarMapConstants) (PDict dd) = (f, Ok true) /\
            systemConstants f = Ok (PList (map (PObj "StarSystemConst") fs)).
Proof.
  intros Hv Hf. eexists. split.
  - exact (fromJson_single_list n StarMapConstants _ dd vs fs eq_refl eq_refl eq_refl Hv Hf).
  - apply getattr_single_list.
Qed.

(** *** prettyName *)

Lemma lower_not_space a : is_lower a = true -> Ascii.eqb a space = false.
Proof. intros H. destruct (Ascii.eqb_spec a space) as [->|]; [discriminate|reflexivity]. Qed.

Lemma upper_not_space a : is_upper a = true -> Ascii.eqb a space = false.
Proof. intros H. destruct (Ascii.eqb_spec a space) as [->|]; [discriminate|reflexivity]. Qed.

Lemma upper_not_lower a : is_upper a = true -> is_lower a = false.
Proof.
  unfold is_upper, is_lower. rewrite !andb_true_iff, !N.leb_le. intros [H1 H2].
  destruct (N.leb_spec 97 (N_of_ascii a)); [lia|reflexivity].
Qed.

Lemma camel_sub_head a r : exists r', camel_sub (String a r) = String a r'.
Proof. destruct r as [|b r]; simpl; [eauto|]. destruct (is_lower a && is_upper b); eauto. Qed.

Lemma camel_sub_cons2 a b r : camel_sub (String a (String b r)) =
  if is_lower a && is_upper b then String a (String " " (String b (camel_sub r)))
  else String a (camel_sub (String b r)).
Proof. reflexivity. Qed.

Lemma has_camel_cons2 a b r :
  has_camel (String a (String b r)) = (is_lower a && is_upper b) || has_camel (String b r).
Proof. reflexivity. Qed.

Lemma has_camel_not_lower b r : is_lower b = false -> has_camel (String b r) = has_camel r.
Proof. intros H. destruct r; [reflexivity|]. rewrite has_camel_cons2, H. reflexivity. Qed.

Ltac camel_cases n IH :=
  induction n as [|n IH]; intros [|a [|b r]] Hl; cbn [String.length] in Hl;
    try reflexivity; try lia; rewrite camel_sub_cons2.

(** The scan inserts spaces only. *)
Lemma camel_sub_drop_spaces_n n : forall s, String.length s <= n ->
  drop_spaces (camel_sub s) = drop_spaces s.
Proof.
  camel_cases n IH. destruct (is_lower a && is_upper b) eqn:E.
  - apply andb_prop in E as [Ea Eb]. cbn [drop_spaces].
    rewrite (lower_not_space _ Ea), (upper_not_space _ Eb), Ascii.eqb_refl.
    rewrite IH by lia. reflexivity.
  - cbn [drop_spaces]. rewrite (IH (String b r)) by (cbn [String.length]; lia). reflexivity.
Qed.

Lemma camel_sub_no_camel_n n : forall s, String.length s <= n -> has_camel (camel_sub s) = false.
Proof.
  camel_cases n IH. destruct (is_lower a && is_upper b) eqn:E.
  - apply andb_prop in E as [_ Eb].
    rewrite !has_camel_cons2, has_camel_not_lower by (apply upper_not_lower, Eb).
    replace (is_upper space) with false by reflexivity.
    replace (is_lower space) with false by reflexivity.
    rewrite andb_false_r, andb_false_l. apply IH. lia.
  - destruct (camel_sub_head b r) as [r' Hr']. rewrite Hr', has_camel_cons2, E, orb_false_l, <- Hr'.
    apply IH. cbn [String.length]. lia.
Qed.

Lemma camel_sub_id_n n : forall s, String.length s <= n -> has_camel s = false -> camel_sub s = s.
Proof.
  camel_cases n IH. intros Hc. cbn [has_camel] in Hc.
  apply orb_false_iff in Hc as [E Hc]. rewrite E, IH by (cbn [String.length]; lia || exact Hc).
  reflexivity.
Qed.

(** C35: [prettyName] only inserts spaces: removing the spaces from
    [camel_sub s] gives [s] with its spaces removed, and no lower-case
    letter is followed by an upper-case letter in the result. *)
Theorem camel_sub_spec s :
  drop_spaces (camel_sub s) = drop_spaces s /\ has_camel (camel_sub s) = false.
Proof.
  split; [apply (camel_sub_drop_spaces_n (String.length s))|apply (camel_sub_no_camel_n (String.length s))];
    lia.
Qed.

(** [prettyName] is idempotent: the pretty name of a pretty name is
    itself. *)
Theorem camel_sub_idempotent s : camel_sub (camel_sub s) = camel_sub s.
Proof.
  apply (camel_sub_id_n (String.length (camel_sub s))); [lia|]. apply (camel_sub_no_camel_n (String.length s)); lia.
Qed.

(** The example of the specification: the faction
    "RedSunAlliance" is displayed as "Red Sun Alliance". *)
Example prettyName_RedSunAlliance :
  prettyName [("Name", PStr "RedSunAlliance"); ("control", PStr ""); ("ActivePlayers", PInt 0)]
     = Ok "Red Sun Alliance".
Proof. reflexivity. Qed.

Lemma plain_membersb_spec c a : plain_membersb c a = true ->
  forall k v, is_member c k = true -> aget k a = Some v -> plainb v = true.
Proof.
  unfold plain_membersb. rewrite forallb_forall. intros H k v Hm Ha.
  specialize (H _ (aget_In _ _ _ Ha)). cbn [fst snd] in H. rewrite Hm in H. exact H.
Qed.

(** ** Witnesses of the serialisation theorems on the sample map *)

Lemma sample_map_wf : wf_obj class_of (PObj "StarMap" sample_map_attrs).
Proof. apply (wf_objb_sound class_of 10); vm_compute; first [lia | reflexivity]. Qed.

Lemma toRawJson_fromJson_roundtrip_witness :
  wf_obj class_of (PObj "StarMap" sample_map_attrs) /\ depth (PObj "StarMap" sample_map_attrs) < 10 /\
  exists D f, toRawJson class_of 10 (PObj "StarMap" sample_map_attrs) = Ok D /\
    fromJson class_of (fun _ => None) 10 (class_of "StarMap") (init (class_of "StarMap")) D = (f, Ok true) /\
    reset class_of (PObj "StarMap" sample_map_attrs) = PObj "StarMap" f.
Proof.
  assert (Hd : depth (PObj "StarMap" sample_map_attrs) < 10) by (vm_compute; lia).
  split; [exact sample_map_wf|]. split; [exact Hd|].
  exact (toRawJson_fromJson_roundtrip class_of (fun _ => None) 10 "StarMap" sample_map_attrs sample_map_wf Hd).
Defined.

Lemma fromJson_toRawJson_eq_witness :
  props_local (class_of "StarSystem") /\ wf_obj class_of (sample_system "Terra" "Empire") /\ depth (sample_system "Terra" "Empire") < 10 /\
  (forall k v, is_member (class_of "StarSystem") k = true -> aget k (sample_system_attrs "Terra" "Empire") = Some v -> plainb v = true) /\
  exists D f, toRawJson class_of 10 (sample_system "Terra" "Empire") = Ok D /\
    fromJson class_of (fun _ => None) 10 (class_of "StarSystem") (init (class_of "StarSystem")) D = (f, Ok true) /\
    __eq__ class_of (PObj "StarSystem" f) (sample_system "Terra" "Empire") = Ok true.
Proof.
  assert (Hw : wf_obj class_of (sample_system "Terra" "Empire"))
    by (apply (wf_objb_sound class_of 10); vm_compute; first [lia | reflexivity]).
  assert (Hd : depth (sample_system "Terra" "Empire") < 10) by (vm_compute; lia).
  assert (Hp := plain_membersb_spec (class_of "StarSystem") (sample_system_attrs "Terra" "Empire") ltac:(vm_compute; reflexivity)).
  split; [exact (entities_props_local "StarSystem")|]. split; [exact Hw|]. split; [exact Hd|]. split; [exact Hp|].
  exact (fromJson_toRawJson_eq class_of (fun _ => None) 10 "StarSystem" (sample_system_attrs "Terra" "Empire")
           (entities_props_local "StarSystem") Hw Hd Hp).
Defined.

Lemma singleton_mapping_loses_child_witness :
  isList global_item = false /\ getattr [("_global", sample_global)] (Container global_item) = Ok sample_global /\
  sample_global <> PNone /\
  _toJson class_of 5 sample_global = Ok (PDict [("SupportRadius", PInt 50)]) /\
  aget (JSON_Type (class_of (SubClass global_item))) [("SupportRadius", PInt 50)] = None /\
  exists d1, submap_to_json (_toJson class_of 5) [("_global", sample_global)] global_item [] = Ok d1 /\
    submap_from_json class_of (_fromJson class_of 5) global_item (PDict d1) [] =
      (aset (Container global_item) (PObj (SubClass global_item) (init (class_of (SubClass global_item)))) [],
       Ok tt).
Proof.
  assert (H1 : isList global_item = false) by reflexivity.
  assert (H2 : getattr [("_global", sample_global)] (Container global_item) = Ok sample_global) by reflexivity.
  assert (H3 : sample_global <> PNone) by discriminate.
  assert (H4 : _toJson class_of 5 sample_global = Ok (PDict [("SupportRadius", PInt 50)])) by (vm_compute; reflexivity).
  assert (H5 : aget (JSON_Type (class_of (SubClass global_item))) [("SupportRadius", PInt 50)] = None)
    by (vm_compute; reflexivity).
  repeat (split; [assumption|]).
  exact (singleton_mapping_loses_child class_of (_toJson class_of 5) (_fromJson class_of 5)
           [("_global", sample_global)] global_item [] sample_global _ [] H1 H2 H3 H4 H5).
Defined.

(** ** Witnesses of the queries *)

Lemma findSystemsByOwner_spec_witness :
  aget "_systems" sample_map_attrs = Some (PList [sample_system "Terra" "RedSunAlliance";
      sample_system "Vega" "Empire"; sample_system "Sol" "RedSunAlliance"]) /\
  findSystemsByOwner sample_map_attrs (PStr "RedSunAlliance")
    = Ok (filter (owner_matches (PStr "RedSunAlliance")) [sample_system "Terra" "RedSunAlliance";
      sample_system "Vega" "Empire"; sample_system "Sol" "RedSunAlliance"]) /\
  filter (owner_matches (PStr "RedSunAlliance")) [sample_system "Terra" "RedSunAlliance";
      sample_system "Vega" "Empire"; sample_system "Sol" "RedSunAlliance"]
    = [sample_system "Terra" "RedSunAlliance"; sample_system "Sol" "RedSunAlliance"].
Proof.
  split; [reflexivity|]. split; [|vm_compute; reflexivity].
  apply findSystemsByOwner_spec; [reflexivity|].
  intros s Hs. repeat (destruct Hs as [<-|Hs]; [eexists; reflexivity|]). destruct Hs.
Defined.

(** ** What the round trip does not cover *)

(** C24: A malformed element nested in the data is not caught.  When
    an element of the [starsystems] list is neither a container nor a
    string, [StarSystem._fromJson] evaluates [member in json] on it
    outside its try block, and the TypeError propagates out of
    [StarMap.fromJson] instead of the method returning False. *)
Theorem fromJson_nested_scalar_raises loads n x rest :
  2 < n -> not_container x = true ->
  snd (fromJson class_of loads n StarMap (init StarMap) (PDict [("starsystems", PList (x :: rest))]))
    = Raise TypeError.
Proof.
  intros Hn Hx. destruct n as [|[|[|n]]]; try lia.
  destruct x; try discriminate Hx; reflexivity.
Qed.

(** C3: A faction record whose [Name] is not a string.  [_fromJson]
    does not check the type of a member: reading a FactionControl
    record whose ["Name"] holds a value that is not a string returns
    True and stores the value.  From then on [inspect.getmembers],
    called by [_get_members], evaluates the [prettyName] property,
    whose [re.sub] raises TypeError on the value: [toRawJson] and
    [__eq__] raise TypeError instead of serialising or comparing the
    instance. *)
Theorem factioncontrol_name_not_str n dd v :
  aget "Name" dd = Some v -> (forall s, v <> PStr s) ->
  exists f, _fromJson class_of (S n) FactionControl (init FactionControl) (PDict dd) = (f, Ok true) /\
    aget "Name" f = Some v /\
    toRawJson class_of (S n) (PObj "FactionControl" f) = Raise TypeError /\
    (forall other, __eq__ class_of (PObj "FactionControl" f) other = Raise TypeError).
Proof.
  intros Hn Hv. destruct v; try (exfalso; eapply Hv; reflexivity); clear Hv;
    cbn [_fromJson]; rewrite (get_members_ok FactionControl (init FactionControl) eq_refl); cbn -[aget aset];
    rewrite Hn; destruct (aget "ActivePlayers" dd), (aget "control" dd); cbn -[aget aset];
    (eexists; split; [reflexivity|]; split; [reflexivity|]; split; [reflexivity|intros; reflexivity]).
Qed.

(** C37: A tuple member of a StarSystem does not survive JSON text:
    [self.Players = 0,] makes a StarSystem hold the tuple [(0,)].  For
    every well-formed StarSystem whose member [k] holds a tuple,
    [toRawJson] succeeds, and whenever [json.dumps]/[json.loads] carry
    its dict, [fromJson] on the result (whatever it returns) sets [k]
    to a list, and the instance is not [__eq__] to the original: a
    tuple is never equal to a list. *)
Theorem starsystem_tuple_text_neq loads n a k l :
  wf_obj class_of (PObj "StarSystem" a) -> depth (PObj "StarSystem" a) < n ->
  is_member StarSystem k = true -> aget k a = Some (PTuple l) ->
  exists D, toRawJson class_of n (PObj "StarSystem" a) = Ok D /\
    forall T f r, json_norm D = Ok T ->
      fromJson class_of loads n StarSystem (init StarSystem) T = (f, r) ->
      (exists l', aget k f = Some (PList l')) /\
      __eq__ class_of (PObj "StarSystem" f) (PObj "StarSystem" a) = Ok false.
Proof.
  intros Hwf Hd Hm Ha. destruct (toJson_total class_of n "StarSystem" a Hwf Hd) as [D HD].
  exists D. split; [exact HD|]. intros T f r HT Hf.
  destruct (toJson_member class_of n "StarSystem" a D k _ Hwf Hm Ha eq_refl HD) as (d & x & -> & Hx & Gx).
  injection Hx as <-. destruct (json_norm_dict_aget d T k _ HT Gx) as (t & v' & -> & Hv & Ht).
  cbn [json_norm] in Hv. destruct (res_map json_norm l) as [l'|e]; cbn [res_bind] in Hv; [|discriminate].
  injection Hv as <-. destruct n as [|n]; [cbn in Hd; lia|]. cbn [fromJson] in Hf.
  inversion Hwf as [? ? _ Hkeys _ _ _ _]; subst.
  assert (Hk : aget k f = Some (PList l')).
  { replace f with (fst (_fromJson class_of (S n) StarSystem (init StarSystem) (PDict t))) by (rewrite Hf; reflexivity).
    apply fromJson_member_set; [reflexivity|reflexivity|apply nodupb_NoDup; reflexivity| |exact Hm| |exact Ht].
    - change (akeys (init StarSystem)) with (akeys (init (class_of "StarSystem"))). rewrite <- Hkeys.
      exact (aget_Some_in _ _ _ Ha).
    - cbn. intros [<-|[]]. discriminate Hm. }
  split; [eauto|].
  assert (Hp : props_ok (class_of "StarSystem") f = true)
    by (unfold props_ok; cbn; unfold availableFactions, getattr; destruct (aget "_fctCtl" f); reflexivity).
  unfold __eq__. rewrite (get_members_ok _ _ Hp). cbn [res_bind]. f_equal. unfold py_eqv. cbn [py_eq].
  apply andb_false_iff; right. apply Bool.not_true_iff_false. intros Hall. rewrite forallb_forall in Hall.
  assert (Hin : In (k, PList l') (member_attrs (class_of "StarSystem") f))
    by (apply sort_by_key_In, filter_In; split; [exact (aget_In _ _ _ Hk)|exact Hm]).
  specialize (Hall _ Hin). cbn [fst snd] in Hall. rewrite Ha in Hall. discriminate Hall.
Qed.

Lemma factioncontrol_name_not_str_witness :
  aget "Name" bad_faction_record = Some (PInt 5) /\ (forall s, PInt 5 <> PStr s) /\
  exists f, _fromJson class_of 3 FactionControl (init FactionControl) (PDict bad_faction_record) = (f, Ok true) /\
    aget "Name" f = Some (PInt 5) /\
    toRawJson class_of 3 (PObj "FactionControl" f) = Raise TypeError /\
    (forall other, __eq__ class_of (PObj "FactionControl" f) other = Raise TypeError).
Proof.
  assert (H1 : aget "Name" bad_faction_record = Some (PInt 5)) by reflexivity.
  assert (H2 : forall s, PInt 5 <> PStr s) by discriminate.
  split; [exact H1|]. split; [exact H2|].
  exact (factioncontrol_name_not_str 2 bad_faction_record (PInt 5) H1 H2).
Defined.

Lemma starsystem_tuple_text_neq_witness :
  wf_obj class_of (PObj "StarSystem" (init StarSystem)) /\ depth (PObj "StarSystem" (init StarSystem)) < 5 /\
  is_member StarSystem "Players" = true /\ aget "Players" (init StarSystem) = Some (PTuple [PInt 0]) /\
  exists D, toRawJson class_of 5 (PObj "StarSystem" (init StarSystem)) = Ok D /\
    forall T f r, json_norm D = Ok T ->
      fromJson class_of (fun _ => None) 5 StarSystem (init StarSystem) T = (f, r) ->
      (exists l', aget "Players" f = Some (PList l')) /\
      __eq__ class_of (PObj "StarSystem" f) (PObj "StarSystem" (init StarSystem)) = Ok false.
Proof.
  assert (Hw : wf_obj class_of (PObj "StarSystem" (init StarSystem)))
    by (apply (wf_objb_sound class_of 5); vm_compute; first [lia | reflexivity]).
  assert (Hd : depth (PObj "StarSystem" (init StarSystem)) < 5) by (vm_compute; lia).
  split; [exact Hw|]. split; [exact Hd|]. split; [reflexivity|]. split; [reflexivity|].
  exact (starsystem_tuple_text_neq (fun _ => None) 5 (init StarSystem) "Players" [PInt 0] Hw Hd eq_refl eq_refl).
Defined.

Lemma fromJson_nested_scalar_raises_witness :
  2 < 5 /\ not_container (PInt 5) = true /\
  snd (fromJson class_of (fun _ => None) 5 StarMap (init StarMap) (PDict [("starsystems", PList [PInt 5])]))
    = Raise TypeError.
Proof.
  split; [lia|]. split; [reflexivity|].
  exact (fromJson_nested_scalar_raises (fun _ => None) 5 (PInt 5) [] ltac:(lia) eq_refl).
Defined.

Lemma fromJson_member_failure_aborts_witness :
  _get_members FactionControl (init FactionControl)
    = Ok ([("ActivePlayers", PInt 0)] ++ ("Name", PStr "") :: [("control", PStr "")])%list /\
  (forall k' v', In (k', v') [("ActivePlayers", PInt 0)] -> py_in_str k' (PStr "Name") = Ok false) /\
  py_in_str "Name" (PStr "Name") = Ok true /\
  (x <- py_getitem_str (PStr "Name") "Name" ;; decode_member FactionControl "Name" x) = Raise TypeError /\
  _fromJson class_of 5 FactionControl (init FactionControl) (PStr "Name") = (init FactionControl, Ok false).
Proof.
  assert (H1 : _get_members FactionControl (init FactionControl)
               = Ok ([("ActivePlayers", PInt 0)] ++ ("Name", PStr "") :: [("control", PStr "")])%list) by reflexivity.
  assert (H2 : forall k' v', In (k', v') [("ActivePlayers", PInt 0)] -> py_in_str k' (PStr "Name") = Ok false)
    by (intros k' v' [E|[]]; injection E as <- <-; reflexivity).
  assert (H3 : py_in_str "Name" (PStr "Name") = Ok true) by reflexivity.
  assert (H4 : (x <- py_getitem_str (PStr "Name") "Name" ;; decode_member FactionControl "Name" x) = Raise TypeError)
    by reflexivity.
  split; [exact H1|]. split; [exact H2|]. split; [exact H3|]. split; [exact H4|].
  exact (fromJson_member_failure_aborts class_of 4 FactionControl (init FactionControl) (PStr "Name")
           _ _ _ _ _ H1 H2 H3 H4).
Defined.

(** [__eq__] does not compare sub-objects: a StarMap has no member
    (its systems are in the private [_systems]), so any two star maps
    compare equal, whatever systems they hold. *)
Theorem starmap_eq_ignores_systems v1 v2 :
  __eq__ class_of (PObj "StarMap" [("_systems", v1)]) (PObj "StarMap" [("_systems", v2)]) = Ok true.
Proof. reflexivity. Qed.

Lemma toJson_text_roundtrip_witness :
  wf_obj class_of (PObj "StarMap" sample_map_attrs) /\ textb class_of (PObj "StarMap" sample_map_attrs) = true /\
  depth (PObj "StarMap" sample_map_attrs) < 10 /\
  exists D f, toRawJson class_of 10 (PObj "StarMap" sample_map_attrs) = Ok D /\ json_norm D = Ok D /\
    (forall text, (fun _ : pyval => @None pyval) (PStr text) = Some D ->
       fromJson class_of (fun _ => None) 10 (class_of "StarMap") (init (class_of "StarMap")) (PStr text)
         = (f, Ok true)) /\
    reset class_of (PObj "StarMap" sample_map_attrs) = PObj "StarMap" f.
Proof.
  assert (Ht : textb class_of (PObj "StarMap" sample_map_attrs) = true) by (vm_compute; reflexivity).
  assert (Hd : depth (PObj "StarMap" sample_map_attrs) < 10) by (vm_compute; lia).
  split; [exact sample_map_wf|]. split; [exact Ht|]. split; [exact Hd|].
  exact (toJson_text_roundtrip class_of (fun _ => None) 10 "StarMap" sample_map_attrs sample_map_wf Ht Hd).
Defined.

Lemma b64_member_breaks_text_witness :
  wf_obj blob_table (PObj "Blob" [("payload", PBytes [Byte.x41; Byte.x42])]) /\
  is_member (blob_table "Blob") "payload" = true /\ in_b64 (blob_table "Blob") "payload" = true /\
  aget "payload" [("payload", PBytes [Byte.x41; Byte.x42])] = Some (PBytes [Byte.x41; Byte.x42]) /\
  depth (PObj "Blob" [("payload", PBytes [Byte.x41; Byte.x42])]) < 5 /\
  exists D, toRawJson blob_table 5 (PObj "Blob" [("payload", PBytes [Byte.x41; Byte.x42])]) = Ok D /\
    json_norm D = Raise TypeError.
Proof.
  assert (Hw : wf_obj blob_table (PObj "Blob" [("payload", PBytes [Byte.x41; Byte.x42])]))
    by (apply (wf_objb_sound blob_table 5); vm_compute; first [lia | reflexivity]).
  assert (Hd : depth (PObj "Blob" [("payload", PBytes [Byte.x41; Byte.x42])]) < 5) by (vm_compute; lia).
  split; [exact Hw|]. split; [reflexivity|]. split; [reflexivity|]. split; [reflexivity|]. split; [exact Hd|].
  exact (b64_member_breaks_text blob_table 5 "Blob" _ "payload" [Byte.x41; Byte.x42] Hw eq_refl eq_refl eq_refl Hd).
Defined.

Lemma starmap_systems_fromJson_witness :
  aget "starsystems" sample_map_dd = Some (PList [terra_json]) /\
  Forall2 (fun v f => exists b, _fromJson class_of 5 StarSystem (init StarSystem) v = (f, Ok b))
    [terra_json] [sample_system_attrs "Terra" "RedSunAlliance"] /\
  exists f, _fromJson class_of 6 StarMap (init StarMap) (PDict sample_map_dd) = (f, Ok true) /\
            systems f = Ok (PList [sample_system "Terra" "RedSunAlliance"]).
Proof.
  assert (Hv : aget "starsystems" sample_map_dd = Some (PList [terra_json])) by reflexivity.
  assert (Hf : Forall2 (fun v f => exists b, _fromJson class_of 5 StarSystem (init StarSystem) v = (f, Ok b))
                 [terra_json] [sample_system_attrs "Terra" "RedSunAlliance"])
    by (constructor; [exists true; vm_compute; reflexivity|constructor]).
  split; [exact Hv|]. split; [exact Hf|].
  exact (starmap_systems_fromJson 5 sample_map_dd _ _ Hv Hf).
Defined.

(** The faction records of a system read from the wire are its
    [availableFactions]. *)
Example availableFactions_terra :
  availableFactions (fst (_fromJson class_of 5 StarSystem (init StarSystem) terra_json))
  = Ok (PList [sample_faction "RedSunAlliance" 3]).
Proof. vm_compute. reflexivity. Qed.

