(* ===== verification/TextIO.v ===== *)
(** * Text and file I/O of BaseDataObject (basejsonobject.py 243-313)

    [toJson] prints the dict [_toJson] builds with [json.dumps];
    [toFile] writes the pretty, non-ASCII-escaped text encoded in UTF-8
    to a file; [fromFile] reads the bytes back, decodes them with the
    codec [_getUtfEncoding] picks from the byte-order mark, and passes
    the text to [fromJson].

    Module [Codec] models the three codecs CPython's [bytes.decode] and
    [str.encode] run here (strict error handler, every decoding error a
    UnicodeDecodeError, a subclass of ValueError): UTF-8 after
    [Objects/stringlib/codecs.h], UTF-16 and UTF-32 with their
    byte-order mark.  A Python [str] is the list of its code points
    ([list N]); it is a [string] of the model when every code point is
    below 256.  [json.loads] on a [str] first rejects a leading U+FEFF
    ([json/__init__.py]) and then runs the scanner of [JsonText].

    The file system is an association list from file names to byte
    strings; [io.open(name, 'rb')] on a missing name raises OSError.
    Writing always succeeds. *)

From Stdlib Require Import String Ascii List ZArith NArith Lia Bool.
From Stdlib Require Strings.Byte.
From S2P Require Import Prelude PyVal JsonText JsonPrefix Base64 Serial Entities.
Import ListNotations.
Open Scope rw_scope.
Open Scope list_scope.

Module Codec.
Local Open Scope N_scope.

(** ** Code points and strings *)

Definition cps_of (s : string) : list N := map N_of_ascii (list_ascii_of_string s).

Definition latin1 (cps : list N) : option string :=
  if forallb (fun c => c <? 256) cps then Some (string_of_list_ascii (map ascii_of_N cps)) else None.

(** A Unicode scalar value: below 0x110000 and not a surrogate. *)
Definition surrogate (ch : N) : bool := (0xD800 <=? ch) && (ch <? 0xE000).
Definition scalar (ch : N) : bool := (ch <? 0x110000) && negb (surrogate ch).

(** ** UTF-8 *)

(** [str.encode('utf-8')] on one code point (unicode_encode_utf8):
    a surrogate raises UnicodeEncodeError. *)
Definition utf8_char (ch : N) : res (list N) :=
  if ch <? 0x80 then Ok [ch]
  else if ch <? 0x800 then Ok [N.lor 0xC0 (N.shiftr ch 6); N.lor 0x80 (N.land ch 0x3F)]
  else if ch <? 0x10000 then
    if surrogate ch then Raise ValueError
    else Ok [N.lor 0xE0 (N.shiftr ch 12); N.lor 0x80 (N.land (N.shiftr ch 6) 0x3F);
             N.lor 0x80 (N.land ch 0x3F)]
  else Ok [N.lor 0xF0 (N.shiftr ch 18); N.lor 0x80 (N.land (N.shiftr ch 12) 0x3F);
           N.lor 0x80 (N.land (N.shiftr ch 6) 0x3F); N.lor 0x80 (N.land ch 0x3F)].

Definition utf8_encode (cps : list N) : res (list N) :=
  bss <- res_map utf8_char cps ;; Ok (concat bss).

Definition cont (b : N) : bool := (0x80 <=? b) && (b <? 0xC0).
Definition in_range (lo hi b : N) : bool := (lo <=? b) && (b <? hi).

(** The second byte of a three-byte sequence: after E0 it is at least
    A0 (no overlong form), after ED below A0 (no surrogate). *)
Definition second3 (ch ch2 : N) : bool :=
  if ch =? 0xE0 then in_range 0xA0 0xC0 ch2
  else if ch =? 0xED then in_range 0x80 0xA0 ch2
  else cont ch2.

(** The second byte of a four-byte sequence: after F0 at least 90, after
    F4 below 90 (the result stays below 0x110000). *)
Definition second4 (ch ch2 : N) : bool :=
  if ch =? 0xF0 then in_range 0x90 0xC0 ch2
  else if ch =? 0xF4 then in_range 0x80 0x90 ch2
  else cont ch2.

(** [bytes.decode('utf-8')]: the decoding loop of codecs.h, with the
    arithmetic the C code does; every error is a ValueError. *)
Fixpoint utf8_decode (bs : list N) : res (list N) :=
  match bs with
  | [] => Ok []
  | ch :: r =>
      if ch <? 0x80 then t <- utf8_decode r ;; Ok (ch :: t)
      else if ch <? 0xC2 then Raise ValueError
      else if ch <? 0xE0 then
        match r with
        | ch2 :: r2 =>
            if cont ch2 then
              t <- utf8_decode r2 ;;
              Ok ((N.shiftl ch 6 + ch2 - (N.shiftl 0xC0 6 + 0x80)) :: t)
            else Raise ValueError
        | [] => Raise ValueError
        end
      else if ch <? 0xF0 then
        match r with
        | ch2 :: ch3 :: r3 =>
            if second3 ch ch2 && cont ch3 then
              t <- utf8_decode r3 ;;
              Ok ((N.shiftl ch 12 + N.shiftl ch2 6 + ch3
                   - (N.shiftl 0xE0 12 + N.shiftl 0x80 6 + 0x80)) :: t)
            else Raise ValueError
        | _ => Raise ValueError
        end
      else if ch <? 0xF5 then
        match r with
        | ch2 :: ch3 :: ch4 :: r4 =>
            if second4 ch ch2 && cont ch3 && cont ch4 then
              t <- utf8_decode r4 ;;
              Ok ((N.shiftl ch 18 + N.shiftl ch2 12 + N.shiftl ch3 6 + ch4
                   - (N.shiftl 0xF0 18 + N.shiftl 0x80 12 + N.shiftl 0x80 6 + 0x80)) :: t)
            else Raise ValueError
        | _ => Raise ValueError
        end
      else Raise ValueError
  end.

(** ** UTF-16 and UTF-32 *)

(** The 16-bit code units, little- or big-endian; an odd trailing byte
    is "truncated data". *)
Fixpoint units16 (le : bool) (bs : list N) : res (list N) :=
  match bs with
  | [] => Ok []
  | b0 :: b1 :: r =>
      t <- units16 le r ;;
      Ok ((if le then N.lor (N.shiftl b1 8) b0 else N.lor (N.shiftl b0 8) b1) :: t)
  | [_] => Raise ValueError
  end.

(** A high surrogate followed by a low one is one code point
    ([Py_UNICODE_JOIN_SURROGATES]); any other surrogate is an error. *)
Fixpoint join16 (us : list N) : res (list N) :=
  match us with
  | [] => Ok []
  | u :: r =>
      if negb (surrogate u) then t <- join16 r ;; Ok (u :: t)
      else if u <? 0xDC00 then
        match r with
        | u2 :: r2 =>
            if in_range 0xDC00 0xE000 u2 then
              t <- join16 r2 ;;
              Ok ((N.lor (N.shiftl (N.land u 0x3FF) 10) (N.land u2 0x3FF) + 0x10000) :: t)
            else Raise ValueError
        | [] => Raise ValueError
        end
      else Raise ValueError
  end.

(** [bytes.decode('utf-16')]: a leading mark FF FE or FE FF chooses the
    byte order and is dropped; without one the order is the machine's
    (little-endian). *)
Definition utf16_decode (bs : list N) : res (list N) :=
  match bs with
  | b0 :: b1 :: r =>
      if (b0 =? 0xFF) && (b1 =? 0xFE) then res_bind (units16 true r) join16
      else if (b0 =? 0xFE) && (b1 =? 0xFF) then res_bind (units16 false r) join16
      else res_bind (units16 true bs) join16
  | _ => res_bind (units16 true bs) join16
  end.

(** The 32-bit code units; each must be a scalar value. *)
Fixpoint units32 (le : bool) (bs : list N) : res (list N) :=
  match bs with
  | [] => Ok []
  | b0 :: b1 :: b2 :: b3 :: r =>
      let u := if le then N.lor (N.shiftl b3 24) (N.lor (N.shiftl b2 16) (N.lor (N.shiftl b1 8) b0))
               else N.lor (N.shiftl b0 24) (N.lor (N.shiftl b1 16) (N.lor (N.shiftl b2 8) b3)) in
      if scalar u then t <- units32 le r ;; Ok (u :: t) else Raise ValueError
  | _ => Raise ValueError
  end.

(** [bytes.decode('utf-32')]: marks FF FE 00 00 and 00 00 FE FF. *)
Definition utf32_decode (bs : list N) : res (list N) :=
  match bs with
  | b0 :: b1 :: b2 :: b3 :: r =>
      if (b0 =? 0xFF) && (b1 =? 0xFE) && (b2 =? 0) && (b3 =? 0) then units32 true r
      else if (b0 =? 0) && (b1 =? 0) && (b2 =? 0xFE) && (b3 =? 0xFF) then units32 false r
      else units32 true bs
  | _ => units32 true bs
  end.

(** [data.decode(encoding)] for the three names [_getUtfEncoding]
    returns. *)
Definition bytes_decode (encoding : string) (data : list Byte.byte) : res (list N) :=
  let bs := map Byte.to_N data in
  if String.eqb encoding "utf-32" then utf32_decode bs
  else if String.eqb encoding "utf-16" then utf16_decode bs
  else utf8_decode bs.

(** [codecs.BOM_UTF8], the mark some editors put at the start of a
    UTF-8 file. *)
Definition BOM_UTF8 : list Byte.byte := [Byte.xef; Byte.xbb; Byte.xbf].

(** The bytes that occur in no UTF-8 text. *)
Definition bad_byte (b : N) : bool := (b =? 0xC0) || (b =? 0xC1) || (0xF5 <=? b).

(** UTF-16-LE and UTF-32-LE bytes of a str (code points below 0x10000
    for UTF-16), as other tools write them after the marks FF FE and
    FF FE 00 00. *)
Definition utf16le (cps : list N) : list N :=
  flat_map (fun c => [N.land c 0xFF; N.shiftr c 8]) cps.
Definition utf32le (cps : list N) : list N :=
  flat_map (fun c => [N.land c 0xFF; N.land (N.shiftr c 8) 0xFF; N.land (N.shiftr c 16) 0xFF; N.shiftr c 24]) cps.

Definition byte_of_N (n : N) : Byte.byte :=
  match Byte.of_N n with Some b => b | None => Byte.x00 end.

(** [json.loads(s)] on a [str]: a leading U+FEFF raises JSONDecodeError
    ("Unexpected UTF-8 BOM"); a code point above 255 is outside the
    model. *)
Definition starts_bom (s : list N) : bool :=
  match s with c :: _ => c =? 0xFEFF | [] => false end.

Definition loads_text (lim : nat) (s : list N) : jr pyval :=
  if starts_bom s then jfail
  else match latin1 s with Some t => json_loads lim t | None => None end.

End Codec.

Import Codec.
(** ** toJson, fromJson on text, toFile, fromFile *)

(** The file system: file names and their contents. *)
Definition files := list (string * list Byte.byte).

Section TextIO.
Context {codec : B64Codec}.
Variable class_of : string -> DataClass.

(** [toJson(bol_pretty, bAscii)] (lines 243-255); [lim] is the
    recursion limit [json.dumps] runs under, [n] the one of [_toJson]. *)
Definition toJson (lim n : nat) (self : pyval) (bol_pretty bAscii : bool) : res string :=
  data <- _toJson class_of n self ;;
  if bol_pretty then dumps (Some 4) bAscii lim data else dumps None bAscii lim data.

(** [fromJson(str_json)] (lines 260-280) on a [str]: the exceptions of
    [json.loads] are caught and give False, as a None result does;
    [None] when the text is outside the model. *)
Definition fromJson_text (lim n : nat) (c : DataClass) (self : attrs) (str_json : list N)
    : option (attrs * res bool) :=
  match loads_text lim str_json with
  | None => None
  | Some (Raise _) => Some (self, Ok false)
  | Some (Ok PNone) => Some (self, Ok false)
  | Some (Ok dct_json) => Some (_fromJson class_of n c self dct_json)
  end.

(** [toFile(str_name)] (lines 283-298): the file system after the call
    and its outcome.  [io.open(str_name, mode='wb')] creates the file or
    truncates it; when [toJson] raises the file is not opened. *)
Definition toFile (lim n : nat) (fs : files) (self : pyval) (str_name : string) : files * res unit :=
  match toJson lim n self true false with
  | Raise e => (fs, Raise e)
  | Ok str_data =>
      match utf8_encode (cps_of str_data) with
      | Raise e => (fs, Raise e)
      | Ok bs => (aset str_name (map byte_of_N bs) fs, Ok tt)
      end
  end.

(** [fromFile(str_name)] (lines 300-313): the attributes of the instance
    after the call and its outcome; the Boolean [fromJson] returns is
    dropped, its exceptions propagate. *)
Definition fromFile (lim n : nat) (c : DataClass) (fs : files) (self : attrs) (str_name : string)
    : option (attrs * res unit) :=
  match aget str_name fs with
  | None => Some (self, Raise OSError)
  | Some data =>
      match bytes_decode (_getUtfEncoding data) data with
      | Raise e => Some (self, Raise e)
      | Ok text =>
          match fromJson_text lim n c self text with
          | None => None
          | Some (self', r) => Some (self', res_bind r (fun _ => Ok tt))
          end
      end
  end.

End TextIO.

(** ** Sample data

    A star system whose owner's name has a non-ASCII letter (E with an
    acute accent, code 201), the file system before and after saving
    it, and the same file with a UTF-8 mark in front. *)

Definition text_of (r : res string) : string := match r with Ok t => t | Raise _ => EmptyString end.
Definition bytes_of (r : res (list N)) : list N := match r with Ok b => b | Raise _ => [] end.

Definition sample_owner : string := String (ascii_of_nat 201) "mpire"%string.
Definition sample_star : pyval := sample_system "Terra" sample_owner.
Definition sample_text : string := text_of (toJson class_of 100 10 sample_star true false).
Definition sample_files : files := [("map.json"%string, [Byte.x7b; Byte.x7d])].
Definition saved_files : files := fst (toFile class_of 100 10 sample_files sample_star "terra.json").
Definition saved_bytes : list Byte.byte :=
  match aget "terra.json" saved_files with Some d => d | None => [] end.
Definition bom_files : files := [("terra.json"%string, BOM_UTF8 ++ saved_bytes)].
Definition bad_files : files := [("bad.json"%string, [Byte.x7b; Byte.xff; Byte.x7d])].

(** The first 40 characters of the saved text and their UTF-8 bytes.
    (The owner's first character, at position 104 of the text, is
    written as the two bytes C3 89.) *)
Definition cut_text : list ascii := firstn 40 (list_ascii_of_string sample_text).
Definition cut_bytes : list N := bytes_of (utf8_encode (cps_of (string_of_list_ascii cut_text))).

(** ** Arithmetic of the codecs *)

Section Bits.
Local Open Scope N_scope.

Lemma lor_disjoint a x k : a mod 2 ^ k = 0 -> x < 2 ^ k -> N.lor a x = a + x.
Proof.
  intros Ha Hx. rewrite <- N.lxor_lor, N.add_nocarry_lxor; [reflexivity| |];
    apply N.bits_inj_iff; intros i; rewrite N.land_spec, N.bits_0;
    destruct (N.lt_ge_cases i k) as [Hi|Hi].
  - rewrite <- (N.mod_pow2_bits_low a k i Hi), Ha, N.bits_0. reflexivity.
  - rewrite <- (N.mod_small x (2 ^ k) Hx), (N.mod_pow2_bits_high x k i Hi), andb_false_r. reflexivity.
  - rewrite <- (N.mod_pow2_bits_low a k i Hi), Ha, N.bits_0. reflexivity.
  - rewrite <- (N.mod_small x (2 ^ k) Hx), (N.mod_pow2_bits_high x k i Hi), andb_false_r. reflexivity.
Qed.

Lemma land63 x : N.land x 0x3F = x mod 64.
Proof. exact (N.land_ones x 6). Qed.

Lemma shr6 x : N.shiftr x 6 = x / 64.
Proof. exact (N.shiftr_div_pow2 x 6). Qed.

Lemma shr12 x : N.shiftr x 12 = x / 64 / 64.
Proof. rewrite N.shiftr_div_pow2, N.Div0.div_div. reflexivity. Qed.

Lemma shr18 x : N.shiftr x 18 = x / 64 / 64 / 64.
Proof. rewrite N.shiftr_div_pow2, !N.Div0.div_div. reflexivity. Qed.

Lemma shl6 x : N.shiftl x 6 = x * 64.
Proof. apply N.shiftl_mul_pow2. Qed.

Lemma shl12 x : N.shiftl x 12 = x * 4096.
Proof. apply N.shiftl_mul_pow2. Qed.

Lemma shl18 x : N.shiftl x 18 = x * 262144.
Proof. apply N.shiftl_mul_pow2. Qed.

Lemma lor_cont x : x < 64 -> N.lor 0x80 x = 0x80 + x.
Proof. intros; apply (lor_disjoint _ _ 6); [reflexivity|exact H]. Qed.

Lemma lor_lead2 x : x < 32 -> N.lor 0xC0 x = 0xC0 + x.
Proof. intros; apply (lor_disjoint _ _ 5); [reflexivity|exact H]. Qed.

Lemma lor_lead3 x : x < 16 -> N.lor 0xE0 x = 0xE0 + x.
Proof. intros; apply (lor_disjoint _ _ 4); [reflexivity|exact H]. Qed.

Lemma lor_lead4 x : x < 8 -> N.lor 0xF0 x = 0xF0 + x.
Proof. intros; apply (lor_disjoint _ _ 3); [reflexivity|exact H]. Qed.

End Bits.

(** Decides the comparisons of the goal that [lia] settles, and splits
    on the others. *)
Ltac ncmp :=
  repeat match goal with
  | |- context [N.ltb ?a ?b] =>
      first [ rewrite (proj2 (N.ltb_lt a b)) by lia | rewrite (proj2 (N.ltb_ge a b)) by lia
            | destruct (N.ltb_spec a b) ]
  | |- context [N.leb ?a ?b] =>
      first [ rewrite (proj2 (N.leb_le a b)) by lia | rewrite (proj2 (N.leb_gt a b)) by lia
            | destruct (N.leb_spec a b) ]
  | |- context [N.eqb ?a ?b] =>
      first [ rewrite (proj2 (N.eqb_eq a b)) by lia | rewrite (proj2 (N.eqb_neq a b)) by lia
            | destruct (N.eqb_spec a b) ]
  end; cbn [andb orb negb].

Section Utf8.
Local Open Scope N_scope.

Lemma utf8_char_decode ch : scalar ch = true ->
  exists bs, utf8_char ch = Ok bs /\ Forall (fun b => b < 0xF5) bs /\
    forall rest, utf8_decode (bs ++ rest) = (t <- utf8_decode rest ;; Ok (ch :: t)).
Proof.
  unfold scalar, surrogate. intros Hs. apply andb_prop in Hs as [H1 H2].
  apply N.ltb_lt in H1. apply negb_true_iff in H2.
  assert (H3 : ch < 0xD800 \/ 0xE000 <= ch)
    by (destruct (N.leb_spec 0xD800 ch), (N.ltb_spec ch 0xE000); cbn in H2; try discriminate; lia).
  clear H2. unfold utf8_char, surrogate. rewrite shr6, shr12, shr18, !land63.
  pose proof (N.div_mod ch 64 ltac:(lia)). pose proof (N.mod_lt ch 64 ltac:(lia)).
  set (q1 := ch / 64) in *. set (m1 := ch mod 64) in *.
  pose proof (N.div_mod q1 64 ltac:(lia)). pose proof (N.mod_lt q1 64 ltac:(lia)).
  set (q2 := q1 / 64) in *. set (m2 := q1 mod 64) in *.
  pose proof (N.div_mod q2 64 ltac:(lia)). pose proof (N.mod_lt q2 64 ltac:(lia)).
  set (q3 := q2 / 64) in *. set (m3 := q2 mod 64) in *.
  rewrite (lor_cont m1), (lor_cont m2), (lor_cont m3) by lia.
  destruct (N.ltb_spec ch 0x80); [|destruct (N.ltb_spec ch 0x800); [|destruct (N.ltb_spec ch 0x10000)]].
  - eexists; split; [reflexivity|]. split; [repeat constructor; lia|].
    intros rest. cbn [app utf8_decode]. ncmp. reflexivity.
  - rewrite lor_lead2 by lia. eexists; split; [reflexivity|]. split; [repeat constructor; lia|].
    intros rest. cbn [app utf8_decode]. unfold cont. ncmp; try lia.
    rewrite ?shl6, ?shl12, ?shl18. destruct (utf8_decode rest); cbn [res_bind]; [|reflexivity].
    do 3 f_equal. lia.
  - destruct H3; ncmp; try lia.
    all: rewrite lor_lead3 by lia; eexists; split; [reflexivity|]; split; [repeat constructor; lia|].
    all: intros rest; cbn [app utf8_decode]; unfold second3, cont, in_range; ncmp; try lia.
    all: rewrite ?shl6, ?shl12, ?shl18; destruct (utf8_decode rest); cbn [res_bind]; [|reflexivity].
    all: do 3 f_equal; lia.
  - rewrite lor_lead4 by lia. eexists; split; [reflexivity|]. split; [repeat constructor; lia|].
    intros rest. cbn [app utf8_decode]. unfold second4, cont, in_range. ncmp; try lia.
    all: rewrite ?shl6, ?shl12, ?shl18; destruct (utf8_decode rest); cbn [res_bind]; [|reflexivity].
    all: do 3 f_equal; lia.
Qed.

Lemma utf8_chars_decode cps : forallb scalar cps = true ->
  exists bss, res_map utf8_char cps = Ok bss /\ Forall (fun b => b < 0xF5) (concat bss) /\
    forall rest, utf8_decode (concat bss ++ rest) = (t <- utf8_decode rest ;; Ok (cps ++ t)).
Proof.
  induction cps as [|ch cps IH]; intros H.
  - exists []. split; [reflexivity|]. split; [constructor|].
    intros rest. cbn. destruct (utf8_decode rest); reflexivity.
  - cbn [forallb] in H. apply andb_prop in H as [H1 H2].
    destruct (utf8_char_decode ch H1) as (b & Hb & Fb & Db).
    destruct (IH H2) as (bss & Hbss & Fbss & Dbss).
    exists (b :: bss). cbn [res_map concat]. rewrite Hb, Hbss. split; [reflexivity|].
    split; [apply Forall_app; split; assumption|].
    intros rest. rewrite <- app_assoc, Db, Dbss. destruct (utf8_decode rest); reflexivity.
Qed.

(** The UTF-8 encoding of a str of scalar values is a list of bytes
    below F5 that decodes back to the str. *)
Lemma utf8_encode_decode cps : forallb scalar cps = true ->
  exists bs, utf8_encode cps = Ok bs /\ Forall (fun b => b < 0xF5) bs /\ utf8_decode bs = Ok cps.
Proof.
  intros H. destruct (utf8_chars_decode cps H) as (bss & Hm & F & D).
  exists (concat bss). unfold utf8_encode. rewrite Hm. split; [reflexivity|]. split; [exact F|].
  rewrite <- (app_nil_r (concat bss)), D. cbn. rewrite app_nil_r. reflexivity.
Qed.

(** A character from 80 to FF is two bytes, a lead byte C2 or C3 and a
    continuation byte. *)
Lemma utf8_char_high c : 0x80 <= c < 256 ->
  exists lead cb, utf8_char c = Ok [lead; cb] /\ 0xC2 <= lead < 0xE0 /\ cb < 256.
Proof.
  intros Hc. unfold utf8_char. ncmp; try lia. rewrite shr6, land63, lor_cont, lor_lead2.
  - eexists; eexists; split; [reflexivity|]. split; [split|].
    + apply N.le_trans with (0xC0 + 2); [lia|]. apply N.add_le_mono_l, N.div_le_lower_bound; lia.
    + assert (c / 64 < 4) by (apply N.Div0.div_lt_upper_bound; lia). lia.
    + pose proof (N.mod_lt c 64 ltac:(lia)). lia.
  - apply N.Div0.div_lt_upper_bound; lia.
  - apply N.mod_lt; lia.
Qed.

(** A lead byte with nothing after it is truncated data. *)
Lemma utf8_decode_lead_alone lead : 0xC2 <= lead < 0xE0 -> utf8_decode [lead] = Raise ValueError.
Proof. intros H. cbn [utf8_decode]. ncmp; try lia. reflexivity. Qed.

(** ** Strings as code points *)

Lemma byte_of_N_to_N b : b < 256 -> Byte.to_N (byte_of_N b) = b.
Proof.
  intros H. unfold byte_of_N. destruct (Byte.of_N b) eqn:E.
  - exact (Byte.to_of_N _ E).
  - apply Byte.of_N_None_iff in E. lia.
Qed.

Lemma map_byte_of_N bs : Forall (fun b => b < 256) bs -> map Byte.to_N (map byte_of_N bs) = bs.
Proof.
  induction 1 as [|b bs Hb _ IH]; [reflexivity|]. cbn [map]. rewrite byte_of_N_to_N, IH by exact Hb.
  reflexivity.
Qed.

Lemma cps_of_bound s : Forall (fun c => c < 256) (cps_of s).
Proof. unfold cps_of. apply Forall_map, Forall_forall. intros a _. apply N_ascii_bounded. Qed.

Lemma cps_of_scalar s : forallb scalar (cps_of s) = true.
Proof.
  apply forallb_forall. intros c Hc.
  assert (Hb : c < 256) by exact (proj1 (Forall_forall _ _) (cps_of_bound s) c Hc).
  unfold scalar, surrogate. ncmp. reflexivity.
Qed.

Lemma latin1_cps_of s : latin1 (cps_of s) = Some s.
Proof.
  unfold latin1. replace (forallb _ (cps_of s)) with true.
  - unfold cps_of. rewrite map_map. rewrite (map_ext _ (fun a => a)) by apply ascii_N_embedding.
    rewrite map_id, string_of_list_ascii_of_string. reflexivity.
  - symmetry. apply forallb_forall. intros c Hc.
    apply N.ltb_lt, (proj1 (Forall_forall _ _) (cps_of_bound s) c Hc).
Qed.

Lemma loads_text_cps_of lim s : loads_text lim (cps_of s) = json_loads lim s.
Proof.
  unfold loads_text. rewrite latin1_cps_of.
  replace (starts_bom (cps_of s)) with false; [reflexivity|].
  pose proof (cps_of_bound s) as F. destruct (cps_of s) as [|c r]; [reflexivity|].
  inversion F; subst. cbn. symmetry. apply N.eqb_neq. lia.
Qed.

(** ** The byte-order mark of UTF-8 output *)

Lemma startswith_high data p :
  Forall (fun b => Byte.to_N b < 0xF5) data -> existsb (fun b => 0xF5 <=? Byte.to_N b) p = true ->
  startswith data p = false.
Proof.
  revert data. induction p as [|x p IH]; intros data F E; [discriminate|].
  destruct data as [|b data]; [reflexivity|]. inversion F as [|? ? Hb Fd]; subst.
  cbn [startswith existsb] in *. destruct (Byte.eqb x b) eqn:Exb; [|reflexivity].
  apply Byte.byte_dec_bl in Exb as ->. apply orb_true_iff in E as [E|E].
  - apply N.leb_le in E. lia.
  - rewrite (IH _ Fd E). reflexivity.
Qed.

(** Bytes below F5 (the output of the UTF-8 encoder) start with none of
    the marks [_getUtfEncoding] tests. *)
Lemma getUtfEncoding_low data : Forall (fun b => Byte.to_N b < 0xF5) data -> _getUtfEncoding data = "utf-8"%string.
Proof.
  intros F. unfold _getUtfEncoding.
  rewrite !(startswith_high data) by (exact F || reflexivity). reflexivity.
Qed.

(** ** Decoding errors *)

(** Every error of the UTF-8 decoder is a ValueError. *)
Lemma utf8_decode_raise n : forall bs e, (length bs <= n)%nat -> utf8_decode bs = Raise e -> e = ValueError.
Proof.
  induction n as [|n IH]; intros [|ch r] e Hl H; cbn [length] in Hl; try discriminate; try lia.
  cbn [utf8_decode] in H. split_ifs H; subst; try (injection H as <-; reflexivity);
  match type of H with
  | res_bind (utf8_decode ?r') _ = _ =>
      destruct (utf8_decode r') eqn:E; [discriminate|];
      injection H as <-; apply (IH r' _); [cbn [length] in *; lia|exact E]
  end.
Qed.

Lemma bad_checks b : bad_byte b = true ->
  cont b = false /\ (forall ch, second3 ch b = false) /\ (forall ch, second4 ch b = false).
Proof.
  unfold bad_byte, second3, second4, cont, in_range. intros H.
  assert (Hb : b = 0xC0 \/ b = 0xC1 \/ 0xF5 <= b).
  { destruct (N.eqb_spec b 0xC0), (N.eqb_spec b 0xC1), (N.leb_spec 0xF5 b); cbn in H; try discriminate; lia. }
  split; [ncmp; reflexivity|]. split; intros ch.
  - destruct (ch =? 0xE0); [|destruct (ch =? 0xED)]; ncmp; reflexivity.
  - destruct (ch =? 0xF0); [|destruct (ch =? 0xF4)]; ncmp; reflexivity.
Qed.

(** A byte that occurs in no UTF-8 text makes the decoder raise,
    wherever it is. *)
Lemma utf8_decode_bad n : forall bs b, (length bs <= n)%nat -> In b bs -> bad_byte b = true ->
  utf8_decode bs = Raise ValueError.
Proof.
  induction n as [|n IH]; intros [|ch r] b Hl Hin Hb; cbn [length] in Hl; try contradiction; try lia.
  destruct (bad_checks b Hb) as (Hc & H3 & H4).
  assert (IHr : forall r', In b r' -> (length r' <= n)%nat -> forall (k : list N -> res (list N)), res_bind (utf8_decode r') k = Raise ValueError)
    by (intros r' Hr' Hl' k; rewrite (IH r' b Hl' Hr' Hb); reflexivity).
  cbn [utf8_decode]. destruct Hin as [->|Hin].
  - unfold bad_byte in Hb.
    assert (Hb' : b = 0xC0 \/ b = 0xC1 \/ 0xF5 <= b).
    { destruct (N.eqb_spec b 0xC0), (N.eqb_spec b 0xC1), (N.leb_spec 0xF5 b); cbn in Hb; try discriminate; lia. }
    ncmp; reflexivity || lia.
  - destruct (ch <? 0x80); [apply IHr; [exact Hin|lia]|].
    destruct (ch <? 0xC2); [reflexivity|]. destruct (ch <? 0xE0); [|destruct (ch <? 0xF0); [|destruct (ch <? 0xF5)]].
    + destruct r as [|c2 r2]; [reflexivity|]. destruct (cont c2) eqn:E; [|reflexivity].
      destruct Hin as [->|Hin]; [congruence|apply IHr; [exact Hin|cbn [length] in Hl; lia]].
    + destruct r as [|c2 [|c3 r3]]; try reflexivity. destruct (second3 ch c2 && cont c3) eqn:E; [|reflexivity].
      apply andb_prop in E as [E2 E3].
      destruct Hin as [->|[->|Hin]]; [rewrite H3 in E2; discriminate|congruence|].
      apply IHr; [exact Hin|cbn [length] in Hl; lia].
    + destruct r as [|c2 [|c3 [|c4 r4]]]; try reflexivity.
      destruct (second4 ch c2 && cont c3 && cont c4) eqn:E; [|reflexivity].
      apply andb_prop in E as [E E4]. apply andb_prop in E as [E2 E3].
      destruct Hin as [->|[->|[->|Hin]]]; [rewrite H4 in E2; discriminate|congruence|congruence|].
      apply IHr; [exact Hin|cbn [length] in Hl; lia].
    + reflexivity.
Qed.

(** ** Latin-1 text in UTF-16 and UTF-32 *)

Lemma latin1_units c : c < 256 -> N.land c 0xFF = c /\ N.shiftr c 8 = 0 /\ N.shiftr c 16 = 0 /\ N.shiftr c 24 = 0.
Proof.
  intros H. change 0xFF with (N.ones 8). rewrite (N.land_ones c 8), !N.shiftr_div_pow2.
  rewrite N.mod_small, !N.div_small by (cbn; lia). repeat split.
Qed.

Lemma utf16le_decode cps : Forall (fun c => c < 256) cps ->
  units16 true (utf16le cps) = Ok cps /\ join16 cps = Ok cps.
Proof.
  induction 1 as [|c cps Hc _ [IH1 IH2]]; [split; reflexivity|].
  destruct (latin1_units c Hc) as (E0 & E8 & _). cbn [utf16le flat_map app units16 join16] in *.
  fold (utf16le cps). rewrite E0, E8, IH1, IH2. unfold surrogate. ncmp. split; reflexivity.
Qed.

Lemma utf32le_decode cps : Forall (fun c => c < 256) cps -> units32 true (utf32le cps) = Ok cps.
Proof.
  induction 1 as [|c cps Hc _ IH]; [reflexivity|].
  destruct (latin1_units c Hc) as (E0 & E8 & E16 & E24). cbn [utf32le flat_map app units32] in *.
  fold (utf32le cps). rewrite E0, E8, E16, E24, N.land_0_l, IH. unfold scalar, surrogate.
  cbn [N.shiftl N.lor]. ncmp. reflexivity.
Qed.

Lemma utf16le_bound cps : Forall (fun c => c < 256) cps -> Forall (fun b => b < 256) (utf16le cps).
Proof.
  induction 1 as [|c cps Hc _ IH]; [constructor|]. destruct (latin1_units c Hc) as (E0 & E8 & _).
  cbn [utf16le flat_map app]. fold (utf16le cps). rewrite E0, E8. repeat constructor; lia || exact IH.
Qed.

Lemma utf32le_bound cps : Forall (fun c => c < 256) cps -> Forall (fun b => b < 256) (utf32le cps).
Proof.
  induction 1 as [|c cps Hc _ IH]; [constructor|]. destruct (latin1_units c Hc) as (E0 & E8 & E16 & E24).
  cbn [utf32le flat_map app]. fold (utf32le cps). rewrite E0, E8, E16, E24, N.land_0_l.
  repeat constructor; lia || exact IH.
Qed.

Lemma byte_of_N_nonzero c : 0 < c < 256 -> Byte.eqb Byte.x00 (byte_of_N c) = false.
Proof.
  intros H. destruct (Byte.eqb Byte.x00 (byte_of_N c)) eqn:E; [|reflexivity].
  apply Byte.byte_dec_bl in E. apply (f_equal Byte.to_N) in E. rewrite byte_of_N_to_N in E by lia.
  cbn in E. lia.
Qed.

Lemma utf8_encode_app a b :
  utf8_encode (a ++ b) = (x <- utf8_encode a ;; y <- utf8_encode b ;; Ok (x ++ y)).
Proof.
  unfold utf8_encode. rewrite res_map_app.
  destruct (res_map utf8_char a); cbn; [|reflexivity]. destruct (res_map utf8_char b); cbn; [|reflexivity].
  rewrite concat_app. reflexivity.
Qed.

(** Every character is at least one byte. *)
Lemma utf8_encode_nonempty cps bs : cps <> [] -> utf8_encode cps = Ok bs -> bs <> [].
Proof.
  destruct cps as [|c r]; [contradiction|]. intros _ H. unfold utf8_encode in H. cbn [res_map] in H.
  destruct (utf8_char c) as [b|e] eqn:Ec; cbn in H; [|discriminate].
  destruct (res_map utf8_char r); cbn in H; [|discriminate]. injection H as <-.
  unfold utf8_char in Ec. split_ifs Ec; try discriminate; injection Ec as <-; discriminate.
Qed.

(** The UTF-8 bytes of an ASCII text are its characters. *)
Lemma utf8_encode_ascii s : forallb is_ascii (list_ascii_of_string s) = true -> utf8_encode (cps_of s) = Ok (cps_of s).
Proof.
  unfold utf8_encode, cps_of. induction (list_ascii_of_string s) as [|c l IH]; [reflexivity|].
  cbn [forallb map]. intros H. apply andb_true_iff in H as [Hc Hl]. unfold is_ascii, code in Hc.
  cbn [res_map]. unfold utf8_char at 1. rewrite Hc. cbn [res_bind].
  destruct (res_map utf8_char (map N_of_ascii l)) as [bss|e]; cbn in IH |- *; [|discriminate (IH Hl)].
  injection (IH Hl) as <-. reflexivity.
Qed.
End Utf8.

(** ** The dict [_toJson] builds has distinct keys *)

Section Keys.
Context {codec : B64Codec}.
Variable class_of : string -> DataClass.

Lemma members_to_json_keys c ms d d' :
  members_to_json c ms d = Ok d' -> NoDup (akeys d) -> NoDup (akeys d').
Proof.
  revert d; induction ms as [|[k v] ms IH]; intros d H Hd; [injection H as <-; exact Hd|].
  rewrite members_to_json_cons in H. destruct (is_none v); [exact (IH _ H Hd)|].
  destruct (encode_member c k v); [|discriminate]. exact (IH _ H (aset_NoDup _ _ _ Hd)).
Qed.

Lemma submaps_to_json_keys rec a items d d' :
  submaps_to_json rec a items d = Ok d' -> NoDup (akeys d) -> NoDup (akeys d').
Proof.
  revert d; induction items as [|it items IH]; intros d H Hd; [injection H as <-; exact Hd|].
  cbn [submaps_to_json] in H. res_inv H. apply (IH _ H).
  assert (Hd1 : NoDup (akeys (aset (JsonContainer it) (PList []) d))) by auto with rw.
  unfold submap_to_json in Hr. res_inv Hr. destruct (isList it).
  - res_inv Hr. injection Hr as <-. auto with rw.
  - destruct a1; first [injection Hr as <-; exact Hd1 | res_inv Hr; injection Hr as <-; auto with rw].
Qed.

(** For a well-formed instance whose values have dicts with distinct
    keys, so has the dict [_toJson] returns. *)
Lemma toJson_uniq n : forall x D, wf_obj class_of x -> uniq_keys x = true ->
  _toJson class_of n x = Ok D -> uniq_keys D = true.
Proof.
  induction n as [|n IH]; intros x D Hwf Hu HD; [discriminate|].
  inversion Hwf as [cn a Hok Hkeys Hprops _ _ Hcont]; subst.
  destruct (class_okb_spec _ Hok) as (_ & Hlist & _).
  cbn [uniq_keys] in Hu. rewrite forallb_forall in Hu.
  rewrite toJson_obj in HD by exact Hprops. res_inv HD. res_inv HD. injection HD as <-. cbn [uniq_keys].
  apply andb_true_intro; split.
  - apply nodupb_NoDup, (submaps_to_json_keys _ _ _ _ _ Hr0), (members_to_json_keys _ _ _ _ Hr).
    constructor.
  - apply (submaps_to_json_pred uniq_keys _ _ _ _ _ (fun vs => eq_refl) Hr0).
    + apply (members_to_json_pred uniq_keys _ _ _ _ Hr); [reflexivity|].
      intros k v x Hin _ Hx. apply get_members_in in Hin as [Hin _].
      unfold encode_member, b64_encode_val in Hx. destruct (in_b64 _ k).
      * destruct v; try discriminate. injection Hx as <-. reflexivity.
      * injection Hx as <-. exact (Hu _ Hin).
    + intros it Hit. split; [exact (proj1 (forallb_forall _ _) Hlist it Hit)|].
      destruct (Hcont it Hit) as (l & Hl & Hel). exists l.
      split; [unfold getattr; rewrite Hl; reflexivity|].
      intros e v He Hv. destruct (Hel e He) as (a' & -> & Hwfe).
      pose proof (Hu _ (aget_In _ _ _ Hl)) as Ul. cbn [snd uniq_keys] in Ul. rewrite forallb_forall in Ul.
      exact (IH _ _ Hwfe (Ul _ He) Hv).
Qed.

End Keys.

(** ** Properties of toJson, toFile and fromFile *)

Section Props.
Context {codec : B64Codec}.
Variable class_of : string -> DataClass.

(** The bytes [toFile] writes for a text are below F5, and decode back
    to the text. *)
Lemma utf8_text s : exists bs, utf8_encode (cps_of s) = Ok bs /\
  Forall (fun b => Byte.to_N b < 0xF5)%N (map byte_of_N bs) /\
  bytes_decode (_getUtfEncoding (map byte_of_N bs)) (map byte_of_N bs) = Ok (cps_of s).
Proof.
  destruct (utf8_encode_decode _ (cps_of_scalar s)) as (bs & Hbs & Fbs & Dbs).
  assert (Fb : Forall (fun b => b < 256)%N bs) by (eapply Forall_impl; [|exact Fbs]; cbv beta; lia).
  assert (Fm : Forall (fun b => Byte.to_N b < 0xF5)%N (map byte_of_N bs)).
  { apply Forall_map. eapply Forall_impl; [|exact (Forall_and Fb Fbs)]. intros b [H1 H2].
    rewrite byte_of_N_to_N by exact H1. exact H2. }
  exists bs. split; [exact Hbs|]. split; [exact Fm|].
  rewrite getUtfEncoding_low by exact Fm. unfold bytes_decode. cbn -[utf8_decode].
  rewrite map_byte_of_N by exact Fb. exact Dbs.
Qed.

(** [str.encode()] and [bytes.decode('utf-8')] are inverse on the texts
    of the model. *)
Lemma utf8_bytes s : exists bs, utf8_encode (cps_of s) = Ok bs /\ bytes_decode "utf-8" (map byte_of_N bs) = Ok (cps_of s).
Proof.
  destruct (utf8_text s) as (bs & H1 & F & H2). exists bs. split; [exact H1|].
  rewrite getUtfEncoding_low in H2 by exact F. exact H2.
Qed.

(** Decoding the UTF-8 bytes of a text followed by more bytes decodes
    the text, then the rest. *)
Lemma utf8_prefix_decode s bs rest : utf8_encode (cps_of s) = Ok bs ->
  Forall (fun b => b < 0xF5)%N bs /\ utf8_decode (bs ++ rest) = (t <- utf8_decode rest ;; Ok (cps_of s ++ t)).
Proof.
  destruct (utf8_chars_decode _ (cps_of_scalar s)) as (bss & Hm & F & D).
  unfold utf8_encode. rewrite Hm. intros H; injection H as <-. split; [exact F|apply D].
Qed.

Lemma cps_of_cons a q : cps_of (string_of_list_ascii (a :: q)) = N_of_ascii a :: cps_of (string_of_list_ascii q).
Proof. unfold cps_of. rewrite !list_ascii_of_string_of_list_ascii. reflexivity. Qed.

(** The text [toJson] returns, pretty or compact, with or without
    [bAscii], is read back by [json.loads] as the dict [_toJson] built
    (its tuples as lists), for a well-formed instance whose dicts have
    distinct keys. *)
Lemma toJson_loads lim n x pretty ascii text :
  wf_obj class_of x -> uniq_keys x = true -> toJson class_of lim n x pretty ascii = Ok text ->
  exists D w, _toJson class_of n x = Ok D /\ json_norm D = Ok w /\ json_loads lim text = Some (Ok w).
Proof.
  intros Hwf Hu H. unfold toJson in H. apply res_bind_ok in H as (D & HD & H).
  pose proof (toJson_uniq class_of n _ _ Hwf Hu HD) as HuD.
  destruct pretty; destruct (json_roundtrip _ _ _ _ _ HuD H) as (w & Hw & Hl); exists D, w; auto.
Qed.

Lemma toJson_fromJson_text lim n cn a pretty ascii text :
  wf_obj class_of (PObj cn a) -> textb class_of (PObj cn a) = true -> uniq_keys (PObj cn a) = true ->
  toJson class_of lim n (PObj cn a) pretty ascii = Ok text ->
  exists f, fromJson_text class_of lim n (class_of cn) (init (class_of cn)) (cps_of text) = Some (f, Ok true) /\
            reset class_of (PObj cn a) = PObj cn f.
Proof.
  intros Hwf Ht Hu H. destruct (toJson_loads _ _ _ _ _ _ Hwf Hu H) as (D & w & HD & Hw & Hl).
  rewrite json_norm_jsonb in Hw by exact (toJson_jsonb class_of n _ _ Hwf Ht HD). injection Hw as <-.
  destruct (toJson_fromJson_roundtrip class_of n cn a D Hwf HD) as (f & Hf & Hr).
  exists f. split; [|exact Hr]. unfold fromJson_text. rewrite loads_text_cps_of, Hl.
  destruct (toJson_dict _ _ _ _ HD) as [d ->]. exact (f_equal Some Hf).
Qed.

(** C4: The round trip through JSON text, with the real [json.dumps]
    and [json.loads]: for a well-formed instance whose members hold
    values JSON text carries unchanged and whose dicts have distinct
    keys, [fromJson] on the text [toJson] returns (pretty or compact,
    ASCII or not) rebuilds the instance in a fresh one and returns
    True. *)
Theorem text_roundtrip lim n cn a pretty ascii text :
  wf_obj class_of (PObj cn a) -> textb class_of (PObj cn a) = true -> uniq_keys (PObj cn a) = true ->
  toJson class_of lim n (PObj cn a) pretty ascii = Ok text ->
  exists f, fromJson_text class_of lim n (class_of cn) (init (class_of cn)) (cps_of text) = Some (f, Ok true) /\
            reset class_of (PObj cn a) = PObj cn f.
Proof. exact (toJson_fromJson_text lim n cn a pretty ascii text). Qed.

(** C5: Saving and loading an instance.  For a well-formed
    instance whose members hold values JSON text carries unchanged and
    whose dicts have distinct keys, when [toFile] writes the file,
    [fromFile] on it into a fresh instance of the class rebuilds the
    instance (up to the reset of its non-member attributes), and
    returns normally. *)
Theorem file_roundtrip lim n fs cn a name fs' :
  wf_obj class_of (PObj cn a) -> textb class_of (PObj cn a) = true -> uniq_keys (PObj cn a) = true ->
  toFile class_of lim n fs (PObj cn a) name = (fs', Ok tt) ->
  exists f, fromFile class_of lim n (class_of cn) fs' (init (class_of cn)) name = Some (f, Ok tt) /\
            reset class_of (PObj cn a) = PObj cn f.
Proof.
  intros Hwf Ht Hu Hf. unfold toFile in Hf.
  destruct (toJson class_of lim n (PObj cn a) true false) as [text|e] eqn:Ej; [|discriminate].
  destruct (utf8_text text) as (bs & Hbs & _ & Dbs). rewrite Hbs in Hf. injection Hf as <-.
  destruct (toJson_fromJson_text _ _ _ _ _ _ _ Hwf Ht Hu Ej) as (f & Hf & Hr).
  exists f. split; [|exact Hr]. unfold fromFile. rewrite aget_aset_eq, Dbs, Hf. reflexivity.
Qed.


(** With [bAscii] (its default), [toJson] returns 7-bit ASCII
    text. *)
Theorem toJson_ascii lim n x pretty text :
  toJson class_of lim n x pretty true = Ok text -> forallb is_ascii (list_ascii_of_string text) = true.
Proof.
  unfold toJson. intros H. apply res_bind_ok in H as (D & _ & H).
  destruct pretty; exact (dumps_ascii _ _ _ _ H).
Qed.

(** C19: [toFile] writes the file exactly when [_toJson] succeeds
    and [json.dumps] accepts its dict (no bytes, integers of at most
    4300 digits, nesting within the recursion limit); it then replaces
    the file by the UTF-8 bytes of the pretty text, and otherwise
    raises without touching the file system. *)
Theorem toFile_outcome lim n fs x name :
  (snd (toFile class_of lim n fs x name) = Ok tt <->
     exists D, _toJson class_of n x = Ok D /\ json_ok lim D = true) /\
  (forall e, snd (toFile class_of lim n fs x name) = Raise e -> fst (toFile class_of lim n fs x name) = fs) /\
  (forall text, toJson class_of lim n x true false = Ok text ->
     exists bs, utf8_encode (cps_of text) = Ok bs /\
       toFile class_of lim n fs x name = (aset name (map byte_of_N bs) fs, Ok tt)).
Proof.
  unfold toFile. split; [|split].
  - destruct (toJson class_of lim n x true false) as [text|e] eqn:Ej.
    + destruct (utf8_text text) as (bs & Hbs & _). rewrite Hbs. cbn [snd]. split; [intros _|reflexivity].
      unfold toJson in Ej. apply res_bind_ok in Ej as (D & HD & Ej). exists D. split; [exact HD|].
      apply (dumps_ok_iff (Some 4) false). eauto.
    + cbn [snd]. split; [discriminate|]. intros (D & HD & Hok).
      apply (dumps_ok_iff (Some 4) false) in Hok as [text Ht].
      unfold toJson in Ej. rewrite HD in Ej. cbn [res_bind] in Ej. congruence.
  - intros e. destruct (toJson class_of lim n x true false) as [text|e'];
      [destruct (utf8_text text) as (bs & -> & _)|]; cbn; congruence.
  - intros text ->. destruct (utf8_text text) as (bs & -> & _). eauto.
Qed.

(** C17: A UTF-8 file that starts with the mark EF BB BF (as some
    editors save it) is never loaded: [_getUtfEncoding] only knows the
    UTF-16 and UTF-32 marks, [bytes.decode('utf-8')] keeps the mark as
    U+FEFF, and [json.loads] rejects a text starting with it; [fromJson]
    catches the error and [fromFile] returns normally with the instance
    unchanged, or raises ValueError when the rest is not UTF-8. *)
Theorem fromFile_utf8_bom lim n c fs self name data :
  aget name fs = Some (BOM_UTF8 ++ data) ->
  fromFile class_of lim n c fs self name = Some (self, Ok tt) \/
  fromFile class_of lim n c fs self name = Some (self, Raise ValueError).
Proof.
  intros H. unfold fromFile. rewrite H.
  change (_getUtfEncoding (BOM_UTF8 ++ data)) with "utf-8"%string.
  unfold bytes_decode. cbn -[utf8_decode map]. cbn [map utf8_decode]. cbn -[utf8_decode map].
  destruct (utf8_decode (map Byte.to_N data)) as [t|e] eqn:E; cbn [res_bind].
  - left. reflexivity.
  - right. rewrite (utf8_decode_raise _ _ _ (le_n _) E). reflexivity.
Qed.

(** C18: [fromFile] raises out of the method instead of returning a
    failure: OSError when the file does not exist, and ValueError
    (UnicodeDecodeError) when a file without a UTF-16 or UTF-32 mark
    holds a byte that occurs in no UTF-8 text (C0, C1, F5 to FF). *)
Theorem fromFile_raises lim n c fs self name :
  (aget name fs = None -> fromFile class_of lim n c fs self name = Some (self, Raise OSError)) /\
  (forall data b, aget name fs = Some data -> _getUtfEncoding data = "utf-8"%string -> In b data ->
     bad_byte (Byte.to_N b) = true -> fromFile class_of lim n c fs self name = Some (self, Raise ValueError)).
Proof.
  unfold fromFile. split; [intros ->; reflexivity|].
  intros data b Hd He Hb Hbad. rewrite Hd, He. unfold bytes_decode. cbn -[utf8_decode map].
  rewrite (utf8_decode_bad _ _ (Byte.to_N b) (le_n _)); [reflexivity|apply in_map, Hb|exact Hbad].
Qed.

(** C20: The byte-order mark chooses the codec: the text [toFile]
    writes in UTF-8, saved instead as UTF-16-LE after FF FE or as
    UTF-32-LE after FF FE 00 00, loads the same way.  (A UTF-16 text
    whose first character is U+0000 starts with the UTF-32 mark and is
    excluded.) *)
Theorem fromFile_encodings lim n c fs self name s bs :
  hd_error (cps_of s) <> Some 0%N -> utf8_encode (cps_of s) = Ok bs ->
  fromFile class_of lim n c (aset name ([Byte.xff; Byte.xfe] ++ map byte_of_N (utf16le (cps_of s))) fs) self name
    = fromFile class_of lim n c (aset name (map byte_of_N bs) fs) self name /\
  fromFile class_of lim n c
      (aset name ([Byte.xff; Byte.xfe; Byte.x00; Byte.x00] ++ map byte_of_N (utf32le (cps_of s))) fs) self name
    = fromFile class_of lim n c (aset name (map byte_of_N bs) fs) self name.
Proof.
  intros H0 Hbs. destruct (utf8_text s) as (bs' & Hbs' & _ & D8). rewrite Hbs in Hbs'. injection Hbs' as <-.
  pose proof (cps_of_bound s) as F.
  assert (R : forall data, bytes_decode (_getUtfEncoding data) data = Ok (cps_of s) ->
     fromFile class_of lim n c (aset name data fs) self name
     = fromFile class_of lim n c (aset name (map byte_of_N bs) fs) self name)
    by (intros data Hd; unfold fromFile; rewrite !aget_aset_eq, Hd, D8; reflexivity).
  destruct (utf16le_decode _ F) as [U16 J16]. pose proof (utf32le_decode _ F) as U32.
  pose proof (utf16le_bound _ F) as B16. pose proof (utf32le_bound _ F) as B32.
  split; apply R; clear R; unfold bytes_decode; rewrite map_app, map_byte_of_N by assumption.
  - replace (_getUtfEncoding _) with "utf-16"%string; [cbn -[units16]; rewrite U16; exact J16|].
    destruct (cps_of s) as [|ch cps]; [reflexivity|]. inversion F as [|? ? Hc _]; subst.
    cbn [utf16le flat_map app map]. destruct (latin1_units ch Hc) as (-> & _).
    unfold _getUtfEncoding, BOM_UTF32_BE, BOM_UTF32_LE. cbn [startswith].
    rewrite byte_of_N_nonzero; [reflexivity|]. split; [|exact Hc]. destruct ch; [contradiction|lia].
  - replace (_getUtfEncoding _) with "utf-32"%string by reflexivity. cbn -[units32]. exact U32.
Qed.

(** [fromJson] on a proper prefix of the text [toJson] returned. *)
Lemma truncated_text lim n x pretty ascii text c self p q :
  wf_obj class_of x -> uniq_keys x = true -> toJson class_of lim n x pretty ascii = Ok text ->
  list_ascii_of_string text = p ++ q -> q <> [] ->
  fromJson_text class_of lim n c self (cps_of (string_of_list_ascii p)) = Some (self, Ok false).
Proof.
  intros Hwf Hu H E Hq. unfold toJson in H. apply res_bind_ok in H as (D & HD & H).
  pose proof (toJson_uniq class_of n _ _ Hwf Hu HD) as HuD.
  destruct (toJson_dict _ _ _ _ HD) as [d ->].
  assert (Hz : forall z, PDict d <> PInt z) by discriminate.
  unfold fromJson_text. rewrite loads_text_cps_of.
  destruct pretty; destruct (loads_cut _ _ _ _ _ p q HuD Hz H E Hq) as [e ->]; reflexivity.
Qed.

(** C32: Truncated text: [fromJson] on any proper prefix of the text
    [toJson] returned for a well-formed instance whose dicts have
    distinct keys (pretty or compact, ASCII or not) returns False and
    leaves the instance it fills as it was: [json.loads] raises on
    every such prefix. *)
Theorem truncated_text_fails lim n x pretty ascii text c self p q :
  wf_obj class_of x -> uniq_keys x = true -> toJson class_of lim n x pretty ascii = Ok text ->
  list_ascii_of_string text = p ++ q -> q <> [] ->
  fromJson_text class_of lim n c self (cps_of (string_of_list_ascii p)) = Some (self, Ok false).
Proof. exact (truncated_text lim n x pretty ascii text c self p q). Qed.

Lemma cps_of_app p q :
  cps_of (string_of_list_ascii (p ++ q)) = cps_of (string_of_list_ascii p) ++ cps_of (string_of_list_ascii q).
Proof. unfold cps_of. rewrite !list_ascii_of_string_of_list_ascii. apply map_app. Qed.

(** The UTF-8 bytes of a text split at a character are the bytes of
    the two parts, the second one not empty when its part is not. *)
Lemma utf8_split p q bp : utf8_encode (cps_of (string_of_list_ascii p)) = Ok bp ->
  exists bq, utf8_encode (cps_of (string_of_list_ascii (p ++ q))) = Ok (bp ++ bq) /\ (q <> [] -> bq <> []).
Proof.
  intros Hp. destruct (utf8_text (string_of_list_ascii q)) as (bq & Hq & _). exists bq. split.
  - rewrite cps_of_app, utf8_encode_app, Hp, Hq. reflexivity.
  - intros Hne. apply (utf8_encode_nonempty (cps_of (string_of_list_ascii q))); [|exact Hq].
    unfold cps_of. rewrite list_ascii_of_string_of_list_ascii. destruct q; [contradiction|discriminate].
Qed.

(** C33: A truncated file: when the file [toFile] wrote is cut at a
    character (its bytes become the UTF-8 bytes of a proper prefix of
    the text), [fromFile] on it returns normally and leaves the
    instance it fills as it was. *)
Theorem truncated_file_unchanged lim n fs x name fs' c self p q cut :
  wf_obj class_of x -> uniq_keys x = true -> toFile class_of lim n fs x name = (fs', Ok tt) ->
  list_ascii_of_string (text_of (toJson class_of lim n x true false)) = p ++ q -> q <> [] ->
  utf8_encode (cps_of (string_of_list_ascii p)) = Ok cut ->
  exists rest, aget name fs' = Some (map byte_of_N cut ++ rest) /\ rest <> [] /\
    fromFile class_of lim n c (aset name (map byte_of_N cut) fs') self name = Some (self, Ok tt).
Proof.
  intros Hwf Hu Hf E Hq Hc. unfold toFile in Hf.
  destruct (toJson class_of lim n x true false) as [text|e] eqn:Ej; [|discriminate]. cbn [text_of] in E.
  assert (Et : text = string_of_list_ascii (p ++ q))
    by (rewrite <- E; symmetry; apply string_of_list_ascii_of_string).
  destruct (utf8_split p q cut Hc) as (bq & Hpq & Hbq). rewrite Et, Hpq in Hf. injection Hf as <-.
  exists (map byte_of_N bq). split; [rewrite aget_aset_eq, map_app; reflexivity|].
  split; [destruct bq; [destruct (Hbq Hq eq_refl)|discriminate]|].
  unfold fromFile. rewrite aget_aset_eq.
  destruct (utf8_text (string_of_list_ascii p)) as (bs & Hbs & _ & D). rewrite Hc in Hbs. injection Hbs as <-.
  rewrite D, (truncated_text lim n x true false text c self p q Hwf Hu Ej E Hq). reflexivity.
Qed.
(** C34: A file cut inside a character.  [toFile] writes a character
    from 80 to FF as two bytes.  When the text [toFile] wrote has such a
    character after a prefix [p], and the file is cut after the lead
    byte of that character, [fromFile] on it raises UnicodeDecodeError
    (a ValueError) out of the method instead of returning, and the
    instance it fills is left as it was. *)
Theorem truncated_file_mid_char lim n fs x name fs' c self p ch q cut :
  toFile class_of lim n fs x name = (fs', Ok tt) ->
  list_ascii_of_string (text_of (toJson class_of lim n x true false)) = p ++ ch :: q ->
  (0x80 <= N_of_ascii ch)%N ->
  utf8_encode (cps_of (string_of_list_ascii p)) = Ok cut ->
  exists lead rest, aget name fs' = Some (map byte_of_N (cut ++ [lead]) ++ rest) /\ rest <> [] /\
    fromFile class_of lim n c (aset name (map byte_of_N (cut ++ [lead])) fs') self name
      = Some (self, Raise ValueError).
Proof.
  intros Hf E Hch Hc. unfold toFile in Hf.
  destruct (toJson class_of lim n x true false) as [text|e] eqn:Ej; [|discriminate]. cbn [text_of] in E.
  assert (Et : text = string_of_list_ascii (p ++ ch :: q))
    by (rewrite <- E; symmetry; apply string_of_list_ascii_of_string).
  destruct (utf8_char_high (N_of_ascii ch) (conj Hch (N_ascii_bounded ch))) as (lead & cb & Hu & Hl & Hcb).
  rewrite Et, cps_of_app, cps_of_cons, utf8_encode_app, Hc in Hf. cbn [res_bind] in Hf.
  unfold utf8_encode at 1 in Hf. cbn [res_map] in Hf. rewrite Hu in Hf. cbn [res_bind] in Hf.
  destruct (res_map utf8_char (cps_of (string_of_list_ascii q))) as [bqs|e]; cbn [res_bind] in Hf; [|discriminate].
  injection Hf as <-. exists lead, (map byte_of_N (cb :: concat bqs)).
  split; [rewrite aget_aset_eq, <- map_app, <- app_assoc; reflexivity|]. split; [discriminate|].
  destruct (utf8_prefix_decode _ cut [lead] Hc) as [F D].
  assert (Fl : Forall (fun b => b < 0xF5)%N (cut ++ [lead])) by (apply Forall_app; split; [exact F|repeat constructor; lia]).
  assert (Fb : Forall (fun b => b < 256)%N (cut ++ [lead])) by (eapply Forall_impl; [|exact Fl]; cbv beta; lia).
  unfold fromFile. rewrite aget_aset_eq, getUtfEncoding_low.
  - unfold bytes_decode. cbn -[utf8_decode]. rewrite map_byte_of_N, D, utf8_decode_lead_alone by assumption.
    reflexivity.
  - apply Forall_map. eapply Forall_impl; [|exact (Forall_and Fb Fl)]. intros b [H1 H2].
    rewrite byte_of_N_to_N by exact H1. exact H2.
Qed.
End Props.

(** ** Witnesses *)

Lemma sample_star_wf : wf_obj class_of sample_star.
Proof. apply (wf_objb_sound class_of 10); vm_compute; first [lia | reflexivity]. Qed.

Lemma sample_star_text : textb class_of sample_star = true /\ uniq_keys sample_star = true.
Proof. split; vm_compute; reflexivity. Qed.

Lemma sample_star_toJson : toJson class_of 100 10 sample_star true false = Ok sample_text.
Proof. vm_compute. reflexivity. Qed.

Lemma text_roundtrip_witness :
  wf_obj class_of sample_star /\ textb class_of sample_star = true /\ uniq_keys sample_star = true /\
  toJson class_of 100 10 sample_star true false = Ok sample_text /\
  exists f, fromJson_text class_of 100 10 (class_of "StarSystem") (init (class_of "StarSystem"))
              (cps_of sample_text) = Some (f, Ok true) /\ reset class_of sample_star = PObj "StarSystem" f.
Proof.
  destruct sample_star_text as [Ht Hu].
  split; [exact sample_star_wf|]. split; [exact Ht|]. split; [exact Hu|]. split; [exact sample_star_toJson|].
  exact (text_roundtrip class_of 100 10 "StarSystem" (sample_system_attrs "Terra" sample_owner) true false
           sample_text sample_star_wf Ht Hu sample_star_toJson).
Defined.

Lemma file_roundtrip_witness :
  wf_obj class_of sample_star /\ textb class_of sample_star = true /\ uniq_keys sample_star = true /\
  toFile class_of 100 10 sample_files sample_star "terra.json" = (saved_files, Ok tt) /\
  exists f, fromFile class_of 100 10 (class_of "StarSystem") saved_files (init (class_of "StarSystem"))
              "terra.json" = Some (f, Ok tt) /\ reset class_of sample_star = PObj "StarSystem" f.
Proof.
  destruct sample_star_text as [Ht Hu].
  assert (Hf : toFile class_of 100 10 sample_files sample_star "terra.json" = (saved_files, Ok tt))
    by (vm_compute; reflexivity).
  split; [exact sample_star_wf|]. split; [exact Ht|]. split; [exact Hu|]. split; [exact Hf|].
  exact (file_roundtrip class_of 100 10 sample_files "StarSystem" (sample_system_attrs "Terra" sample_owner)
           "terra.json" saved_files sample_star_wf Ht Hu Hf).
Defined.

Lemma toFile_outcome_witness :
  snd (toFile class_of 100 10 sample_files sample_star "terra.json") = Ok tt /\
  (exists D, _toJson class_of 10 sample_star = Ok D /\ json_ok 100 D = true) /\
  (exists bs, utf8_encode (cps_of sample_text) = Ok bs /\
     toFile class_of 100 10 sample_files sample_star "terra.json"
     = (aset "terra.json" (map byte_of_N bs) sample_files, Ok tt)) /\
  snd (toFile class_of 1 10 sample_files sample_star "terra.json") = Raise RecursionError /\
  fst (toFile class_of 1 10 sample_files sample_star "terra.json") = sample_files.
Proof.
  destruct (toFile_outcome class_of 100 10 sample_files sample_star "terra.json") as (Hiff & _ & Hw).
  destruct (toFile_outcome class_of 1 10 sample_files sample_star "terra.json") as (_ & He & _).
  assert (Hs : snd (toFile class_of 100 10 sample_files sample_star "terra.json") = Ok tt)
    by (vm_compute; reflexivity).
  assert (Hr : snd (toFile class_of 1 10 sample_files sample_star "terra.json") = Raise RecursionError)
    by (vm_compute; reflexivity).
  split; [exact Hs|]. split; [exact (proj1 Hiff Hs)|]. split; [exact (Hw _ sample_star_toJson)|].
  split; [exact Hr|]. exact (He _ Hr).
Defined.

Lemma fromFile_utf8_bom_witness :
  aget "terra.json" bom_files = Some (BOM_UTF8 ++ saved_bytes) /\
  (fromFile class_of 100 10 (class_of "StarSystem") bom_files (init (class_of "StarSystem")) "terra.json"
     = Some (init (class_of "StarSystem"), Ok tt) \/
   fromFile class_of 100 10 (class_of "StarSystem") bom_files (init (class_of "StarSystem")) "terra.json"
     = Some (init (class_of "StarSystem"), Raise ValueError)).
Proof.
  split; [reflexivity|].
  exact (fromFile_utf8_bom class_of 100 10 (class_of "StarSystem") bom_files (init (class_of "StarSystem"))
           "terra.json" saved_bytes eq_refl).
Defined.

Lemma fromFile_raises_witness :
  fromFile class_of 100 10 (class_of "StarSystem") bad_files (init (class_of "StarSystem")) "missing.json"
    = Some (init (class_of "StarSystem"), Raise OSError) /\
  fromFile class_of 100 10 (class_of "StarSystem") bad_files (init (class_of "StarSystem")) "bad.json"
    = Some (init (class_of "StarSystem"), Raise ValueError).
Proof.
  destruct (fromFile_raises class_of 100 10 (class_of "StarSystem") bad_files (init (class_of "StarSystem"))
              "missing.json") as [Hm _].
  destruct (fromFile_raises class_of 100 10 (class_of "StarSystem") bad_files (init (class_of "StarSystem"))
              "bad.json") as [_ Hb].
  split; [exact (Hm eq_refl)|].
  exact (Hb _ Byte.xff eq_refl eq_refl (or_intror (or_introl eq_refl)) eq_refl).
Defined.

Lemma fromFile_encodings_witness :
  hd_error (cps_of sample_text) <> Some 0%N /\
  utf8_encode (cps_of sample_text) = Ok (bytes_of (utf8_encode (cps_of sample_text))) /\
  fromFile class_of 100 10 (class_of "StarSystem")
      (aset "terra.json" ([Byte.xff; Byte.xfe] ++ map byte_of_N (utf16le (cps_of sample_text))) sample_files)
      (init (class_of "StarSystem")) "terra.json"
    = fromFile class_of 100 10 (class_of "StarSystem")
        (aset "terra.json" (map byte_of_N (bytes_of (utf8_encode (cps_of sample_text)))) sample_files)
        (init (class_of "StarSystem")) "terra.json".
Proof.
  assert (H0 : hd_error (cps_of sample_text) <> Some 0%N) by (vm_compute; discriminate).
  assert (H1 : utf8_encode (cps_of sample_text) = Ok (bytes_of (utf8_encode (cps_of sample_text))))
    by (vm_compute; reflexivity).
  split; [exact H0|]. split; [exact H1|].
  exact (proj1 (fromFile_encodings class_of 100 10 (class_of "StarSystem") sample_files
                  (init (class_of "StarSystem")) "terra.json" sample_text _ H0 H1)).
Defined.

Lemma truncated_text_fails_witness :
  wf_obj class_of sample_star /\ uniq_keys sample_star = true /\
  toJson class_of 100 10 sample_star true false = Ok sample_text /\
  list_ascii_of_string sample_text = firstn 40 (list_ascii_of_string sample_text) ++ skipn 40 (list_ascii_of_string sample_text) /\
  skipn 40 (list_ascii_of_string sample_text) <> [] /\
  fromJson_text class_of 100 10 (class_of "StarSystem") (init (class_of "StarSystem"))
    (cps_of (string_of_list_ascii (firstn 40 (list_ascii_of_string sample_text))))
  = Some (init (class_of "StarSystem"), Ok false).
Proof.
  destruct sample_star_text as [_ Hu].
  assert (E : list_ascii_of_string sample_text
              = firstn 40 (list_ascii_of_string sample_text) ++ skipn 40 (list_ascii_of_string sample_text))
    by (symmetry; apply firstn_skipn).
  assert (Hq : skipn 40 (list_ascii_of_string sample_text) <> []) by (vm_compute; discriminate).
  split; [exact sample_star_wf|]. split; [exact Hu|]. split; [exact sample_star_toJson|]. split; [exact E|]. split; [exact Hq|].
  exact (truncated_text_fails class_of 100 10 sample_star true false sample_text (class_of "StarSystem")
           (init (class_of "StarSystem")) _ _ sample_star_wf Hu sample_star_toJson E Hq).
Defined.

Lemma truncated_file_unchanged_witness :
  wf_obj class_of sample_star /\ uniq_keys sample_star = true /\
  toFile class_of 100 10 sample_files sample_star "terra.json" = (saved_files, Ok tt) /\
  list_ascii_of_string (text_of (toJson class_of 100 10 sample_star true false))
    = cut_text ++ skipn 40 (list_ascii_of_string sample_text) /\
  skipn 40 (list_ascii_of_string sample_text) <> [] /\
  utf8_encode (cps_of (string_of_list_ascii cut_text)) = Ok cut_bytes /\
  exists rest, aget "terra.json" saved_files = Some (map byte_of_N cut_bytes ++ rest) /\ rest <> [] /\
    fromFile class_of 100 10 (class_of "StarSystem") (aset "terra.json" (map byte_of_N cut_bytes) saved_files)
      (init (class_of "StarSystem")) "terra.json" = Some (init (class_of "StarSystem"), Ok tt).
Proof.
  destruct sample_star_text as [_ Hu].
  assert (Hf : toFile class_of 100 10 sample_files sample_star "terra.json" = (saved_files, Ok tt))
    by (vm_compute; reflexivity).
  assert (E : list_ascii_of_string (text_of (toJson class_of 100 10 sample_star true false))
              = cut_text ++ skipn 40 (list_ascii_of_string sample_text)) by (symmetry; apply firstn_skipn).
  assert (Hq : skipn 40 (list_ascii_of_string sample_text) <> []) by (vm_compute; discriminate).
  assert (Hc : utf8_encode (cps_of (string_of_list_ascii cut_text)) = Ok cut_bytes) by (vm_compute; reflexivity).
  split; [exact sample_star_wf|]. split; [exact Hu|]. split; [exact Hf|]. split; [exact E|]. split; [exact Hq|].
  split; [exact Hc|].
  exact (truncated_file_unchanged class_of 100 10 sample_files sample_star "terra.json" saved_files
           (class_of "StarSystem") (init (class_of "StarSystem")) _ _ _ sample_star_wf Hu Hf E Hq Hc).
Defined.

Lemma truncated_file_mid_char_witness :
  toFile class_of 100 10 sample_files sample_star "terra.json" = (saved_files, Ok tt) /\
  list_ascii_of_string (text_of (toJson class_of 100 10 sample_star true false))
    = firstn 104 (list_ascii_of_string sample_text) ++
      nth 104 (list_ascii_of_string sample_text) "0"%char :: skipn 105 (list_ascii_of_string sample_text) /\
  (0x80 <= N_of_ascii (nth 104 (list_ascii_of_string sample_text) "0"%char))%N /\
  utf8_encode (cps_of (string_of_list_ascii (firstn 104 (list_ascii_of_string sample_text))))
    = Ok (cps_of (string_of_list_ascii (firstn 104 (list_ascii_of_string sample_text)))) /\
  exists lead rest, aget "terra.json" saved_files
      = Some (map byte_of_N (cps_of (string_of_list_ascii (firstn 104 (list_ascii_of_string sample_text))) ++ [lead]) ++ rest) /\
    rest <> [] /\
    fromFile class_of 100 10 (class_of "StarSystem")
      (aset "terra.json" (map byte_of_N (cps_of (string_of_list_ascii (firstn 104 (list_ascii_of_string sample_text))) ++ [lead]))
         saved_files) (init (class_of "StarSystem")) "terra.json"
      = Some (init (class_of "StarSystem"), Raise ValueError).
Proof.
  assert (Hf : toFile class_of 100 10 sample_files sample_star "terra.json" = (saved_files, Ok tt))
    by (vm_compute; reflexivity).
  assert (E : list_ascii_of_string (text_of (toJson class_of 100 10 sample_star true false))
    = firstn 104 (list_ascii_of_string sample_text) ++
      nth 104 (list_ascii_of_string sample_text) "0"%char :: skipn 105 (list_ascii_of_string sample_text))
    by (vm_compute; reflexivity).
  assert (Hch : (0x80 <= N_of_ascii (nth 104 (list_ascii_of_string sample_text) "0"%char))%N)
    by (vm_compute; discriminate).
  assert (Hc : utf8_encode (cps_of (string_of_list_ascii (firstn 104 (list_ascii_of_string sample_text))))
    = Ok (cps_of (string_of_list_ascii (firstn 104 (list_ascii_of_string sample_text))))) by (vm_compute; reflexivity).
  split; [exact Hf|]. split; [exact E|]. split; [exact Hch|]. split; [exact Hc|].
  exact (truncated_file_mid_char class_of 100 10 sample_files sample_star "terra.json" saved_files
           (class_of "StarSystem") (init (class_of "StarSystem")) _ _ _ _ Hf E Hch Hc).
Defined.
