(* ===== verification/Render.v ===== *)
(** * String rendering of BaseDataObject (basejsonobject.py 94-114)

    [__str__] prints one line ["name : value"] per member, in the order
    of [_get_members] ([_StrShowProps] is False in every class of the
    program, so no property is added; a property that raises while
    [inspect.getmembers] reads it makes [__str__] raise), with [str()] of the value, and
    nothing after the colon for None.  [__unicode__], left over from
    Python 2, concatenates a [str] value as it is and applies [str()] to
    the others.

    [str()] of a value is the value itself for a [str] and [repr()]
    otherwise; [repr()] follows CPython's [unicode_repr], [bytes_repr],
    [list_repr], [tuple_repr], [dict_repr] and the decimal conversion of
    [int] (with its 4300-digit limit, a ValueError).  The [repr] of an
    instance, [object.__repr__], shows its address in memory: it is
    outside the model ([None]); no class of the program has a public
    member holding an instance.  The nesting of the values printed is
    taken to be below the recursion limit. *)

From Stdlib Require Import String Ascii List ZArith NArith Lia Bool.
From S2P Require Import Prelude PyVal JsonText Serial Entities.
Import ListNotations.
Open Scope rw_scope.
Open Scope list_scope.

(** ** repr and str *)

Definition squote : ascii := "'"%char.
Definition nl : ascii := "010"%char.

(** The quote [repr] chooses: a double quote when the text holds a
    single quote and no double quote, a single quote otherwise. *)
Definition repr_quote (s : list ascii) : ascii :=
  if existsb (fun c => Ascii.eqb c squote) s && negb (existsb (fun c => Ascii.eqb c quote) s)
  then quote else squote.

Definition x_escape (c : ascii) : list ascii :=
  [bslash; "x"%char; hex_digit (code c / 16); hex_digit (code c mod 16)]%N.

(** The characters below 256 that [str.isprintable] accepts: ASCII
    from the space to the tilde, and Latin-1 from A1 on but the soft
    hyphen AD. *)
Definition printable (c : ascii) : bool :=
  let n := code c in (((32 <=? n) && (n <? 127)) || ((161 <=? n) && negb (n =? 173)))%N.

(** One character of [repr] of a [str] ([unicode_repr]). *)
Definition repr_char (q c : ascii) : list ascii :=
  if Ascii.eqb c q || Ascii.eqb c bslash then [bslash; c]
  else if (code c =? 9)%N then [bslash; "t"%char]
  else if (code c =? 10)%N then [bslash; "n"%char]
  else if (code c =? 13)%N then [bslash; "r"%char]
  else if printable c then [c]
  else x_escape c.

(** One byte of [repr] of a [bytes] ([PyBytes_Repr]): every byte
    outside printable ASCII is a hexadecimal escape. *)
Definition repr_byte (q c : ascii) : list ascii :=
  if Ascii.eqb c q || Ascii.eqb c bslash then [bslash; c]
  else if (code c =? 9)%N then [bslash; "t"%char]
  else if (code c =? 10)%N then [bslash; "n"%char]
  else if (code c =? 13)%N then [bslash; "r"%char]
  else if ((32 <=? code c) && (code c <? 127))%N then [c]
  else x_escape c.

Definition repr_str (s : list ascii) : list ascii :=
  let q := repr_quote s in q :: flat_map (repr_char q) s ++ [q].

Definition repr_bytes (bs : list Byte.byte) : list ascii :=
  let s := map ascii_of_byte bs in
  let q := repr_quote s in "b"%char :: q :: flat_map (repr_byte q) s ++ [q].

Fixpoint jr_map {A B : Type} (f : A -> jr B) (l : list A) : jr (list B) :=
  match l with
  | [] => jret []
  | x :: r => let? y := f x in let? ys := jr_map f r in jret (y :: ys)
  end.

(** [repr(v)]; a tuple of one element keeps its comma. *)
Fixpoint py_repr (v : pyval) : jr (list ascii) :=
  match v with
  | PNone => jret (lit "None")
  | PBool b => jret (lit (if b then "True" else "False"))
  | PInt z => Some (int_repr z)
  | PStr s => jret (repr_str (list_ascii_of_string s))
  | PBytes bs => jret (repr_bytes bs)
  | PList l => let? xs := jr_map py_repr l in jret ("["%char :: join (lit ", ") xs ++ ["]"%char])
  | PTuple l =>
      let? xs := jr_map py_repr l in
      jret ("("%char :: match xs with [x] => x ++ [","%char] | _ => join (lit ", ") xs end ++ [")"%char])
  | PDict d =>
      let? xs := jr_map (fun kv => let? x := py_repr (snd kv) in
                                   jret (repr_str (list_ascii_of_string (fst kv)) ++ lit ": " ++ x)) d in
      jret ("{"%char :: join (lit ", ") xs ++ ["}"%char])
  | PObj _ _ => None
  end.

(** [str(v)]. *)
Definition py_str (v : pyval) : jr (list ascii) :=
  match v with
  | PStr s => jret (list_ascii_of_string s)
  | _ => py_repr v
  end.

(** ** __str__ and __unicode__ *)

(** One line of [__str__] (lines 98-101). *)
Definition str_line (k : string) (v : pyval) : jr (list ascii) :=
  match v with
  | PNone => jret (lit k ++ lit " : " ++ [nl])
  | _ => let? s := py_str v in jret (lit k ++ lit " : " ++ s ++ [nl])
  end.

(** [__str__] (lines 94-102). *)
Definition __str__ (c : DataClass) (self : attrs) : jr string :=
  let? ms := Some (_get_members c self) in
  let? ls := jr_map (fun kv => str_line (fst kv) (snd kv)) ms in
  jret (string_of_list_ascii (concat ls)).

(** One line of [__unicode__] (lines 107-113).  The [isinstance] test
    looks the name up on the class first; the class attributes of the
    program's classes are [JSON_Type] and names starting with an
    underscore, none of them a member, so it tests the member's value. *)
Definition unicode_line (k : string) (v : pyval) : jr (list ascii) :=
  match v with
  | PNone => jret (lit k ++ lit " : " ++ [nl])
  | PStr s => jret (lit k ++ lit " : " ++ list_ascii_of_string s ++ [nl])
  | _ => let? s := py_str v in jret (lit k ++ lit " : " ++ s ++ [nl])
  end.

(** [__unicode__] (lines 104-114). *)
Definition __unicode__ (c : DataClass) (self : attrs) : jr string :=
  let? ms := Some (_get_members c self) in
  let? ls := jr_map (fun kv => unicode_line (fst kv) (snd kv)) ms in
  jret (string_of_list_ascii (concat ls)).

(** ** Properties *)

Lemma jr_map_ext {A B : Type} (f g : A -> jr B) l :
  (forall x, In x l -> f x = g x) -> jr_map f l = jr_map g l.
Proof.
  induction l as [|x l IH]; intros H; [reflexivity|]. cbn [jr_map].
  rewrite (H x (or_introl eq_refl)), IH by (intros y Hy; apply H; right; exact Hy). reflexivity.
Qed.

(** [__unicode__] renders every instance as [__str__] does: the branch
    for [str] values gives [str()] of them. *)
Lemma unicode_str c self : __unicode__ c self = __str__ c self.
Proof.
  unfold __unicode__, __str__. destruct (_get_members c self) as [ms|e]; [|reflexivity].
  cbn [jbind]. f_equal. apply jr_map_ext. intros [k v] _.
  destruct v; reflexivity.
Qed.

(** The default StarSystem prints its tuple [Players]. *)
Example str_default_starsystem :
  __str__ (class_of "StarSystem") (init (class_of "StarSystem")) =
  jret ("Players : (0,)" ++ String nl "immuneFromWar : False" ++ String nl "markerType : 0"
        ++ String nl "name : " ++ String nl "owner : " ++ String nl EmptyString)%string.
Proof. vm_compute. reflexivity. Qed.
