(* ===== verification/Adjacency.v ===== *)
(** * Adjacency: StarMapConstants.mapAdjacents

    data/starsystemconst.py, lines 45-57.  For every constant [const]
    of [self._consts], and every [other] of the same list, the name of
    [other] is appended to [const.adjacentSystems] (the property
    returning [const._adjacent]) when the names differ, [other] lies in
    the square of half-side [maxDistance] around [const], and the
    Euclidean distance is at most [maxDistance].

    The list is iterated in place: the constants are objects, and the
    appends to the constants already visited are visible through the
    list when the later constants scan it.  The model rebuilds the list
    position by position in the same order ([outer]), and an exception
    leaves the appends done before it.

    Coordinates are integers, as in the data the server sends; the
    comparison [math.sqrt(s) <= maxDistance] is modelled by [sqrt_le]
    in binary64, as CPython computes it: the int [s] is rounded to a
    double ([round53]; OverflowError from [2^1024] on, [float_of_int]),
    its square root is correctly rounded, and the float is compared
    exactly with the int.

    The theorems: below [maxDistance = 2^511] the pair test is the
    reference relation [adjacent] and never raises; above, a pair can
    overflow; for [maxDistance < 2^26] it is the exact Euclidean test
    (the bounding box and the rounding change nothing), and not beyond;
    it is symmetric and never relates a constant to itself;
    [mapAdjacents] refines the reference that appends, to each
    constant, the names of the constants adjacent to it in list order;
    running it twice appends every name twice. *)

From Stdlib Require Import String List ZArith Lia Bool Reals.
From S2P Require Import Prelude PyVal Serial Entities.
Import ListNotations.
Open Scope rw_scope.
Open Scope string_scope.
Open Scope Z_scope.
Open Scope list_scope.

(** ** The operation *)

(** A number operand of [-], [+], [<=]: ints and bools; anything else
    raises TypeError. *)
Definition num (v : pyval) : res Z :=
  match v with
  | PInt z => Ok z
  | PBool b => Ok (Z.b2z b)
  | _ => Raise TypeError
  end.

Definition attr_num (v : pyval) (name : string) : res Z :=
  x <- attr_of v name ;; num x.

(** *** [math.sqrt(s) <= d] in binary64

    [float(n)] for an integer [n >= 0] (CPython's [PyLong_AsDouble],
    which [math.sqrt] applies to an int): [n] rounded to 53 significant
    bits, ties to even; OverflowError when the rounded value reaches
    [2^1024].  A double is represented by the integer it equals (the
    value of [float(n)] is an integer). *)
Definition round53 (n : Z) : Z :=
  let b := Z.log2 n + 1 in
  if b <=? 53 then n
  else
    let sh := b - 53 in
    let q := Z.shiftr n sh in
    let r := n - Z.shiftl q sh in
    let h := 2 ^ (sh - 1) in
    Z.shiftl (if (h <? r) || ((r =? h) && Z.odd q) then q + 1 else q) sh.

Definition float_of_int (n : Z) : res Z :=
  let x := round53 n in
  if 2 ^ 1024 <=? x then Raise OverflowError else Ok x.

(** [math.sqrt(s) <= d] for integers [s >= 0] and [d].  The square
    root [r] of the double [x = float(s)] is correctly rounded, and
    Python compares a float with an int exactly.  [r >= 0], so the test
    fails for [d < 0].  Otherwise let [fd = M * 2^(b-53)] be the largest
    double [<= d] ([b] the bit length of [d], [M] its leading 53 bits);
    [r <= d] iff [r <= fd] iff [sqrt x] lies below the midpoint
    [m = (2M+1) * 2^(b-54)] between [fd] and the next double.  Both
    sides are squared and scaled by a power of two to stay in the
    integers.  [sqrt x = m] cannot happen: [m^2] has an odd factor
    [(2M+1)^2] of more than 53 bits, which the double [x] cannot have. *)
Definition sqrt_le (s d : Z) : res bool :=
  x <- float_of_int s ;;
  Ok (if d <? 0 then false
      else
        let b := Z.log2 d + 1 in
        let M := if b <=? 53 then Z.shiftl d (53 - b) else Z.shiftr d (b - 53) in
        let e := 2 * b - 108 in
        if e <? 0 then x * 2 ^ (- e) <? (2 * M + 1) ^ 2
        else x <? (2 * M + 1) ^ 2 * 2 ^ e).

(** The test of lines 54-56 for one pair, in the order Python evaluates
    it: the names, then the x chain (its upper bound only when the lower
    one holds), then the y chain, then the distance. *)
Definition adjacent_test (maxDistance : Z) (const other : pyval) : res bool :=
  on <- attr_of other "name" ;;
  cn <- attr_of const "name" ;;
  if negb (py_eqv class_of on cn) then
    cx <- attr_num const "posx" ;;
    ox <- attr_num other "posx" ;;
    if (cx - maxDistance <=? ox) && (ox <=? cx + maxDistance) then
      cy <- attr_num const "posy" ;;
      oy <- attr_num other "posy" ;;
      if (cy - maxDistance <=? oy) && (oy <=? cy + maxDistance) then
        sqrt_le ((cx - ox) ^ 2 + (cy - oy) ^ 2) maxDistance
      else Ok false
    else Ok false
  else Ok false.

(** [const.adjacentSystems.append(x)] (line 57): the property exists on
    StarSystemConst only; [append] needs a list. *)
Definition append_adjacent (const : pyval) (x : pyval) : res pyval :=
  match const with
  | PObj cn a =>
      if String.eqb cn "StarSystemConst" then
        match getattr a "_adjacent" with
        | Ok (PList l) => Ok (PObj cn (aset "_adjacent" (PList (l ++ [x])) a))
        | Ok _ => Raise AttributeError
        | Raise e => Raise e
        end
      else Raise AttributeError
  | _ => Raise AttributeError
  end.

(** The inner loop (lines 53-57) for one [const] over the list [others]. *)
Fixpoint scan (maxDistance : Z) (const : pyval) (others : list pyval) : pyval * res unit :=
  match others with
  | [] => (const, Ok tt)
  | other :: r =>
      match (b <- adjacent_test maxDistance const other ;;
             if b then (nm <- attr_of other "name" ;; x <- append_adjacent const nm ;; Ok (Some x))
             else Ok None) with
      | Raise e => (const, Raise e)
      | Ok None => scan maxDistance const r
      | Ok (Some const') => scan maxDistance const' r
      end
  end.

(** The outer loop (line 51): [pre] are the constants visited, with
    their appends, [post] the constants still to visit. *)
Fixpoint outer (maxDistance : Z) (pre post : list pyval) : list pyval * res unit :=
  match post with
  | [] => (pre, Ok tt)
  | const :: r =>
      let '(const', rr) := scan maxDistance const (pre ++ const :: r) in
      match rr with
      | Raise e => (pre ++ const' :: r, Raise e)
      | Ok _ => outer maxDistance (pre ++ [const']) r
      end
  end.

(** [self.mapAdjacents(maxDistance)].  A list or tuple of constants is
    updated in place; iterating a str, bytes or dict gives values
    without a [name] attribute. *)
Definition mapAdjacents (maxDistance : Z) (self : attrs) : attrs * res unit :=
  match getattr self "_consts" with
  | Raise e => (self, Raise e)
  | Ok (PList l) => let '(l', r) := outer maxDistance [] l in (aset "_consts" (PList l') self, r)
  | Ok (PTuple l) => let '(l', r) := outer maxDistance [] l in (aset "_consts" (PTuple l') self, r)
  | Ok v =>
      match py_iter v with
      | Raise e => (self, Raise e)
      | Ok [] => (self, Ok tt)
      | Ok (_ :: _) => (self, Raise AttributeError)
      end
  end.

(** ** The reference *)

(** A constant as [fromJson] builds it from the server's data. *)
Definition const_okb (v : pyval) : bool :=
  match v with
  | PObj cn a =>
      String.eqb cn "StarSystemConst"
      && match getattr a "name" with Ok (PStr _) => true | _ => false end
      && match attr_num v "posx" with Ok _ => true | _ => false end
      && match attr_num v "posy" with Ok _ => true | _ => false end
      && match getattr a "_adjacent" with Ok (PList _) => true | _ => false end
  | _ => false
  end.

(** What the pair test reads. *)
Definition geom (v : pyval) : res pyval * res Z * res Z :=
  (attr_of v "name", attr_num v "posx", attr_num v "posy").

(** The other point is inside the square of half-side [d] around the
    first, and [math.sqrt] of the squared distance is at most [d]. *)
Definition within (d cx cy ox oy : Z) : bool :=
  (Z.abs (cx - ox) <=? d) && (Z.abs (cy - oy) <=? d)
  && match sqrt_le ((cx - ox) ^ 2 + (cy - oy) ^ 2) d with Ok t => t | Raise _ => false end.

(** Adjacency: distinct names, and [within]. *)
Definition adjacent (d : Z) (c o : pyval) : bool :=
  match (cn <- attr_of c "name" ;; on <- attr_of o "name" ;;
         cx <- attr_num c "posx" ;; cy <- attr_num c "posy" ;;
         ox <- attr_num o "posx" ;; oy <- attr_num o "posy" ;;
         Ok (negb (py_eqv class_of on cn) && within d cx cy ox oy)) with
  | Ok b => b
  | Raise _ => false
  end.

Definition name_of (v : pyval) : pyval :=
  match attr_of v "name" with Ok n => n | Raise _ => PNone end.

(** The names of the constants of [l] adjacent to [c], in list order. *)
Definition adjacents_ref (d : Z) (l : list pyval) (c : pyval) : list pyval :=
  map name_of (filter (adjacent d c) l).

(** [c] with [names] appended to its adjacency list. *)
Definition extend (c : pyval) (names : list pyval) : pyval :=
  match c with
  | PObj cn a =>
      match getattr a "_adjacent" with
      | Ok (PList l) => PObj cn (aset "_adjacent" (PList (l ++ names)) a)
      | _ => c
      end
  | _ => c
  end.

Definition mapAdjacents_ref (d : Z) (l : list pyval) : list pyval :=
  map (fun c => extend c (adjacents_ref d l c)) l.

(** ** The example of the specification

    Systems A(0,0), B(3,4) and C(100,100), with [maxDistance = 5]. *)

Definition const_at (nm : string) (x y : Z) (adj : list pyval) : pyval :=
  PObj "StarSystemConst" [("name", PStr nm); ("posx", PInt x); ("posy", PInt y);
                          ("originalOwner", PStr "Empire"); ("_adjacent", PList adj)].

Definition spec_consts : attrs :=
  [("_consts", PList [const_at "A" 0 0 []; const_at "B" 3 4 []; const_at "C" 100 100 []])].

(** ** The pair test *)

Lemma const_okb_inv v : const_okb v = true ->
  exists a s x y l, v = PObj "StarSystemConst" a /\ getattr a "name" = Ok (PStr s) /\
    attr_num v "posx" = Ok x /\ attr_num v "posy" = Ok y /\ getattr a "_adjacent" = Ok (PList l).
Proof.
  destruct v as [| | | | | | | |cn a]; try discriminate. cbn [const_okb].
  destruct (String.eqb_spec cn "StarSystemConst") as [->|]; [|discriminate]. cbn [andb].
  destruct (getattr a "name") as [[]|] eqn:En; try discriminate.
  destruct (attr_num _ "posx") as [x|] eqn:Ex; [|discriminate].
  destruct (attr_num _ "posy") as [y|] eqn:Ey; [|discriminate].
  destruct (getattr a "_adjacent") as [[]|] eqn:El; try discriminate. intros _.
  do 5 eexists. repeat split; eassumption.
Qed.

Ltac const_inv H :=
  let a := fresh "a" in let s := fresh "s" in let x := fresh "x" in let y := fresh "y" in
  let l := fresh "l" in
  destruct (const_okb_inv _ H) as (a & s & x & y & l & -> & ?Hn & ?Hx & ?Hy & ?Hl).

(** *** The float model *)

Lemma log2_bits n : 0 < n -> 2 ^ Z.log2 n <= n < 2 ^ (Z.log2 n + 1).
Proof. intros H. rewrite Z.add_1_r. apply Z.log2_spec, H. Qed.

(** [float(n)]: exact below [2^53], and between [2^53] and [2^b] for
    an [n] of [b] bits above. *)
Lemma round53_small n : 0 <= n < 2 ^ 53 -> round53 n = n.
Proof.
  intros Hn. unfold round53. destruct (Z.eq_dec n 0) as [->|Hn0]; [reflexivity|].
  assert (Z.log2 n < 53) by (apply Z.log2_lt_pow2; lia).
  replace (Z.log2 n + 1 <=? 53) with true by (symmetry; apply Z.leb_le; lia). reflexivity.
Qed.

Lemma round53_large n : 2 ^ 53 <= n -> 2 ^ Z.log2 n <= round53 n <= 2 ^ (Z.log2 n + 1).
Proof.
  intros Hn. pose proof (log2_bits n ltac:(lia)) as [Hlo Hhi].
  assert (Hb : 53 <= Z.log2 n) by (apply Z.log2_le_pow2; lia).
  unfold round53. replace (Z.log2 n + 1 <=? 53) with false by (symmetry; apply Z.leb_gt; lia).
  set (sh := Z.log2 n + 1 - 53). assert (Hsh : 0 < sh) by lia.
  rewrite !Z.shiftl_mul_pow2, Z.shiftr_div_pow2 by lia.
  assert (Ep : 2 ^ (Z.log2 n + 1) = 2 ^ 53 * 2 ^ sh) by (rewrite <- Z.pow_add_r by lia; f_equal; lia).
  assert (Eq : 2 ^ Z.log2 n = 2 ^ 52 * 2 ^ sh) by (rewrite <- Z.pow_add_r by lia; f_equal; lia).
  assert (Hpos : 0 < 2 ^ sh) by (apply Z.pow_pos_nonneg; lia).
  assert (Hq1 : 2 ^ 52 <= n / 2 ^ sh) by (apply Z.div_le_lower_bound; lia).
  assert (Hq2 : n / 2 ^ sh < 2 ^ 53) by (apply Z.div_lt_upper_bound; lia).
  destruct (_ || _); nia.
Qed.

Lemma float_of_int_ok s : 0 <= s < 2 ^ 1023 -> exists x, float_of_int s = Ok x /\
  (s < 2 ^ 53 -> x = s) /\ (2 ^ 53 <= s -> 2 ^ 53 <= x).
Proof.
  intros Hs. unfold float_of_int. exists (round53 s).
  destruct (Z_lt_le_dec s (2 ^ 53)) as [Hl|Hl].
  - rewrite round53_small by lia. replace (2 ^ 1024 <=? s) with false by (symmetry; apply Z.leb_gt; lia).
    split; [reflexivity|]. split; [reflexivity|lia].
  - destruct (round53_large s Hl) as [H1 H2].
    assert (2 ^ 53 <= 2 ^ Z.log2 s) by (apply Z.pow_le_mono_r; [lia|apply Z.log2_le_pow2; lia]).
    assert (Z.log2 s < 1023) by (apply Z.log2_lt_pow2; lia).
    assert (2 ^ (Z.log2 s + 1) <= 2 ^ 1023) by (apply Z.pow_le_mono_r; lia).
    replace (2 ^ 1024 <=? round53 s) with false by (symmetry; apply Z.leb_gt; lia).
    split; [reflexivity|]. split; [lia|]. intros _; lia.
Qed.

(** From [2^1024] on, [float(s)] raises OverflowError. *)
Lemma float_of_int_overflow s : 2 ^ 1024 <= s -> float_of_int s = Raise OverflowError.
Proof.
  intros Hs. unfold float_of_int. destruct (round53_large s ltac:(lia)) as [H1 _].
  assert (2 ^ 1024 <= 2 ^ Z.log2 s) by (apply Z.pow_le_mono_r; [lia|apply Z.log2_le_pow2; lia]).
  replace (2 ^ 1024 <=? round53 s) with true by (symmetry; apply Z.leb_le; lia). reflexivity.
Qed.

(** Below [2^1023] the conversion does not overflow, so the test does
    not raise. *)
Lemma sqrt_le_ok s d : 0 <= s < 2 ^ 1023 -> exists t, sqrt_le s d = Ok t.
Proof.
  intros Hs. destruct (float_of_int_ok s Hs) as (x & Hx & _). unfold sqrt_le. rewrite Hx.
  cbn [res_bind]. eauto.
Qed.

(** For [0 <= d < 2^26] the float test is the exact test [s <= d*d]:
    the midpoint above [d] is less than [1/2^27] away from [d]. *)
Lemma sqrt_le_exact s d : 0 <= s < 2 ^ 1023 -> 0 <= d < 2 ^ 26 -> sqrt_le s d = Ok (s <=? d * d).
Proof.
  intros Hs Hd. destruct (float_of_int_ok s Hs) as (x & Hx & Hsm & Hlg). unfold sqrt_le. rewrite Hx.
  cbn [res_bind]. f_equal. replace (d <? 0) with false by (symmetry; apply Z.ltb_ge; lia).
  assert (Hb : 0 <= Z.log2 d < 26).
  { split; [apply Z.log2_nonneg|]. destruct (Z.eq_dec d 0) as [->|]; [cbn; lia|]. apply Z.log2_lt_pow2; lia. }
  replace (Z.log2 d + 1 <=? 53) with true by (symmetry; apply Z.leb_le; lia).
  replace (2 * (Z.log2 d + 1) - 108 <? 0) with true by (symmetry; apply Z.ltb_lt; lia).
  rewrite Z.shiftl_mul_pow2 by lia. set (b := Z.log2 d + 1).
  assert (EL : 2 ^ (- (2 * b - 108)) = 2 ^ (54 - b) * 2 ^ (54 - b))
    by (rewrite <- Z.pow_add_r by lia; f_equal; lia).
  assert (EM : 2 * (d * 2 ^ (53 - b)) = d * 2 ^ (54 - b))
    by (replace (54 - b) with (1 + (53 - b)) by lia; rewrite Z.pow_add_r by lia; ring).
  rewrite EL, EM. set (L := 2 ^ (54 - b)).
  assert (HL : 2 ^ 28 <= L) by (apply Z.pow_le_mono_r; lia).
  assert (Hdd : d * d < 2 ^ 52) by (replace (2 ^ 52) with (2 ^ 26 * 2 ^ 26) by reflexivity; nia).
  assert (Hxd : x <= d * d <-> s <= d * d).
  { destruct (Z_lt_le_dec s (2 ^ 53)) as [Hl|Hl]; [rewrite (Hsm Hl); reflexivity|].
    specialize (Hlg Hl). split; intros; lia. }
  assert (H2d : 2 * d + 1 < L) by lia.
  destruct (Z_le_gt_dec x (d * d)) as [Hle|Hgt].
  - replace (s <=? d * d) with true by (symmetry; apply Z.leb_le, Hxd, Hle).
    apply Z.ltb_lt. nia.
  - replace (s <=? d * d) with false by (symmetry; apply Z.leb_gt; destruct (Z_le_gt_dec s (d * d)) as [Hs'|Hs']; [apply Hxd in Hs'; lia|lia]).
    apply Z.ltb_ge. nia.
Qed.
(** *** The pair test *)

(** A point within distance [d] lies in the square of half-side [d]. *)
Lemma sq_bound a b d : 0 <= d -> a ^ 2 + b ^ 2 <= d * d -> - d <= a <= d.
Proof. intros Hd H. nia. Qed.

(** The chained comparisons of line 55 are the bounding box. *)
Lemma box_chain c o d : (c - d <=? o) && (o <=? c + d) = (Z.abs (c - o) <=? d).
Proof.
  destruct (Z.leb_spec (Z.abs (c - o)) d).
  - apply andb_true_iff. split; apply Z.leb_le; lia.
  - apply andb_false_iff. destruct (Z.leb_spec (c - d) o); [right; apply Z.leb_gt|left; reflexivity]. lia.
Qed.

(** Inside the box the squared distance is at most [2 d^2]; below
    [d < 2^511] the conversion of line 56 does not overflow. *)
Lemma box_sqrt_ok cx cy ox oy d : d < 2 ^ 511 -> Z.abs (cx - ox) <= d -> Z.abs (cy - oy) <= d ->
  exists t, sqrt_le ((cx - ox) ^ 2 + (cy - oy) ^ 2) d = Ok t.
Proof.
  intros Hd Hx Hy. apply sqrt_le_ok.
  assert (E : 2 ^ 1023 = 2 * (2 ^ 511 * 2 ^ 511)) by reflexivity.
  assert (0 <= (cx - ox) ^ 2) by (rewrite Z.pow_2_r; apply Z.square_nonneg).
  assert (0 <= (cy - oy) ^ 2) by (rewrite Z.pow_2_r; apply Z.square_nonneg).
  assert ((cx - ox) ^ 2 <= d * d) by (rewrite Z.pow_2_r; nia).
  assert ((cy - oy) ^ 2 <= d * d) by (rewrite Z.pow_2_r; nia).
  assert (0 <= d) by lia. nia.
Qed.

(** The code's box and distance tests compute [within]. *)
Lemma box_within cx cy ox oy d : d < 2 ^ 511 ->
  (if (cx - d <=? ox) && (ox <=? cx + d) then
     if (cy - d <=? oy) && (oy <=? cy + d) then sqrt_le ((cx - ox) ^ 2 + (cy - oy) ^ 2) d
     else Ok false
   else Ok false) = Ok (within d cx cy ox oy).
Proof.
  intros Hd. unfold within. rewrite !box_chain.
  destruct (Z.leb_spec (Z.abs (cx - ox)) d) as [Hx|]; [|reflexivity].
  destruct (Z.leb_spec (Z.abs (cy - oy)) d) as [Hy|]; [|reflexivity].
  destruct (box_sqrt_ok cx cy ox oy d Hd Hx Hy) as [t ->]. reflexivity.
Qed.

(** For [0 <= d < 2^26], [within] is the exact test: the box is implied
    by the distance. *)
Lemma within_exact cx cy ox oy d : 0 <= d < 2 ^ 26 ->
  within d cx cy ox oy = ((cx - ox) ^ 2 + (cy - oy) ^ 2 <=? d * d).
Proof.
  intros Hd. unfold within.
  destruct (Z.leb_spec ((cx - ox) ^ 2 + (cy - oy) ^ 2) (d * d)) as [Hs|Hs].
  - destruct (sq_bound (cx - ox) (cy - oy) d ltac:(lia) Hs).
    assert (Hy : (cy - oy) ^ 2 + (cx - ox) ^ 2 <= d * d) by lia.
    destruct (sq_bound (cy - oy) (cx - ox) d ltac:(lia) Hy).
    rewrite sqrt_le_exact by (split; [nia|]; replace (2 ^ 1023) with (2 ^ 971 * (2 ^ 26 * 2 ^ 26)) by reflexivity; nia).
    replace (_ <=? d * d) with true by (symmetry; apply Z.leb_le; exact Hs).
    replace (Z.abs (cx - ox) <=? d) with true by (symmetry; apply Z.leb_le; lia).
    replace (Z.abs (cy - oy) <=? d) with true by (symmetry; apply Z.leb_le; lia). reflexivity.
  - destruct (Z.leb_spec (Z.abs (cx - ox)) d) as [Hx|]; [|reflexivity].
    destruct (Z.leb_spec (Z.abs (cy - oy)) d) as [Hy|]; [|reflexivity].
    rewrite sqrt_le_exact.
    + apply Z.leb_gt, Hs.
    + assert ((cx - ox) ^ 2 <= d * d) by (rewrite Z.pow_2_r; nia).
      assert ((cy - oy) ^ 2 <= d * d) by (rewrite Z.pow_2_r; nia).
      split; [nia|]. replace (2 ^ 1023) with (2 ^ 970 * (2 * (2 ^ 26 * 2 ^ 26))) by reflexivity. nia.
    + exact Hd.
Qed.

Lemma within_sym d cx cy ox oy : within d cx cy ox oy = within d ox oy cx cy.
Proof.
  unfold within. replace (Z.abs (ox - cx)) with (Z.abs (cx - ox)) by lia.
  replace (Z.abs (oy - cy)) with (Z.abs (cy - oy)) by lia.
  replace ((ox - cx) ^ 2 + (oy - cy) ^ 2) with ((cx - ox) ^ 2 + (cy - oy) ^ 2) by ring. reflexivity.
Qed.

Lemma adjacent_unfold c o d : const_okb c = true -> const_okb o = true ->
  exists s t cx cy ox oy,
    attr_of c "name" = Ok (PStr s) /\ attr_of o "name" = Ok (PStr t) /\
    attr_num c "posx" = Ok cx /\ attr_num c "posy" = Ok cy /\
    attr_num o "posx" = Ok ox /\ attr_num o "posy" = Ok oy /\
    adjacent d c o = negb (String.eqb t s) && within d cx cy ox oy.
Proof.
  intros Hc Ho. const_inv Hc. const_inv Ho.
  exists s, s0, x, y, x0, y0. unfold adjacent. cbn [attr_of] in *.
  rewrite Hn, Hn0, Hx, Hy, Hx0, Hy0. cbn [res_bind]. rewrite py_eqv_str. repeat split; assumption.
Qed.

(** On constants built from the data, and below the overflow bound,
    the test of the code is the reference relation. *)
Lemma adjacent_test_ref d c o : d < 2 ^ 511 -> const_okb c = true -> const_okb o = true ->
  adjacent_test d c o = Ok (adjacent d c o).
Proof.
  intros Hd Hc Ho.
  destruct (adjacent_unfold c o d Hc Ho) as (s & t & cx & cy & ox & oy & Hs & Ht & Hcx & Hcy & Hox & Hoy & ->).
  unfold adjacent_test. rewrite Hs, Ht. cbn [res_bind]. rewrite py_eqv_str.
  destruct (String.eqb t s); [reflexivity|]. rewrite Hcx, Hox. cbn [res_bind negb andb].
  rewrite <- (box_within cx cy ox oy d Hd).
  destruct ((cx - d <=? ox) && (ox <=? cx + d)); [rewrite Hcy, Hoy|]; reflexivity.
Qed.

Lemma adjacent_sym d c o : const_okb c = true -> const_okb o = true -> adjacent d c o = adjacent d o c.
Proof.
  intros Hc Ho. destruct (adjacent_unfold c o d Hc Ho) as (s & t & cx & cy & ox & oy & Hs & Ht & Hcx & Hcy & Hox & Hoy & ->).
  destruct (adjacent_unfold o c d Ho Hc) as (t' & s' & ox' & oy' & cx' & cy' & Ht' & Hs' & Hox' & Hoy' & Hcx' & Hcy' & ->).
  rewrite Hs in Hs'; rewrite Ht in Ht'; rewrite Hcx in Hcx'; rewrite Hcy in Hcy'; rewrite Hox in Hox';
    rewrite Hoy in Hoy'. injection Hs' as <-. injection Ht' as <-. injection Hcx' as <-. injection Hcy' as <-.
  injection Hox' as <-. injection Hoy' as <-. rewrite String.eqb_sym, within_sym. reflexivity.
Qed.

(** ** Appending to a constant *)

Lemma getattr_aset_ne k k' v a : k <> k' -> getattr (aset k v a) k' = getattr a k'.
Proof. intros H. unfold getattr. rewrite aget_aset_ne by exact H. reflexivity. Qed.

Lemma attr_num_aset_ne cn k k' v a : k <> k' -> attr_num (PObj cn (aset k v a)) k' = attr_num (PObj cn a) k'.
Proof. intros H. unfold attr_num, attr_of. rewrite getattr_aset_ne by exact H. reflexivity. Qed.

Lemma extend_geom c ns : geom (extend c ns) = geom c.
Proof.
  destruct c as [| | | | | | | |cn a]; try reflexivity. cbn [extend].
  destruct (getattr a "_adjacent") as [[]|]; try reflexivity.
  unfold geom. rewrite !attr_num_aset_ne by discriminate. cbn [attr_of].
  rewrite getattr_aset_ne by discriminate. reflexivity.
Qed.

Lemma extend_extend c ns ms : extend (extend c ns) ms = extend c (ns ++ ms).
Proof.
  destruct c as [| | | | | | | |cn a]; try reflexivity. cbn [extend].
  destruct (getattr a "_adjacent") as [[]|] eqn:E; try (cbn [extend]; rewrite E; reflexivity).
  cbn [extend]. unfold getattr. rewrite aget_aset_eq, aset_aset, app_assoc. reflexivity.
Qed.

Lemma extend_okb c ns : const_okb c = true -> const_okb (extend c ns) = true.
Proof.
  intros H. const_inv H. cbn [extend]. rewrite Hl. cbn [const_okb].
  rewrite getattr_aset_ne, !attr_num_aset_ne, Hn, Hx, Hy by discriminate.
  unfold getattr at 1. rewrite aget_aset_eq. reflexivity.
Qed.

Lemma append_adjacent_extend c x : const_okb c = true -> append_adjacent c x = Ok (extend c [x]).
Proof. intros H. const_inv H. cbn [append_adjacent extend]. rewrite Hl. reflexivity. Qed.

Lemma adjacent_geom d c c' o o' : geom c = geom c' -> geom o = geom o' -> adjacent d c o = adjacent d c' o'.
Proof. unfold geom, adjacent. intros Hc Ho. injection Hc as -> -> ->. injection Ho as -> -> ->. reflexivity. Qed.

Lemma name_of_geom o o' : geom o = geom o' -> name_of o = name_of o'.
Proof. unfold geom, name_of. intros H. injection H as -> _ _. reflexivity. Qed.

Lemma adjacents_ref_app d l1 l2 c : adjacents_ref d (l1 ++ l2) c = adjacents_ref d l1 c ++ adjacents_ref d l2 c.
Proof. unfold adjacents_ref. rewrite filter_app, map_app. reflexivity. Qed.

Lemma adjacents_ref_cons d o l c : adjacents_ref d (o :: l) c =
  if adjacent d c o then name_of o :: adjacents_ref d l c else adjacents_ref d l c.
Proof. unfold adjacents_ref. cbn [filter]. destruct (adjacent d c o); reflexivity. Qed.

Lemma adjacents_ref_extend_c d l c ns : adjacents_ref d l (extend c ns) = adjacents_ref d l c.
Proof.
  induction l as [|o l IH]; [reflexivity|]. rewrite !adjacents_ref_cons, IH.
  rewrite (adjacent_geom d (extend c ns) c o o) by (apply extend_geom || reflexivity). reflexivity.
Qed.

(** ** The loops *)

Lemma attr_of_name_of o : const_okb o = true -> attr_of o "name" = Ok (name_of o).
Proof. intros H. const_inv H. unfold name_of. cbn [attr_of]. rewrite Hn. reflexivity. Qed.

Lemma extend_nil c : const_okb c = true -> extend c [] = c.
Proof.
  intros H. const_inv H. cbn [extend]. rewrite Hl, app_nil_r. f_equal.
  apply aset_aget. unfold getattr in Hl. destruct (aget "_adjacent" a); [congruence|discriminate].
Qed.

Lemma scan_spec d c others : d < 2 ^ 511 -> const_okb c = true -> forallb const_okb others = true ->
  scan d c others = (extend c (adjacents_ref d others c), Ok tt).
Proof.
  intros Hd. revert c. induction others as [|o r IH]; intros c Hc Hr; [rewrite extend_nil by exact Hc; reflexivity|].
  apply andb_prop in Hr as [Ho Hr]. cbn [scan]. rewrite adjacent_test_ref by assumption.
  cbn [res_bind]. rewrite adjacents_ref_cons. destruct (adjacent d c o).
  - rewrite attr_of_name_of by exact Ho. cbn [res_bind].
    rewrite append_adjacent_extend by exact Hc. cbn [res_bind].
    rewrite IH by first [exact Hr | apply extend_okb, Hc].
    rewrite adjacents_ref_extend_c, extend_extend. reflexivity.
  - apply IH; assumption.
Qed.

Lemma forallb_extend_map (g : pyval -> list pyval) l :
  forallb const_okb l = true -> forallb const_okb (map (fun x => extend x (g x)) l) = true.
Proof.
  rewrite !forallb_forall. intros H x Hx. apply in_map_iff in Hx as (y & <- & Hy).
  apply extend_okb, H, Hy.
Qed.

(** The appends are invisible to the pair test. *)
Lemma adjacents_ref_extend_map d l (g : pyval -> list pyval) c :
  adjacents_ref d (map (fun x => extend x (g x)) l) c = adjacents_ref d l c.
Proof.
  induction l as [|o l IH]; [reflexivity|]. cbn [map]. rewrite !adjacents_ref_cons, IH.
  rewrite (adjacent_geom d c c (extend o (g o)) o), (name_of_geom (extend o (g o)) o)
    by (apply extend_geom || reflexivity). reflexivity.
Qed.

(** The outer loop: after the constants of [pre0] are visited, they
    hold their appends, computed against the whole list [L]. *)
Lemma outer_spec d L : d < 2 ^ 511 -> forallb const_okb L = true -> forall post pre0, pre0 ++ post = L ->
  outer d (map (fun c => extend c (adjacents_ref d L c)) pre0) post
  = (map (fun c => extend c (adjacents_ref d L c)) L, Ok tt).
Proof.
  intros Hd HL post. induction post as [|c r IH]; intros pre0 E.
  - rewrite app_nil_r in E. subst. reflexivity.
  - assert (Hall : forallb const_okb (pre0 ++ c :: r) = true) by (rewrite E; exact HL).
    rewrite forallb_app in Hall. apply andb_prop in Hall as [Hpre Hcr].
    cbn [forallb] in Hcr. apply andb_prop in Hcr as [Hc Hr].
    cbn [outer]. rewrite scan_spec.
    2: exact Hd.
    2: exact Hc.
    2: { rewrite forallb_app, forallb_extend_map by exact Hpre. cbn [forallb]. rewrite Hc, Hr. reflexivity. }
    rewrite adjacents_ref_app, adjacents_ref_extend_map, <- adjacents_ref_app, E.
    replace (map _ pre0 ++ [extend c (adjacents_ref d L c)])
      with (map (fun c => extend c (adjacents_ref d L c)) (pre0 ++ [c])) by (rewrite map_app; reflexivity).
    apply IH. rewrite <- app_assoc. exact E.
Qed.

Lemma mapAdjacents_ref_eq d self l : d < 2 ^ 511 ->
  aget "_consts" self = Some (PList l) -> forallb const_okb l = true ->
  mapAdjacents d self = (aset "_consts" (PList (mapAdjacents_ref d l)) self, Ok tt).
Proof.
  intros Hd Hs Hl. unfold mapAdjacents, getattr. rewrite Hs.
  pose proof (outer_spec d l Hd Hl l [] eq_refl) as E. cbn [map] in E. rewrite E. reflexivity.
Qed.

(** The exact test is the comparison of the real square root. *)
Lemma exact_test_real s d : 0 <= s -> (0 <=? d) && (s <=? d * d) = true <-> (sqrt (IZR s) <= IZR d)%R.
Proof.
  intros Hs. rewrite andb_true_iff, !Z.leb_le. split.
  - intros [Hd Hsd]. rewrite <- (sqrt_square (IZR d)) by (apply IZR_le; exact Hd).
    apply sqrt_le_1_alt. rewrite <- mult_IZR. apply IZR_le. exact Hsd.
  - intros H. assert (Hd : (0 <= IZR d)%R) by (eapply Rle_trans; [apply sqrt_pos|exact H]).
    apply le_IZR in Hd. split; [exact Hd|]. apply le_IZR. rewrite mult_IZR.
    rewrite <- (sqrt_sqrt (IZR s)) by (apply IZR_le; exact Hs).
    apply Rmult_le_compat; try apply sqrt_pos; exact H.
Qed.

(** ** Properties of mapAdjacents *)

(** C8: [mapAdjacents] refines the reference: on a list of constants
    built from the data, with [maxDistance] below [2^511] (above it the
    float conversion of line 56 can overflow), it never raises, and it
    appends to each constant the names of the constants of the list
    adjacent to it (distinct name, inside the box, [math.sqrt] of the
    squared distance at most [maxDistance]), in list order, computed
    against the positions of the whole list: the appends made in place
    to the constants already visited do not change the later tests. *)
Theorem mapAdjacents_refines d self l : d < 2 ^ 511 ->
  aget "_consts" self = Some (PList l) -> forallb const_okb l = true ->
  mapAdjacents d self = (aset "_consts" (PList (mapAdjacents_ref d l)) self, Ok tt).
Proof. exact (mapAdjacents_ref_eq d self l). Qed.

(** C6: Above the bound of C8 the adjacency test overflows: for two
    constants with distinct names, the second inside the square of
    half-side [maxDistance] around the first, whose squared distance
    reaches [2^1024], [float()] of the squared distance in [math.sqrt]
    raises OverflowError, which propagates out of [mapAdjacents]
    (possible only when [maxDistance] is at least [2^511]). *)
Theorem adjacent_test_overflow d c o s t cx cy ox oy :
  attr_of c "name" = Ok (PStr s) -> attr_of o "name" = Ok (PStr t) -> t <> s ->
  attr_num c "posx" = Ok cx -> attr_num c "posy" = Ok cy ->
  attr_num o "posx" = Ok ox -> attr_num o "posy" = Ok oy ->
  Z.abs (cx - ox) <= d -> Z.abs (cy - oy) <= d -> 2 ^ 1024 <= (cx - ox) ^ 2 + (cy - oy) ^ 2 ->
  adjacent_test d c o = Raise OverflowError /\ 2 ^ 511 <= d.
Proof.
  intros Hs Ht Hne Hcx Hcy Hox Hoy Hx Hy Hbig. split.
  - unfold adjacent_test. rewrite Hs, Ht. cbn [res_bind]. rewrite py_eqv_str.
    apply String.eqb_neq in Hne. rewrite Hne. cbn [negb]. rewrite Hcx, Hox. cbn [res_bind].
    rewrite box_chain. replace (Z.abs (cx - ox) <=? d) with true by (symmetry; apply Z.leb_le; exact Hx).
    rewrite Hcy, Hoy. cbn [res_bind]. rewrite box_chain.
    replace (Z.abs (cy - oy) <=? d) with true by (symmetry; apply Z.leb_le; exact Hy).
    unfold sqrt_le. rewrite float_of_int_overflow by exact Hbig. reflexivity.
  - destruct (Z_lt_le_dec d (2 ^ 511)) as [Hd|Hd]; [|exact Hd].
    assert ((cx - ox) ^ 2 <= d * d) by (rewrite Z.pow_2_r; nia).
    assert ((cy - oy) ^ 2 <= d * d) by (rewrite Z.pow_2_r; nia).
    assert (0 <= d) by lia. replace (2 ^ 1024) with (4 * (2 ^ 511 * 2 ^ 511)) in Hbig by reflexivity. nia.
Qed.

(** C12: For [0 <= maxDistance < 2^26] the pair test of lines 54-56
    decides Euclidean adjacency: on two constants built from the data
    it does not raise, and it holds exactly when the names differ and
    [sqrt(dx^2 + dy^2) <= maxDistance] in the real numbers (the bounding
    box and the rounding of [math.sqrt] never change the outcome).  The
    bound is tight: at [maxDistance = 2^26] the float test accepts the
    squared distance [2^52 + 1], whose real square root exceeds
    [2^26]. *)
Theorem adjacent_test_euclid d c o s t cx cy ox oy :
  0 <= d < 2 ^ 26 ->
  const_okb c = true -> const_okb o = true ->
  attr_of c "name" = Ok (PStr s) -> attr_of o "name" = Ok (PStr t) ->
  attr_num c "posx" = Ok cx -> attr_num c "posy" = Ok cy ->
  attr_num o "posx" = Ok ox -> attr_num o "posy" = Ok oy ->
  (exists b, adjacent_test d c o = Ok b /\
   (b = true <-> t <> s /\ (sqrt (IZR ((cx - ox) ^ 2 + (cy - oy) ^ 2)%Z) <= IZR d)%R)) /\
  sqrt_le (2 ^ 52 + 1) (2 ^ 26) = Ok true /\ (IZR (2 ^ 26) < sqrt (IZR (2 ^ 52 + 1)))%R.
Proof.
  intros Hd Hc Ho Hs Ht Hcx Hcy Hox Hoy. split; [|split; [vm_compute; reflexivity|]].
  - exists (adjacent d c o). split; [apply adjacent_test_ref; [lia|assumption|assumption]|].
    destruct (adjacent_unfold c o d Hc Ho) as (s' & t' & cx' & cy' & ox' & oy' & Hs' & Ht' & Hcx' & Hcy' & Hox' & Hoy' & ->).
    rewrite Hs in Hs'; rewrite Ht in Ht'; rewrite Hcx in Hcx'; rewrite Hcy in Hcy'; rewrite Hox in Hox';
      rewrite Hoy in Hoy'. injection Hs' as <-. injection Ht' as <-. injection Hcx' as <-. injection Hcy' as <-.
    injection Hox' as <-. injection Hoy' as <-.
    rewrite <- exact_test_real by nia. rewrite within_exact by exact Hd.
    replace (0 <=? d) with true by (symmetry; apply Z.leb_le; lia).
    rewrite andb_true_iff, negb_true_iff, String.eqb_neq. reflexivity.
  - rewrite <- (sqrt_square (IZR (2 ^ 26))) by (apply IZR_le; lia).
    apply sqrt_lt_1_alt. split; [apply Rle_0_sqr|]. unfold Rsqr. rewrite <- mult_IZR. apply IZR_lt. lia.
Qed.

(** The pair test is symmetric and irreflexive: [other] is
    appended to [const] exactly when [const] is appended to [other], and
    no constant is ever adjacent to itself. *)
Theorem adjacent_test_sym_irrefl d c o : d < 2 ^ 511 ->
  const_okb c = true -> const_okb o = true ->
  adjacent_test d c o = adjacent_test d o c /\ adjacent_test d c c = Ok false.
Proof.
  intros Hd Hc Ho. rewrite !adjacent_test_ref by assumption. split; [rewrite adjacent_sym by assumption; reflexivity|].
  destruct (adjacent_unfold c c d Hc Hc) as (s & t & x1 & y1 & x2 & y2 & Hs & Ht & _ & _ & _ & _ & ->).
  rewrite Hs in Ht. injection Ht as <-. rewrite String.eqb_refl. reflexivity.
Qed.

(** C27: [mapAdjacents] is not idempotent (the lists are not cleared
    first): run twice on constants built from the data, it appends
    every adjacent name twice. *)
Theorem mapAdjacents_twice d self l : d < 2 ^ 511 ->
  aget "_consts" self = Some (PList l) -> forallb const_okb l = true ->
  mapAdjacents d (fst (mapAdjacents d self))
  = (aset "_consts" (PList (map (fun c => extend c (adjacents_ref d l c ++ adjacents_ref d l c)) l)) self, Ok tt).
Proof.
  intros Hd Hs Hl. rewrite (mapAdjacents_ref_eq d self l Hd Hs Hl). cbn [fst].
  rewrite (mapAdjacents_ref_eq d _ (mapAdjacents_ref d l) Hd).
  - rewrite aset_aset. unfold mapAdjacents_ref at 1 2. rewrite map_map.
    do 3 f_equal. apply map_ext. intros c.
    rewrite adjacents_ref_extend_map, adjacents_ref_extend_c, extend_extend. reflexivity.
  - apply aget_aset_eq.
  - apply forallb_extend_map, Hl.
Qed.

(** The example of the specification: A(0,0) and B(3,4), at
    distance exactly 5, become adjacent to each other; C(100,100) is
    adjacent to neither. *)
Example mapAdjacents_spec_example :
  mapAdjacents 5 spec_consts
  = ([("_consts", PList [const_at "A" 0 0 [PStr "B"]; const_at "B" 3 4 [PStr "A"];
                         const_at "C" 100 100 []])], Ok tt).
Proof. vm_compute. reflexivity. Qed.

(** ** Witnesses *)

Lemma mapAdjacents_refines_witness :
  5 < 2 ^ 511 /\
  aget "_consts" spec_consts = Some (PList [const_at "A" 0 0 []; const_at "B" 3 4 []; const_at "C" 100 100 []]) /\
  forallb const_okb [const_at "A" 0 0 []; const_at "B" 3 4 []; const_at "C" 100 100 []] = true /\
  mapAdjacents 5 spec_consts
  = (aset "_consts" (PList (mapAdjacents_ref 5 [const_at "A" 0 0 []; const_at "B" 3 4 []; const_at "C" 100 100 []]))
       spec_consts, Ok tt).
Proof.
  split; [lia|]. split; [reflexivity|]. split; [vm_compute; reflexivity|].
  apply mapAdjacents_refines; [lia|reflexivity|vm_compute; reflexivity].
Defined.

Lemma adjacent_test_euclid_witness :
  0 <= 5 < 2 ^ 26 /\
  (exists b, adjacent_test 5 (const_at "A" 0 0 []) (const_at "B" 3 4 []) = Ok b /\
   (b = true <-> "B" <> "A" /\ (sqrt (IZR ((0 - 3) ^ 2 + (0 - 4) ^ 2)%Z) <= IZR 5)%R)) /\
  sqrt_le (2 ^ 52 + 1) (2 ^ 26) = Ok true /\ (IZR (2 ^ 26) < sqrt (IZR (2 ^ 52 + 1)))%R.
Proof.
  split; [lia|].
  apply adjacent_test_euclid; first [lia | vm_compute; reflexivity].
Defined.

Lemma adjacent_test_sym_irrefl_witness :
  adjacent_test 5 (const_at "A" 0 0 []) (const_at "B" 3 4 [])
    = adjacent_test 5 (const_at "B" 3 4 []) (const_at "A" 0 0 []) /\
  adjacent_test 5 (const_at "A" 0 0 []) (const_at "A" 0 0 []) = Ok false.
Proof. apply adjacent_test_sym_irrefl; first [lia | vm_compute; reflexivity]. Defined.

Lemma mapAdjacents_twice_witness :
  5 < 2 ^ 511 /\
  mapAdjacents 5 (fst (mapAdjacents 5 spec_consts))
  = (aset "_consts" (PList (map (fun c => extend c (adjacents_ref 5 [const_at "A" 0 0 []; const_at "B" 3 4 [];
       const_at "C" 100 100 []] c ++ adjacents_ref 5 [const_at "A" 0 0 []; const_at "B" 3 4 [];
       const_at "C" 100 100 []] c)) [const_at "A" 0 0 []; const_at "B" 3 4 []; const_at "C" 100 100 []]))
       spec_consts, Ok tt) /\
  fst (mapAdjacents 5 (fst (mapAdjacents 5 spec_consts))) <> fst (mapAdjacents 5 spec_consts).
Proof.
  split; [lia|].
  split; [apply mapAdjacents_twice; first [lia | vm_compute; reflexivity]|].
  vm_compute. discriminate.
Defined.

Lemma adjacent_test_overflow_witness :
  attr_of (const_at "A" 0 0 []) "name" = Ok (PStr "A") /\
  attr_of (const_at "B" (2 ^ 599) (2 ^ 599) []) "name" = Ok (PStr "B") /\ "B" <> "A" /\
  attr_num (const_at "A" 0 0 []) "posx" = Ok 0 /\ attr_num (const_at "A" 0 0 []) "posy" = Ok 0 /\
  attr_num (const_at "B" (2 ^ 599) (2 ^ 599) []) "posx" = Ok (2 ^ 599) /\
  attr_num (const_at "B" (2 ^ 599) (2 ^ 599) []) "posy" = Ok (2 ^ 599) /\
  Z.abs (0 - 2 ^ 599) <= 2 ^ 600 /\ Z.abs (0 - 2 ^ 599) <= 2 ^ 600 /\
  2 ^ 1024 <= (0 - 2 ^ 599) ^ 2 + (0 - 2 ^ 599) ^ 2 /\
  adjacent_test (2 ^ 600) (const_at "A" 0 0 []) (const_at "B" (2 ^ 599) (2 ^ 599) []) = Raise OverflowError /\
  2 ^ 511 <= 2 ^ 600.
Proof.
  assert (H1 : attr_of (const_at "A" 0 0 []) "name" = Ok (PStr "A")) by reflexivity.
  assert (H2 : attr_of (const_at "B" (2 ^ 599) (2 ^ 599) []) "name" = Ok (PStr "B")) by reflexivity.
  assert (H3 : "B" <> "A") by discriminate.
  assert (H4 : attr_num (const_at "A" 0 0 []) "posx" = Ok 0) by reflexivity.
  assert (H5 : attr_num (const_at "A" 0 0 []) "posy" = Ok 0) by reflexivity.
  assert (H6 : attr_num (const_at "B" (2 ^ 599) (2 ^ 599) []) "posx" = Ok (2 ^ 599)) by reflexivity.
  assert (H7 : attr_num (const_at "B" (2 ^ 599) (2 ^ 599) []) "posy" = Ok (2 ^ 599)) by reflexivity.
  assert (H8 : Z.abs (0 - 2 ^ 599) <= 2 ^ 600) by (vm_compute; discriminate).
  assert (H9 : 2 ^ 1024 <= (0 - 2 ^ 599) ^ 2 + (0 - 2 ^ 599) ^ 2) by (vm_compute; discriminate).
  do 9 (split; [assumption|]). split; [assumption|].
  exact (adjacent_test_overflow (2 ^ 600) _ _ "A" "B" 0 0 (2 ^ 599) (2 ^ 599) H1 H2 H3 H4 H5 H6 H7 H8 H8 H9).
Defined.
