(* ===== verification/Enum.v ===== *)
(** * Enumerations: data/baseenum.py

    [BaseEnum] is the base of the enumeration classes: a subclass
    declares its items as class attributes ([RED = 0]) and the class
    methods look them up through [inspect.getmembers(cls)], which
    returns every attribute visible on the class, its own and the
    inherited ones, sorted by name.

    A class is modelled by the list of its visible attributes (unique
    names), each a value or a callable; [enum_subclass own] is the
    class whose body defines [own], whose attributes shadow those of
    [BaseEnum] (its class methods and the dunder attributes of
    [object]).  [==] is Python's equality of Serial.v ([py_eqv] over
    the class table of Entities.v), left operand first as in the code.

    [_getMembers] keeps the members whose name does not start with an
    underscore and which are not callable; [findByName], [isAnItem],
    [getItemName] and [listItemNames] scan that list in order.
    [_getMembersSorted] passes [cls._sort_key], an attribute that
    neither [BaseEnum] nor its subclasses define (the method is
    [_sortKey]): the lookup raises AttributeError.  A subclass that
    defines [_sort_key] is covered by the parameter [sort_with], the
    behaviour of [sorted] with that key.  [_docMember] renders a member
    with [str()] of its value ([py_str] of Render.v). *)

From Stdlib Require Import String Ascii List ZArith Bool Sorted.
From S2P Require Import Prelude PyVal JsonText Serial Entities Render.
Import ListNotations.
Open Scope rw_scope.
Open Scope string_scope.
Open Scope list_scope.

(** A class attribute as [getattr(cls, name)] returns it: a value, or
    a callable (a method, a class method, a nested class). *)
Inductive member := MVal (v : pyval) | MCallable.

(** The attributes visible on a class. *)
Definition enum_class := list (string * member).

(** The attributes of [BaseEnum]: its methods and the attributes it
    inherits from [object], or that Python adds to every class. *)
Definition BaseEnum : enum_class :=
  [("__module__", MVal (PStr "roguewarapi.data.baseenum")); ("__doc__", MVal PNone);
   ("__dict__", MVal (PDict [])); ("__weakref__", MVal PNone);
   ("__class__", MCallable); ("__init__", MCallable); ("__new__", MCallable);
   ("__eq__", MCallable); ("__ne__", MCallable); ("__hash__", MCallable);
   ("__repr__", MCallable); ("__str__", MCallable); ("__getattribute__", MCallable);
   ("__setattr__", MCallable); ("__delattr__", MCallable); ("__dir__", MCallable);
   ("__init_subclass__", MCallable); ("__subclasshook__", MCallable);
   ("_getMembers", MCallable); ("findByName", MCallable); ("isAnItem", MCallable);
   ("getItemName", MCallable); ("listItemNames", MCallable); ("_getMembersSorted", MCallable);
   ("_sortKey", MCallable); ("_docMember", MCallable)].

Definition not_in (names : list string) (k : string) : bool := negb (existsb (String.eqb k) names).

(** The class whose body defines [own] and whose base is [BaseEnum]. *)
Definition enum_subclass (own : enum_class) : enum_class :=
  own ++ filter (fun kv => not_in (akeys own) (fst kv)) BaseEnum.

(** [inspect.getmembers(cls)]: the attributes, sorted by name. *)
Definition getmembers (cls : enum_class) : enum_class := sort_by_key cls.

(** The loop of [_getMembers] (and of [_getMembersSorted]). *)
Fixpoint filter_members (lst_members : list (string * member)) : list (string * pyval) :=
  match lst_members with
  | [] => []
  | (name, m) :: r =>
      if String.prefix "__" name then filter_members r
      else if String.prefix "_" name then filter_members r
      else match m with
           | MCallable => filter_members r
           | MVal v => (name, v) :: filter_members r
           end
  end.

Definition _getMembers (cls : enum_class) : list (string * pyval) := filter_members (getmembers cls).

Fixpoint find_by_name (lst_members : list (string * pyval)) (item : pyval) : pyval :=
  match lst_members with
  | [] => PInt (-1)
  | (name, v) :: r => if py_eqv class_of (PStr name) item then v else find_by_name r item
  end.

Definition findByName (cls : enum_class) (item : pyval) : pyval := find_by_name (_getMembers cls) item.

Fixpoint is_an_item (lst_members : list (string * pyval)) (item : pyval) : bool :=
  match lst_members with
  | [] => false
  | (_, v) :: r => if py_eqv class_of v item then true else is_an_item r item
  end.

Definition isAnItem (cls : enum_class) (item : pyval) : bool := is_an_item (_getMembers cls) item.

(** [str(member[0])] is the name itself. *)
Fixpoint item_name (lst_members : list (string * pyval)) (item : pyval) : string :=
  match lst_members with
  | [] => ""
  | (name, v) :: r => if py_eqv class_of v item then name else item_name r item
  end.

Definition getItemName (cls : enum_class) (item : pyval) : string := item_name (_getMembers cls) item.

Definition listItemNames (cls : enum_class) : list string := map fst (_getMembers cls).

Section MembersSorted.
(** [sorted(lst, key=f)] for a [_sort_key] attribute [f]. *)
Variable sort_with : member -> list (string * pyval) -> res (list (string * pyval)).

Definition _getMembersSorted (cls : enum_class) : res (list (string * pyval)) :=
  let lst_filtered_members := filter_members (getmembers cls) in
  match aget "_sort_key" cls with
  | None => Raise AttributeError
  | Some key => sort_with key lst_filtered_members
  end.
End MembersSorted.

Definition _sortKey (lst_member : string * pyval) : pyval := snd lst_member.

(** [_docMember(lst_member)] (lines 106-108): the list of the name and
    [str()] of the value. *)
Definition _docMember (lst_member : string * pyval) : jr pyval :=
  let? s := py_str (snd lst_member) in
  jret (PList [PStr (fst lst_member); PStr (string_of_list_ascii s)]).

(** An enumeration with an alias ([CRIMSON] and [RED]), an item whose
    value is the sentinel -1, a private attribute and a method. *)
Definition Color_body : enum_class :=
  [("RED", MVal (PInt 0)); ("GREEN", MVal (PInt 1)); ("CRIMSON", MVal (PInt 0));
   ("UNKNOWN", MVal (PInt (-1))); ("_hidden", MVal (PInt 5)); ("describe", MCallable)].

Definition Color : enum_class := enum_subclass Color_body.

(** ** Lemmas on the member list *)

Lemma prefix_underscore n : String.prefix "__" n = true -> String.prefix "_" n = true.
Proof.
  destruct n as [|a n]; cbn [String.prefix]; [discriminate|].
  destruct (ascii_dec "_" a); [destruct n; reflexivity|discriminate].
Qed.

(** The four branches of the loop on the member [(m, x)]. *)
Ltac member_cases m x :=
  destruct (String.prefix "__" m) eqn:E2;
  [|destruct (String.prefix "_" m) eqn:E1; [|destruct x as [w|]]].

Lemma filter_members_In l n v :
  In (n, v) (filter_members l) <-> In (n, MVal v) l /\ String.prefix "_" n = false.
Proof.
  induction l as [|[m x] l IH]; cbn [filter_members]; [cbn; tauto|].
  member_cases m x; cbn [In]; rewrite ?IH.
  - split; [tauto|]. intros [[Heq|H] Hp]; [|tauto].
    injection Heq as <- _. apply prefix_underscore in E2. congruence.
  - split; [tauto|]. intros [[Heq|H] Hp]; [|tauto]. injection Heq as <- _. congruence.
  - split; [intros [Heq|[H Hp]]|intros [[Heq|H] Hp]];
      try (injection Heq as <- <-); auto.
  - split; [tauto|]. intros [[Heq|H] Hp]; [discriminate|tauto].
Qed.

Lemma filter_members_keys l n : In n (akeys (filter_members l)) -> In n (akeys l).
Proof.
  unfold akeys. rewrite !in_map_iff. intros ([n' v] & <- & H).
  apply filter_members_In in H as [H _]. exists (n', MVal v). auto.
Qed.

Lemma filter_members_NoDup l : NoDup (akeys l) -> NoDup (akeys (filter_members l)).
Proof.
  induction l as [|[m x] l IH]; cbn [filter_members]; [auto|]. intros Hnd.
  inversion Hnd as [|? ? Hm Hnd']; subst.
  member_cases m x; auto. cbn. constructor; auto. intros H. apply Hm, filter_members_keys, H.
Qed.

Lemma filter_members_sorted l : StronglySorted key_le l -> StronglySorted key_le (filter_members l).
Proof.
  induction 1 as [|[m x] l Hs IH Hf]; cbn [filter_members]; [constructor|].
  member_cases m x; auto. constructor; [exact IH|].
  rewrite Forall_forall in *. intros [n v] Hin. apply filter_members_In in Hin as [Hin _].
  specialize (Hf _ Hin). unfold key_le in *. exact Hf.
Qed.

Lemma members_In cls n v : In (n, v) (_getMembers cls) <-> In (n, MVal v) cls /\ String.prefix "_" n = false.
Proof. unfold _getMembers, getmembers. rewrite filter_members_In, sort_by_key_In. reflexivity. Qed.

Lemma members_NoDup cls : NoDup (akeys cls) -> NoDup (akeys (_getMembers cls)).
Proof. intros H. apply filter_members_NoDup, sort_by_key_NoDup, H. Qed.

Lemma members_sorted cls : StronglySorted key_le (_getMembers cls).
Proof. apply filter_members_sorted, sort_by_key_sorted. Qed.

Lemma members_strict cls : NoDup (akeys cls) -> StronglySorted key_lt (_getMembers cls).
Proof. intros H. apply sorted_key_strict; [apply members_sorted|apply members_NoDup, H]. Qed.

(** ** Lemmas on the scans *)

Lemma find_by_name_In l n v : NoDup (akeys l) -> In (n, v) l -> find_by_name l (PStr n) = v.
Proof.
  induction l as [|[m w] l IH]; cbn [find_by_name In]; [contradiction|]. intros Hnd [Heq|Hin].
  - injection Heq as -> ->. rewrite py_eqv_str, String.eqb_refl. reflexivity.
  - inversion Hnd as [|? ? Hm Hnd']; subst. rewrite py_eqv_str.
    destruct (String.eqb_spec m n) as [->|_]; [|auto].
    exfalso. apply Hm. apply (in_map fst) in Hin. exact Hin.
Qed.

Lemma find_by_name_absent l item :
  (forall n v, In (n, v) l -> py_eqv class_of (PStr n) item = false) -> find_by_name l item = PInt (-1).
Proof.
  induction l as [|[m w] l IH]; cbn [find_by_name In]; intros H; [reflexivity|].
  rewrite (H m w (or_introl eq_refl)). apply IH. intros n v Hin. exact (H n v (or_intror Hin)).
Qed.

Lemma is_an_item_spec l item :
  is_an_item l item = true <-> exists n w, In (n, w) l /\ py_eqv class_of w item = true.
Proof.
  induction l as [|[m u] l IH]; cbn [is_an_item In].
  - split; [discriminate|]. intros (n & w & [] & _).
  - destruct (py_eqv class_of u item) eqn:Hu.
    + split; [intros _; exists m, u; auto|reflexivity].
    + rewrite IH. split; intros (n & w & Hin & Hw); exists n, w; split; auto.
      destruct Hin as [Heq|Hin]; [injection Heq as -> ->; congruence|exact Hin].
Qed.

Lemma item_name_absent l item : is_an_item l item = false -> item_name l item = "".
Proof.
  induction l as [|[m u] l IH]; cbn [is_an_item item_name]; [reflexivity|].
  destruct (py_eqv class_of u item); [discriminate|exact IH].
Qed.

(** The scan stops at the first member with an equal value, the least
    such name when the list is sorted by name. *)
Lemma item_name_least l item n w :
  StronglySorted key_le l -> In (n, w) l -> py_eqv class_of w item = true ->
  exists w', In (item_name l item, w') l /\ py_eqv class_of w' item = true /\
    String.leb (item_name l item) n = true.
Proof.
  induction l as [|[m u] l IH]; cbn [item_name In]; [contradiction|]. intros Hs Hin Hw.
  apply StronglySorted_inv in Hs as [Hs Hf]. rewrite Forall_forall in Hf.
  destruct (py_eqv class_of u item) eqn:Hu.
  - exists u. split; [left; reflexivity|]. split; [exact Hu|].
    destruct Hin as [Heq|Hin]; [injection Heq as -> _; apply str_leb_refl|exact (Hf (n, w) Hin)].
  - destruct Hin as [Heq|Hin]; [injection Heq as -> ->; congruence|].
    destruct (IH Hs Hin Hw) as (w' & H1 & H2 & H3). exists w'. auto.
Qed.

(** ** Lemmas on subclasses *)

(** The attributes of [BaseEnum] are private or callable. *)
Lemma BaseEnum_hidden n x : In (n, x) BaseEnum -> String.prefix "_" n = true \/ x = MCallable.
Proof.
  intros H. assert (Hall : forallb (fun kv => String.prefix "_" (fst kv) ||
                                      match snd kv with MCallable => true | MVal _ => false end) BaseEnum = true)
    by reflexivity.
  rewrite forallb_forall in Hall. apply Hall, orb_true_iff in H. cbn [fst snd] in H.
  destruct H as [H|H]; [left; exact H|right; destruct x; [discriminate|reflexivity]].
Qed.

Lemma enum_subclass_public own n v :
  In (n, MVal v) (enum_subclass own) /\ String.prefix "_" n = false <->
  In (n, MVal v) own /\ String.prefix "_" n = false.
Proof.
  unfold enum_subclass. rewrite in_app_iff, filter_In. split; [|tauto].
  intros [[H|[H _]] Hp]; [auto|]. apply BaseEnum_hidden in H as [H|H]; congruence.
Qed.

Lemma BaseEnum_NoDup : NoDup (akeys BaseEnum).
Proof. apply nodupb_NoDup. vm_compute. reflexivity. Qed.

Lemma enum_subclass_NoDup own : NoDup (akeys own) -> NoDup (akeys (enum_subclass own)).
Proof.
  intros H. unfold enum_subclass. rewrite akeys_app.
  apply NoDup_app; [exact H|apply (NoDup_akeys_filter (not_in (akeys own))), BaseEnum_NoDup|].
  intros k Hk Hk'. apply (akeys_In_filter (not_in (akeys own))) in Hk' as [_ Hn].
  unfold not_in in Hn. apply negb_true_iff in Hn.
  assert (E : existsb (String.eqb k) (akeys own) = true)
    by (apply existsb_exists; exists k; split; [exact Hk|apply String.eqb_refl]).
  congruence.
Qed.

(** ** Properties of the enumerations *)

(** [_getMembers] returns exactly the attributes whose name does
    not start with an underscore and whose value is not callable, in
    strictly ascending name order; the names [listItemNames] returns are
    therefore unique and sorted. *)
Theorem getMembers_spec cls :
  NoDup (akeys cls) ->
  (forall n v, In (n, v) (_getMembers cls) <-> In (n, MVal v) cls /\ String.prefix "_" n = false) /\
  StronglySorted key_lt (_getMembers cls) /\ NoDup (listItemNames cls).
Proof.
  intros H. split; [intros n v; apply members_In|]. split; [apply members_strict, H|].
  apply members_NoDup, H.
Qed.

(** Name and value lookups are inverse: for an item whose value
    no other item shares, [findByName] of its name returns its value,
    [isAnItem] of the value is True and [getItemName] of the value
    returns its name. *)
Theorem findByName_getItemName cls n v :
  NoDup (akeys cls) -> In (n, v) (_getMembers cls) -> py_eqv class_of v v = true ->
  (forall m w, In (m, w) (_getMembers cls) -> py_eqv class_of w v = true -> m = n) ->
  findByName cls (PStr n) = v /\ isAnItem cls v = true /\ getItemName cls v = n.
Proof.
  intros Hnd Hin Hv Hu. split; [apply find_by_name_In; [apply members_NoDup, Hnd|exact Hin]|].
  split; [apply is_an_item_spec; exists n, v; auto|].
  destruct (item_name_least _ v n v (members_sorted cls) Hin Hv) as (w' & H1 & H2 & _).
  exact (Hu _ _ H1 H2).
Qed.

(** C38: [isAnItem] holds exactly when some item's value is equal to
    the argument; [getItemName] then returns the alphabetically first
    name among the items with that value (of two aliases, the one that
    sorts first), and the empty string when there is none. *)
Theorem getItemName_least cls item :
  (isAnItem cls item = true <-> exists n w, In (n, w) (_getMembers cls) /\ py_eqv class_of w item = true) /\
  (isAnItem cls item = false -> getItemName cls item = "") /\
  (forall n w, In (n, w) (_getMembers cls) -> py_eqv class_of w item = true ->
   exists w', In (getItemName cls item, w') (_getMembers cls) /\ py_eqv class_of w' item = true /\
     String.leb (getItemName cls item) n = true).
Proof.
  split; [apply is_an_item_spec|]. split; [apply item_name_absent|].
  intros n w. apply item_name_least, members_sorted.
Qed.

(** C39: [findByName] returns -1 for a name that is not an item, which
    is also the value it returns for an item whose value is -1: the two
    cases cannot be told apart. *)
Theorem findByName_sentinel cls n m :
  NoDup (akeys cls) -> In (n, PInt (-1)) (_getMembers cls) ->
  (forall k v, In (k, v) (_getMembers cls) -> k <> m) ->
  findByName cls (PStr m) = PInt (-1) /\ findByName cls (PStr n) = findByName cls (PStr m).
Proof.
  intros Hnd Hn Hm.
  assert (Ha : findByName cls (PStr m) = PInt (-1)).
  { apply find_by_name_absent. intros k v Hin. rewrite py_eqv_str. apply String.eqb_neq, (Hm k v Hin). }
  split; [exact Ha|]. rewrite Ha. apply find_by_name_In; [apply members_NoDup, Hnd|exact Hn].
Qed.

(** C40: [_getMembersSorted] always raises AttributeError on a subclass
    of [BaseEnum] that does not itself define [_sort_key]: the key it
    passes is [cls._sort_key], while the method is named [_sortKey]. *)
Theorem getMembersSorted_raises sort_with own :
  aget "_sort_key" own = None -> _getMembersSorted sort_with (enum_subclass own) = Raise AttributeError.
Proof.
  intros H. unfold _getMembersSorted, enum_subclass. rewrite aget_app, H, aget_filter.
  destruct (not_in (akeys own) "_sort_key"); reflexivity.
Qed.

(** Inheriting from [BaseEnum] adds no item: the members of a
    subclass are those its body defines, whatever methods of [BaseEnum]
    it inherits or redefines. *)
Theorem getMembers_subclass own :
  NoDup (akeys own) -> _getMembers (enum_subclass own) = _getMembers own.
Proof.
  intros H. apply (StronglySorted_unique key_lt key_lt_irrefl key_lt_trans);
    [apply members_strict, enum_subclass_NoDup, H|apply members_strict, H|].
  intros [n v]. rewrite !members_In. apply enum_subclass_public.
Qed.

(** ** Witnesses *)

Lemma getItemName_least_witness :
  getItemName Color (PInt 0) = "CRIMSON" /\ String.leb (getItemName Color (PInt 0)) "RED" = true /\
  getItemName Color (PInt 7) = "".
Proof.
  assert (Hin : In ("RED", PInt 0) (_getMembers Color)) by (apply aget_In; vm_compute; reflexivity).
  destruct (getItemName_least Color (PInt 0)) as (_ & _ & H0).
  destruct (H0 "RED" (PInt 0) Hin eq_refl) as (w' & _ & _ & Hle).
  destruct (getItemName_least Color (PInt 7)) as (_ & H7 & _).
  split; [vm_compute; reflexivity|]. split; [exact Hle|]. apply H7. vm_compute. reflexivity.
Defined.

Lemma findByName_sentinel_witness :
  In ("UNKNOWN", PInt (-1)) (_getMembers Color) /\
  findByName Color (PStr "BLUE") = PInt (-1) /\ findByName Color (PStr "UNKNOWN") = findByName Color (PStr "BLUE").
Proof.
  assert (Hnd : NoDup (akeys Color)) by (apply nodupb_NoDup; vm_compute; reflexivity).
  assert (Hin : In ("UNKNOWN", PInt (-1)) (_getMembers Color)) by (apply aget_In; vm_compute; reflexivity).
  assert (Hm : forall k v, In (k, v) (_getMembers Color) -> k <> "BLUE").
  { intros k v H. vm_compute in H. repeat destruct H as [H|H]; try contradiction; injection H as <- _; discriminate. }
  split; [exact Hin|]. exact (findByName_sentinel Color "UNKNOWN" "BLUE" Hnd Hin Hm).
Defined.

Lemma getMembersSorted_raises_witness :
  aget "_sort_key" Color_body = None /\ _getMembersSorted (fun _ l => Ok l) Color = Raise AttributeError.
Proof. split; [reflexivity|]. exact (getMembersSorted_raises (fun _ l => Ok l) Color_body eq_refl). Defined.

(** The documentation of the items of [Color], in name order. *)
Example docMember_Color :
  jr_map _docMember (_getMembers Color) =
  jret [PList [PStr "CRIMSON"; PStr "0"]; PList [PStr "GREEN"; PStr "1"];
        PList [PStr "RED"; PStr "0"]; PList [PStr "UNKNOWN"; PStr "-1"]].
Proof. vm_compute. reflexivity. Qed.
