(* ===== verification/Cache.v ===== *)
(** * The expiring cache: data/objectcache.py

    [CacheManager.cache] is a dict from keys to [CacheObject]s, modelled
    as a gmap from strings (the client's keys are strings) to records
    holding the data and the absolute expiry time.  [time.time()] is
    read at each operation; it is the parameter [now] here, a time in a
    fixed unit (the comparisons of the code are the same in any unit in
    which the durations are integral).

    [getCacheItem] returns the data while [now < expireTime], and
    otherwise behaves as absent without removing the entry;
    [placeCacheItem] overwrites the entry with expiry [now + expire].

    The theorems: lookup after insertion (with its expiry), other keys
    untouched, expiry is permanent as time passes, a non-positive TTL
    is absent at once, entries are never evicted, and a refinement: on
    any sequence of operations, every lookup answers what the abstract
    specification (the latest insertion of the key, if not expired)
    says.  The class [ExpiringCache] is the contract the client relies
    on; the CacheManager is an instance. *)

From Stdlib Require Import ZArith Lia.
From stdpp Require Import base gmap strings list.
Open Scope Z_scope.

Section Cache.
Context {A : Type}.

Record CacheObject := { data : A; expireTime : Z }.

(** [CacheObject(data, expiry)]: the expiry is relative to now. *)
Definition CacheObject_new (now : Z) (item : A) (expiry : Z) : CacheObject :=
  {| data := item; expireTime := now + expiry |}.

Definition CacheManager := gmap string CacheObject.

Definition CacheManager_new : CacheManager := ∅.

Definition getCacheItem (now : Z) (self : CacheManager) (key : string) : option A :=
  match self !! key with
  | Some o => if now <? expireTime o then Some (data o) else None
  | None => None
  end.

Definition default_expire : Z := 60.

Definition placeCacheItem (now : Z) (self : CacheManager) (key : string) (item : A) (expire : Z)
    : CacheManager :=
  <[key := CacheObject_new now item expire]> self.

(** ** Sequences of operations *)

Inductive cache_op :=
| OpGet (now : Z) (key : string)
| OpPlace (now : Z) (key : string) (item : A) (expire : Z).

(** Run a sequence from a state: the final state and the answers of
    the lookups, in order. *)
Fixpoint run (self : CacheManager) (ops : list cache_op) : CacheManager * list (option A) :=
  match ops with
  | [] => (self, [])
  | OpGet now key :: r => let '(s, outs) := run self r in (s, getCacheItem now self key :: outs)
  | OpPlace now key item expire :: r => run (placeCacheItem now self key item expire) r
  end.

(** ** The abstract specification (spec.md 4.3)

    A lookup answers the value of the latest insertion of the key in
    the history if the lookup time is strictly before that insertion's
    time plus its TTL, and absent otherwise. *)

Definition last_place (hist : list cache_op) (key : string) : option (Z * A * Z) :=
  fold_left (fun acc op =>
               match op with
               | OpPlace t k v e => if String.eqb k key then Some (t, v, e) else acc
               | OpGet _ _ => acc
               end) hist None.

Definition spec_lookup (hist : list cache_op) (now : Z) (key : string) : option A :=
  match last_place hist key with
  | Some (t, v, e) => if now <? t + e then Some v else None
  | None => None
  end.

Fixpoint spec_answers (hist : list cache_op) (ops : list cache_op) : list (option A) :=
  match ops with
  | [] => []
  | OpGet now key :: r => spec_lookup hist now key :: spec_answers (hist ++ [OpGet now key]) r
  | op :: r => spec_answers (hist ++ [op]) r
  end.
End Cache.

Arguments CacheObject : clear implicits.
Arguments CacheManager : clear implicits.
Arguments cache_op : clear implicits.

(** The contract of an expiring cache, for its clients. *)
Class ExpiringCache (S V : Type) := {
  ec_new : S;
  ec_get : Z -> S -> string -> option V;
  ec_set : Z -> S -> string -> V -> Z -> S;
  ec_get_new : forall now k, ec_get now ec_new k = None;
  ec_get_set : forall now t s k v e,
    ec_get now (ec_set t s k v e) k = if now <? t + e then Some v else None;
  ec_get_set_other : forall now t s k k' v e,
    k <> k' -> ec_get now (ec_set t s k v e) k' = ec_get now s k'
}.

(** ** Lemmas *)

Section CacheFacts.
Context {A : Type}.
Implicit Types (s : CacheManager A) (ops hist : list (cache_op A)).

(** The state answers as the history does. *)
Definition answers_as s hist : Prop := forall now k, getCacheItem now s k = spec_lookup hist now k.

Lemma get_place_same now t s k (v : A) e :
  getCacheItem now (placeCacheItem t s k v e) k = if now <? t + e then Some v else None.
Proof. unfold getCacheItem, placeCacheItem, CacheManager in *. rewrite lookup_insert_eq. reflexivity. Qed.

Lemma get_place_other now t s k k' (v : A) e :
  k <> k' -> getCacheItem now (placeCacheItem t s k v e) k' = getCacheItem now s k'.
Proof. intros H. unfold getCacheItem, placeCacheItem, CacheManager in *. rewrite lookup_insert_ne by exact H. reflexivity. Qed.

Lemma last_place_snoc hist k op :
  last_place (hist ++ [op]) k =
    match op with
    | OpPlace t k' v e => if String.eqb k' k then Some (t, v, e) else last_place hist k
    | OpGet _ _ => last_place hist k
    end.
Proof. unfold last_place. rewrite fold_left_app. reflexivity. Qed.

Lemma answers_as_place s hist t k (v : A) e :
  answers_as s hist -> answers_as (placeCacheItem t s k v e) (hist ++ [OpPlace t k v e]).
Proof.
  intros H now k'. unfold spec_lookup. rewrite last_place_snoc.
  destruct (String.eqb_spec k k') as [<-|Hne].
  - apply get_place_same.
  - rewrite get_place_other by exact Hne. apply H.
Qed.

Lemma answers_as_get s hist t k : answers_as s hist -> answers_as s (hist ++ [OpGet t k]).
Proof. intros H now k'. unfold spec_lookup. rewrite last_place_snoc. apply H. Qed.

Lemma run_answers ops : forall s hist, answers_as s hist -> snd (run s ops) = spec_answers hist ops.
Proof.
  induction ops as [|[t k|t k v e] r IH]; intros s hist H; [reflexivity|..]; cbn [run spec_answers].
  - destruct (run s r) as [s' outs] eqn:E. cbn [snd]. rewrite H. f_equal.
    change outs with (snd (s', outs)). rewrite <- E. apply IH, answers_as_get, H.
  - apply IH, answers_as_place, H.
Qed.

Lemma run_dom ops : forall s, dom (fst (run s ops)) =
  dom s ∪ list_to_set (omap (fun op => match op with OpPlace _ k _ _ => Some k | _ => None end) ops).
Proof.
  induction ops as [|[t k|t k v e] r IH]; intros s; cbn [run omap list_to_set].
  - set_solver.
  - specialize (IH s). destruct (run s r) as [s' outs]. exact IH.
  - rewrite IH. unfold placeCacheItem, CacheManager in *. rewrite dom_insert_L. set_solver.
Qed.
End CacheFacts.

(** ** Properties of the cache *)

(** C9: Refinement of the specification: on every sequence of lookups
    and insertions from an empty cache, each [getCacheItem] answers the
    value of the latest [placeCacheItem] of its key if the lookup time
    is strictly before that insertion's time plus its TTL, and None
    otherwise. *)
Theorem cache_run_refines {A : Type} (ops : list (cache_op A)) :
  snd (run CacheManager_new ops) = spec_answers [] ops.
Proof. apply run_answers. intros now k. reflexivity. Qed.

(** C28: Lookup after insertion: [getCacheItem] right after
    [placeCacheItem(key, item, expire)] at time [t] returns [item] while
    [now < t + expire] and None after; a second insertion of the key
    overrides the first; other keys are unaffected. *)
Theorem getCacheItem_placeCacheItem {A : Type} now t t' (s : CacheManager A) k k' v v' e e' :
  getCacheItem now (placeCacheItem t s k v e) k = (if now <? t + e then Some v else None) /\
  getCacheItem now (placeCacheItem t' (placeCacheItem t s k v e) k v' e') k
    = getCacheItem now (placeCacheItem t' s k v' e') k /\
  (k <> k' -> getCacheItem now (placeCacheItem t s k v e) k' = getCacheItem now s k').
Proof.
  split; [apply get_place_same|]. split; [rewrite !get_place_same; reflexivity|].
  apply get_place_other.
Qed.

(** Expiry is permanent: an entry absent at some time stays absent
    at every later time, until the key is inserted again. *)
Theorem getCacheItem_expired_stays {A : Type} now now' (s : CacheManager A) k :
  now <= now' -> getCacheItem now s k = None -> getCacheItem now' s k = None.
Proof.
  unfold getCacheItem. intros Hle. destruct (s !! k) as [o|]; [|reflexivity].
  destruct (Z.ltb_spec now (expireTime o)); [discriminate|].
  intros _. destruct (Z.ltb_spec now' (expireTime o)); [lia|reflexivity].
Qed.

(** The example of the specification: an item inserted with a TTL
    of 0 or less is absent from the moment it is inserted. *)
Theorem placeCacheItem_nonpositive_ttl {A : Type} t now (s : CacheManager A) k v e :
  e <= 0 -> t <= now -> getCacheItem now (placeCacheItem t s k v e) k = None.
Proof. intros He Ht. rewrite get_place_same. destruct (Z.ltb_spec now (t + e)); [lia|reflexivity]. Qed.

(** C36: Nothing is ever evicted: after any sequence of operations the
    keys of the dict are the keys it had and the keys inserted; expired
    entries stay in memory. *)
Theorem cache_never_evicts {A : Type} (s : CacheManager A) ops :
  dom (fst (run s ops)) =
    dom s ∪ list_to_set (omap (fun op => match op with OpPlace _ k _ _ => Some k | _ => None end) ops).
Proof. apply run_dom. Qed.

(** The CacheManager meets the contract of an expiring cache. *)
#[export] Instance CacheManager_ExpiringCache {A : Type} : ExpiringCache (CacheManager A) A := {
  ec_new := CacheManager_new;
  ec_get := getCacheItem;
  ec_set := placeCacheItem;
  ec_get_new := fun now k => eq_refl;
  ec_get_set := get_place_same;
  ec_get_set_other := get_place_other
}.

(** ** Witnesses *)

Lemma placeCacheItem_nonpositive_ttl_witness :
  (-1 <= 0)%Z /\ (5 <= 5)%Z /\ getCacheItem 5 (placeCacheItem 5 CacheManager_new "k" 1%nat (-1)) "k" = None.
Proof. split; [lia|]. split; [lia|]. apply placeCacheItem_nonpositive_ttl; lia. Defined.

Lemma getCacheItem_placeCacheItem_witness :
  ("k" <> "j" -> getCacheItem 10 (placeCacheItem 0 CacheManager_new "k" 1%nat 60) "j"
                 = getCacheItem 10 CacheManager_new "j") /\ "k" <> "j".
Proof.
  split; [|discriminate].
  apply (getCacheItem_placeCacheItem 10 0 0 CacheManager_new "k" "j" 1%nat 2%nat 60 60).
Defined.
