(* ===== verification/Client.v ===== *)
(** * The API client: roguewarapi.py

    [RogueWarApi] holds the credentials, the base URI, the bearer token,
    the single [lastResult] slot, the expiring cache and the
    [starMapConstants] slot.  The network is the collaborator of spec
    section 6: each HTTP call sends a request, recorded in [sent], and
    receives the next of the responses [net] (a status code and the
    parsed body, None when [result.json()] raises), or a transport
    error.  [time.time()] is read by the cache: the operations take the
    times of their reads as parameters.

    [_sendGetRequest] and [_sendPostRequest] are one function
    [send_body] of the method: they build the URL and the headers,
    encode the body ([jData.encode()], UTF-8 after TextIO.v), send
    ([send_rq]; [result.ok] is False exactly for a status from 400 to
    599), and on a 401
    with [reauth] fetch a token with [_getAuthToken] (a POST without
    [reauth], whose body is the [json.dumps] of JsonText.v) and retry
    once without [reauth].  The bare [except:]
    turns every exception into False.  [getStarMap] and
    [getSystemConstants] are modelled with the exceptions that escape
    them ([fromJson] and [mapAdjacents] are called outside any try).

    The client is parametrised by its cache: any instance of the class
    [ExpiringCache] of Cache.v ([ec_new], [ec_get], [ec_set] and their
    laws stand for [CacheManager()], [getCacheItem], [placeCacheItem]);
    the sample sessions use the [CacheManager] itself.

    The keyword arguments [**kwargs] become the query string of the URL
    ([add_kwargs], equal to the reference [query_ref] joined with [&]);
    they are taken to be [str]s, as an f-string inserts them unchanged
    (no caller of the program passes any).  The logging calls are not
    modelled: the logger has no effect on the state. *)

From Stdlib Require Import String List ZArith Lia Bool.
From Stdlib Require Strings.Byte.
From S2P Require Import Prelude PyVal JsonText Base64 Serial Entities TextIO Adjacency Cache.
Import Codec.
Import ListNotations.
Open Scope rw_scope.
Open Scope string_scope.
Open Scope list_scope.
Open Scope nat_scope.

(** ** Headers *)

(** A header value: a string, or the f-string [f'Bearer {token}'] of
    the token (whatever its type, it is never [== '']). *)
Inductive hval := HStr (s : string) | HBearer (token : pyval).

Definition headers := list (string * hval).

Definition _Version : string := "0.0.X".
Definition _UserAgent : string := "RogueWarApi/" ++ _Version.
Definition _kStarMapCacheKey : string := "kStarMap".
Definition DefaultUri : string := "http://roguewar.org".

(** [_getHeaders(cHeaders)]: the custom headers are a dict of strings;
    a custom header set to the empty string is deleted. *)
Definition _getHeaders (appToken : pyval) (cHeaders : option (list (string * string))) : headers :=
  let h := [("User-Agent", HStr _UserAgent); ("content-type", HStr "application/json");
            ("Authorization", HBearer appToken)] in
  let h := if str_eqv "" appToken then adel "Authorization" h else h in
  match cHeaders with
  | None => h
  | Some ch =>
      fold_left (fun h kv =>
                   let h := aset (fst kv) (HStr (snd kv)) h in
                   if String.eqb (snd kv) "" then adel (fst kv) h else h) ch h
  end.

(** ** The client state *)

Inductive method := GET | POST.

(** A request as it goes out: the body is bytes ([data=bData]). *)
Record request := { rq_method : method; rq_url : string; rq_headers : headers; rq_body : option (list Byte.byte) }.

Inductive response :=
| Response (status_code : Z) (body : option pyval)
| TransportError.

Section Client.
(** The cache is any implementation of the contract [ExpiringCache] of
    Cache.v; the client's theorems use only its laws. *)
Context {Store : Type} `{EC : ExpiringCache Store pyval}.

Record client := {
  appName : string; appSecret : string; BaseUri : string;
  appToken : pyval; lastResult : pyval;
  cache : Store; starMapConstants : pyval;
  net : list response; sent : list request
}.

(** [RogueWarApi(appName, appSecret, url)], connected to the responses
    [net]. *)
Definition RogueWarApi_new (appName appSecret : string) (url : option string) (net : list response) : client :=
  {| appName := appName; appSecret := appSecret;
     BaseUri := match url with Some u => u ++ "/api/" | None => DefaultUri ++ "/api/" end;
     appToken := PStr ""; lastResult := PNone; cache := ec_new;
     starMapConstants := PNone; net := net; sent := [] |}.

Definition set_appToken (st : client) (t : pyval) : client :=
  {| appName := appName st; appSecret := appSecret st; BaseUri := BaseUri st; appToken := t;
     lastResult := lastResult st; cache := cache st; starMapConstants := starMapConstants st;
     net := net st; sent := sent st |}.

Definition set_lastResult (st : client) (r : pyval) : client :=
  {| appName := appName st; appSecret := appSecret st; BaseUri := BaseUri st; appToken := appToken st;
     lastResult := r; cache := cache st; starMapConstants := starMapConstants st;
     net := net st; sent := sent st |}.

Definition set_cache (st : client) (c : Store) : client :=
  {| appName := appName st; appSecret := appSecret st; BaseUri := BaseUri st; appToken := appToken st;
     lastResult := lastResult st; cache := c; starMapConstants := starMapConstants st;
     net := net st; sent := sent st |}.

Definition set_starMapConstants (st : client) (v : pyval) : client :=
  {| appName := appName st; appSecret := appSecret st; BaseUri := BaseUri st; appToken := appToken st;
     lastResult := lastResult st; cache := cache st; starMapConstants := v;
     net := net st; sent := sent st |}.

(** The state after a request went out and the responses [rest] are
    left. *)
Definition sent_to (st : client) (rest : list response) (rq : request) : client :=
  {| appName := appName st; appSecret := appSecret st; BaseUri := BaseUri st;
     appToken := appToken st; lastResult := lastResult st; cache := cache st;
     starMapConstants := starMapConstants st; net := rest; sent := sent st ++ [rq] |}.

(** [requests.get] and [requests.post]: the request goes out, the next
    response comes back (none left: the transport fails). *)
Definition transmit (st : client) (rq : request) : response * client :=
  match net st with
  | [] => (TransportError, sent_to st [] rq)
  | r :: rest => (r, sent_to st rest rq)
  end.

(** ** Requests *)

Inductive callback := NoCallback | AuthCallback.

(** [_authCallback] (lines 127-128): [self.appToken = jData['access_token']]. *)
Definition _authCallback (jData : pyval) (st : client) : res client :=
  tok <- py_getitem_str jData "access_token" ;; Ok (set_appToken st tok).

(** The callback, or [self.lastResult = result.json()]. *)
Definition deliver (cb : callback) (j : pyval) (st : client) : res client :=
  match cb with
  | NoCallback => Ok (set_lastResult st j)
  | AuthCallback => _authCallback j st
  end.

(** [jData.encode()] (line 106): the UTF-8 bytes of the body. *)
Definition encode_body (jData : option string) : res (option (list Byte.byte)) :=
  match jData with
  | None => Ok None
  | Some s => bs <- utf8_encode (cps_of s) ;; Ok (Some (map byte_of_N bs))
  end.

(** [result.ok] of requests: [raise_for_status] raises for a client
    error (400-499) or a server error (500-599), so any other status is
    ok. *)
Definition ok_status (status : Z) : bool := negb ((400 <=? status) && (status <? 600))%Z.

(** The request goes out and its response is handled (lines 76-91 and
    107-123), with [_getAuthToken] as [auth] and the retry as [again]. *)
Definition send_rq (auth again : client -> bool * client) (cb : callback) (reauth : bool)
    (st : client) (rq : request) : bool * client :=
  let '(resp, st) := transmit st rq in
  match resp with
  | TransportError => (false, st)
  | Response status body =>
      if ok_status status then
        match body with
        | None => (false, st)
        | Some j => match deliver cb j st with Ok st' => (true, st') | Raise _ => (false, st) end
        end
      else if (status =? 401)%Z && reauth then
        let '(ok, st) := auth st in
        if ok then again st else (false, st)
      else (false, st)
  end.

(** The query string of the URL (lines 67-74 and 96-103): [?k=v] for
    the first keyword argument, [&k=v] for each later one, in the order
    of [kwargs] (a dict, in insertion order).  The arguments are [str]s,
    which an f-string inserts as they are. *)
Fixpoint add_kwargs (firstarg : bool) (url : string) (kwargs : list (string * string)) : string :=
  match kwargs with
  | [] => url
  | (k, v) :: r =>
      if negb firstarg then add_kwargs true (url ++ "?" ++ k ++ "=" ++ v) r
      else add_kwargs true (url ++ "&" ++ k ++ "=" ++ v) r
  end.

(** The query string the URL should end with: nothing without
    arguments, otherwise [?] and the pairs [k=v] joined with [&]. *)
Definition query_ref (kwargs : list (string * string)) : string :=
  match kwargs with
  | [] => ""
  | _ => "?" ++ String.concat "&" (map (fun kv : string * string => (fst kv ++ "=" ++ snd kv)%string) kwargs)
  end%string.

(** The body of [_sendGetRequest] and [_sendPostRequest] (lines 65-125):
    the URL with its query string and the headers, the body encoded (an
    encoding error is caught like every other exception), then
    [send_rq]. *)
Definition send_body (auth again : client -> bool * client) (m : method) (uri : string)
    (cb : callback) (jData : option string) (hdrs : option (list (string * string)))
    (reauth : bool) (kwargs : list (string * string)) (st : client) : bool * client :=
  let url := add_kwargs false (BaseUri st ++ uri) kwargs in
  match encode_body jData with
  | Raise _ => (false, st)
  | Ok body =>
      send_rq auth again cb reauth st
        {| rq_method := m; rq_url := url; rq_headers := _getHeaders (appToken st) hdrs; rq_body := body |}
  end.

Definition no_call (st : client) : bool * client := (false, st).

(** The credentials [_getAuthToken] sends (lines 131-134). *)
Definition auth_json (st : client) : pyval :=
  PDict [("botName", PStr (appName st)); ("botSecret", PStr (appSecret st))].

(** [_getAuthToken] (lines 130-135): POST [botauth] with the body
    [json.dumps(jData)], the token callback, no reauthentication.
    [json.dumps] enters one dict, one level of the recursion limit,
    which the client's short call chain leaves free.  Were it to
    raise, the exception would reach the [except:] of the request that
    called [_getAuthToken], which returns False. *)
Definition _getAuthToken (st : client) : bool * client :=
  match dumps None true 1 (auth_json st) with
  | Ok jData => send_body no_call no_call POST "botauth" AuthCallback (Some jData) None false [] st
  | Raise _ => (false, st)
  end.

(** [_sendGetRequest] / [_sendPostRequest] with their arguments: on a
    401 with [reauth] the token is fetched and the same request, with
    the same keyword arguments, is sent once more without [reauth]. *)
Definition _sendRequest (m : method) (uri : string) (cb : callback) (jData : option string)
    (hdrs : option (list (string * string))) (reauth : bool) (kwargs : list (string * string))
    (st : client) : bool * client :=
  send_body _getAuthToken (send_body _getAuthToken no_call m uri cb jData hdrs false kwargs)
    m uri cb jData hdrs reauth kwargs st.

(** [self._sendGetRequest(uri)], as [getStarMap] and
    [getSystemConstants] call it. *)
Definition _sendGetRequest (uri : string) (st : client) : bool * client :=
  _sendRequest GET uri NoCallback None None true [] st.

(** ** getStarMap and getSystemConstants *)

(** Python truthiness of [if cache:]. *)
Definition truthy (v : pyval) : bool :=
  match v with
  | PNone => false
  | PBool b => b
  | PInt z => negb (z =? 0)%Z
  | PStr s => negb (String.eqb s "")
  | PBytes l => negb (Nat.eqb (length l) 0)
  | PList l | PTuple l => negb (Nat.eqb (length l) 0)
  | PDict d => negb (Nat.eqb (length d) 0)
  | PObj _ _ => true
  end.

Section Api.
(** [json.loads] and the recursion limit. *)
Variable loads : pyval -> option pyval.
Variable limit : nat.

(** [getStarMap()] (lines 137-153); [t_get] and [t_place] are the
    times the cache reads. *)
Definition getStarMap (t_get t_place : Z) (st : client) : client * res pyval :=
  let cached := match ec_get t_get (cache st) _kStarMapCacheKey with
                | Some v => v
                | None => PNone
                end in
  if truthy cached then (st, Ok cached) else
  let '(ok, st) := _sendGetRequest "getmap" st in
  if ok then
    let '(f, r) := fromJson class_of loads limit StarMap (init StarMap) (lastResult st) in
    match r with
    | Raise e => (st, Raise e)
    | Ok _ =>
        let starmap := PObj "StarMap" f in
        (set_cache st (ec_set t_place (cache st) _kStarMapCacheKey starmap default_expire),
         Ok starmap)
    end
  else (st, Ok PNone).

(** [getSystemConstants(bForce)] (lines 155-172): the adjacency is
    computed with radius 50. *)
Definition getSystemConstants (bForce : bool) (st : client) : client * res pyval :=
  if bForce || match starMapConstants st with PNone => true | _ => false end then
    let '(ok, st) := _sendGetRequest "getsystemstatic" st in
    if ok then
      let '(f, r) := fromJson class_of loads limit StarMapConstants (init StarMapConstants) (lastResult st) in
      match r with
      | Raise e => (st, Raise e)
      | Ok _ =>
          let '(f, r) := mapAdjacents 50 f in
          match r with
          | Raise e => (st, Raise e)
          | Ok _ =>
              let st := set_starMapConstants st (PObj "StarMapConstants" f) in
              (st, Ok (starMapConstants st))
          end
      end
    else (st, Ok (starMapConstants st))
  else (st, Ok (starMapConstants st)).
End Api.

(** The text [json.dumps] writes for the credentials, and the token
    request. *)
Definition auth_text (st : client) : string :=
  match dumps None true 1 (auth_json st) with Ok s => s | Raise _ => EmptyString end.

Definition auth_request (st : client) : request :=
  {| rq_method := POST; rq_url := BaseUri st ++ "botauth"; rq_headers := _getHeaders (appToken st) None;
     rq_body := Some (map byte_of_N (cps_of (auth_text st))) |}.

Definition get_request (st : client) (uri : string) (tok : pyval) : request :=
  {| rq_method := GET; rq_url := BaseUri st ++ uri; rq_headers := _getHeaders tok None; rq_body := None |}.

(** The cache and the constants slot of a state. *)
Definition slots (st : client) : pyval * Store := (starMapConstants st, cache st).

(** A response no request succeeds with: a transport error, an error
    status, or a body that is not JSON. *)
Definition failed (r : response) : bool :=
  match r with
  | TransportError | Response _ None => true
  | Response s (Some _) => negb (ok_status s)
  end.
End Client.

Arguments client : clear implicits.

(** ** Sample sessions *)

Definition token_json : pyval := PDict [("access_token", PStr "tok")].

Definition consts_json : pyval :=
  PDict [("Coordinates",
          PList [PDict [("name", PStr "A"); ("posx", PInt 0); ("posy", PInt 0); ("originalOwner", PStr "Empire")];
                 PDict [("name", PStr "B"); ("posx", PInt 3); ("posy", PInt 4); ("originalOwner", PStr "Empire")];
                 PDict [("name", PStr "C"); ("posx", PInt 100); ("posy", PInt 100); ("originalOwner", PStr "Empire")]])].

Definition session (rs : list response) : client (CacheManager pyval) := RogueWarApi_new "bot" "secret" None rs.


Definition cached_session : client (CacheManager pyval) :=
  set_cache (session []) (placeCacheItem 0 CacheManager_new _kStarMapCacheKey (PObj "StarMap" [("_systems", PList [])]) 60).

Definition map_session : client (CacheManager pyval) := session [Response 200 (Some sample_json)].

Definition consts_attrs : attrs :=
  fst (fromJson class_of (fun _ => None) 10 StarMapConstants (init StarMapConstants) consts_json).

Definition consts_list : list pyval :=
  match aget "_consts" consts_attrs with Some (PList l) => l | _ => [] end.

(** A session where the server answers 401 without a body and the
    token request fails with 500. *)
Definition failing_session : client (CacheManager pyval) := session [Response 401 None; Response 500 None].

Definition stored_session : client (CacheManager pyval) :=
  set_starMapConstants (session [TransportError]) (PObj "StarMapConstants" [("_consts", PList [])]).

(** ** Properties of the headers *)

Lemma getHeaders_custom_last tok ch k v :
  aget k (_getHeaders tok (Some (ch ++ [(k, v)]))) = if String.eqb v "" then None else Some (HStr v).
Proof.
  unfold _getHeaders. rewrite fold_left_app. cbn [fold_left fst snd].
  destruct (String.eqb v ""); [rewrite aget_adel, String.eqb_refl; reflexivity|apply aget_aset_eq].
Qed.

(** The headers of every request: the User-Agent and the JSON
    content type, and [Authorization: Bearer <token>] exactly when the
    token is not the empty string; a custom header overrides the default
    of the same name, and a custom header set to the empty string is
    removed. *)
Theorem getHeaders_spec tok ch k v :
  aget "User-Agent" (_getHeaders tok None) = Some (HStr _UserAgent) /\
  aget "content-type" (_getHeaders tok None) = Some (HStr "application/json") /\
  aget "Authorization" (_getHeaders tok None) = (if str_eqv "" tok then None else Some (HBearer tok)) /\
  aget k (_getHeaders tok (Some (ch ++ [(k, v)]))) = (if String.eqb v "" then None else Some (HStr v)).
Proof.
  split; [|split; [|split]]; try (unfold _getHeaders; destruct (str_eqv "" tok); reflexivity).
  apply getHeaders_custom_last.
Qed.

(** ** Properties of the requests *)

Section ClientFacts.
Context {Store : Type} `{EC : ExpiringCache Store pyval}.
Implicit Types (st : client Store).

(** The body of every request of the client can be encoded: its text
    is made of code points below 256. *)
Lemma encode_body_ok jd : exists body, encode_body jd = Ok body.
Proof.
  destruct jd as [s|]; [|eexists; reflexivity]. destruct (utf8_bytes s) as (bs & E & _).
  cbn [encode_body]. rewrite E. eexists; reflexivity.
Qed.

Lemma send_body_rq a b m u cb jd h r kw st body : encode_body jd = Ok body ->
  send_body a b m u cb jd h r kw st
  = send_rq a b cb r st {| rq_method := m; rq_url := add_kwargs false (BaseUri st ++ u) kw;
                           rq_headers := _getHeaders (appToken st) h; rq_body := body |}.
Proof. intros E. unfold send_body. rewrite E. reflexivity. Qed.

(** [json.dumps] of the credentials does not depend on the recursion
    budget and writes ASCII, which [encode()] keeps byte for byte. *)
Lemma auth_dumps st lim : dumps None true (S lim) (auth_json st) = Ok (auth_text st).
Proof. reflexivity. Qed.

Lemma auth_ascii st : forallb is_ascii (list_ascii_of_string (auth_text st)) = true.
Proof. exact (dumps_ascii _ _ _ _ (auth_dumps st 0)). Qed.

Lemma auth_encode st : encode_body (Some (auth_text st)) = Ok (Some (map byte_of_N (cps_of (auth_text st)))).
Proof. cbn [encode_body]. rewrite utf8_encode_ascii by apply auth_ascii. reflexivity. Qed.

Lemma getAuthToken_rq st : _getAuthToken st = send_rq no_call no_call AuthCallback false st (auth_request st).
Proof. unfold _getAuthToken. rewrite (auth_dumps st 0). exact (send_body_rq _ _ _ _ _ _ _ _ _ _ _ (auth_encode st)). Qed.

(** After the first argument, each one appends [&k=v]. *)
Lemma add_kwargs_later url kwargs :
  add_kwargs true url kwargs
  = (url ++ String.concat "" (map (fun kv : string * string => "&" ++ (fst kv ++ "=" ++ snd kv)) kwargs))%string.
Proof.
  revert url; induction kwargs as [|[k v] r IH]; intros url; cbn [add_kwargs map negb]; [symmetry; apply str_app_nil_r|].
  rewrite IH, str_concat_empty_cons, !str_app_assoc. reflexivity.
Qed.

(** The loop with its [firstarg] flag builds the reference query
    string: [url ?k1=v1&k2=v2...]. *)
Lemma add_kwargs_ref url kwargs : add_kwargs false url kwargs = (url ++ query_ref kwargs)%string.
Proof.
  destruct kwargs as [|[k v] r]; cbn [add_kwargs negb query_ref]; [symmetry; apply str_app_nil_r|].
  rewrite add_kwargs_later, map_cons, str_concat_sep, map_map, !str_app_assoc. reflexivity.
Qed.

Lemma sendGet_401_auth uri st b1 s j tok rest :
  net st = Response 401 b1 :: Response s (Some j) :: rest ->
  ok_status s = true -> py_getitem_str j "access_token" = Ok tok ->
  _sendGetRequest uri st =
    send_body _getAuthToken no_call GET uri NoCallback None None false []
      (set_appToken (sent_to (sent_to st (Response s (Some j) :: rest) (get_request st uri (appToken st)))
                             rest (auth_request st)) tok).
Proof.
  intros Hn Hs Hj. unfold _sendGetRequest, _sendRequest, send_body at 1. cbn [encode_body].
  unfold send_rq at 1, transmit at 1. rewrite Hn. cbn -[send_body send_rq _getHeaders _getAuthToken].
  rewrite getAuthToken_rq. unfold send_rq at 1, transmit. cbn -[send_body _getHeaders]. rewrite Hs. cbn -[send_body _getHeaders].
  unfold _authCallback. rewrite Hj. reflexivity.
Qed.

Lemma deliver_sent cb j st st' : deliver cb j st = Ok st' -> sent st' = sent st /\ net st' = net st.
Proof.
  destruct cb; cbn; [intros H; injection H as <-; split; reflexivity|].
  unfold _authCallback. destruct (py_getitem_str j "access_token"); cbn; [|discriminate]. intros H; injection H as <-. split; reflexivity.
Qed.

(** Without [reauth], exactly the request goes out. *)
Lemma send_rq_sent a b cb st rq : sent (snd (send_rq a b cb false st rq)) = sent st ++ [rq].
Proof.
  unfold send_rq, transmit.
  destruct (net st) as [|[s [j|]|] rest]; cbn -[sent_to]; try reflexivity.
  - destruct (ok_status s); [|rewrite andb_false_r; reflexivity].
    destruct (deliver cb j _) eqn:E; [|reflexivity]. cbn. apply deliver_sent in E as [-> _]. reflexivity.
  - destruct (ok_status s); [|rewrite andb_false_r]; reflexivity.
Qed.

Lemma send_body_once a b m u cb jd h kw st :
  length (sent (snd (send_body a b m u cb jd h false kw st))) = S (length (sent st)).
Proof.
  destruct (encode_body_ok jd) as [body E]. rewrite (send_body_rq _ _ _ _ _ _ _ _ _ _ _ E), send_rq_sent, length_app.
  cbn. lia.
Qed.

(** The retry branch: the token request and the retry each send one
    request. *)
Lemma reauth_branch_bound st1 again :
  (forall st, length (sent (snd (again st))) = S (length (sent st))) ->
  S (length (sent st1))
    <= length (sent (snd (let '(ok, st) := _getAuthToken st1 in if ok then again st else (false, st))))
    <= length (sent st1) + 2.
Proof.
  intros Ha. destruct (_getAuthToken st1) as [ok st2] eqn:E.
  assert (H2 := f_equal (fun p => length (sent (snd p))) E). cbn [snd] in H2.
  rewrite getAuthToken_rq, send_rq_sent, length_app in H2. cbn [length] in H2.
  destruct ok; [rewrite Ha|cbn [snd]]; lia.
Qed.

(** The number of requests [_sendGetRequest] sends. *)
Lemma sendGet_sent_range uri st :
  S (length (sent st)) <= length (sent (snd (_sendGetRequest uri st))) <= length (sent st) + 3.
Proof.
  remember (length (sent (snd (_sendGetRequest uri st)))) as x eqn:Hx.
  unfold _sendGetRequest, _sendRequest in Hx.
  rewrite (send_body_rq _ _ _ _ _ None _ _ _ _ None eq_refl) in Hx. unfold send_rq, transmit in Hx.
  assert (L : forall rest rq, length (sent (sent_to st rest rq)) = S (length (sent st)))
    by (intros; cbn; rewrite length_app; cbn; lia).
  assert (Ha : forall st, length (sent (snd (send_body _getAuthToken no_call GET uri NoCallback None None false [] st)))
                          = S (length (sent st))) by (intros; apply send_body_once).
  destruct (net st) as [|[s [j|]|] rest]; cbn -[sent_to send_body _getAuthToken _getHeaders] in Hx; subst x;
    try (rewrite L; lia).
  all: destruct (ok_status s); [try (cbn [snd sent set_lastResult]; rewrite L; lia)|].
  all: destruct (s =? 401)%Z; cbn [andb]; [|cbn [snd]; rewrite L; lia].
  all: match goal with |- context [_getAuthToken ?x] => pose proof (reauth_branch_bound x _ Ha) end.
  all: rewrite L in *; lia.
Qed.

(** C29: No third attempt: [_sendGetRequest] sends at least one and at
    most three requests (the request, the token request, the retry),
    whatever the server answers. *)
Theorem sendGet_sent_bound uri st :
  S (length (sent st)) <= length (sent (snd (_sendGetRequest uri st))) <= length (sent st) + 3.
Proof. exact (sendGet_sent_range uri st). Qed.

(** C10: Reauthentication: when the server answers 401, the client
    requests a token ([POST botauth] with its credentials), stores it,
    and retries the request exactly once, with [Authorization: Bearer
    <token>]; the call succeeds exactly when the retry does, so a second
    401 is a terminal failure. *)
Theorem sendGet_reauth_once uri st b1 s j tok r3 rest :
  net st = Response 401 b1 :: Response s (Some j) :: r3 :: rest ->
  ok_status s = true -> py_getitem_str j "access_token" = Ok tok ->
  exists st', _sendGetRequest uri st
      = (match r3 with Response s3 (Some _) => ok_status s3 | _ => false end, st') /\
    net st' = rest /\ appToken st' = tok /\
    sent st' = sent st ++ [get_request st uri (appToken st); auth_request st; get_request st uri tok].
Proof.
  intros Hn Hs Hj. rewrite (sendGet_401_auth uri st b1 s j tok (r3 :: rest) Hn Hs Hj).
  unfold send_body, transmit. cbn -[_getHeaders].
  destruct r3 as [s3 [j3|]|]; cbn -[_getHeaders];
    [destruct (ok_status s3); cbn -[_getHeaders]|destruct (ok_status s3); cbn -[_getHeaders]|];
    rewrite ?andb_false_r; eexists; (split; [reflexivity|]); cbn;
    (split; [reflexivity|]); (split; [reflexivity|]); rewrite <- !app_assoc; reflexivity.
Qed.

(** C11: The token request (spec section 6): [_getAuthToken] sends
    exactly one request, a POST to the base URI plus ["botauth"] with
    the headers of the current token, and its body, decoded as UTF-8,
    is a JSON text that [json.loads] reads as the dict
    [{"botName": appName, "botSecret": appSecret}]. *)
Theorem getAuthToken_request st :
  sent (snd (_getAuthToken st)) = sent st ++ [auth_request st] /\
  rq_method (auth_request st) = POST /\ rq_url (auth_request st) = (BaseUri st ++ "botauth")%string /\
  rq_headers (auth_request st) = _getHeaders (appToken st) None /\
  exists bs text, rq_body (auth_request st) = Some bs /\ bytes_decode "utf-8" bs = Ok (cps_of text) /\
    forall lim, json_loads (S lim) text = Some (Ok (auth_json st)).
Proof.
  split; [rewrite getAuthToken_rq; apply send_rq_sent|]. split; [reflexivity|]. split; [reflexivity|]. split; [reflexivity|].
  exists (map byte_of_N (cps_of (auth_text st))), (auth_text st). split; [reflexivity|]. split.
  - destruct (utf8_bytes (auth_text st)) as (bs & E & D).
    rewrite utf8_encode_ascii in E by apply auth_ascii. injection E as <-. exact D.
  - intros lim. destruct (json_roundtrip None true (S lim) (auth_json st) (auth_text st) eq_refl (auth_dumps st lim))
      as (w & Hw & Hl). rewrite Hl. cbn in Hw. injection Hw as <-. reflexivity.
Qed.

Lemma send_rq_slots auth again cb r st rq :
  (forall x, slots (snd (auth x)) = slots x) -> (forall x, slots (snd (again x)) = slots x) ->
  slots (snd (send_rq auth again cb r st rq)) = slots st.
Proof.
  intros Ha Hg. unfold send_rq, transmit.
  assert (Hr : forall rest, slots (snd (let '(ok, st0) := auth (sent_to st rest rq) in
                                          if ok then again st0 else (false, st0))) = slots st).
  { intros rest. destruct (auth _) as [[] st2] eqn:E; assert (E2 := Ha (sent_to st rest rq));
      rewrite E in E2; cbn [snd] in *; [rewrite Hg|]; exact E2. }
  destruct (net st) as [|[s [j|]|] rest]; cbn -[sent_to]; try reflexivity.
  - destruct (ok_status s).
    + destruct cb; cbn; [reflexivity|]. unfold _authCallback. destruct (py_getitem_str j "access_token"); reflexivity.
    + destruct ((s =? 401)%Z && r); [apply Hr|reflexivity].
  - destruct (ok_status s); [reflexivity|]. destruct ((s =? 401)%Z && r); [apply Hr|reflexivity].
Qed.

Lemma send_body_slots auth again m u cb jd h r kw st :
  (forall x, slots (snd (auth x)) = slots x) -> (forall x, slots (snd (again x)) = slots x) ->
  slots (snd (send_body auth again m u cb jd h r kw st)) = slots st.
Proof. intros Ha Hg. unfold send_body. destruct (encode_body jd); [apply send_rq_slots; assumption|reflexivity]. Qed.

Lemma sendGet_slots uri st : slots (snd (_sendGetRequest uri st)) = slots st.
Proof.
  assert (Hn : forall x : client Store, slots (snd (no_call x)) = slots x) by reflexivity.
  assert (Ht : forall x, slots (snd (_getAuthToken x)) = slots x)
    by (intros; rewrite getAuthToken_rq; apply send_rq_slots; exact Hn).
  apply send_body_slots; [exact Ht|]. intros; apply send_body_slots; assumption.
Qed.

Lemma sendGet_ok uri st s j rest :
  net st = Response s (Some j) :: rest -> ok_status s = true ->
  _sendGetRequest uri st = (true, set_lastResult (sent_to st rest (get_request st uri (appToken st))) j).
Proof.
  intros Hn Hs. unfold _sendGetRequest, _sendRequest. rewrite (send_body_rq _ _ _ _ _ None _ _ _ _ None eq_refl).
  unfold send_rq, transmit. rewrite Hn.
  cbn -[sent_to _getHeaders]. rewrite Hs. reflexivity.
Qed.

(** When every response left has failed, a request fails and leaves
    only failed responses, whatever the reauthentication does under
    the same condition. *)
Lemma send_rq_failed auth again cb r st rq :
  forallb failed (net st) = true ->
  (forall x, forallb failed (net x) = true -> fst (auth x) = false /\ forallb failed (net (snd (auth x))) = true) ->
  fst (send_rq auth again cb r st rq) = false /\ forallb failed (net (snd (send_rq auth again cb r st rq))) = true.
Proof.
  intros Hn Ha. unfold send_rq, transmit.
  destruct (net st) as [|[s b|] rest]; cbn -[sent_to] in Hn |- *; [split; reflexivity| |split; [reflexivity|exact Hn]].
  apply andb_true_iff in Hn as [Hs Hn].
  assert (Hb : ok_status s = true -> b = None)
    by (destruct b; [intros Hl; rewrite Hl in Hs; discriminate|reflexivity]).
  destruct (ok_status s) eqn:Hl; [rewrite (Hb eq_refl); cbn -[sent_to]; split; [reflexivity|exact Hn]|].
  destruct ((s =? 401)%Z && r); [|split; [reflexivity|exact Hn]].
  destruct (Ha (sent_to st rest rq) Hn) as [Hf Hr]. destruct (auth _) as [[] st2]; cbn in Hf |- *; [discriminate|].
  split; [reflexivity|exact Hr].
Qed.

Lemma sendGet_failed uri st :
  forallb failed (net st) = true -> fst (_sendGetRequest uri st) = false.
Proof.
  intros Hn. unfold _sendGetRequest, _sendRequest. rewrite (send_body_rq _ _ _ _ _ None _ _ _ _ None eq_refl).
  apply send_rq_failed; [exact Hn|]. intros x Hx. rewrite getAuthToken_rq.
  apply send_rq_failed; [exact Hx|]. intros y Hy. split; [reflexivity|exact Hy].
Qed.

Lemma sendGet_failed_slots uri st :
  forallb failed (net st) = true -> exists st1, _sendGetRequest uri st = (false, st1) /\ slots st1 = slots st.
Proof.
  intros Hn. pose proof (sendGet_failed uri st Hn) as Hf. pose proof (sendGet_slots uri st) as Hs.
  destruct (_sendGetRequest uri st) as [[] st1]; [discriminate|]. exists st1. split; [reflexivity|exact Hs].
Qed.

(** ** Properties of getStarMap and getSystemConstants *)

Section ApiFacts.
Variable loads : pyval -> option pyval.
Variable limit : nat.

(** A cached map is returned as it is, without any request,
    while its entry has not expired. *)
Theorem getStarMap_cached t t' st v :
  ec_get t (cache st) _kStarMapCacheKey = Some v -> truthy v = true ->
  getStarMap loads limit t t' st = (st, Ok v).
Proof. intros Hc Hv. unfold getStarMap. rewrite Hc, Hv. reflexivity. Qed.

(** C30: The fetched map is served from the cache for 60 seconds:
    after a [getStarMap] that fetched the map at time [tp], every call
    before [tp + 60] returns the same map and leaves the client state as
    it is: no request is sent and the cache is not touched.  (The value
    model does not express that the caller receives the cached object
    itself rather than a copy.) *)
Theorem getStarMap_cache_window t1 tp t2 tp' st st1 m :
  ec_get t1 (cache st) _kStarMapCacheKey = None ->
  getStarMap loads limit t1 tp st = (st1, Ok m) -> m <> PNone -> (t2 < tp + default_expire)%Z ->
  getStarMap loads limit t2 tp' st1 = (st1, Ok m).
Proof.
  intros Hc H Hm Ht. unfold getStarMap in H. rewrite Hc in H. cbn [truthy negb] in H.
  destruct (_sendGetRequest "getmap" st) as [[] st0]; [|injection H as _ <-; contradiction].
  destruct (fromJson _ _ _ _ _ _) as [f [b|e]]; [|discriminate]. injection H as <- <-.
  unfold getStarMap. cbn [cache set_cache]. rewrite ec_get_set.
  destruct (Z.ltb_spec t2 (tp + default_expire)); [reflexivity|lia].
Qed.

(** C21: A fetched map is not served forever: once the map a call of
    [getStarMap] fetched and cached at time [tp] has expired, from
    [tp + 60] on, every call sends a request to the server again. *)
Theorem getStarMap_refreshes t1 tp st st1 m :
  ec_get t1 (cache st) _kStarMapCacheKey = None ->
  getStarMap loads limit t1 tp st = (st1, Ok m) -> m <> PNone ->
  exists T, forall t2 tp', (T <= t2)%Z ->
    S (length (sent st1)) <= length (sent (fst (getStarMap loads limit t2 tp' st1))).
Proof.
  intros Hc H Hm. unfold getStarMap in H. rewrite Hc in H. cbn [truthy negb] in H.
  destruct (_sendGetRequest "getmap" st) as [[] st0]; [|injection H as _ <-; contradiction].
  destruct (fromJson _ _ _ _ _ _) as [f [b|e]]; [|discriminate]. injection H as <- <-.
  exists (tp + default_expire)%Z. intros t2 tp' Ht.
  unfold getStarMap. cbn [cache set_cache]. rewrite ec_get_set.
  destruct (Z.ltb_spec t2 (tp + default_expire)); [lia|]. cbn [truthy].
  match goal with |- context [_sendGetRequest "getmap" ?s] =>
    pose proof (proj1 (sendGet_sent_range "getmap" s)) as Hlo; destruct (_sendGetRequest "getmap" s) as [ok st2] end.
  cbn [snd] in Hlo. destruct ok; [destruct (fromJson _ _ _ _ _ _) as [f' [b'|e']]|]; exact Hlo.
Qed.

(** C25: A malformed element in the map the server sends escapes the
    client: when an element of [starsystems] is not a container,
    [getStarMap] raises TypeError (spec section 7: failures are
    reported by return values, never raised). *)
Theorem getStarMap_malformed_raises t tp st s x l rest :
  2 < limit -> ec_get t (cache st) _kStarMapCacheKey = None ->
  net st = Response s (Some (PDict [("starsystems", PList (x :: l))])) :: rest -> ok_status s = true ->
  not_container x = true ->
  snd (getStarMap loads limit t tp st) = Raise TypeError.
Proof.
  intros Hl Hc Hn Hs Hx. unfold getStarMap. rewrite Hc. cbn [truthy].
  rewrite (sendGet_ok "getmap" st s _ rest Hn Hs). cbn [lastResult set_lastResult].
  destruct limit as [|[|[|n]]]; try lia. destruct x; try discriminate Hx; reflexivity.
Qed.

(** C31: [getSystemConstants] on a first call (or forced): it fetches
    the constants, decodes them, computes the adjacency with radius 50,
    and stores and returns the result; on constants built from the
    data the stored object is the reference adjacency of Adjacency.v. *)
Theorem getSystemConstants_fetch bForce st s j rest f b l :
  (bForce = true \/ starMapConstants st = PNone) ->
  net st = Response s (Some j) :: rest -> ok_status s = true ->
  fromJson class_of loads limit StarMapConstants (init StarMapConstants) j = (f, Ok b) ->
  aget "_consts" f = Some (PList l) -> forallb const_okb l = true ->
  exists st', getSystemConstants loads limit bForce st
    = (st', Ok (PObj "StarMapConstants" (aset "_consts" (PList (mapAdjacents_ref 50 l)) f))) /\
    starMapConstants st' = PObj "StarMapConstants" (aset "_consts" (PList (mapAdjacents_ref 50 l)) f) /\
    net st' = rest.
Proof.
  intros Hb Hn Hs Hf Hc Hl. unfold getSystemConstants.
  replace (bForce || match starMapConstants st with PNone => true | _ => false end) with true
    by (destruct Hb as [E | E]; rewrite E; [reflexivity|symmetry; apply orb_true_r]).
  rewrite (sendGet_ok "getsystemstatic" st s j rest Hn Hs). cbn [lastResult set_lastResult].
  rewrite Hf. rewrite (mapAdjacents_ref_eq 50 f l ltac:(lia) Hc Hl).
  eexists. split; [reflexivity|]. split; reflexivity.
Qed.

(** C7: The system constants are kept: once [starMapConstants] holds an
    object, [getSystemConstants()] returns it without sending any
    request and without changing the client, and a forced refresh
    ([bForce=True]) whose request fails returns the stored (stale)
    object, with the state the failed request left. *)
Theorem getSystemConstants_kept st st' :
  starMapConstants st <> PNone ->
  getSystemConstants loads limit false st = (st, Ok (starMapConstants st)) /\
  (_sendGetRequest "getsystemstatic" st = (false, st') ->
   getSystemConstants loads limit true st = (st', Ok (starMapConstants st))).
Proof.
  intros Hs. split.
  - unfold getSystemConstants. destruct (starMapConstants st); [contradiction|reflexivity..].
  - intros Hr. unfold getSystemConstants. cbn [orb]. rewrite Hr.
    assert (E := sendGet_slots "getsystemstatic" st). rewrite Hr in E. cbn in E.
    injection E as -> _. reflexivity.
Qed.
(** C26: [getStarMap] ignores the result of [fromJson]: when the data
    the server sends cannot be decoded ([fromJson] returns False), the
    partly populated map is still cached and returned (spec section 7:
    a parse failure yields failure and no partial object). *)
Theorem getStarMap_caches_failed_decode t tp st s j rest f :
  ec_get t (cache st) _kStarMapCacheKey = None ->
  net st = Response s (Some j) :: rest -> ok_status s = true ->
  fromJson class_of loads limit StarMap (init StarMap) j = (f, Ok false) ->
  exists st', getStarMap loads limit t tp st = (st', Ok (PObj "StarMap" f)) /\
    ec_get t (cache st') _kStarMapCacheKey = (if (t <? tp + default_expire)%Z then Some (PObj "StarMap" f) else None).
Proof.
  intros Hc Hn Hs Hf. unfold getStarMap. rewrite Hc. cbn [truthy].
  rewrite (sendGet_ok "getmap" st s j rest Hn Hs). cbn [lastResult set_lastResult]. rewrite Hf.
  eexists. split; [reflexivity|]. cbn [cache set_cache]. apply ec_get_set.
Qed.

(** C22: Transport failures never escape (spec section 7): when no
    response carries a JSON body with a success status (every request
    fails at the transport, with an error status, or with a body that
    is not JSON), [getStarMap] returns the cached map (None when there
    is none) and [getSystemConstants] the constants it holds, neither
    raises, and neither changes the cache or the constants slot. *)
Theorem transport_failure_absent t tp bForce st :
  forallb failed (net st) = true ->
  (exists st1, getStarMap loads limit t tp st
     = (st1, Ok (match ec_get t (cache st) _kStarMapCacheKey with
                 | Some v => if truthy v then v else PNone
                 | None => PNone
                 end)) /\ slots st1 = slots st) /\
  (exists st2, getSystemConstants loads limit bForce st = (st2, Ok (starMapConstants st)) /\ slots st2 = slots st).
Proof.
  intros Hn. split.
  - unfold getStarMap. destruct (sendGet_failed_slots "getmap" st Hn) as (st1 & E & Hs).
    destruct (ec_get t (cache st) _kStarMapCacheKey) as [v|]; [destruct (truthy v); [exists st; split; reflexivity|]|];
      rewrite E; exists st1; split; [reflexivity|exact Hs| reflexivity|exact Hs].
  - unfold getSystemConstants.
    destruct (bForce || match starMapConstants st with PNone => true | _ => false end); [|exists st; split; reflexivity].
    destruct (sendGet_failed_slots "getsystemstatic" st Hn) as (st2 & E & Hs). rewrite E. exists st2.
    unfold slots in Hs. injection Hs as Hc Hca. rewrite Hc. split; [reflexivity|]. unfold slots. rewrite Hc, Hca. reflexivity.
Qed.
End ApiFacts.
End ClientFacts.

(** ** Witnesses *)

Lemma sendGet_reauth_once_witness :
  net (session [Response 401 None; Response 200 (Some token_json); Response 401 None])
    = [Response 401 None; Response 200 (Some token_json); Response 401 None] /\
  ok_status 200 = true /\ py_getitem_str token_json "access_token" = Ok (PStr "tok") /\
  exists st', _sendGetRequest "getmap" (session [Response 401 None; Response 200 (Some token_json); Response 401 None])
      = (false, st') /\ net st' = [] /\ appToken st' = PStr "tok" /\
  sent st' = [get_request (session []) "getmap" (PStr ""); auth_request (session []);
                get_request (session []) "getmap" (PStr "tok")].
Proof.
  split; [reflexivity|]. split; [reflexivity|]. split; [reflexivity|].
  exact (sendGet_reauth_once "getmap" (session [Response 401 None; Response 200 (Some token_json); Response 401 None])
           None 200 token_json (PStr "tok") (Response 401 None) [] eq_refl eq_refl eq_refl).
Defined.

Lemma getStarMap_cached_witness :
  getCacheItem 10 (cache cached_session) _kStarMapCacheKey = Some (PObj "StarMap" [("_systems", PList [])]) /\
  truthy (PObj "StarMap" [("_systems", PList [])]) = true /\
  getStarMap (fun _ => None) 10 10 11 cached_session = (cached_session, Ok (PObj "StarMap" [("_systems", PList [])])).
Proof.
  split; [reflexivity|]. split; [reflexivity|]. apply getStarMap_cached; reflexivity.
Defined.

Lemma getStarMap_cache_window_witness :
  exists st1 m, getCacheItem 0 (cache map_session) _kStarMapCacheKey = None /\
  getStarMap (fun _ => None) 10 0 1 map_session = (st1, Ok m) /\ m <> PNone /\ (30 < 1 + default_expire)%Z /\
  getStarMap (fun _ => None) 10 30 31 st1 = (st1, Ok m).
Proof.
  exists (fst (getStarMap (fun _ => None) 10 0 1 map_session)),
         (match snd (getStarMap (fun _ => None) 10 0 1 map_session) with Ok m => m | Raise _ => PNone end).
  assert (H1 : getCacheItem 0 (cache map_session) _kStarMapCacheKey = None) by reflexivity.
  assert (H2 : getStarMap (fun _ => None) 10 0 1 map_session
               = (fst (getStarMap (fun _ => None) 10 0 1 map_session),
                  Ok (match snd (getStarMap (fun _ => None) 10 0 1 map_session) with Ok m => m | Raise _ => PNone end)))
    by (vm_compute; reflexivity).
  assert (H3 : match snd (getStarMap (fun _ => None) 10 0 1 map_session) with Ok m => m | Raise _ => PNone end <> PNone)
    by (vm_compute; discriminate).
  assert (H4 : (30 < 1 + default_expire)%Z) by reflexivity.
  split; [exact H1|]. split; [exact H2|]. split; [exact H3|]. split; [exact H4|].
  exact (getStarMap_cache_window (fun _ => None) 10 0 1 30 31 map_session _ _ H1 H2 H3 H4).
Defined.

Lemma getStarMap_malformed_raises_witness :
  2 < 5 /\ getCacheItem 0 (cache (session [])) _kStarMapCacheKey = None /\
  snd (getStarMap (fun _ => None) 5 0 1
         (session [Response 200 (Some (PDict [("starsystems", PList [PInt 7])]))])) = Raise TypeError.
Proof.
  split; [lia|]. split; [reflexivity|].
  exact (getStarMap_malformed_raises (fun _ => None) 5 0 1
           (session [Response 200 (Some (PDict [("starsystems", PList [PInt 7])]))]) 200 (PInt 7) [] []
           ltac:(lia) eq_refl eq_refl eq_refl eq_refl).
Defined.

Lemma getSystemConstants_fetch_witness :
  fromJson class_of (fun _ => None) 10 StarMapConstants (init StarMapConstants) consts_json = (consts_attrs, Ok true) /\
  aget "_consts" consts_attrs = Some (PList consts_list) /\ forallb const_okb consts_list = true /\
  exists st', getSystemConstants (fun _ => None) 10 false (session [Response 200 (Some consts_json)])
      = (st', Ok (PObj "StarMapConstants" (aset "_consts" (PList (mapAdjacents_ref 50 consts_list)) consts_attrs))) /\
  starMapConstants st' = PObj "StarMapConstants" (aset "_consts" (PList (mapAdjacents_ref 50 consts_list)) consts_attrs) /\
  net st' = [].
Proof.
  assert (H1 : fromJson class_of (fun _ => None) 10 StarMapConstants (init StarMapConstants) consts_json
               = (consts_attrs, Ok true)) by (vm_compute; reflexivity).
  assert (H2 : aget "_consts" consts_attrs = Some (PList consts_list)) by (vm_compute; reflexivity).
  assert (H3 : forallb const_okb consts_list = true) by (vm_compute; reflexivity).
  split; [exact H1|]. split; [exact H2|]. split; [exact H3|].
  exact (getSystemConstants_fetch (fun _ => None) 10 false (session [Response 200 (Some consts_json)]) 200
           consts_json [] consts_attrs true consts_list (or_intror eq_refl) eq_refl eq_refl H1 H2 H3).
Defined.

Lemma getSystemConstants_kept_witness :
  starMapConstants stored_session <> PNone /\
  _sendGetRequest "getsystemstatic" stored_session = (false, snd (_sendGetRequest "getsystemstatic" stored_session)) /\
  getSystemConstants (fun _ => None) 10 false stored_session = (stored_session, Ok (starMapConstants stored_session)) /\
  getSystemConstants (fun _ => None) 10 true stored_session
    = (snd (_sendGetRequest "getsystemstatic" stored_session), Ok (starMapConstants stored_session)).
Proof.
  assert (H1 : starMapConstants stored_session <> PNone) by discriminate.
  assert (H2 : _sendGetRequest "getsystemstatic" stored_session
               = (false, snd (_sendGetRequest "getsystemstatic" stored_session))) by reflexivity.
  destruct (getSystemConstants_kept (fun _ => None) 10 stored_session
             (snd (_sendGetRequest "getsystemstatic" stored_session)) H1) as [K1 K2].
  split; [exact H1|]. split; [exact H2|]. split; [exact K1|]. exact (K2 H2).
Defined.

Lemma getStarMap_caches_failed_decode_witness :
  getCacheItem 0 (cache (session [Response 200 (Some (PStr "oops"))])) _kStarMapCacheKey = None /\
  fromJson class_of (fun _ => None) 10 StarMap (init StarMap) (PStr "oops") = (init StarMap, Ok false) /\
  exists st', getStarMap (fun _ => None) 10 0 1 (session [Response 200 (Some (PStr "oops"))])
      = (st', Ok (PObj "StarMap" (init StarMap))) /\
    getCacheItem 0 (cache st') _kStarMapCacheKey
      = (if (0 <? 1 + default_expire)%Z then Some (PObj "StarMap" (init StarMap)) else None).
Proof.
  assert (H1 : getCacheItem 0 (cache (session [Response 200 (Some (PStr "oops"))])) _kStarMapCacheKey = None)
    by reflexivity.
  assert (H2 : fromJson class_of (fun _ => None) 10 StarMap (init StarMap) (PStr "oops") = (init StarMap, Ok false))
    by reflexivity.
  split; [exact H1|]. split; [exact H2|].
  exact (getStarMap_caches_failed_decode (fun _ => None) 10 0 1 (session [Response 200 (Some (PStr "oops"))])
           200 (PStr "oops") [] (init StarMap) H1 eq_refl eq_refl H2).
Defined.

Lemma getStarMap_refreshes_witness :
  exists st1 m, getCacheItem 0 (cache map_session) _kStarMapCacheKey = None /\
  getStarMap (fun _ => None) 10 0 1 map_session = (st1, Ok m) /\ m <> PNone /\
  exists T, forall t2 tp', (T <= t2)%Z ->
    S (length (sent st1)) <= length (sent (fst (getStarMap (fun _ => None) 10 t2 tp' st1))).
Proof.
  exists (fst (getStarMap (fun _ => None) 10 0 1 map_session)),
         (match snd (getStarMap (fun _ => None) 10 0 1 map_session) with Ok m => m | Raise _ => PNone end).
  assert (H1 : getCacheItem 0 (cache map_session) _kStarMapCacheKey = None) by reflexivity.
  assert (H2 : getStarMap (fun _ => None) 10 0 1 map_session
               = (fst (getStarMap (fun _ => None) 10 0 1 map_session),
                  Ok (match snd (getStarMap (fun _ => None) 10 0 1 map_session) with Ok m => m | Raise _ => PNone end)))
    by (vm_compute; reflexivity).
  assert (H3 : match snd (getStarMap (fun _ => None) 10 0 1 map_session) with Ok m => m | Raise _ => PNone end <> PNone)
    by (vm_compute; discriminate).
  split; [exact H1|]. split; [exact H2|]. split; [exact H3|].
  exact (getStarMap_refreshes (fun _ => None) 10 0 1 map_session _ _ H1 H2 H3).
Defined.

Lemma transport_failure_absent_witness :
  forallb failed (net failing_session) = true /\
  (exists st1, getStarMap (fun _ => None) 10 0 0 failing_session = (st1, Ok PNone) /\ slots st1 = slots failing_session) /\
  (exists st2, getSystemConstants (fun _ => None) 10 false failing_session = (st2, Ok PNone) /\
               slots st2 = slots failing_session).
Proof.
  assert (H : forallb failed (net failing_session) = true) by reflexivity.
  split; [exact H|]. exact (transport_failure_absent (fun _ => None) 10 0 0 false failing_session H).
Defined.

(** The URL of a request with two keyword arguments. *)
Example add_kwargs_two :
  add_kwargs false "http://roguewar.org/api/getmap" [("season", "3"); ("page", "2")]
  = "http://roguewar.org/api/getmap?season=3&page=2"%string.
Proof. reflexivity. Qed.
